(** * libwav: a shallow embedding of [src/wav.c]

    The development follows the C source function by function.

    - Target: the branch the source compiles on x86-64 ([WAV_ENDIAN_LITTLE]),
      LP64: [int] is 32 bits, [long] and [size_t] are 64 bits.
    - Integers are [Z] with the wrap-around of their C type written out.
    - [WavMasterChunk] is a [#pragma pack(1)] struct that the source reads
      and writes as raw bytes ([fread]/[fwrite] straight on the struct); it
      is modelled as its 80-byte image, fields being little-endian loads and
      stores at the offsets of the struct declaration.
    - What C leaves undefined (division by zero, a failed [assert], an access
      outside an object, a NULL stream or mode string) is [None] in the
      [option] monad; every function that can reach such a point returns
      [option].
    - The stream ([FILE]) and the file system are the C library's; a small
      executable model of them is given so that the functions can run. *)

From Stdlib Require Import ZArith List String Ascii Lia Bool.
From Stdlib.Init Require Byte.
From stdpp Require Import base list strings gmap.

Local Open Scope Z_scope.

(** ** Undefined behaviour as [None] *)

Notation "x <- e ;; k" := (match e with Some x => k | None => None end)
  (at level 100, e at next level, right associativity, only parsing).

(** ** C integer types *)

Definition u16 (x : Z) : Z := x mod 2 ^ 16.
Definition u32 (x : Z) : Z := x mod 2 ^ 32.
Definition usize (x : Z) : Z := x mod 2 ^ 64.
Definition slong (x : Z) : Z := (x + 2 ^ 63) mod 2 ^ 64 - 2 ^ 63.

(** ** Bytes and little-endian fields *)

Definition byte_to_Z (b : Byte.byte) : Z := Z.of_N (Byte.to_N b).

Definition Z_to_byte (z : Z) : Byte.byte :=
  match Byte.of_N (Z.to_N (z mod 256)) with
  | Some b => b
  | None => Byte.x00
  end.

Fixpoint le_encode (n : nat) (v : Z) : list Byte.byte :=
  match n with
  | O => []
  | S n' => Z_to_byte v :: le_encode n' (v / 256)
  end.

Fixpoint le_decode (bs : list Byte.byte) : Z :=
  match bs with
  | [] => 0
  | b :: r => byte_to_Z b + 256 * le_decode r
  end.

(** [mem_write off bs m]: the bytes [bs] copied over [m] from offset [off]
    (callers check that they fit). *)
Definition mem_write (off : nat) (bs m : list Byte.byte) : list Byte.byte :=
  take off m ++ bs ++ drop (off + length bs) m.

Definition mem_read (off n : nat) (m : list Byte.byte) : list Byte.byte :=
  take n (drop off m).

(** A struct member: byte offset and width inside [WavMasterChunk]. *)
Record field := Field { f_off : nat; f_width : nat }.

Definition get (f : field) (m : list Byte.byte) : Z :=
  le_decode (mem_read (f_off f) (f_width f) m).

Definition set (f : field) (v : Z) (m : list Byte.byte) : list Byte.byte :=
  mem_write (f_off f) (le_encode (f_width f) v) m.

(** A member lies inside a chunk image. *)
Definition field_in (f : field) (m : list Byte.byte) : Prop :=
  (f_off f + f_width f <= length m)%nat.

Definition disjoint (f g : field) : Prop :=
  (f_off f + f_width f <= f_off g \/ f_off g + f_width g <= f_off f)%nat.

(** ** Constants *)

Definition str_bytes (s : string) : list Byte.byte :=
  map byte_of_ascii (list_ascii_of_string s).

(** 'FFIR' and the like: on the little-endian target the four characters
    land in memory in file order. *)
Definition WAV_RIFF_CHUNK_ID : Z := le_decode (str_bytes "RIFF").
Definition WAV_FORMAT_CHUNK_ID : Z := le_decode (str_bytes "fmt ").
Definition WAV_FACT_CHUNK_ID : Z := le_decode (str_bytes "fact").
Definition WAV_DATA_CHUNK_ID : Z := le_decode (str_bytes "data").
Definition WAV_WAVE_ID : Z := le_decode (str_bytes "WAVE").

Definition WAV_RIFF_HEADER_SIZE : Z := 8.

(** Modelled from the spec: the format tags of [wav.h], which is not among
    the sources; the values are those the specification gives. PCM is 1. *)
Definition WAV_FORMAT_PCM : Z := 1.

(** Modelled from the spec: the IEEE float tag of [wav.h], 3. *)
Definition WAV_FORMAT_IEEE_FLOAT : Z := 3.

(** Modelled from the spec: the A-law tag of [wav.h], 6. *)
Definition WAV_FORMAT_ALAW : Z := 6.

(** Modelled from the spec: the mu-law tag of [wav.h], 7. *)
Definition WAV_FORMAT_MULAW : Z := 7.

(** Modelled from the spec: the extensible tag of [wav.h], 0xFFFE. *)
Definition WAV_FORMAT_EXTENSIBLE : Z := 65534.

(** Modelled from the spec: the enumeration [WavErr] of [wav.h], with the
    error kinds of the specification; [WAV_OK] is the value [memset] leaves
    in a zeroed handle. *)
Inductive WavErr :=
| WAV_OK
| WAV_ERR_OS
| WAV_ERR_FORMAT
| WAV_ERR_MODE
| WAV_ERR_PARAM
| WAV_ERR_NOMEM.

Definition WavErr_eqb (a b : WavErr) : bool :=
  match a, b with
  | WAV_OK, WAV_OK | WAV_ERR_OS, WAV_ERR_OS | WAV_ERR_FORMAT, WAV_ERR_FORMAT
  | WAV_ERR_MODE, WAV_ERR_MODE | WAV_ERR_PARAM, WAV_ERR_PARAM
  | WAV_ERR_NOMEM, WAV_ERR_NOMEM => true
  | _, _ => false
  end.

(** ** The packed chunk structs

    Offsets inside [WavMasterChunk] ([#pragma pack(push, 1)]):
    RIFF header 0..12, [format_chunk] 12..60, [fact_chunk] 60..72,
    [data_chunk] 72..80. *)

Definition sizeof_WavMasterChunk : nat := 80.
Definition sizeof_WavFormatChunk : Z := 48.

Definition OFF_format_chunk : nat := 12.
Definition OFF_fact_chunk : nat := 60.
Definition OFF_data_chunk : nat := 72.

Definition chunk_id := Field 0 4.
Definition chunk_size := Field 4 4.
Definition chunk_wave_id := Field 8 4.

Definition format_chunk_id := Field 12 4.
Definition format_chunk_size := Field 16 4.
Definition format_tag := Field 20 2.
Definition n_channels := Field 22 2.
Definition sample_rate := Field 24 4.
Definition avg_bytes_per_sec := Field 28 4.
Definition block_align := Field 32 2.
Definition bits_per_sample := Field 34 2.
Definition ext_size := Field 36 2.
Definition valid_bits_per_sample := Field 38 2.
Definition channel_mask := Field 40 4.
Definition OFF_sub_format : nat := 44.

Definition fact_chunk_id := Field 60 4.
Definition fact_chunk_size := Field 64 4.
Definition fact_sample_length := Field 68 4.

Definition data_chunk_id := Field 72 4.
Definition data_chunk_size := Field 76 4.

Definition default_sub_format : list Byte.byte :=
  map Z_to_byte [1; 0; 0; 0; 0; 0; 16; 0; 128; 0; 0; 170; 0; 56; 155; 113].

(** ** The C library: strings *)

Definition ascii_to_Z (c : ascii) : Z := Z.of_N (N_of_ascii c).

(** [strncmp s1 s2 n]: at most [n] characters are compared, the comparison
    stops at the first difference or at the terminator. *)
Fixpoint strncmp (s1 s2 : string) (n : nat) {struct n} : Z :=
  match n with
  | O => 0
  | S n' =>
      match s1, s2 with
      | EmptyString, EmptyString => 0
      | EmptyString, String c2 _ => - ascii_to_Z c2
      | String c1 _, EmptyString => ascii_to_Z c1
      | String c1 r1, String c2 r2 =>
          if Ascii.eqb c1 c2 then strncmp r1 r2 n'
          else ascii_to_Z c1 - ascii_to_Z c2
      end
  end.

(** [s[0]], the terminator when [s] is empty. *)
Definition str_head (s : string) : ascii :=
  match s with
  | EmptyString => Ascii.zero
  | String c _ => c
  end.

Fixpoint str_has (c : ascii) (s : string) : bool :=
  match s with
  | EmptyString => false
  | String c' r => Ascii.eqb c c' || str_has c r
  end.

(** ** The C library: streams over a file system

    A file system maps names to contents. A stream carries the contents of
    its file, a position and the end-of-file and error indicators; the
    contents reach the file system when the stream is flushed or closed. *)

Record FILE := mkFILE {
  f_name : string;
  f_mode : string;
  f_data : list Byte.byte;
  f_pos : nat;
  f_eof : bool;
  f_error : bool
}.

Definition stream_readable (f : FILE) : bool :=
  Ascii.eqb (str_head (f_mode f)) "r" || str_has "+" (f_mode f).

Definition stream_writable (f : FILE) : bool :=
  negb (Ascii.eqb (str_head (f_mode f)) "r") || str_has "+" (f_mode f).

Definition stream_append (f : FILE) : bool :=
  Ascii.eqb (str_head (f_mode f)) "a".

Definition fopen (fs : gmap string (list Byte.byte)) (name m : string)
  : option FILE * gmap string (list Byte.byte) :=
  if Ascii.eqb (str_head m) "r" then
    match fs !! name with
    | Some d => (Some (mkFILE name m d 0 false false), fs)
    | None => (None, fs)
    end
  else if Ascii.eqb (str_head m) "w" then
    if str_has "x" m && bool_decide (is_Some (fs !! name)) then (None, fs)
    else (Some (mkFILE name m [] 0 false false), <[name := []]> fs)
  else if Ascii.eqb (str_head m) "a" then
    let d := default [] (fs !! name) in
    (Some (mkFILE name m d (if str_has "+" m then 0%nat else length d) false false),
     <[name := d]> fs)
  else (None, fs).

(** [fread(ptr, size, nmemb, fp)]: the bytes stored at [ptr], the number of
    complete items, the stream afterwards. A stream not open for reading
    sets its error indicator. *)
Definition fread (size nmemb : Z) (f : FILE) : list Byte.byte * Z * FILE :=
  if negb (stream_readable f) then
    ([], 0, mkFILE (f_name f) (f_mode f) (f_data f) (f_pos f) (f_eof f) true)
  else
    let want := Z.to_nat (size * nmemb) in
    let got := take want (drop (f_pos f) (f_data f)) in
    (got,
     if size =? 0 then 0 else Z.of_nat (length got) / size,
     mkFILE (f_name f) (f_mode f) (f_data f) (f_pos f + length got)
            (f_eof f || (length got <? want)%nat) (f_error f)).

(** [fwrite(ptr, size, nmemb, fp)] with [bs] the [size * nmemb] bytes at
    [ptr]. An append stream writes at the end of the file whatever the
    position; a gap left by a seek past the end reads as zeros. *)
Definition fwrite (bs : list Byte.byte) (size nmemb : Z) (f : FILE) : Z * FILE :=
  if negb (stream_writable f) then
    (0, mkFILE (f_name f) (f_mode f) (f_data f) (f_pos f) (f_eof f) true)
  else
    let start := if stream_append f then length (f_data f) else f_pos f in
    let padded := f_data f ++ replicate (start - length (f_data f)) Byte.x00 in
    (if size =? 0 then 0 else nmemb,
     mkFILE (f_name f) (f_mode f) (mem_write start bs padded)
            (start + length bs) (f_eof f) (f_error f)).

(** [fseek(fp, offset, SEEK_SET)]. *)
Definition fseek_set (f : FILE) (offset : Z) : Z * FILE :=
  if offset <? 0 then (-1, f)
  else (0, mkFILE (f_name f) (f_mode f) (f_data f) (Z.to_nat offset) false (f_error f)).

Definition rewind (f : FILE) : FILE :=
  mkFILE (f_name f) (f_mode f) (f_data f) 0 false false.

Definition ftell (f : FILE) : Z := Z.of_nat (f_pos f).
Definition feof (f : FILE) : bool := f_eof f.
Definition ferror (f : FILE) : bool := f_error f.

Definition fflush (fs : gmap string (list Byte.byte)) (f : FILE)
  : Z * gmap string (list Byte.byte) :=
  (0, if stream_writable f then <[f_name f := f_data f]> fs else fs).

Definition fclose (fs : gmap string (list Byte.byte)) (f : FILE)
  : Z * gmap string (list Byte.byte) :=
  fflush fs f.

(** ** The handle *)

Record WavFile := mkWavFile {
  fp : option FILE;             (* NULL is [None] *)
  filename : option string;
  mode : option string;
  error_code : WavErr;
  chunk : list Byte.byte;       (* the image of [WavMasterChunk] *)
  tmp : option (list Byte.byte);
  tmp_size : Z
}.

Definition with_fp (f : option FILE) (s : WavFile) : WavFile :=
  mkWavFile f (filename s) (mode s) (error_code s) (chunk s) (tmp s) (tmp_size s).
Definition with_filename (n : option string) (s : WavFile) : WavFile :=
  mkWavFile (fp s) n (mode s) (error_code s) (chunk s) (tmp s) (tmp_size s).
Definition with_mode (m : option string) (s : WavFile) : WavFile :=
  mkWavFile (fp s) (filename s) m (error_code s) (chunk s) (tmp s) (tmp_size s).
Definition with_error_code (e : WavErr) (s : WavFile) : WavFile :=
  mkWavFile (fp s) (filename s) (mode s) e (chunk s) (tmp s) (tmp_size s).
Definition with_chunk (c : list Byte.byte) (s : WavFile) : WavFile :=
  mkWavFile (fp s) (filename s) (mode s) (error_code s) c (tmp s) (tmp_size s).
Definition with_tmp (t : option (list Byte.byte)) (n : Z) (s : WavFile) : WavFile :=
  mkWavFile (fp s) (filename s) (mode s) (error_code s) (chunk s) t n.

(** [self->chunk.<member>] and [self->chunk.<member> = v]. *)
Definition fld (f : field) (self : WavFile) : Z := get f (chunk self).
Definition set_fld (f : field) (v : Z) (self : WavFile) : WavFile :=
  with_chunk (set f v (chunk self)) self.

(** [memset(self, 0, sizeof(WavFile))]. *)
Definition wav_zero : WavFile :=
  mkWavFile None None None WAV_OK (replicate sizeof_WavMasterChunk Byte.x00) None 0.

(** The difference of two [uint16_t*] pointers to members of the packed
    struct: C counts it in elements of two bytes, not in bytes. *)
Definition ptrdiff_u16 (a b : field) : Z :=
  Z.quot (Z.of_nat (f_off a) - Z.of_nat (f_off b)) 2.

(** [fread((uint8_t* )&self->chunk + off, size, 1, self->fp)]. Bytes that
    would land after the end of the struct are outside the model. *)
Definition fread_chunk (off : nat) (size : Z) (self : WavFile) : option (Z * WavFile) :=
  f <- fp self ;;
  match fread size 1 f with
  | (bs, n, f') =>
      if decide (off + length bs <= sizeof_WavMasterChunk)%nat
      then Some (n, with_fp (Some f') (with_chunk (mem_write off bs (chunk self)) self))
      else None
  end.

(** [fwrite((uint8_t* )&self->chunk + off, size, 1, self->fp)]. *)
Definition fwrite_chunk (off : nat) (size : Z) (self : WavFile) : option (Z * WavFile) :=
  f <- fp self ;;
  if decide (Z.of_nat off + size <= Z.of_nat sizeof_WavMasterChunk)
  then match fwrite (mem_read off (Z.to_nat size) (chunk self)) size 1 f with
       | (n, f') => Some (n, with_fp (Some f') self)
       end
  else None.

Definition wav_get_header_size (self : WavFile) : Z :=
  let header_size :=
    u32 (WAV_RIFF_HEADER_SIZE + 4 +
         WAV_RIFF_HEADER_SIZE + fld format_chunk_size self +
         WAV_RIFF_HEADER_SIZE) in
  if fld fact_chunk_id self =? WAV_FACT_CHUNK_ID
  then usize (header_size + u32 (WAV_RIFF_HEADER_SIZE + fld fact_chunk_size self))
  else header_size.

Definition wav_parse_header (self : WavFile) : option WavFile :=
  r <- fread_chunk 0 WAV_RIFF_HEADER_SIZE self ;;
  let '(read_count, self) := r in
  if negb (read_count =? 1) || negb (fld chunk_id self =? WAV_RIFF_CHUNK_ID)
  then Some (with_error_code WAV_ERR_FORMAT self) else
  r <- fread_chunk 8 4 self ;;
  let '(read_count, self) := r in
  if negb (read_count =? 1) || negb (fld chunk_wave_id self =? WAV_WAVE_ID)
  then Some (with_error_code WAV_ERR_FORMAT self) else
  r <- fread_chunk OFF_format_chunk WAV_RIFF_HEADER_SIZE self ;;
  let '(read_count, self) := r in
  if negb (read_count =? 1) || negb (fld format_chunk_id self =? WAV_FORMAT_CHUNK_ID)
  then Some (with_error_code WAV_ERR_FORMAT self) else
  r <- fread_chunk (OFF_format_chunk + 8) (fld format_chunk_size self) self ;;
  let '(read_count, self) := r in
  if negb (read_count =? 1)
  then Some (with_error_code WAV_ERR_FORMAT self) else
  if negb ((fld format_tag self =? WAV_FORMAT_PCM)
           || (fld format_tag self =? WAV_FORMAT_IEEE_FLOAT)
           || ((fld format_tag self =? WAV_FORMAT_ALAW)
               || (fld format_tag self =? WAV_FORMAT_MULAW)))
  then Some (with_error_code WAV_ERR_FORMAT self) else
  r <- fread_chunk OFF_fact_chunk WAV_RIFF_HEADER_SIZE self ;;
  let '(read_count, self) := r in
  if negb (read_count =? 1)
  then Some (with_error_code WAV_ERR_FORMAT self) else
  if fld fact_chunk_id self =? WAV_FACT_CHUNK_ID then
    r <- fread_chunk (OFF_fact_chunk + 8) (fld fact_chunk_size self) self ;;
    let '(read_count, self) := r in
    if negb (read_count =? 1)
    then Some (with_error_code WAV_ERR_FORMAT self) else
    r <- fread_chunk OFF_data_chunk WAV_RIFF_HEADER_SIZE self ;;
    let '(read_count, self) := r in
    if negb (read_count =? 1)
    then Some (with_error_code WAV_ERR_FORMAT self) else
    Some (with_error_code WAV_OK self)
  else if fld fact_chunk_id self =? WAV_DATA_CHUNK_ID then
    let self := set_fld data_chunk_id (fld fact_chunk_id self) self in
    let self := set_fld data_chunk_size (fld fact_chunk_size self) self in
    let self := set_fld fact_chunk_size 0 self in
    Some (with_error_code WAV_OK self)
  else
    Some (with_error_code WAV_OK self).

(** The size computation at the head of [wav_write_header]
    ([self->chunk.size = ...; if fact: += ...; if odd: ++]) on the chunk
    image; the store into the [uint32_t] member wraps. *)
Definition header_chunk_update (c : list Byte.byte) : list Byte.byte :=
  let c :=
    set chunk_size
      (4 + (WAV_RIFF_HEADER_SIZE + get format_chunk_size c)
         + (WAV_RIFF_HEADER_SIZE + get data_chunk_size c)) c in
  let c :=
    if get fact_chunk_id c =? WAV_FACT_CHUNK_ID
    then set chunk_size
           (get chunk_size c + (WAV_RIFF_HEADER_SIZE + get fact_chunk_size c)) c
    else c in
  if negb (get chunk_size c mod 2 =? 0)
  then set chunk_size (get chunk_size c + 1) c
  else c.

Definition wav_header_sizes (self : WavFile) : WavFile :=
  with_chunk (header_chunk_update (chunk self)) self.

Definition wav_write_header (self : WavFile) : option WavFile :=
  f <- fp self ;;
  let self := with_fp (Some (snd (fseek_set f 0))) self in
  let self := wav_header_sizes self in
  r <- fwrite_chunk 0 (WAV_RIFF_HEADER_SIZE + 4) self ;;
  let '(write_count, self) := r in
  if negb (write_count =? 1) then Some (with_error_code WAV_ERR_OS self) else
  r <- fwrite_chunk OFF_format_chunk
         (u32 (WAV_RIFF_HEADER_SIZE + fld format_chunk_size self)) self ;;
  let '(write_count, self) := r in
  if negb (write_count =? 1) then Some (with_error_code WAV_ERR_OS self) else
  r <- (if fld fact_chunk_id self =? WAV_FACT_CHUNK_ID
        then fwrite_chunk OFF_fact_chunk
               (u32 (WAV_RIFF_HEADER_SIZE + fld fact_chunk_size self)) self
        else Some (1, self)) ;;
  let '(write_count, self) := r in
  if negb (write_count =? 1) then Some (with_error_code WAV_ERR_OS self) else
  r <- fwrite_chunk OFF_data_chunk WAV_RIFF_HEADER_SIZE self ;;
  let '(write_count, self) := r in
  if negb (write_count =? 1) then Some (with_error_code WAV_ERR_OS self) else
  Some (with_error_code WAV_OK self).

Definition wav_get_num_channels (self : WavFile) : Z := fld n_channels self.
Definition wav_get_format (self : WavFile) : Z := fld format_tag self.
Definition wav_get_sample_rate (self : WavFile) : Z := fld sample_rate self.
Definition wav_get_channel_mask (self : WavFile) : Z := fld channel_mask self.

Definition wav_get_valid_bits_per_sample (self : WavFile) : Z :=
  if negb (fld format_tag self =? WAV_FORMAT_EXTENSIBLE)
  then fld bits_per_sample self
  else fld valid_bits_per_sample self.

(** [block_align / n_channels]: undefined for zero channels. *)
Definition wav_get_sample_size (self : WavFile) : option Z :=
  if fld n_channels self =? 0 then None
  else Some (fld block_align self / fld n_channels self).

(** [data_chunk.size / block_align]: undefined for a zero block alignment. *)
Definition wav_get_length (self : WavFile) : option Z :=
  if fld block_align self =? 0 then None
  else Some (fld data_chunk_size self / fld block_align self).

Definition wav_get_sub_format (self : WavFile) : Z :=
  le_decode (mem_read OFF_sub_format 2 (chunk self)).

(** [assert(pos >= header_size)] aborts the program when it fails. *)
Definition wav_tell (self : WavFile) : option (Z * WavFile) :=
  f <- fp self ;;
  let pos := ftell f in
  if pos =? -1 then Some (-1, with_error_code WAV_ERR_OS self)
  else
    let header_size := slong (wav_get_header_size self) in
    if negb (pos >=? header_size) then None
    else if fld block_align self =? 0 then None
    else Some (Z.quot (pos - header_size) (fld block_align self),
               with_error_code WAV_OK self).

Definition SEEK_SET : Z := 0.
Definition SEEK_CUR : Z := 1.
Definition SEEK_END : Z := 2.

(** The result is [(int)self->error_code], kept as the enumerator. *)
Definition wav_seek (self : WavFile) (offset origin : Z) : option (WavErr * WavFile) :=
  let offset := slong offset in
  length <- wav_get_length self ;;
  r <- (if origin =? SEEK_CUR then
          t <- wav_tell self ;;
          Some (slong (offset + fst t), snd t)
        else if origin =? SEEK_END then
          Some (slong (offset + length), self)
        else Some (offset, self)) ;;
  let '(offset, self) := r in
  if (offset >=? 0) && (usize offset <=? length) then
    let offset := fld block_align self in
    f <- fp self ;;
    let '(ret, f') := fseek_set f offset in
    let self := with_fp (Some f') self in
    if negb (ret =? 0) then Some (WAV_ERR_OS, with_error_code WAV_ERR_OS self)
    else Some (WAV_OK, with_error_code WAV_OK self)
  else Some (WAV_ERR_PARAM, with_error_code WAV_ERR_PARAM self).


Definition wav_eof (self : WavFile) : option bool :=
  f <- fp self ;;
  Some (feof f ||
        (ftell f =? slong (usize (wav_get_header_size self + fld data_chunk_size self)))).

Definition wav_error (self : WavFile) : bool :=
  negb (WavErr_eqb (error_code self) WAV_OK) ||
  match fp self with
  | Some f => ferror f
  | None => false
  end.

Definition wav_errno (self : WavFile) : WavErr := error_code self.

Definition wav_flush (fs : gmap string (list Byte.byte)) (self : WavFile)
  : option (Z * WavFile * gmap string (list Byte.byte)) :=
  f <- fp self ;;
  let '(ret, fs) := fflush fs f in
  Some (ret, with_error_code (if ret =? 0 then WAV_OK else WAV_ERR_OS) self, fs).

(** ** Format mutators *)

Definition wav_set_format (self : WavFile) (format : Z) : option WavFile :=
  let format := u16 format in
  m <- mode self ;;
  if Ascii.eqb (str_head m) "r" then Some (with_error_code WAV_ERR_MODE self) else
  let self := set_fld format_tag format self in
  let self :=
    if negb (format =? WAV_FORMAT_PCM) && negb (format =? WAV_FORMAT_EXTENSIBLE) then
      let self := set_fld ext_size 0 self in
      set_fld format_chunk_size (ptrdiff_u16 valid_bits_per_sample format_tag) self
    else if format =? WAV_FORMAT_EXTENSIBLE then
      let self := set_fld ext_size 22 self in
      set_fld format_chunk_size (sizeof_WavFormatChunk - WAV_RIFF_HEADER_SIZE) self
    else self in
  let self :=
    if (format =? WAV_FORMAT_ALAW) || (format =? WAV_FORMAT_MULAW) then
      set_fld bits_per_sample 8 self
    else if format =? WAV_FORMAT_IEEE_FLOAT then
      let self :=
        if negb (fld block_align self =? 4) && negb (fld block_align self =? 8)
        then set_fld block_align 4 self else self in
      if fld bits_per_sample self >? 8 * fld block_align self
      then set_fld bits_per_sample (8 * fld block_align self) self else self
    else self in
  wav_write_header self.

Definition wav_set_num_channels (self : WavFile) (n : Z) : option WavFile :=
  let n := u16 n in
  m <- mode self ;;
  if Ascii.eqb (str_head m) "r" then Some (with_error_code WAV_ERR_MODE self) else
  if n <? 1 then Some (with_error_code WAV_ERR_PARAM self) else
  let self := set_fld n_channels n self in
  let self :=
    set_fld avg_bytes_per_sec (fld block_align self * fld sample_rate self) self in
  wav_write_header self.

Definition wav_set_sample_rate (self : WavFile) (rate : Z) : option WavFile :=
  let rate := u32 rate in
  m <- mode self ;;
  if Ascii.eqb (str_head m) "r" then Some (with_error_code WAV_ERR_MODE self) else
  let self := set_fld sample_rate rate self in
  let self :=
    set_fld avg_bytes_per_sec (fld block_align self * fld sample_rate self) self in
  wav_write_header self.

Definition wav_set_valid_bits_per_sample (self : WavFile) (bits : Z) : option WavFile :=
  let bits := u16 bits in
  m <- mode self ;;
  if Ascii.eqb (str_head m) "r" then Some (with_error_code WAV_ERR_MODE self) else
  if bits <? 1 then Some (with_error_code WAV_ERR_PARAM self) else
  if fld n_channels self =? 0 then None else
  if bits >? 8 * fld block_align self / fld n_channels self
  then Some (with_error_code WAV_ERR_PARAM self) else
  if ((fld format_tag self =? WAV_FORMAT_ALAW) || (fld format_tag self =? WAV_FORMAT_MULAW))
     && negb (bits =? 8)
  then Some (with_error_code WAV_ERR_PARAM self) else
  let self :=
    if negb (fld format_tag self =? WAV_FORMAT_EXTENSIBLE) then
      set_fld bits_per_sample bits self
    else
      let self :=
        set_fld bits_per_sample (8 * fld block_align self / fld n_channels self) self in
      set_fld valid_bits_per_sample bits self in
  wav_write_header self.

Definition wav_set_sample_size (self : WavFile) (sample_size : Z) : option WavFile :=
  let sample_size := usize sample_size in
  m <- mode self ;;
  if Ascii.eqb (str_head m) "r" then Some (with_error_code WAV_ERR_MODE self) else
  if sample_size <? 1 then Some (with_error_code WAV_ERR_PARAM self) else
  let self := set_fld block_align (sample_size * fld n_channels self) self in
  let self :=
    set_fld avg_bytes_per_sec (fld block_align self * fld sample_rate self) self in
  let self := set_fld bits_per_sample (sample_size * 8) self in
  let self :=
    if fld format_tag self =? WAV_FORMAT_EXTENSIBLE
    then set_fld valid_bits_per_sample (sample_size * 8) self else self in
  wav_write_header self.

Definition wav_set_channel_mask (self : WavFile) (mask : Z) : option WavFile :=
  let mask := u32 mask in
  m <- mode self ;;
  if Ascii.eqb (str_head m) "r" then Some (with_error_code WAV_ERR_MODE self) else
  if negb (fld format_tag self =? WAV_FORMAT_EXTENSIBLE)
  then Some (with_error_code WAV_ERR_FORMAT self) else
  let self := set_fld channel_mask mask self in
  wav_write_header self.

Definition wav_set_sub_format (self : WavFile) (sub : Z) : option WavFile :=
  let sub := u16 sub in
  m <- mode self ;;
  if Ascii.eqb (str_head m) "r" then Some (with_error_code WAV_ERR_MODE self) else
  if negb (fld format_tag self =? WAV_FORMAT_EXTENSIBLE)
  then Some (with_error_code WAV_ERR_FORMAT self) else
  let self := with_chunk (mem_write OFF_sub_format (le_encode 2 sub) (chunk self)) self in
  wav_write_header self.

(** ** Life cycle *)

Section Allocator.

(** The installed allocator ([g_alloc_funcs]): whether a request for [n]
    bytes is served. *)
Variable alloc_ok : Z -> bool.

(** Modelled from the spec: the macro [WAV_NEW] of [wav.h] (not among the
    sources) allocates through the pluggable allocator; NULL is [None]. The
    block is handed out zeroed here, the callers fill it before reading it. *)
Definition WAV_NEW (n : Z) : option (list Byte.byte) :=
  if alloc_ok n then Some (replicate (Z.to_nat n) Byte.x00) else None.

Definition wav_strdup (str : string) : option string :=
  if alloc_ok (Z.of_nat (String.length str) + 1) then Some str else None.

(** The tail of [wav_init], from the comment "reaches here only if
    (mode[0] == 'w' || mode[0] == 'a')". *)
Definition wav_init_defaults (self : WavFile) : option WavFile :=
  let self := set_fld chunk_id WAV_RIFF_CHUNK_ID self in
  let self := set_fld chunk_wave_id WAV_WAVE_ID self in
  let self := set_fld format_chunk_id WAV_FORMAT_CHUNK_ID self in
  let self := set_fld format_chunk_size (ptrdiff_u16 ext_size format_tag) self in
  let self := set_fld format_tag WAV_FORMAT_PCM self in
  let self := set_fld n_channels 2 self in
  let self := set_fld sample_rate 44100 self in
  let self := set_fld avg_bytes_per_sec (44100 * 2 * 2) self in
  let self := set_fld block_align 4 self in
  let self := set_fld bits_per_sample 16 self in
  let self := with_chunk (mem_write OFF_sub_format default_sub_format (chunk self)) self in
  let self := set_fld fact_chunk_id WAV_DATA_CHUNK_ID self in
  let self := set_fld fact_chunk_size 0 self in
  let self := set_fld data_chunk_id WAV_DATA_CHUNK_ID self in
  let self := set_fld data_chunk_size 0 self in
  self <- wav_write_header self ;;
  if negb (WavErr_eqb (error_code self) WAV_OK) then Some self
  else Some (with_error_code WAV_OK self).

(** The chain of [strncmp] tests that picks [self->mode]. *)
Definition wav_init_mode (mode : string) : option string :=
  if (strncmp mode "r" 1 =? 0) || (strncmp mode "rb" 2 =? 0) then Some "rb"%string
  else if (strncmp mode "r+" 2 =? 0) || (strncmp mode "rb+" 3 =? 0)
          || (strncmp mode "r+b" 3 =? 0) then Some "rb+"%string
  else if (strncmp mode "w" 1 =? 0) || (strncmp mode "wb" 2 =? 0) then Some "wb"%string
  else if (strncmp mode "w+" 2 =? 0) || (strncmp mode "wb+" 3 =? 0)
          || (strncmp mode "w+b" 3 =? 0) then Some "wb+"%string
  else if (strncmp mode "wx" 2 =? 0) || (strncmp mode "wbx" 3 =? 0) then Some "wbx"%string
  else if (strncmp mode "w+x" 3 =? 0) || (strncmp mode "wb+x" 4 =? 0)
          || (strncmp mode "w+bx" 4 =? 0) then Some "wb+x"%string
  else if (strncmp mode "a" 1 =? 0) || (strncmp mode "ab" 2 =? 0) then Some "ab"%string
  else if (strncmp mode "a+" 2 =? 0) || (strncmp mode "ab+" 3 =? 0)
          || (strncmp mode "a+b" 3 =? 0) then Some "ab+"%string
  else None.

Definition wav_init (fs : gmap string (list Byte.byte)) (filename mode : string)
  : option (WavFile * gmap string (list Byte.byte)) :=
  let self := wav_zero in
  match wav_init_mode mode with
  | None => Some (with_error_code WAV_ERR_MODE self, fs)
  | Some m =>
      let self := with_mode (Some m) self in
      let self := with_filename (wav_strdup filename) self in
      let '(f, fs) := fopen fs filename m in
      let self := with_fp f self in
      match f with
      | None => Some (with_error_code WAV_ERR_OS self, fs)
      | Some _ =>
          if Ascii.eqb (str_head m) "r" then
            self <- wav_parse_header self ;;
            Some (self, fs)
          else
            r <- (if Ascii.eqb (str_head m) "a" then
                    self <- wav_parse_header self ;;
                    if WavErr_eqb (error_code self) WAV_OK
                    then Some (inl self)
                    else Some (inr (with_fp (option_map rewind (fp self)) self))
                  else Some (inr self)) ;;
            match r with
            | inl self => Some (self, fs)
            | inr self =>
                self <- wav_init_defaults self ;;
                Some (self, fs)
            end
      end
  end.

(** [self->fp] keeps its value after [fclose] (the C code does not reset
    it); the contents reach the file system. *)
Definition wav_finalize (fs : gmap string (list Byte.byte)) (self : WavFile)
  : option (WavFile * gmap string (list Byte.byte)) :=
  let self := with_filename None self in
  match fp self with
  | None => Some (self, fs)
  | Some f =>
      m <- mode self ;;
      at_end <- wav_eof self ;;
      r <- (if ((strncmp m "wb" 2 =? 0) || (strncmp m "wb+" 3 =? 0)
                || (strncmp m "wbx" 3 =? 0) || (strncmp m "wb+x" 4 =? 0)
                || (strncmp m "ab" 2 =? 0) || (strncmp m "ab+" 3 =? 0))
               && negb (fld data_chunk_size self mod 2 =? 0)
               && at_end
            then
              let '(ret, f') := fwrite [Byte.x00] 1 1 f in
              Some (ret, f')
            else Some (1, f)) ;;
      let '(ret, f) := r in
      let self := with_fp (Some f) self in
      if negb (ret =? 1) then Some (with_error_code WAV_ERR_OS self, fs) else
      let '(ret, fs) := fclose fs f in
      if negb (ret =? 0) then Some (with_error_code WAV_ERR_OS self, fs)
      else Some (with_error_code WAV_OK self, fs)
  end.

(** [sizeof(WavFile)]: three pointers, the enumeration, the packed chunk,
    padding to the next pointer, a pointer and a [size_t]. *)
Definition sizeof_WavFile : Z := 128.

(** NULL (no handle) is [None] in the inner [option]. *)
Definition wav_open (fs : gmap string (list Byte.byte)) (filename mode : string)
  : option (option WavFile * gmap string (list Byte.byte)) :=
  if alloc_ok sizeof_WavFile then
    r <- wav_init fs filename mode ;;
    Some (Some (fst r), snd r)
  else Some (None, fs).

(** The result and, unless it is freed, the handle. *)
Definition wav_close (fs : gmap string (list Byte.byte)) (self : WavFile)
  : option (Z * option WavFile * gmap string (list Byte.byte)) :=
  r <- wav_finalize fs self ;;
  let '(self, fs) := r in
  if negb (WavErr_eqb (error_code self) WAV_OK) then Some (-1, Some self, fs)
  else Some (0, None, fs).


(** ** Sample transcoding *)

Definition wav_container_sizes : list Z := [0; 1; 2; 4; 4].

(** [wav_container_sizes[sample_size]]: an index past the table is outside
    the model. *)
Definition wav_calc_container_size (sample_size : Z) : option Z :=
  if sample_size <? 0 then None
  else wav_container_sizes !! Z.to_nat sample_size.

(** [for (i = lo; i < lo + n; ++i) body], threading the state. *)
Fixpoint for_range {S : Type} (lo n : nat) (body : nat -> S -> option S) (s : S)
  : option S :=
  match n with
  | O => Some s
  | Datatypes.S n' =>
      match body lo s with
      | Some s' => for_range (Datatypes.S lo) n' body s'
      | None => None
      end
  end.

(** [((uint8_t* )buffers[i])[off]] read and written; the caller's arrays are
    lists, an access outside them is undefined. *)
Definition buf_load (buffers : list (list Byte.byte)) (i off : nat) : option Byte.byte :=
  ch <- buffers !! i ;;
  ch !! off.

Definition buf_store (buffers : list (list Byte.byte)) (i off : nat) (b : Byte.byte)
  : option (list (list Byte.byte)) :=
  ch <- buffers !! i ;;
  if decide (off < length ch)%nat then Some (<[i := <[off := b]> ch]> buffers)
  else None.

Definition tmp_store (t : list Byte.byte) (off : nat) (b : Byte.byte)
  : option (list Byte.byte) :=
  if decide (off < length t)%nat then Some (<[off := b]> t) else None.

(** The block "if (self->tmp_size < n || !self->tmp) ..." shared by
    [wav_read] and [wav_write]: the handle with a scratch buffer of at least
    [need] bytes, or the handle in the out-of-memory state. *)
Definition wav_tmp_reserve (need : Z) (self : WavFile) : WavFile + WavFile :=
  if (tmp_size self <? need) || negb (bool_decide (is_Some (tmp self))) then
    match WAV_NEW need with
    | Some b => inr (with_tmp (Some b) need self)
    | None => inl (with_error_code WAV_ERR_NOMEM (with_tmp None 0 self))
    end
  else inr self.

(** The three nested loops of [wav_read] for one frame [j] of channel [i]:
    copy [sample_size] bytes, then fill the rest of the container with the
    sign. The indices are size_t products in C; a product large enough to
    wrap is past the end of every buffer first, which is already [None]. *)
Definition wav_read_sample (nch ss cs : nat) (t : list Byte.byte) (i j : nat)
                           (buffers : list (list Byte.byte))
  : option (list (list Byte.byte)) :=
  buffers <- for_range 0 ss (fun k buffers =>
               b <- t !! (j * nch * ss + i * ss + k)%nat ;;
               buf_store buffers i (j * cs + k) b) buffers ;;
  if decide (j * cs + ss = 0)%nat then None else
  top <- buf_load buffers i (j * cs + ss - 1) ;;
  if negb (Z.land (byte_to_Z top) 128 =? 0) then
    for_range ss (cs - ss) (fun k buffers => buf_store buffers i (j * cs + k) Byte.xff) buffers
  else
    for_range ss (cs - ss) (fun k buffers => buf_store buffers i (j * cs + k) Byte.x00) buffers.

Definition wav_read_loops (nch ss cs frames : nat) (t : list Byte.byte)
                          (buffers : list (list Byte.byte))
  : option (list (list Byte.byte)) :=
  for_range 0 nch (fun i buffers =>
    for_range 0 frames (fun j buffers => wav_read_sample nch ss cs t i j buffers) buffers)
    buffers.

(** The result: frames read, the handle, the caller's buffers. *)
Definition wav_read (self : WavFile) (buffers : list (list Byte.byte)) (count : Z)
  : option (Z * WavFile * list (list Byte.byte)) :=
  let count := usize count in
  let n_channels := wav_get_num_channels self in
  sample_size <- wav_get_sample_size self ;;
  container_size <- wav_calc_container_size sample_size ;;
  m <- mode self ;;
  if (strncmp m "wb" 2 =? 0) || (strncmp m "wbx" 3 =? 0) || (strncmp m "ab" 2 =? 0)
  then Some (0, with_error_code WAV_ERR_MODE self, buffers) else
  if fld format_tag self =? WAV_FORMAT_EXTENSIBLE
  then Some (0, with_error_code WAV_ERR_FORMAT self, buffers) else
  len <- wav_get_length self ;;
  t <- wav_tell self ;;
  let '(pos, self) := t in
  let len_remain := usize (len - usize pos) in
  if negb (WavErr_eqb (error_code self) WAV_OK) then Some (0, self, buffers) else
  let count := if count <=? len_remain then count else len_remain in
  if count =? 0 then Some (0, with_error_code WAV_OK self, buffers) else
  match wav_tmp_reserve (usize (usize (n_channels * count) * sample_size)) self with
  | inl self => Some (0, self, buffers)
  | inr self =>
      f <- fp self ;;
      t <- tmp self ;;
      let '(bs, read_count, f) := fread sample_size (usize (n_channels * count)) f in
      if decide (length bs <= length t)%nat then
        let t := mem_write 0 bs t in
        let self := with_fp (Some f) (with_tmp (Some t) (tmp_size self) self) in
        if ferror f then Some (0, with_error_code WAV_ERR_OS self, buffers) else
        buffers <- wav_read_loops (Z.to_nat n_channels) (Z.to_nat sample_size)
                     (Z.to_nat container_size) (Z.to_nat (read_count / n_channels))
                     t buffers ;;
        Some (read_count / n_channels, with_error_code WAV_OK self, buffers)
      else None
  end.

Definition wav_write_loops (nch ss cs frames : nat) (buffers : list (list Byte.byte))
                           (t : list Byte.byte)
  : option (list Byte.byte) :=
  for_range 0 nch (fun i t =>
    for_range 0 frames (fun j t =>
      for_range 0 ss (fun k t =>
        b <- buf_load buffers i (j * cs + k) ;;
        tmp_store t (j * nch * ss + i * ss + k) b) t) t) t.

(** The result: frames written, the handle. *)
Definition wav_write (self : WavFile) (buffers : list (list Byte.byte)) (count : Z)
  : option (Z * WavFile) :=
  let count := usize count in
  let n_channels := wav_get_num_channels self in
  sample_size <- wav_get_sample_size self ;;
  container_size <- wav_calc_container_size sample_size ;;
  m <- mode self ;;
  if strncmp m "rb" 2 =? 0 then Some (0, with_error_code WAV_ERR_MODE self) else
  if fld format_tag self =? WAV_FORMAT_EXTENSIBLE
  then Some (0, with_error_code WAV_ERR_FORMAT self) else
  if count =? 0 then Some (0, with_error_code WAV_OK self) else
  t <- wav_tell self ;;
  let self := snd t in
  if negb (WavErr_eqb (error_code self) WAV_OK) then Some (0, self) else
  match wav_tmp_reserve (usize (usize (n_channels * count) * sample_size)) self with
  | inl self => Some (0, self)
  | inr self =>
      t <- tmp self ;;
      t <- wav_write_loops (Z.to_nat n_channels) (Z.to_nat sample_size)
             (Z.to_nat container_size) (Z.to_nat count) buffers t ;;
      let self := with_tmp (Some t) (tmp_size self) self in
      f <- fp self ;;
      let nbytes := Z.to_nat (sample_size * usize (n_channels * count)) in
      if decide (nbytes <= length t)%nat then
        let '(write_count, f) := fwrite (take nbytes t) sample_size (usize (n_channels * count)) f in
        let self := with_fp (Some f) self in
        if ferror f then Some (0, with_error_code WAV_ERR_OS self) else
        let self :=
          set_fld data_chunk_size (fld data_chunk_size self + write_count * sample_size) self in
        let self :=
          if fld fact_chunk_id self =? WAV_FACT_CHUNK_ID
          then set_fld fact_sample_length
                 (fld fact_sample_length self + write_count / n_channels) self
          else self in
        let save_pos := ftell f in
        if save_pos =? -1 then Some (0, with_error_code WAV_ERR_OS self) else
        self <- wav_write_header self ;;
        if negb (WavErr_eqb (error_code self) WAV_OK) then Some (0, self) else
        f <- fp self ;;
        let '(ret, f) := fseek_set f save_pos in
        let self := with_fp (Some f) self in
        if negb (ret =? 0) then Some (0, with_error_code WAV_ERR_OS self) else
        Some (write_count / n_channels, with_error_code WAV_OK self)
      else None
  end.

End Allocator.

(** ** Specification-level definitions used by the theorems *)

(** The value [wav_write_header] leaves in the RIFF size member, as a
    function of the other members. *)
Definition riff_total (c : list Byte.byte) : Z :=
  let s0 := u32 (4 + (WAV_RIFF_HEADER_SIZE + get format_chunk_size c)
                   + (WAV_RIFF_HEADER_SIZE + get data_chunk_size c)) in
  let s1 := if get fact_chunk_id c =? WAV_FACT_CHUNK_ID
            then u32 (s0 + (WAV_RIFF_HEADER_SIZE + get fact_chunk_size c)) else s0 in
  if negb (s1 mod 2 =? 0) then u32 (s1 + 1) else s1.

(** A handle whose chunk image has the size of the struct. *)
Definition wf (self : WavFile) : Prop := length (chunk self) = sizeof_WavMasterChunk.

(** The seven format mutators as one operation. *)
Inductive mutator :=
| SetFormat (format : Z)
| SetNumChannels (n : Z)
| SetSampleRate (rate : Z)
| SetValidBitsPerSample (bits : Z)
| SetSampleSize (sample_size : Z)
| SetChannelMask (mask : Z)
| SetSubFormat (sub : Z).

Definition run_mutator (m : mutator) (self : WavFile) : option WavFile :=
  match m with
  | SetFormat v => wav_set_format self v
  | SetNumChannels v => wav_set_num_channels self v
  | SetSampleRate v => wav_set_sample_rate self v
  | SetValidBitsPerSample v => wav_set_valid_bits_per_sample self v
  | SetSampleSize v => wav_set_sample_size self v
  | SetChannelMask v => wav_set_channel_mask self v
  | SetSubFormat v => wav_set_sub_format self v
  end.

(** The four tags the parser lets through. *)
Definition accepted_tag (t : Z) : Prop :=
  t = WAV_FORMAT_PCM \/ t = WAV_FORMAT_IEEE_FLOAT \/ t = WAV_FORMAT_ALAW \/ t = WAV_FORMAT_MULAW.

(** Concrete inputs for the examples: an allocator that serves every
    request, a canonical 16-bit stereo PCM file with two frames, and a
    well-formed WAVE_FORMAT_EXTENSIBLE file (40-byte fmt chunk). *)
Definition alloc_always (_ : Z) : bool := true.

Definition pcm_wav : list Byte.byte :=
  str_bytes "RIFF" ++ le_encode 4 44 ++ str_bytes "WAVE" ++
  str_bytes "fmt " ++ le_encode 4 16 ++
  le_encode 2 WAV_FORMAT_PCM ++ le_encode 2 2 ++ le_encode 4 44100 ++
  le_encode 4 176400 ++ le_encode 2 4 ++ le_encode 2 16 ++
  str_bytes "data" ++ le_encode 4 8 ++
  le_encode 2 1 ++ le_encode 2 (-1) ++ le_encode 2 2 ++ le_encode 2 (-2).

Definition extensible_wav : list Byte.byte :=
  str_bytes "RIFF" ++ le_encode 4 60 ++ str_bytes "WAVE" ++
  str_bytes "fmt " ++ le_encode 4 40 ++
  le_encode 2 WAV_FORMAT_EXTENSIBLE ++ le_encode 2 2 ++ le_encode 4 44100 ++
  le_encode 4 176400 ++ le_encode 2 4 ++ le_encode 2 16 ++
  le_encode 2 22 ++ le_encode 2 16 ++ le_encode 4 3 ++ default_sub_format ++
  str_bytes "data" ++ le_encode 4 0.

(** A zeroed handle in mode "rb" over a stream with the given contents. *)
Definition reader_on (data : list Byte.byte) : WavFile :=
  with_mode (Some "rb"%string)
    (with_fp (Some (mkFILE "x.wav" "rb" data 0 false false)) wav_zero).



(** The byte that fills a container above a sample whose top byte is [b]. *)
Definition sign_fill (b : Byte.byte) : Byte.byte :=
  if negb (Z.land (byte_to_Z b) 128 =? 0) then Byte.xff else Byte.x00.

(** Byte [k] of the container of frame [j], channel [i], as [wav_read]
    leaves it: the interleaved byte for [k < ss], the sign above. *)
Definition deinterleaved (nch ss : nat) (t : list Byte.byte) (i j k : nat)
  : option Byte.byte :=
  if decide (k < ss)%nat then t !! (j * nch * ss + i * ss + k)%nat
  else sign_fill <$> t !! (j * nch * ss + i * ss + ss - 1)%nat.

(** Channel [i] after [wav_read] has transferred the frames [0 .. J) from
    the interleaved bytes [t]: same length as before ([ch0]), the containers
    of those frames hold the de-interleaved bytes, the rest is untouched. *)
Definition chan_done (nch ss cs : nat) (t : list Byte.byte) (i J : nat)
    (ch0 ch : list Byte.byte) : Prop :=
  length ch = length ch0 /\
  (forall j k, (j < J)%nat -> (k < cs)%nat ->
     ch !! (j * cs + k)%nat = deinterleaved nch ss t i j k) /\
  (forall off, (J * cs <= off)%nat -> ch !! off = ch0 !! off).

(** The mode test of [wav_read] and of [wav_write] passed. *)
Definition read_mode (m : string) : bool :=
  negb ((strncmp m "wb" 2 =? 0) || (strncmp m "wbx" 3 =? 0) || (strncmp m "ab" 2 =? 0)).

Definition write_mode (m : string) : bool :=
  negb (strncmp m "rb" 2 =? 0).

(** The recorded size of the scratch buffer is its size. *)
Definition tmp_wf (self : WavFile) : Prop :=
  match tmp self with
  | Some t => Z.of_nat (length t) = tmp_size self
  | None => True
  end.

(** The handle [wav_parse_header] returns on the canonical PCM file. *)
Definition pcm_reader : WavFile :=
  Eval vm_compute in
    match wav_parse_header (reader_on pcm_wav) with
    | Some self => self
    | None => wav_zero
    end.

(** Where [fwrite] puts its bytes. *)
Definition write_start (f : FILE) : nat :=
  if stream_append f then length (f_data f) else f_pos f.

(** The stream [g] is [f0] after some writes below [H]: same mode, name and
    error indicator, nothing lost, the bytes of [f0] from [H] on (all its
    bytes, for an append stream) unchanged, and, unless it appends, the
    position [p]. *)
Definition stream_keeps (f0 g : FILE) (H p : nat) : Prop :=
  f_mode g = f_mode f0 /\ f_name g = f_name f0 /\ f_error g = f_error f0 /\
  (length (f_data f0) <= length (f_data g))%nat /\
  (forall x, (x < length (f_data f0))%nat ->
     stream_append f0 = true \/ (H <= x)%nat ->
     f_data g !! x = f_data f0 !! x) /\
  (stream_append f0 = false -> f_pos g = p).

(** The chunk image after a successful [wav_write] of [bytes] bytes in
    [frames] frames: data size and, if present, the fact sample length
    grown, the RIFF size recomputed by the header writer. *)
Definition chunk_after_write (c : list Byte.byte) (bytes frames : Z) : list Byte.byte :=
  let c := set data_chunk_size (get data_chunk_size c + bytes) c in
  let c := if get fact_chunk_id c =? WAV_FACT_CHUNK_ID
           then set fact_sample_length (get fact_sample_length c + frames) c
           else c in
  set chunk_size (riff_total c) c.

(** Per-channel sample buffers as the application holds them: one array per
    channel, [N] containers of [cs] bytes each, every container holding a
    sample of [ss] bytes extended with its sign (nothing to extend when
    [ss = cs]). *)
Definition sample_buffers (nch N ss cs : nat) (bufs : list (list Byte.byte)) : Prop :=
  length bufs = nch /\
  forall i ch, bufs !! i = Some ch ->
    length ch = (N * cs)%nat /\
    forall j k, (j < N)%nat -> (ss <= k < cs)%nat ->
      ch !! (j * cs + k)%nat = sign_fill <$> ch !! (j * cs + ss - 1)%nat.

(** Destination buffers of the same shape, contents arbitrary. *)
Definition room_for (nch N cs : nat) (bufs : list (list Byte.byte)) : Prop :=
  length bufs = nch /\ forall i ch, bufs !! i = Some ch -> length ch = (N * cs)%nat.

(** A handle opened for writing and set to 3-byte samples (two channels,
    block alignment 6), and two frames of 24-bit samples in 4-byte
    containers, two of them negative. *)
Definition pcm24_writer : WavFile :=
  Eval vm_compute in
    match (r <- wav_init alloc_always ∅ "t.wav" "w" ;;
           wav_set_sample_size (fst r) 3) with
    | Some self => self
    | None => wav_zero
    end.

Definition pcm24_frames : list (list Byte.byte) :=
  [[Byte.x01; Byte.x02; Byte.x03; Byte.x00; Byte.xff; Byte.xff; Byte.xff; Byte.xff];
   [Byte.x00; Byte.x00; Byte.x80; Byte.xff; Byte.x10; Byte.x20; Byte.x30; Byte.x00]].

(** A handle in mode "rb" on the stream contents and chunk of [w], placed
    at byte [pos]. *)
Definition reader_of (w : WavFile) (pos : nat) : WavFile :=
  with_mode (Some "rb"%string)
    (with_fp (option_map (fun f => mkFILE (f_name f) "rb" (f_data f) pos false false)
                         (fp w)) w).


(** [pcm24_writer] after [pcm24_frames] have been written. *)
Definition pcm24_written : WavFile :=
  Eval vm_compute in
    match wav_write alloc_always pcm24_writer pcm24_frames 2 with
    | Some (_, self) => self
    | None => wav_zero
    end.

(** A whole session through the files: open for writing, prepare the
    format with [prep], 3-byte samples, write [pcm24_frames], finalize,
    open the file for reading, read two frames. The result: status and
    block alignment of the reopened handle, and what [wav_read] returns. *)
Definition session_round_trip (prep : WavFile -> option WavFile)
  : option (WavErr * Z * option (Z * WavErr * list (list Byte.byte))) :=
  r <- wav_init alloc_always ∅ "t.wav" "w" ;;
  s <- prep (fst r) ;;
  s <- wav_set_sample_size s 3 ;;
  w <- wav_write alloc_always s pcm24_frames 2 ;;
  c <- wav_finalize (snd r) (snd w) ;;
  r2 <- wav_init alloc_always (snd c) "t.wav" "r" ;;
  Some (error_code (fst r2), fld block_align (fst r2),
        match wav_read alloc_always (fst r2)
                [replicate 8 Byte.x00; replicate 8 Byte.x00] 2 with
        | Some x => Some (fst (fst x), error_code (snd (fst x)), snd x)
        | None => None
        end).

(** The plain session through the files, for [nch] channels of [ss]-byte
    samples: open for writing, set the channel count and the sample size,
    write [count] frames from [buffers], close, open the file for reading,
    read [count] frames. The result: the frames written, what [wav_close]
    returns, status, fmt size and block alignment of the reopened handle,
    and what [wav_read] returns on it ([None] when it is undefined). *)
Definition session_plain (nch ss : Z) (buffers : list (list Byte.byte)) (count : Z)
  : option (Z * Z * WavErr * Z * Z * option (Z * list (list Byte.byte))) :=
  r <- wav_init alloc_always ∅ "t.wav" "w" ;;
  s <- wav_set_num_channels (fst r) nch ;;
  s <- wav_set_sample_size s ss ;;
  w <- wav_write alloc_always s buffers count ;;
  c <- wav_close (snd r) (snd w) ;;
  r2 <- wav_init alloc_always (snd c) "t.wav" "r" ;;
  Some (fst w, fst (fst c), error_code (fst r2),
        fld format_chunk_size (fst r2), fld block_align (fst r2),
        match wav_read alloc_always (fst r2) buffers count with
        | Some x => Some (fst (fst x), snd x)
        | None => None
        end).

(** A handle opened for writing whose fmt chunk has its 40 bytes (the
    extensible tag set, then PCM again), set to 3-byte samples. *)
Definition pcm24_full_writer : WavFile :=
  Eval vm_compute in
    match (r <- wav_init alloc_always ∅ "t.wav" "w" ;;
           s <- wav_set_format (fst r) WAV_FORMAT_EXTENSIBLE ;;
           s <- wav_set_format s WAV_FORMAT_PCM ;;
           wav_set_sample_size s 3) with
    | Some self => self
    | None => wav_zero
    end.

(** ** Layouts and sample values used by the further properties *)

(** The header as [wav_write_header] lays it out on the stream: the RIFF
    header with the WAVE id, the fmt chunk with its declared size, the fact
    chunk when its id member is "fact", the data chunk header. *)
Definition header_image (c : list Byte.byte) : list Byte.byte :=
  mem_read 0 12 c ++
  mem_read OFF_format_chunk (Z.to_nat (8 + get format_chunk_size c)) c ++
  (if get fact_chunk_id c =? WAV_FACT_CHUNK_ID
   then mem_read OFF_fact_chunk (Z.to_nat (8 + get fact_chunk_size c)) c
   else []) ++
  mem_read OFF_data_chunk 8 c.

(** [g] is the stream [f0] written with [W] after a [fseek] to offset 0: an
    append stream takes [W] at its end, any other stream from its start. *)
Definition stream_written (f0 g : FILE) (W : list Byte.byte) : Prop :=
  f_mode g = f_mode f0 /\ f_name g = f_name f0 /\ f_error g = f_error f0 /\
  f_data g = (if stream_append f0 then f_data f0 ++ W
              else W ++ drop (length W) (f_data f0)) /\
  (stream_append f0 = false -> f_pos g = length W).

(** The stream [g] with its position at [p]. *)
Definition stream_at (g : FILE) (p : nat) : FILE :=
  mkFILE (f_name g) (f_mode g) (f_data g) p (f_eof g) (f_error g).

(** The stream of [pcm24_writer]. *)
Definition pcm24_stream : FILE :=
  Eval vm_compute in
    match fp pcm24_writer with
    | Some f => f
    | None => mkFILE String.EmptyString String.EmptyString [] 0 false false
    end.

(** The chunk of [pcm_reader] with a LIST chunk where the data chunk is. *)
Definition list_chunk_image : list Byte.byte :=
  Eval vm_compute in set data_chunk_id (le_decode (str_bytes "LIST")) (chunk pcm_reader).

(** What the getter of the member that a mutator stores returns afterwards.
    [wav_get_sample_size] divides the block alignment by the channel count,
    so it is given when that product fits its [uint16_t] member. *)
Definition reads_back (m : mutator) (self' : WavFile) : Prop :=
  match m with
  | SetFormat v => wav_get_format self' = u16 v
  | SetNumChannels v => wav_get_num_channels self' = u16 v
  | SetSampleRate v => wav_get_sample_rate self' = u32 v
  | SetValidBitsPerSample v => wav_get_valid_bits_per_sample self' = u16 v
  | SetSampleSize v =>
      fld bits_per_sample self' = u16 (usize v * 8) /\
      (usize v * fld n_channels self' < 2 ^ 16 ->
       wav_get_sample_size self' =
         if fld n_channels self' =? 0 then None else Some (usize v))
  | SetChannelMask v => wav_get_channel_mask self' = u32 v
  | SetSubFormat v => wav_get_sub_format self' = u16 v
  end.

(** [pcm24_writer] after [wav_set_format(WAV_FORMAT_IEEE_FLOAT)]. *)
Definition pcm24_float : WavFile :=
  Eval vm_compute in
    match wav_set_format pcm24_writer WAV_FORMAT_IEEE_FLOAT with
    | Some self => self
    | None => wav_zero
    end.

(** Members before the size of the fmt chunk or after the fmt chunk. *)
Definition outside_fmt (f : field) : Prop :=
  (f_off f + f_width f <= 16 \/ 60 <= f_off f)%nat.

(** The two bytes of [sub_format] that [wav_get_sub_format] loads. *)
Definition sub_format_head := Field OFF_sub_format 2.

(** The mutators that store [avg_bytes_per_sec]. *)
Definition sets_byte_rate (m : mutator) : bool :=
  match m with
  | SetNumChannels _ | SetSampleRate _ | SetSampleSize _ => true
  | _ => false
  end.

(** The handle of [wav_open("t.wav", "w")] on an empty file system. *)
Definition fresh_writer : WavFile :=
  Eval vm_compute in
    match wav_init alloc_always ∅ "t.wav" "w" with
    | Some r => fst r
    | None => wav_zero
    end.

(** The stream of [fresh_writer]. *)
Definition fresh_stream : FILE :=
  Eval vm_compute in
    match fp fresh_writer with
    | Some f => f
    | None => mkFILE String.EmptyString String.EmptyString [] 0 false false
    end.

(** What [wav_seek] adds to [offset] for each [origin]. *)
Definition seek_base (self : WavFile) (origin : Z) : option Z :=
  if origin =? SEEK_CUR then fst <$> wav_tell self
  else if origin =? SEEK_END then wav_get_length self
  else Some 0.

(** The two's complement value of a [bits]-bit pattern. *)
Definition signed (bits v : Z) : Z :=
  if v <? 2 ^ (bits - 1) then v else v - 2 ^ bits.

(** An allocator that always fails. *)
Definition alloc_never (_ : Z) : bool := false.

(** [pcm24_writer] after a [wav_write] of two frames whose allocation
    fails. *)
Definition pcm24_nomem : WavFile :=
  Eval vm_compute in
    match wav_write alloc_never pcm24_writer pcm24_frames 2 with
    | Some (_, self) => self
    | None => wav_zero
    end.

(** * Properties *)

(** ** Bytes and fields *)

Lemma byte_to_Z_range (b : Byte.byte) : 0 <= byte_to_Z b < 256.
Proof. destruct b; vm_compute; split; congruence. Qed.

Lemma Z_to_byte_to_Z (b : Byte.byte) : Z_to_byte (byte_to_Z b) = b.
Proof. destruct b; reflexivity. Qed.

Lemma byte_to_Z_to_byte (z : Z) : byte_to_Z (Z_to_byte z) = z mod 256.
Proof.
  unfold byte_to_Z, Z_to_byte.
  assert (Hr : 0 <= z mod 256 < 256) by (apply Z.mod_pos_bound; lia).
  destruct (Byte.of_N (Z.to_N (z mod 256))) as [b|] eqn:E.
  - apply Byte.to_of_N in E. rewrite E. lia.
  - apply Byte.of_N_None_iff in E. lia.
Qed.

Lemma length_le_encode (n : nat) (v : Z) : length (le_encode n v) = n.
Proof. revert v; induction n as [|n IH]; intros v; simpl; [reflexivity|]. now rewrite IH. Qed.

Lemma le_decode_encode (n : nat) (v : Z) :
  le_decode (le_encode n v) = v mod 2 ^ (8 * Z.of_nat n).
Proof.
  revert v; induction n as [|n IH]; intros v.
  - simpl. now rewrite Z.mod_1_r.
  - cbn [le_encode le_decode]. rewrite IH, byte_to_Z_to_byte.
    replace (8 * Z.of_nat (S n)) with (8 + 8 * Z.of_nat n) by lia.
    rewrite Z.pow_add_r by lia. change (2 ^ 8) with 256.
    rewrite Z.rem_mul_r by lia. reflexivity.
Qed.

Lemma le_decode_range (bs : list Byte.byte) :
  0 <= le_decode bs < 2 ^ (8 * Z.of_nat (length bs)).
Proof.
  induction bs as [|b r IH]; [simpl; lia|].
  cbn [le_decode length]. pose proof (byte_to_Z_range b).
  replace (8 * Z.of_nat (S (length r))) with (8 + 8 * Z.of_nat (length r)) by lia.
  rewrite Z.pow_add_r by lia. change (2 ^ 8) with 256. nia.
Qed.

Lemma length_mem_write (off : nat) (bs m : list Byte.byte) :
  (off + length bs <= length m)%nat -> length (mem_write off bs m) = length m.
Proof.
  intros H. unfold mem_write.
  rewrite !length_app, length_take, length_drop. lia.
Qed.

Lemma lookup_mem_write (off : nat) (bs m : list Byte.byte) (i : nat) :
  (off <= length m)%nat ->
  mem_write off bs m !! i =
  if decide (off <= i < off + length bs)%nat then bs !! (i - off)%nat else m !! i.
Proof.
  intros H. unfold mem_write.
  destruct (decide (i < off)%nat) as [Hlt|Hge].
  - rewrite lookup_app_l by (rewrite length_take; lia).
    rewrite lookup_take_lt by lia. destruct (decide _); [lia|reflexivity].
  - rewrite lookup_app_r by (rewrite length_take; lia).
    rewrite length_take. replace (off `min` length m)%nat with off by lia.
    destruct (decide (i - off < length bs)%nat) as [Hin|Hout].
    + rewrite lookup_app_l by lia. destruct (decide _); [reflexivity|lia].
    + rewrite lookup_app_r by lia. rewrite lookup_drop.
      destruct (decide _); [lia|]. f_equal. lia.
Qed.

Lemma lookup_mem_read (off n : nat) (m : list Byte.byte) (i : nat) :
  mem_read off n m !! i = if decide (i < n)%nat then m !! (off + i)%nat else None.
Proof.
  unfold mem_read. rewrite lookup_take. destruct (decide _); [|reflexivity].
  apply lookup_drop.
Qed.

Lemma length_mem_read (off n : nat) (m : list Byte.byte) :
  (off + n <= length m)%nat -> length (mem_read off n m) = n.
Proof. intros H. unfold mem_read. rewrite length_take, length_drop. lia. Qed.

Lemma mem_read_write_same (off : nat) (bs m : list Byte.byte) :
  (off <= length m)%nat -> mem_read off (length bs) (mem_write off bs m) = bs.
Proof.
  intros H. apply list_eq; intros i.
  rewrite lookup_mem_read, lookup_mem_write by lia.
  destruct (decide (i < length bs)%nat).
  - destruct (decide _); [f_equal; lia|lia].
  - symmetry. apply lookup_ge_None. lia.
Qed.

Lemma mem_read_write_other (off : nat) (bs m : list Byte.byte) (off' n : nat) :
  (off <= length m)%nat ->
  (off' + n <= off \/ off + length bs <= off')%nat ->
  mem_read off' n (mem_write off bs m) = mem_read off' n m.
Proof.
  intros H Hd. apply list_eq; intros i.
  rewrite !lookup_mem_read. destruct (decide (i < n)%nat); [|reflexivity].
  rewrite lookup_mem_write by lia. destruct (decide _); [lia|reflexivity].
Qed.

Lemma length_set (f : field) (v : Z) (m : list Byte.byte) :
  field_in f m -> length (set f v m) = length m.
Proof.
  intros H. unfold set. apply length_mem_write. rewrite length_le_encode. exact H.
Qed.

Lemma get_set_same (f : field) (v : Z) (m : list Byte.byte) :
  field_in f m -> get f (set f v m) = v mod 2 ^ (8 * Z.of_nat (f_width f)).
Proof.
  intros H. unfold get, set. unfold field_in in H.
  rewrite <- (length_le_encode (f_width f) v) at 1.
  rewrite mem_read_write_same by lia. apply le_decode_encode.
Qed.

Lemma get_set_other (f g : field) (v : Z) (m : list Byte.byte) :
  field_in g m -> disjoint f g -> get f (set g v m) = get f m.
Proof.
  intros H Hd. unfold get, set. unfold field_in in H. unfold disjoint in Hd.
  rewrite mem_read_write_other; [reflexivity|lia|rewrite length_le_encode; lia].
Qed.

Lemma get_range (f : field) (m : list Byte.byte) :
  0 <= get f m < 2 ^ (8 * Z.of_nat (f_width f)).
Proof.
  unfold get. pose proof (le_decode_range (mem_read (f_off f) (f_width f) m)) as H.
  assert (length (mem_read (f_off f) (f_width f) m) <= f_width f)%nat
    by (unfold mem_read; rewrite length_take; lia).
  split; [lia|]. eapply Z.lt_le_trans; [apply H|].
  apply Z.pow_le_mono_r; lia.
Qed.

Lemma Z_to_byte_mod (z : Z) : Z_to_byte (z mod 256) = Z_to_byte z.
Proof. unfold Z_to_byte. now rewrite Z.mod_mod by lia. Qed.

Lemma le_encode_mod (n : nat) (v : Z) :
  le_encode n (v mod 2 ^ (8 * Z.of_nat n)) = le_encode n v.
Proof.
  revert v; induction n as [|n IH]; intros v; [reflexivity|].
  cbn [le_encode].
  replace (8 * Z.of_nat (S n)) with (8 + 8 * Z.of_nat n) by lia.
  rewrite Z.pow_add_r by lia. change (2 ^ 8) with 256.
  assert (Hk : 0 < 2 ^ (8 * Z.of_nat n)) by (apply Z.pow_pos_nonneg; lia).
  rewrite Z.rem_mul_r by lia.
  set (X := (v / 256) mod 2 ^ (8 * Z.of_nat n)).
  assert (E1 : (v mod 256 + 256 * X) mod 256 = v mod 256).
  { rewrite (Z.mul_comm 256 X), Z.mod_add by lia. apply Z.mod_mod. lia. }
  assert (E2 : (v mod 256 + 256 * X) / 256 = X).
  { rewrite (Z.mul_comm 256 X), Z.div_add by lia.
    rewrite Z.mod_div by lia. lia. }
  f_equal.
  - rewrite <- (Z_to_byte_mod (v mod 256 + 256 * X)), E1. apply Z_to_byte_mod.
  - rewrite E2. apply IH.
Qed.

Lemma set_mod (f : field) (v : Z) (m : list Byte.byte) :
  set f (v mod 2 ^ (8 * Z.of_nat (f_width f))) m = set f v m.
Proof. unfold set. now rewrite le_encode_mod. Qed.

Lemma set_set_same (f : field) (v w : Z) (m : list Byte.byte) :
  field_in f m -> set f v (set f w m) = set f v m.
Proof.
  intros H. unfold field_in in H. unfold set. apply list_eq; intros i.
  assert (Hl : length (mem_write (f_off f) (le_encode (f_width f) w) m) = length m)
    by (apply length_mem_write; rewrite length_le_encode; lia).
  rewrite !lookup_mem_write by lia. rewrite !length_le_encode.
  destruct (decide _); reflexivity.
Qed.

Ltac unfold_fields :=
  unfold chunk_id, chunk_size, chunk_wave_id, format_chunk_id, format_chunk_size,
    format_tag, n_channels, sample_rate, avg_bytes_per_sec, block_align,
    bits_per_sample, ext_size, valid_bits_per_sample, channel_mask,
    fact_chunk_id, fact_chunk_size, fact_sample_length, data_chunk_id,
    data_chunk_size, OFF_sub_format, OFF_format_chunk, OFF_fact_chunk,
    OFF_data_chunk in *.

(** Side conditions of the field lemmas: a member inside the image, two
    members apart. *)
Ltac field_side :=
  solve [ unfold field_in, disjoint, wf, sizeof_WavMasterChunk in *;
          repeat rewrite length_set by
            (unfold field_in, wf, sizeof_WavMasterChunk in *; unfold_fields;
             cbn [f_off f_width]; lia);
          unfold_fields; cbn [f_off f_width]; lia ].

(** ** The header writer *)

Lemma set_chunk_size_u32 (v : Z) (c : list Byte.byte) :
  set chunk_size (u32 v) c = set chunk_size v c.
Proof. apply (set_mod chunk_size). Qed.

Lemma header_chunk_update_eq (c : list Byte.byte) :
  length c = 80%nat ->
  header_chunk_update c = set chunk_size (riff_total c) c.
Proof.
  intros H. unfold header_chunk_update, riff_total.
  set (A := 4 + (WAV_RIFF_HEADER_SIZE + get format_chunk_size c)
              + (WAV_RIFF_HEADER_SIZE + get data_chunk_size c)).
  cbv zeta.
  set (c1 := set chunk_size A c).
  assert (G1 : get chunk_size c1 = u32 A) by (apply get_set_same; field_side).
  assert (I1 : get fact_chunk_id c1 = get fact_chunk_id c)
    by (apply get_set_other; field_side).
  assert (F1 : get fact_chunk_size c1 = get fact_chunk_size c)
    by (apply get_set_other; field_side).
  rewrite I1, G1, F1.
  set (B := WAV_RIFF_HEADER_SIZE + get fact_chunk_size c).
  assert (E2 : set chunk_size (u32 A + B) c1 = set chunk_size (u32 A + B) c)
    by (apply set_set_same; field_side).
  assert (G2 : get chunk_size (set chunk_size (u32 A + B) c) = u32 (u32 A + B))
    by (apply get_set_same; field_side).
  destruct (get fact_chunk_id c =? WAV_FACT_CHUNK_ID).
  - rewrite E2, G2. destruct (negb _).
    + rewrite set_set_same by field_side. now rewrite set_chunk_size_u32.
    + now rewrite set_chunk_size_u32.
  - rewrite G1. destruct (negb _).
    + subst c1. rewrite set_set_same by field_side. now rewrite set_chunk_size_u32.
    + subst c1. now rewrite set_chunk_size_u32.
Qed.

Lemma fwrite_chunk_inv (off : nat) (size : Z) (self : WavFile) (n : Z) (s' : WavFile) :
  fwrite_chunk off size self = Some (n, s') ->
  exists f', s' = with_fp (Some f') self.
Proof.
  unfold fwrite_chunk. destruct (fp self) as [f|]; [|discriminate].
  destruct (decide _); [|discriminate].
  destruct (fwrite _ _ _ _) as [n' f']. intros [= <- <-]. eauto.
Qed.

Lemma fwrite_chunk_Some (off : nat) (size : Z) (self : WavFile) (f : FILE) :
  fp self = Some f -> Z.of_nat off + size <= 80 ->
  exists n f', fwrite_chunk off size self = Some (n, with_fp (Some f') self).
Proof.
  intros Hf Hs. unfold fwrite_chunk. rewrite Hf.
  destruct (decide _) as [|Hn]; [|exfalso; apply Hn; unfold sizeof_WavMasterChunk; lia].
  destruct (fwrite _ _ _ _) as [n' f']. eauto.
Qed.

Lemma wav_write_header_inv (self self' : WavFile) :
  wf self -> wav_write_header self = Some self' ->
  exists f' e, (e = WAV_OK \/ e = WAV_ERR_OS) /\
    self' = mkWavFile (Some f') (filename self) (mode self) e
              (set chunk_size (riff_total (chunk self)) (chunk self))
              (tmp self) (tmp_size self).
Proof.
  intros Hwf. unfold wav_write_header.
  destruct (fp self) as [f|] eqn:Hfp; [|discriminate].
  fold (wav_header_sizes (with_fp (Some (fseek_set f 0).2) self)).
  assert (H3 : wav_header_sizes (with_fp (Some (fseek_set f 0).2) self)
               = mkWavFile (Some (fseek_set f 0).2) (filename self) (mode self)
                   (error_code self)
                   (set chunk_size (riff_total (chunk self)) (chunk self))
                   (tmp self) (tmp_size self)).
  { unfold wav_header_sizes. rewrite header_chunk_update_eq by exact Hwf. reflexivity. }
  rewrite H3. clear H3.
  repeat (match goal with
   | |- context [fwrite_chunk ?o ?z ?s] =>
       let E := fresh "E" in
       destruct (fwrite_chunk o z s) as [[? ?]|] eqn:E; [|discriminate];
       apply fwrite_chunk_inv in E; destruct E as [? ->]
   | |- context [if ?b then _ else _] => destruct b
   | |- Some _ = Some _ -> _ => intros [= <-]
   | |- None = Some _ -> _ => discriminate
   end; unfold with_fp, with_error_code; cbn [chunk fp filename mode error_code tmp tmp_size fst snd]);
  eauto 6.
Qed.

Lemma u32_odd (x : Z) : u32 x mod 2 = x mod 2.
Proof.
  unfold u32. apply Z.mod_mod_divide. exists (2 ^ 31). reflexivity.
Qed.

Lemma u32_add_l (a b : Z) : u32 (u32 a + b) = u32 (a + b).
Proof. unfold u32. apply Zplus_mod_idemp_l. Qed.

Lemma riff_total_eq (c : list Byte.byte) :
  let total := 4 + (8 + get format_chunk_size c) + (8 + get data_chunk_size c)
               + (if get fact_chunk_id c =? WAV_FACT_CHUNK_ID
                  then 8 + get fact_chunk_size c else 0) in
  riff_total c = u32 (if Z.odd total then total + 1 else total).
Proof.
  unfold riff_total. cbv zeta. change WAV_RIFF_HEADER_SIZE with 8.
  set (A := 4 + (8 + get format_chunk_size c) + (8 + get data_chunk_size c)).
  assert (H : forall t, (if negb (u32 t mod 2 =? 0) then u32 (u32 t + 1) else u32 t)
                        = u32 (if Z.odd t then t + 1 else t)).
  { intros t. rewrite u32_odd, Zmod_odd, u32_add_l. destruct (Z.odd t); reflexivity. }
  destruct (get fact_chunk_id c =? WAV_FACT_CHUNK_ID).
  - rewrite u32_add_l. apply H.
  - rewrite Z.add_0_r. apply H.
Qed.

Lemma wav_write_header_Some (self : WavFile) (f : FILE) :
  wf self -> fp self = Some f ->
  fld format_chunk_size self <= 60 ->
  (fld fact_chunk_id self = WAV_FACT_CHUNK_ID -> fld fact_chunk_size self <= 12) ->
  exists self', wav_write_header self = Some self'.
Proof.
  intros Hwf Hfp Hfmt Hfact. unfold wav_write_header. rewrite Hfp.
  set (s := wav_header_sizes _).
  assert (Hs : chunk s = set chunk_size (riff_total (chunk self)) (chunk self)).
  { subst s. unfold wav_header_sizes. cbn [chunk with_chunk with_fp].
    apply header_chunk_update_eq, Hwf. }
  assert (Gf : fld format_chunk_size s = fld format_chunk_size self)
    by (unfold fld; rewrite Hs; apply get_set_other; field_side).
  assert (Gi : fld fact_chunk_id s = fld fact_chunk_id self)
    by (unfold fld; rewrite Hs; apply get_set_other; field_side).
  assert (Gz : fld fact_chunk_size s = fld fact_chunk_size self)
    by (unfold fld; rewrite Hs; apply get_set_other; field_side).
  pose proof (get_range format_chunk_size (chunk self)) as Rf.
  pose proof (get_range fact_chunk_size (chunk self)) as Rz.
  change (2 ^ (8 * Z.of_nat (f_width format_chunk_size))) with (2 ^ 32) in Rf.
  change (2 ^ (8 * Z.of_nat (f_width fact_chunk_size))) with (2 ^ 32) in Rz.
  fold (fld format_chunk_size self) in Rf. fold (fld fact_chunk_size self) in Rz.
  assert (Hfps : fp s = Some (snd (fseek_set f 0))) by reflexivity.
  clearbody s.
  destruct (fwrite_chunk_Some 0 (WAV_RIFF_HEADER_SIZE + 4) s _ Hfps)
    as (n1 & f1 & E1); [unfold WAV_RIFF_HEADER_SIZE; lia |].
  rewrite E1. destruct (negb (n1 =? 1)); [eauto|].
  change (fld format_chunk_size (with_fp (Some f1) s)) with (fld format_chunk_size s).
  destruct (fwrite_chunk_Some OFF_format_chunk
              (u32 (WAV_RIFF_HEADER_SIZE + fld format_chunk_size s))
              (with_fp (Some f1) s) f1) as (n2 & f2 & E2); [reflexivity| |].
  { rewrite Gf. unfold u32, WAV_RIFF_HEADER_SIZE, OFF_format_chunk.
    rewrite Z.mod_small by lia. lia. }
  rewrite E2. destruct (negb (n2 =? 1)); [eauto|].
  change (fld fact_chunk_id (with_fp (Some f2) (with_fp (Some f1) s)))
    with (fld fact_chunk_id s).
  change (fld fact_chunk_size (with_fp (Some f2) (with_fp (Some f1) s)))
    with (fld fact_chunk_size s).
  rewrite Gi, Gz.
  assert (E3 : exists n3 f3,
    (if fld fact_chunk_id self =? WAV_FACT_CHUNK_ID
     then fwrite_chunk OFF_fact_chunk
            (u32 (WAV_RIFF_HEADER_SIZE + fld fact_chunk_size self))
            (with_fp (Some f2) (with_fp (Some f1) s))
     else Some (1, with_fp (Some f2) (with_fp (Some f1) s)))
    = Some (n3, with_fp (Some f3) s)).
  { destruct (fld fact_chunk_id self =? WAV_FACT_CHUNK_ID) eqn:Ef.
    - apply Z.eqb_eq in Ef. specialize (Hfact Ef).
      destruct (fwrite_chunk_Some OFF_fact_chunk
                  (u32 (WAV_RIFF_HEADER_SIZE + fld fact_chunk_size self))
                  (with_fp (Some f2) (with_fp (Some f1) s)) f2) as (n3 & f3 & E3);
        [reflexivity| |].
      + unfold u32, WAV_RIFF_HEADER_SIZE, OFF_fact_chunk.
        rewrite Z.mod_small by lia. lia.
      + exists n3, f3. exact E3.
    - exists 1, f2. reflexivity. }
  destruct E3 as (n3 & f3 & E3). rewrite E3.
  destruct (negb (n3 =? 1)); [eauto|].
  destruct (fwrite_chunk_Some OFF_data_chunk WAV_RIFF_HEADER_SIZE (with_fp (Some f3) s) f3)
    as (n4 & f4 & E4); [reflexivity|unfold WAV_RIFF_HEADER_SIZE, OFF_data_chunk; lia|].
  rewrite E4. destruct (negb (n4 =? 1)); eauto.
Qed.

(** C6: every run of the header writer stores, in the RIFF size member,
    4 + (8 + fmt size) + (8 + data size), plus 8 + fact size when the fact
    chunk is present, plus one when that sum is odd (the member is a
    [uint32_t], so the sum is taken modulo 2^32); the data size is left as it
    was, and the stored RIFF size is even. The writer returns whenever the
    stream exists and the declared fmt and fact sizes stay inside the
    struct. *)
Theorem write_header_riff_size (self : WavFile) (f : FILE) :
  wf self -> fp self = Some f ->
  fld format_chunk_size self <= 60 ->
  (fld fact_chunk_id self = WAV_FACT_CHUNK_ID -> fld fact_chunk_size self <= 12) ->
  exists self', wav_write_header self = Some self' /\
    let total := 4 + (8 + fld format_chunk_size self) + (8 + fld data_chunk_size self)
                 + (if fld fact_chunk_id self =? WAV_FACT_CHUNK_ID
                    then 8 + fld fact_chunk_size self else 0) in
    fld chunk_size self' = u32 (if Z.odd total then total + 1 else total) /\
    fld data_chunk_size self' = fld data_chunk_size self /\
    Z.even (fld chunk_size self') = true.
Proof.
  intros Hwf Hfp Hfmt Hfact.
  destruct (wav_write_header_Some self f Hwf Hfp Hfmt Hfact) as [self' E].
  exists self'. split; [exact E|].
  destruct (wav_write_header_inv self self' Hwf E) as (f' & e & _ & ->).
  unfold fld. cbn [chunk].
  rewrite get_set_same by field_side.
  rewrite get_set_other by field_side.
  change (2 ^ (8 * Z.of_nat (f_width chunk_size))) with (2 ^ 32).
  rewrite riff_total_eq. cbv zeta.
  set (total := 4 + _ + _ + _).
  fold (u32 (u32 (if Z.odd total then total + 1 else total))).
  assert (Hu : forall x, u32 (u32 x) = u32 x) by (intros x; unfold u32; apply Z.mod_mod; lia).
  rewrite Hu. split; [reflexivity|]. split; [reflexivity|].
  assert (Ho : u32 (if Z.odd total then total + 1 else total) mod 2 = 0).
  { rewrite u32_odd. destruct (Z.odd total) eqn:Eo.
    - rewrite Zmod_odd, Z.odd_add, Eo. reflexivity.
    - rewrite Zmod_odd, Eo. reflexivity. }
  rewrite <- Z.negb_odd. rewrite Zmod_odd in Ho.
  destruct (Z.odd (u32 _)); [discriminate|reflexivity].
Qed.

Lemma write_header_riff_size_witness :
  exists self', wav_write_header
                  (with_fp (Some (mkFILE "t.wav" "wb" [] 0 false false))
                     (set_fld data_chunk_size 3 (set_fld format_chunk_size 16 wav_zero)))
                = Some self' /\
                fld chunk_size self' = 40.
Proof.
  destruct (write_header_riff_size
              (with_fp (Some (mkFILE "t.wav" "wb" [] 0 false false))
                 (set_fld data_chunk_size 3 (set_fld format_chunk_size 16 wav_zero)))
              (mkFILE "t.wav" "wb" [] 0 false false))
    as (self' & E & H1 & _).
  - reflexivity.
  - reflexivity.
  - vm_compute. discriminate.
  - vm_compute. discriminate.
  - exists self'. split; [exact E|]. rewrite H1. reflexivity.
Defined.

(** ** Format mutators *)

Lemma wav_write_header_error (self self' : WavFile) :
  wav_write_header self = Some self' ->
  error_code self' = WAV_OK \/ error_code self' = WAV_ERR_OS.
Proof.
  unfold wav_write_header.
  destruct (fp self) as [f|]; [|discriminate].
  repeat (match goal with
   | |- context [fwrite_chunk ?o ?z ?s] =>
       let E := fresh "E" in
       destruct (fwrite_chunk o z s) as [[? ?]|] eqn:E; [|discriminate];
       apply fwrite_chunk_inv in E; destruct E as [? ->]
   | |- context [if ?b then _ else _] => destruct b
   | |- Some _ = Some _ -> _ => intros [= <-]
   | |- None = Some _ -> _ => discriminate
   end; cbn [fst snd]);
  cbn [error_code with_error_code]; auto.
Qed.

Ltac mutator_case :=
  repeat match goal with
  | |- Some _ = Some _ -> _ => intros [= <-]; intros _; split; reflexivity
  | |- None = Some _ -> _ => discriminate
  | |- wav_write_header _ = Some _ -> _ =>
      let E := fresh "E" in
      intros E; apply wav_write_header_error in E;
      intros [H|[H|H]]; destruct E as [E|E]; rewrite E in H; discriminate
  | |- context [match mode ?s with _ => _ end] => destruct (mode s)
  | |- context [if ?b then _ else _] => destruct b
  end.

(** C10: a format mutator that fails with a mode, parameter or format error
    leaves the chunk model and the stream exactly as they were: every such
    error is returned before the first member is stored and before the
    header writer runs. *)
Theorem mutator_failure_leaves_model (m : mutator) (self self' : WavFile) :
  run_mutator m self = Some self' ->
  error_code self' = WAV_ERR_MODE \/ error_code self' = WAV_ERR_PARAM
    \/ error_code self' = WAV_ERR_FORMAT ->
  chunk self' = chunk self /\ fp self' = fp self.
Proof.
  destruct m; cbn [run_mutator];
    [ unfold wav_set_format | unfold wav_set_num_channels | unfold wav_set_sample_rate
    | unfold wav_set_valid_bits_per_sample | unfold wav_set_sample_size
    | unfold wav_set_channel_mask | unfold wav_set_sub_format ];
    cbv zeta; mutator_case.
Qed.

Lemma mutator_failure_leaves_model_witness :
  run_mutator (SetNumChannels 0) pcm24_writer
    = Some (with_error_code WAV_ERR_PARAM pcm24_writer) /\
  chunk (with_error_code WAV_ERR_PARAM pcm24_writer) = chunk pcm24_writer /\
  fp (with_error_code WAV_ERR_PARAM pcm24_writer) = fp pcm24_writer.
Proof.
  split; [reflexivity|].
  apply (mutator_failure_leaves_model (SetNumChannels 0)).
  - reflexivity.
  - right. left. reflexivity.
Defined.

(** ** The header parser *)

Lemma fread_chunk_frame (off : nat) (size : Z) (self : WavFile) (n : Z) (s' : WavFile) :
  wf self -> fread_chunk off size self = Some (n, s') ->
  wf s' /\ error_code s' = error_code self /\
  forall g, (f_off g + f_width g <= off)%nat -> fld g s' = fld g self.
Proof.
  intros Hwf. unfold fread_chunk.
  destruct (fp self) as [f|]; [|discriminate].
  destruct (fread size 1 f) as [[bs k] f'].
  destruct (decide _) as [Hfit|]; [|discriminate].
  intros [= <- <-]. unfold wf, sizeof_WavMasterChunk in *.
  cbn [chunk with_fp with_chunk error_code].
  split; [rewrite length_mem_write; lia|]. split; [reflexivity|].
  intros g Hg. unfold fld, get. cbn [chunk].
  apply f_equal. apply mem_read_write_other; lia.
Qed.

Lemma set_fld_frame (f : field) (v : Z) (self : WavFile) :
  wf self -> field_in f (chunk self) ->
  wf (set_fld f v self) /\ error_code (set_fld f v self) = error_code self /\
  forall g, disjoint g f -> fld g (set_fld f v self) = fld g self.
Proof.
  intros Hwf Hin. unfold wf, set_fld, fld in *. cbn [chunk with_chunk error_code].
  split; [rewrite length_set; assumption|]. split; [reflexivity|].
  intros g Hg. apply get_set_other; assumption.
Qed.

Lemma wav_parse_header_cases (self self' : WavFile) :
  wf self -> wav_parse_header self = Some self' ->
  error_code self' = WAV_ERR_FORMAT \/
  (error_code self' = WAV_OK /\ accepted_tag (fld format_tag self')).
Proof.
  intros Hwf. unfold wav_parse_header.
  destruct (fread_chunk 0 _ self) as [[n1 s1]|] eqn:E1; [|discriminate].
  destruct (_ || _); [intros [= <-]; left; reflexivity|].
  destruct (fread_chunk 8 _ s1) as [[n2 s2]|] eqn:E2; [|discriminate].
  destruct (_ || _); [intros [= <-]; left; reflexivity|].
  destruct (fread_chunk OFF_format_chunk _ s2) as [[n3 s3]|] eqn:E3; [|discriminate].
  destruct (_ || _); [intros [= <-]; left; reflexivity|].
  destruct (fread_chunk (OFF_format_chunk + 8) _ s3) as [[n4 s4]|] eqn:E4; [|discriminate].
  destruct (negb (n4 =? 1)); [intros [= <-]; left; reflexivity|].
  destruct (negb _) eqn:Etag; [intros [= <-]; left; reflexivity|].
  assert (Hacc : accepted_tag (fld format_tag s4)).
  { apply negb_false_iff in Etag. unfold accepted_tag.
    repeat (apply orb_true_iff in Etag; destruct Etag as [Etag|Etag]);
      apply Z.eqb_eq in Etag; tauto. }
  clear Etag.
  apply fread_chunk_frame in E1; [|assumption]. destruct E1 as (W1 & _ & _).
  apply fread_chunk_frame in E2; [|assumption]. destruct E2 as (W2 & _ & _).
  apply fread_chunk_frame in E3; [|assumption]. destruct E3 as (W3 & _ & _).
  apply fread_chunk_frame in E4; [|assumption]. destruct E4 as (W4 & _ & _).
  destruct (fread_chunk OFF_fact_chunk _ s4) as [[n5 s5]|] eqn:E5; [|discriminate].
  apply fread_chunk_frame in E5; [|assumption]. destruct E5 as (W5 & _ & T5).
  rewrite <- (T5 format_tag) in Hacc by (unfold OFF_fact_chunk; field_side).
  destruct (negb (n5 =? 1)); [intros [= <-]; left; reflexivity|].
  destruct (fld fact_chunk_id s5 =? WAV_FACT_CHUNK_ID).
  - destruct (fread_chunk (OFF_fact_chunk + 8) _ s5) as [[n6 s6]|] eqn:E6; [|discriminate].
    apply fread_chunk_frame in E6; [|assumption]. destruct E6 as (W6 & _ & T6).
    rewrite <- (T6 format_tag) in Hacc by (unfold OFF_fact_chunk; field_side).
    destruct (negb (n6 =? 1)); [intros [= <-]; left; reflexivity|].
    destruct (fread_chunk OFF_data_chunk _ s6) as [[n7 s7]|] eqn:E7; [|discriminate].
    apply fread_chunk_frame in E7; [|assumption]. destruct E7 as (W7 & _ & T7).
    rewrite <- (T7 format_tag) in Hacc by (unfold OFF_data_chunk; field_side).
    destruct (negb (n7 =? 1)); intros [= <-]; [left; reflexivity|].
    right. split; [reflexivity|exact Hacc].
  - destruct (fld fact_chunk_id s5 =? WAV_DATA_CHUNK_ID); intros [= <-].
    + right. split; [reflexivity|].
      change (fld format_tag (with_error_code WAV_OK ?s)) with (fld format_tag s).
      destruct (set_fld_frame data_chunk_id (fld fact_chunk_id s5) s5 W5) as (Wa & _ & Ta);
        [field_side|].
      set (sa := set_fld data_chunk_id _ s5) in *.
      destruct (set_fld_frame data_chunk_size (fld fact_chunk_size sa) sa Wa) as (Wb & _ & Tb);
        [field_side|].
      set (sb := set_fld data_chunk_size _ sa) in *.
      destruct (set_fld_frame fact_chunk_size 0 sb Wb) as (Wc & _ & Tc); [field_side|].
      rewrite Tc, Tb, Ta by field_side. exact Hacc.
    + right. split; [reflexivity|exact Hacc].
Qed.

(** C4 (as stated): a well-formed file whose fmt chunk carries the
    extensible tag is not accepted; the parser reads the tag and stops with
    a format error. *)
Lemma parse_header_extensible_rejected :
  option_map (fun s => (fld format_tag s, error_code s))
             (wav_parse_header (reader_on extensible_wav))
  = Some (WAV_FORMAT_EXTENSIBLE, WAV_ERR_FORMAT).
Proof. vm_compute. reflexivity. Qed.

(** C4 (amended): when the parser returns and the format tag in the chunk
    is none of PCM, IEEE float, A-law, mu-law, the status is the format
    error; the extensible tag is no exception. *)
Theorem parse_header_tag_gate (self self' : WavFile) :
  wf self -> wav_parse_header self = Some self' ->
  (~ accepted_tag (fld format_tag self') -> error_code self' = WAV_ERR_FORMAT) /\
  (fld format_tag self' = WAV_FORMAT_EXTENSIBLE -> error_code self' = WAV_ERR_FORMAT).
Proof.
  intros Hwf E.
  destruct (wav_parse_header_cases self self' Hwf E) as [H|[_ H]].
  - split; intros _; exact H.
  - split.
    + intros Hn. contradiction.
    + intros Ht. rewrite Ht in H. unfold accepted_tag in H.
      destruct H as [H|[H|[H|H]]]; discriminate H.
Qed.

Lemma parse_header_tag_gate_witness :
  exists self', wav_parse_header (reader_on extensible_wav) = Some self' /\
                fld format_tag self' = WAV_FORMAT_EXTENSIBLE /\
                error_code self' = WAV_ERR_FORMAT.
Proof.
  destruct (wav_parse_header (reader_on extensible_wav)) as [self'|] eqn:E.
  - exists self'. split; [reflexivity|].
    assert (Ht : fld format_tag self' = WAV_FORMAT_EXTENSIBLE).
    { revert E. vm_compute. intros [= <-]. reflexivity. }
    split; [exact Ht|].
    apply (parse_header_tag_gate (reader_on extensible_wav) self');
      [reflexivity | exact E | exact Ht].
  - exfalso. revert E. vm_compute. discriminate.
Defined.

(** The parser does accept the four plain tags: the canonical PCM file
    parses to OK. *)
Example parse_header_pcm :
  option_map (fun s => (error_code s, fld format_tag s, fld n_channels s,
                        fld block_align s, fld data_chunk_size s,
                        wav_get_header_size s))
             (wav_parse_header (reader_on pcm_wav))
  = Some (WAV_OK, 1, 2, 4, 8, 44).
Proof. vm_compute. reflexivity. Qed.

(** ** Open modes *)

(** C8 (evaluation): [wav_init] compares with [strncmp] over the length of
    each literal, so only a prefix is tested. Every string that starts with
    r, w or a is taken (as "rb", "wb", "ab"): "rz" is opened as "rb" and
    parses the file to OK instead of failing with a mode error, and "r+",
    "w+", "wx", "a+" lose their suffix. *)
Theorem wav_init_mode_prefix :
  (forall s, wav_init_mode (String "r" s) = Some "rb"%string) /\
  (forall s, wav_init_mode (String "w" s) = Some "wb"%string) /\
  (forall s, wav_init_mode (String "a" s) = Some "ab"%string) /\
  option_map (fun r => (error_code (fst r), mode (fst r)))
    (wav_init alloc_always {["t.wav"%string := pcm_wav]} "t.wav" "rz")
  = Some (WAV_OK, Some "rb"%string).
Proof.
  split; [intros s; reflexivity|].
  split; [intros s; reflexivity|].
  split; [intros s; reflexivity|].
  vm_compute. reflexivity.
Qed.

(** C3 (evaluation): the mode tests of [wav_read] and [wav_write] are
    prefix tests too. A handle opened with "w+" refuses [wav_read] with a
    mode error, a handle opened with "r+" refuses [wav_write] with a mode
    error, and so would handles whose mode string were "wb+" or "rb+". *)
Theorem read_write_mode_gate :
  (exists self fs,
     wav_init alloc_always ∅ "t.wav" "w+" = Some (self, fs) /\
     option_map (fun r => (fst (fst r), error_code (snd (fst r))))
       (wav_read alloc_always self [replicate 4 Byte.x00; replicate 4 Byte.x00] 1)
     = Some (0, WAV_ERR_MODE)) /\
  (exists self fs,
     wav_init alloc_always {["t.wav"%string := pcm_wav]} "t.wav" "r+" = Some (self, fs) /\
     error_code self = WAV_OK /\
     option_map (fun r => (fst r, error_code (snd r)))
       (wav_write alloc_always self [replicate 4 Byte.x00; replicate 4 Byte.x00] 1)
     = Some (0, WAV_ERR_MODE)) /\
  (forall self buffers count r,
     mode self = Some "wb+"%string ->
     wav_read alloc_always self buffers count = Some r ->
     error_code (snd (fst r)) = WAV_ERR_MODE) /\
  (forall self buffers count r,
     mode self = Some "rb+"%string ->
     wav_write alloc_always self buffers count = Some r ->
     error_code (snd r) = WAV_ERR_MODE).
Proof.
  split; [|split; [|split]].
  - eexists. eexists. split; [vm_compute; reflexivity|]. vm_compute. reflexivity.
  - eexists. eexists. split; [vm_compute; reflexivity|].
    split; vm_compute; reflexivity.
  - intros self buffers count r Hm. unfold wav_read.
    destruct (wav_get_sample_size self); [|discriminate].
    destruct (wav_calc_container_size _); [|discriminate].
    rewrite Hm. cbn. intros [= <-]. reflexivity.
  - intros self buffers count r Hm. unfold wav_write.
    destruct (wav_get_sample_size self); [|discriminate].
    destruct (wav_calc_container_size _); [|discriminate].
    rewrite Hm. cbn. intros [= <-]. reflexivity.
Qed.

(** C2 (evaluation): on the canonical PCM file (header 44 bytes, block
    alignment 4, two frames), [wav_seek(0, SEEK_END)] validates the offset
    and returns OK, but leaves the stream at byte 4, the block alignment,
    not at 44 + 2 * 4 = 52; [wav_tell] then meets its assertion. The range
    check itself holds: [wav_seek(3, SEEK_SET)] is a parameter error and the
    stream stays where it was. *)
Theorem wav_seek_lands_on_block_align :
  exists self,
    wav_parse_header (reader_on pcm_wav) = Some self /\
    error_code self = WAV_OK /\
    wav_get_header_size self = 44 /\ wav_get_length self = Some 2 /\
    option_map ftell (fp self) = Some 44 /\
    (exists self',
       wav_seek self 0 SEEK_END = Some (WAV_OK, self') /\
       option_map ftell (fp self') = Some 4 /\
       wav_tell self' = None) /\
    (exists self',
       wav_seek self 3 SEEK_SET = Some (WAV_ERR_PARAM, self') /\
       fp self' = fp self).
Proof.
  eexists. split; [vm_compute; reflexivity|].
  split; [reflexivity|]. split; [reflexivity|]. split; [reflexivity|].
  split; [reflexivity|]. split.
  - eexists. split; [vm_compute; reflexivity|]. split; reflexivity.
  - eexists. split; [vm_compute; reflexivity|]. reflexivity.
Qed.

(** C5 (evaluation): opening for writing sets 2 channels, 44100 Hz, 16
    bits, block alignment 4, no fact chunk; but the declared fmt size is the
    difference of two [uint16_t*] pointers, 8 (elements), not 16 (bytes),
    so the header has 36 bytes, not 44, and 36 bytes are written. *)
Theorem wav_init_write_defaults (alloc_ok : Z -> bool)
    (fs : gmap string (list Byte.byte)) (name : string) :
  exists self fs',
    wav_init alloc_ok fs name "w" = Some (self, fs') /\
    error_code self = WAV_OK /\
    fld format_tag self = WAV_FORMAT_PCM /\
    fld n_channels self = 2 /\ fld sample_rate self = 44100 /\
    fld bits_per_sample self = 16 /\ fld block_align self = 4 /\
    fld fact_chunk_id self <> WAV_FACT_CHUNK_ID /\
    fld format_chunk_size self = 8 /\
    wav_get_header_size self = 36 /\
    option_map (fun f => length (f_data f)) (fp self) = Some 36%nat.
Proof.
  unfold wav_init. cbn [wav_init_mode]. 
  change (wav_init_mode "w") with (Some "wb"%string). cbv iota.
  unfold fopen. change (Ascii.eqb (str_head "wb") "r") with false.
  change (Ascii.eqb (str_head "wb") "w") with true.
  change (str_has "x" "wb") with false. cbv iota. cbn [andb].
  cbv beta iota zeta.
  change (Ascii.eqb (str_head "wb") "a") with false. cbv iota.
  eexists. eexists. split.
  - vm_compute. reflexivity.
  - vm_compute. repeat split; try reflexivity. discriminate.
Qed.

(** ** Finalizing *)

Lemma wav_get_header_size_range (self : WavFile) :
  0 <= wav_get_header_size self < 2 ^ 33.
Proof.
  unfold wav_get_header_size.
  set (h := u32 _).
  assert (Hh : 0 <= h < 2 ^ 32) by (apply Z.mod_pos_bound; lia).
  destruct (_ =? _); [|lia].
  set (k := u32 _).
  assert (Hk : 0 <= k < 2 ^ 32) by (apply Z.mod_pos_bound; lia).
  unfold usize. rewrite Z.mod_small; lia.
Qed.

Lemma wav_eof_at_boundary (r : WavFile) (g : FILE) :
  fp r = Some g ->
  ftell g = wav_get_header_size r + fld data_chunk_size r ->
  wav_eof r = Some true.
Proof.
  intros Hg Ht. unfold wav_eof. rewrite Hg. f_equal.
  pose proof (wav_get_header_size_range r) as Hh.
  pose proof (get_range data_chunk_size (chunk r)) as Hd.
  change (2 ^ (8 * Z.of_nat (f_width data_chunk_size))) with (2 ^ 32) in Hd.
  fold (fld data_chunk_size r) in Hd.
  unfold usize, slong. rewrite (Z.mod_small (_ + fld _ _)) by lia.
  rewrite Z.mod_small by lia.
  apply orb_true_iff. right. apply Z.eqb_eq. lia.
Qed.

Lemma fwrite_writable (bs : list Byte.byte) (size nmemb : Z) (f : FILE) :
  stream_writable f = true -> size <> 0 ->
  fwrite bs size nmemb f =
    (nmemb,
     mkFILE (f_name f) (f_mode f)
       (mem_write (write_start f) bs
          (f_data f ++ replicate (write_start f - length (f_data f)) Byte.x00))
       (write_start f + length bs) (f_eof f) (f_error f)).
Proof.
  intros Hw Hs. unfold fwrite, write_start. rewrite Hw. cbn [negb].
  destruct (size =? 0) eqn:E; [apply Z.eqb_eq in E; contradiction|]. reflexivity.
Qed.



(** ** Loops over buffers *)

Section Loops.
Local Open Scope nat_scope.

Lemma for_range_inv {S : Type} (P : nat -> S -> Prop) (body : nat -> S -> option S) :
  forall n lo s,
    P lo s ->
    (forall i s, lo <= i < lo + n -> P i s ->
       exists s', body i s = Some s' /\ P (Datatypes.S i) s') ->
    exists s', for_range lo n body s = Some s' /\ P (lo + n) s'.
Proof.
  induction n as [|n IH]; intros lo s H0 Hstep.
  - exists s. split; [reflexivity|]. now rewrite Nat.add_0_r.
  - cbn [for_range].
    destruct (Hstep lo s) as (s1 & E1 & H1); [lia|exact H0|].
    rewrite E1.
    destruct (IH (Datatypes.S lo) s1 H1) as (s' & E & H').
    + intros i s2 Hi. apply Hstep. lia.
    + exists s'. split; [exact E|]. now replace (lo + Datatypes.S n) with (Datatypes.S lo + n) by lia.
Qed.

(** Storing [g k] at [base + k] of channel [i] for [k] in [lo, lo + n). *)
Lemma buf_store_range (g : nat -> option Byte.byte) (i base : nat) :
  forall n lo (s : list (list Byte.byte)) ch,
    s !! i = Some ch -> base + lo + n <= length ch ->
    (forall k, lo <= k < lo + n -> is_Some (g k)) ->
    exists c,
      for_range lo n
        (fun k bufs => match g k with
                       | Some b => buf_store bufs i (base + k) b
                       | None => None
                       end) s = Some (<[i := c]> s) /\
      length c = length ch /\
      (forall k, lo <= k < lo + n -> c !! (base + k) = g k) /\
      (forall off, ~ (base + lo <= off < base + lo + n) -> c !! off = ch !! off).
Proof.
  induction n as [|n IH]; intros lo s ch Hi Hlen Hg.
  - exists ch. cbn [for_range]. rewrite list_insert_id by exact Hi.
    split; [reflexivity|]. split; [reflexivity|]. split; [intros; lia|reflexivity].
  - cbn [for_range]. destruct (Hg lo) as [b Hb]; [lia|]. rewrite Hb.
    unfold buf_store at 1. rewrite Hi.
    destruct (decide (base + lo < length ch)) as [_|Hn]; [|lia].
    assert (Hil : i < length s) by (eapply lookup_lt_Some; exact Hi).
    destruct (IH (Datatypes.S lo) (<[i := <[base + lo := b]> ch]> s) (<[base + lo := b]> ch))
      as (c & E & L & Hin & Hout).
    + apply list_lookup_insert_eq. exact Hil.
    + rewrite length_insert. lia.
    + intros k Hk. apply Hg. lia.
    + exists c. rewrite E, list_insert_insert_eq.
      split; [reflexivity|]. split; [rewrite L; apply length_insert|]. split.
      * intros k Hk. destruct (decide (k = lo)) as [->|Hne].
        -- rewrite Hout by lia. rewrite list_lookup_insert_eq by lia. now rewrite Hb.
        -- apply Hin. lia.
      * intros off Hoff. rewrite Hout by lia. apply list_lookup_insert_ne. lia.
Qed.

(** The same for the scratch buffer. *)
Lemma tmp_store_range (g : nat -> option Byte.byte) (base : nat) :
  forall n lo (t : list Byte.byte),
    base + lo + n <= length t ->
    (forall k, lo <= k < lo + n -> is_Some (g k)) ->
    exists t',
      for_range lo n
        (fun k t => match g k with
                    | Some b => tmp_store t (base + k) b
                    | None => None
                    end) t = Some t' /\
      length t' = length t /\
      (forall k, lo <= k < lo + n -> t' !! (base + k) = g k) /\
      (forall off, ~ (base + lo <= off < base + lo + n) -> t' !! off = t !! off).
Proof.
  induction n as [|n IH]; intros lo t Hlen Hg.
  - exists t. cbn [for_range].
    split; [reflexivity|]. split; [reflexivity|]. split; [intros; lia|reflexivity].
  - cbn [for_range]. destruct (Hg lo) as [b Hb]; [lia|]. rewrite Hb.
    unfold tmp_store at 1.
    destruct (decide (base + lo < length t)) as [_|Hn]; [|lia].
    destruct (IH (Datatypes.S lo) (<[base + lo := b]> t)) as (t' & E & L & Hin & Hout).
    + rewrite length_insert. lia.
    + intros k Hk. apply Hg. lia.
    + exists t'. rewrite E.
      split; [reflexivity|]. split; [rewrite L; apply length_insert|]. split.
      * intros k Hk. destruct (decide (k = lo)) as [->|Hne].
        -- rewrite Hout by lia. rewrite list_lookup_insert_eq by lia. now rewrite Hb.
        -- apply Hin. lia.
      * intros off Hoff. rewrite Hout by lia. apply list_lookup_insert_ne. lia.
Qed.

End Loops.

Section ReadLoops.
Local Open Scope nat_scope.

Lemma interleave_index_bound (nch ss N i j k : nat) :
  i < nch -> j < N -> k < ss -> j * nch * ss + i * ss + k < nch * N * ss.
Proof.
  intros Hi Hj Hk.
  assert (H1 : i * ss + k < nch * ss) by nia.
  assert (H2 : j * nch * ss + nch * ss <= N * nch * ss).
  { replace (j * nch * ss + nch * ss) with ((j + 1) * (nch * ss)) by lia.
    replace (N * nch * ss) with (N * (nch * ss)) by lia.
    apply Nat.mul_le_mono_r. lia. }
  replace (nch * N * ss) with (N * nch * ss) by lia. lia.
Qed.

Lemma interleave_index_inj (nch ss i j k i' j' k' : nat) :
  i < nch -> k < ss -> i' < nch -> k' < ss ->
  j * nch * ss + i * ss + k = j' * nch * ss + i' * ss + k' ->
  i = i' /\ j = j' /\ k = k'.
Proof.
  intros Hi Hk Hi' Hk' E.
  assert (E1 : (j * nch + i) * ss + k = (j' * nch + i') * ss + k') by lia.
  destruct (Nat.div_mod_unique ss (j * nch + i) (j' * nch + i') k k') as [E2 ->];
    [lia|lia|lia|].
  destruct (Nat.div_mod_unique nch j j' i i') as [-> ->]; [lia|lia|lia|].
  auto.
Qed.

Lemma wav_read_sample_spec (nch ss cs : nat) (t : list Byte.byte) (i j : nat)
    (s : list (list Byte.byte)) (ch : list Byte.byte) :
  s !! i = Some ch -> 1 <= ss -> ss <= cs ->
  j * cs + cs <= length ch ->
  j * nch * ss + i * ss + ss <= length t ->
  exists c,
    wav_read_sample nch ss cs t i j s = Some (<[i := c]> s) /\
    length c = length ch /\
    (forall k, k < cs -> c !! (j * cs + k) = deinterleaved nch ss t i j k) /\
    (forall off, ~ (j * cs <= off < j * cs + cs) -> c !! off = ch !! off).
Proof.
  intros Hi Hss Hcs Hlen Ht. unfold wav_read_sample.
  assert (Hil : i < length s) by (eapply lookup_lt_Some; exact Hi).
  destruct (buf_store_range (fun k => t !! (j * nch * ss + i * ss + k)) i (j * cs)
              ss 0 s ch Hi) as (c1 & E1 & L1 & In1 & Out1); [lia| |].
  { intros k Hk. apply lookup_lt_is_Some. lia. }
  rewrite E1. clear E1.
  destruct (decide (j * cs + ss = 0)) as [|_]; [lia|].
  unfold buf_load. rewrite list_lookup_insert_eq by exact Hil.
  replace (j * cs + ss - 1) with (j * cs + (ss - 1)) by lia.
  rewrite In1 by lia.
  destruct (lookup_lt_is_Some_2 t (j * nch * ss + i * ss + (ss - 1))) as [top Htop]; [lia|].
  rewrite Htop.
  assert (Hfill : exists c,
    for_range ss (cs - ss)
      (fun k bufs => buf_store bufs i (j * cs + k) (sign_fill top)) (<[i := c1]> s)
      = Some (<[i := c]> s) /\
    length c = length ch /\
    (forall k, ss <= k < cs -> c !! (j * cs + k) = Some (sign_fill top)) /\
    (forall off, ~ (j * cs + ss <= off < j * cs + cs) -> c !! off = c1 !! off)).
  { destruct (buf_store_range (fun _ => Some (sign_fill top)) i (j * cs)
                (cs - ss) ss (<[i := c1]> s) c1) as (c2 & E2 & L2 & In2 & Out2).
    - apply list_lookup_insert_eq. exact Hil.
    - lia.
    - intros; eauto.
    - exists c2. cbv beta iota in E2. rewrite E2, list_insert_insert_eq.
      split; [reflexivity|]. split; [lia|]. split.
      + intros k Hk. apply In2. lia.
      + intros off Hoff. apply Out2. lia. }
  destruct Hfill as (c2 & E2 & L2 & In2 & Out2).
  exists c2. split.
  { unfold sign_fill in E2. destruct (negb _); exact E2. }
  split; [exact L2|]. split.
  - intros k Hk. unfold deinterleaved. destruct (decide (k < ss)) as [Hlt|Hge].
    + rewrite Out2 by lia. apply In1. lia.
    + rewrite In2 by lia.
      replace (j * nch * ss + i * ss + ss - 1) with (j * nch * ss + i * ss + (ss - 1)) by lia.
      rewrite Htop. reflexivity.
  - intros off Hoff. rewrite Out2 by lia. apply Out1. lia.
Qed.

Lemma wav_read_frames_spec (nch ss cs N : nat) (t : list Byte.byte) (i : nat)
    (s : list (list Byte.byte)) (ch0 : list Byte.byte) :
  s !! i = Some ch0 -> 1 <= ss -> ss <= cs -> i < nch ->
  N * cs <= length ch0 -> nch * N * ss <= length t ->
  exists c,
    for_range 0 N (fun j bufs => wav_read_sample nch ss cs t i j bufs) s
      = Some (<[i := c]> s) /\
    chan_done nch ss cs t i N ch0 c.
Proof.
  intros Hi Hss Hcs Hin Hlen Ht.
  assert (Hil : i < length s) by (eapply lookup_lt_Some; exact Hi).
  destruct (for_range_inv
              (fun J s' => exists c, s' = <[i := c]> s /\ chan_done nch ss cs t i J ch0 c)
              (fun j bufs => wav_read_sample nch ss cs t i j bufs) N 0 s)
    as (s' & E & c & -> & Hc).
  - exists ch0. split; [symmetry; apply list_insert_id; exact Hi|].
    split; [reflexivity|]. split; [intros; lia|reflexivity].
  - intros j s1 Hj (c & -> & (L & Hd & Hf)).
    destruct (wav_read_sample_spec nch ss cs t i j (<[i := c]> s) c)
      as (c' & E' & L' & In' & Out'); [apply list_lookup_insert_eq; exact Hil|lia|lia|nia| |].
    { pose proof (interleave_index_bound nch ss N i j (ss - 1)). lia. }
    exists (<[i := c']> s). split; [rewrite E'; f_equal; apply list_insert_insert_eq|].
    exists c'. split; [reflexivity|].
    split; [lia|]. split.
    + intros j' k Hj' Hk. destruct (decide (j' = j)) as [->|Hne].
      * apply In'. exact Hk.
      * rewrite Out' by nia. apply Hd; lia.
    + intros off Hoff. rewrite Out' by nia. apply Hf. nia.
  - exists c. split; [exact E|exact Hc].
Qed.

Lemma wav_read_loops_spec (nch ss cs N : nat) (t : list Byte.byte)
    (buffers : list (list Byte.byte)) :
  1 <= ss -> ss <= cs -> nch * N * ss <= length t ->
  (forall i, i < nch -> exists ch, buffers !! i = Some ch /\ N * cs <= length ch) ->
  exists buffers',
    wav_read_loops nch ss cs N t buffers = Some buffers' /\
    length buffers' = length buffers /\
    (forall i ch, i < nch -> buffers !! i = Some ch ->
       exists c, buffers' !! i = Some c /\ chan_done nch ss cs t i N ch c) /\
    (forall i, nch <= i -> buffers' !! i = buffers !! i).
Proof.
  intros Hss Hcs Ht Hbuf. unfold wav_read_loops.
  destruct (for_range_inv
              (fun I s => length s = length buffers /\
                 (forall i ch, i < I -> buffers !! i = Some ch ->
                    exists c, s !! i = Some c /\ chan_done nch ss cs t i N ch c) /\
                 (forall i, I <= i -> s !! i = buffers !! i))
              (fun i bufs =>
                 for_range 0 N (fun j bufs => wav_read_sample nch ss cs t i j bufs) bufs)
              nch 0 buffers) as (s' & E & L & Hd & Hf).
  - split; [reflexivity|]. split; [intros; lia|reflexivity].
  - intros i s Hi (L & Hd & Hf).
    destruct (Hbuf i) as (ch & Hch & Hlen); [lia|].
    destruct (wav_read_frames_spec nch ss cs N t i s ch) as (c & E & Hc);
      [rewrite Hf by lia; exact Hch|lia|lia|lia|lia|lia|].
    exists (<[i := c]> s). split; [exact E|].
    assert (Hil : i < length s) by (rewrite L; eapply lookup_lt_Some; exact Hch).
    split; [rewrite length_insert; exact L|]. split.
    + intros i' ch' Hi' Hch'. destruct (decide (i' = i)) as [->|Hne].
      * exists c. split; [apply list_lookup_insert_eq; exact Hil|].
        rewrite Hch in Hch'. injection Hch' as <-. exact Hc.
      * rewrite list_lookup_insert_ne by lia. apply Hd; [lia|exact Hch'].
    + intros i' Hi'. rewrite list_lookup_insert_ne by lia. apply Hf. lia.
  - exists s'. split; [exact E|]. split; [exact L|]. split.
    + intros i ch Hi Hch. apply Hd; [lia|exact Hch].
    + intros i Hi. apply Hf. lia.
Qed.

End ReadLoops.

(** ** Reading *)

Lemma slong_small (x : Z) : 0 <= x < 2 ^ 63 -> slong x = x.
Proof. intros H. unfold slong. rewrite Z.mod_small; lia. Qed.

Lemma usize_small (x : Z) : 0 <= x < 2 ^ 64 -> usize x = x.
Proof. intros H. unfold usize. apply Z.mod_small. lia. Qed.

Lemma wav_tell_ok (self : WavFile) (f : FILE) :
  fp self = Some f ->
  wav_get_header_size self <= Z.of_nat (f_pos f) ->
  fld block_align self <> 0 ->
  wav_tell self =
    Some ((Z.of_nat (f_pos f) - wav_get_header_size self) / fld block_align self,
          with_error_code WAV_OK self).
Proof.
  intros Hf Hpos Hba. unfold wav_tell. rewrite Hf. unfold ftell.
  destruct (Z.of_nat (f_pos f) =? -1) eqn:E; [apply Z.eqb_eq in E; lia|].
  pose proof (wav_get_header_size_range self) as Hh.
  rewrite slong_small by lia.
  destruct (Z.of_nat (f_pos f) >=? wav_get_header_size self) eqn:E2;
    [|rewrite Z.geb_leb in E2; apply Z.leb_gt in E2; lia].
  cbn [negb]. destruct (fld block_align self =? 0) eqn:E3; [apply Z.eqb_eq in E3; lia|].
  pose proof (get_range block_align (chunk self)) as Hr. fold (fld block_align self) in Hr.
  rewrite Z.quot_div_nonneg by lia. reflexivity.
Qed.

Lemma wav_tmp_reserve_ok (alloc_ok : Z -> bool) (need : Z) (self : WavFile) :
  tmp_wf self -> 0 <= need -> alloc_ok need = true ->
  exists t0 n,
    wav_tmp_reserve alloc_ok need self = inr (with_tmp (Some t0) n self) /\
    need <= Z.of_nat (length t0) /\ Z.of_nat (length t0) = n.
Proof.
  intros Hwf Hn Ha. unfold wav_tmp_reserve, WAV_NEW. rewrite Ha.
  destruct (tmp_size self <? need) eqn:E.
  - cbn [orb]. eexists. eexists. split; [reflexivity|].
    rewrite length_replicate. lia.
  - cbn [orb]. unfold tmp_wf in Hwf. destruct (tmp self) as [t0|] eqn:Et.
    + rewrite bool_decide_eq_true_2 by eauto. cbn [negb].
      exists t0, (tmp_size self). apply Z.ltb_ge in E. split; [|lia].
      f_equal. destruct self; cbn in *. subst. reflexivity.
    + rewrite bool_decide_eq_false_2 by (intros [? ?]; discriminate). cbn [negb].
      eexists. eexists. split; [reflexivity|]. rewrite length_replicate. lia.
Qed.

Lemma fread_enough (size nmemb : Z) (f : FILE) :
  stream_readable f = true -> 0 < size -> 0 <= nmemb ->
  Z.of_nat (f_pos f) + size * nmemb <= Z.of_nat (length (f_data f)) ->
  fread size nmemb f =
    (take (Z.to_nat (size * nmemb)) (drop (f_pos f) (f_data f)), nmemb,
     mkFILE (f_name f) (f_mode f) (f_data f) (f_pos f + Z.to_nat (size * nmemb))
            (f_eof f) (f_error f)).
Proof.
  intros Hr Hs Hn Hlen. unfold fread. rewrite Hr. cbn [negb].
  assert (Hl : length (take (Z.to_nat (size * nmemb)) (drop (f_pos f) (f_data f)))
               = Z.to_nat (size * nmemb)).
  { rewrite length_take, length_drop. lia. }
  rewrite Hl. destruct (size =? 0) eqn:E; [apply Z.eqb_eq in E; lia|].
  rewrite Nat.ltb_irrefl, orb_false_r.
  rewrite Z2Nat.id by nia. rewrite Z.mul_comm, Z.div_mul by lia. reflexivity.
Qed.

Lemma chan_done_ext (nch ss cs : nat) (t t' : list Byte.byte) (i N : nat)
    (ch0 ch : list Byte.byte) :
  (forall x, (x < nch * N * ss)%nat -> t !! x = t' !! x) ->
  (i < nch)%nat -> (1 <= ss)%nat ->
  chan_done nch ss cs t i N ch0 ch -> chan_done nch ss cs t' i N ch0 ch.
Proof.
  intros Hext Hi Hss (L & Hd & Hf). split; [exact L|]. split; [|exact Hf].
  intros j k Hj Hk. rewrite (Hd j k Hj Hk). unfold deinterleaved.
  destruct (decide (k < ss)%nat).
  - apply Hext. apply interleave_index_bound; assumption.
  - f_equal. apply Hext.
    pose proof (interleave_index_bound nch ss N i j (ss - 1)). lia.
Qed.

Lemma container_size_cases (ss cs : Z) :
  1 <= ss <= 4 -> wav_container_sizes !! Z.to_nat ss = Some cs ->
  (ss = 1 /\ cs = 1) \/ (ss = 2 /\ cs = 2) \/ (ss = 3 /\ cs = 4) \/ (ss = 4 /\ cs = 4).
Proof.
  intros Hss H.
  assert (Hc : ss = 1 \/ ss = 2 \/ ss = 3 \/ ss = 4) by lia.
  destruct Hc as [-> | [-> | [-> | ->]]]; cbn in H; injection H as <-; auto 6.
Qed.

Lemma wav_read_spec (alloc_ok : Z -> bool) (self : WavFile)
    (buffers : list (list Byte.byte)) (count : Z) (f : FILE) (m : string) (ss cs : Z) :
  fp self = Some f -> mode self = Some m -> read_mode m = true ->
  fld format_tag self <> WAV_FORMAT_EXTENSIBLE ->
  fld n_channels self <> 0 ->
  fld block_align self / fld n_channels self = ss -> 1 <= ss <= 4 ->
  wav_container_sizes !! Z.to_nat ss = Some cs ->
  stream_readable f = true -> f_error f = false ->
  Z.of_nat (length (f_data f)) < 2 ^ 63 ->
  wav_get_header_size self <= Z.of_nat (f_pos f) < 2 ^ 63 ->
  forall remain c : Z,
  remain = fld data_chunk_size self / fld block_align self
           - (Z.of_nat (f_pos f) - wav_get_header_size self) / fld block_align self ->
  0 <= remain -> 0 <= count < 2 ^ 64 ->
  c = Z.min count remain ->
  tmp_wf self ->
  (0 < c -> alloc_ok (fld n_channels self * c * ss) = true) ->
  (0 < c ->
   Z.of_nat (f_pos f) + ss * (fld n_channels self * c) <= Z.of_nat (length (f_data f))) ->
  (forall i, (i < Z.to_nat (fld n_channels self))%nat ->
     exists ch, buffers !! i = Some ch /\ (Z.to_nat c * Z.to_nat cs <= length ch)%nat) ->
  exists self' buffers',
    wav_read alloc_ok self buffers count = Some (c, self', buffers') /\
    error_code self' = WAV_OK /\ chunk self' = chunk self /\
    length buffers' = length buffers /\
    (forall i ch, (i < Z.to_nat (fld n_channels self))%nat -> buffers !! i = Some ch ->
       exists c', buffers' !! i = Some c' /\
         chan_done (Z.to_nat (fld n_channels self)) (Z.to_nat ss) (Z.to_nat cs)
           (drop (f_pos f) (f_data f)) i (Z.to_nat c) ch c') /\
    (forall i, (Z.to_nat (fld n_channels self) <= i)%nat -> buffers' !! i = buffers !! i).
Proof.
  intros Hfp Hmode Hrm Htag Hnch Hss Hssr Hcs Hrd Herr Hsz Hpos remain c Hrem Hrem0 Hcount Hc
         Htmp Halloc Havail Hbuf.
  pose proof (get_range n_channels (chunk self)) as Rn. fold (fld n_channels self) in Rn.
  pose proof (get_range block_align (chunk self)) as Rb. fold (fld block_align self) in Rb.
  pose proof (get_range data_chunk_size (chunk self)) as Rd.
  fold (fld data_chunk_size self) in Rd.
  change (2 ^ (8 * Z.of_nat (f_width n_channels))) with (2 ^ 16) in Rn.
  change (2 ^ (8 * Z.of_nat (f_width block_align))) with (2 ^ 16) in Rb.
  change (2 ^ (8 * Z.of_nat (f_width data_chunk_size))) with (2 ^ 32) in Rd.
  set (nch := fld n_channels self) in *.
  set (ba := fld block_align self) in *.
  assert (Hba : ba <> 0).
  { intros E. rewrite E in Hss. rewrite Z.div_0_l in Hss by lia. lia. }
  pose proof (wav_get_header_size_range self) as Rh.
  assert (Htell0 : 0 <= (Z.of_nat (f_pos f) - wav_get_header_size self) / ba)
    by (apply Z.div_pos; lia).
  assert (Htell1 : (Z.of_nat (f_pos f) - wav_get_header_size self) / ba < 2 ^ 63).
  { apply Z.div_lt_upper_bound; [lia|]. nia. }
  assert (Hlen0 : 0 <= fld data_chunk_size self / ba < 2 ^ 32).
  { split; [apply Z.div_pos; lia|]. apply Z.div_lt_upper_bound; [lia|]. nia. }
  assert (Hc0 : 0 <= c) by lia.
  unfold wav_read. cbv zeta.
  rewrite (usize_small count) by lia.
  unfold wav_get_sample_size, wav_get_num_channels. fold nch ba.
  destruct (nch =? 0) eqn:En; [apply Z.eqb_eq in En; contradiction|]. rewrite Hss.
  unfold wav_calc_container_size.
  destruct (ss <? 0) eqn:Es; [apply Z.ltb_lt in Es; lia|]. rewrite Hcs, Hmode.
  unfold read_mode in Hrm. apply negb_true_iff in Hrm. rewrite Hrm.
  destruct (fld format_tag self =? WAV_FORMAT_EXTENSIBLE) eqn:Et;
    [apply Z.eqb_eq in Et; contradiction|].
  unfold wav_get_length. fold ba.
  destruct (ba =? 0) eqn:Eb; [apply Z.eqb_eq in Eb; contradiction|].
  rewrite (wav_tell_ok self f Hfp (proj1 Hpos) Hba). fold ba.
  cbn [error_code with_error_code WavErr_eqb negb].
  rewrite (usize_small ((Z.of_nat (f_pos f) - wav_get_header_size self) / ba)) by lia.
  rewrite <- Hrem. rewrite (usize_small remain) by lia.
  assert (Hmin : (if count <=? remain then count else remain) = c).
  { subst c. destruct (count <=? remain) eqn:E.
    - apply Z.leb_le in E. lia.
    - apply Z.leb_gt in E. lia. }
  rewrite Hmin.
  destruct (c =? 0) eqn:Ec0.
  { apply Z.eqb_eq in Ec0. subst c. rewrite Ec0.
    eexists. exists buffers. split; [reflexivity|].
    split; [reflexivity|]. split; [reflexivity|]. split; [reflexivity|]. split.
    - intros i ch Hi Hch. exists ch. split; [exact Hch|].
      split; [reflexivity|]. split; [intros; lia|reflexivity].
    - reflexivity. }
  apply Z.eqb_neq in Ec0.
  assert (Hcpos : 0 < c) by lia. specialize (Havail Hcpos).
  assert (Hneed : 0 <= nch * c * ss < 2 ^ 63) by nia.
  rewrite (usize_small (nch * c)) by nia.
  rewrite (usize_small (nch * c * ss)) by lia.
  destruct (wav_tmp_reserve_ok alloc_ok (nch * c * ss)
              (mkWavFile (fp self) (filename self) (mode self) WAV_OK (chunk self)
                         (tmp self) (tmp_size self)))
    as (t0 & n0 & Eres & Ht0 & _); [exact Htmp|lia|apply Halloc; lia|].
  unfold with_error_code at 1. rewrite Eres.
  cbn [fp tmp with_tmp]. rewrite Hfp.
  rewrite fread_enough by (try assumption; nia).
  assert (Hlbs : length (take (Z.to_nat (ss * (nch * c))) (drop (f_pos f) (f_data f)))
                 = Z.to_nat (ss * (nch * c))).
  { rewrite length_take, length_drop. lia. }
  destruct (decide _) as [Hfit|Hnfit]; [|exfalso; apply Hnfit; rewrite Hlbs; lia].
  unfold ferror. cbn [f_error]. rewrite Herr.
  replace (nch * c / nch) with c by (rewrite Z.mul_comm, Z.div_mul; lia).
  set (t := mem_write 0 _ t0).
  assert (Hcsc := container_size_cases ss cs Hssr Hcs).
  destruct (wav_read_loops_spec (Z.to_nat nch) (Z.to_nat ss) (Z.to_nat cs) (Z.to_nat c)
              t buffers) as (buffers' & El & Ll & Hd & Hf).
  - lia.
  - destruct Hcsc as [[-> ->] | [[-> ->] | [[-> ->] | [-> ->]]]]; lia.
  - subst t. rewrite length_mem_write by (rewrite Hlbs; lia).
    rewrite <- !Z2Nat.inj_mul by lia. lia.
  - exact Hbuf.
  - rewrite El. eexists. exists buffers'. split; [reflexivity|].
    split; [reflexivity|]. split; [reflexivity|]. split; [exact Ll|]. split; [|exact Hf].
    intros i ch Hi Hch. destruct (Hd i ch Hi Hch) as (c' & Hc' & Hdone).
    exists c'. split; [exact Hc'|].
    eapply chan_done_ext; [|exact Hi|lia|exact Hdone].
    intros x Hx. subst t. rewrite lookup_mem_write by lia.
    rewrite Hlbs.
    assert (Hx' : (x < Z.to_nat (ss * (nch * c)))%nat).
    { rewrite <- !Z2Nat.inj_mul in Hx by lia. lia. }
    destruct (decide _) as [_|Hn]; [|lia].
    rewrite Nat.sub_0_r. apply lookup_take_lt. exact Hx'.
Qed.

(** C7: on a handle whose mode passes the read test and whose tag is not
    extensible, [wav_read] clamps the requested count to the frames that
    remain (length minus frame position) and returns that many frames with
    status OK; with nothing left it returns 0 frames with status OK.
    Assumed: sample size 1 to 4, a readable stream without error whose
    position lies inside the recorded data and that holds the bytes the
    header records, a scratch buffer consistent with its recorded size, an
    allocator that serves the request, and room in the caller's buffers. *)
Theorem wav_read_clamps (alloc_ok : Z -> bool) (self : WavFile)
    (buffers : list (list Byte.byte)) (count : Z) (f : FILE) (m : string) (ss cs : Z) :
  fp self = Some f -> mode self = Some m -> read_mode m = true ->
  fld format_tag self <> WAV_FORMAT_EXTENSIBLE ->
  fld n_channels self <> 0 ->
  fld block_align self / fld n_channels self = ss -> 1 <= ss <= 4 ->
  wav_container_sizes !! Z.to_nat ss = Some cs ->
  stream_readable f = true -> f_error f = false ->
  Z.of_nat (length (f_data f)) < 2 ^ 63 ->
  wav_get_header_size self <= Z.of_nat (f_pos f) < 2 ^ 63 ->
  let remain :=
    fld data_chunk_size self / fld block_align self
    - (Z.of_nat (f_pos f) - wav_get_header_size self) / fld block_align self in
  let c := Z.min count remain in
  0 <= remain -> 0 <= count < 2 ^ 64 ->
  tmp_wf self ->
  (0 < c -> alloc_ok (fld n_channels self * c * ss) = true) ->
  (0 < c ->
   Z.of_nat (f_pos f) + ss * (fld n_channels self * c) <= Z.of_nat (length (f_data f))) ->
  (forall i, (i < Z.to_nat (fld n_channels self))%nat ->
     exists ch, buffers !! i = Some ch /\ (Z.to_nat c * Z.to_nat cs <= length ch)%nat) ->
  exists self' buffers',
    wav_read alloc_ok self buffers count = Some (c, self', buffers') /\
    error_code self' = WAV_OK /\
    c <= count /\ (remain = 0 -> c = 0).
Proof.
  intros Hfp Hmode Hrm Htag Hnch Hss Hssr Hcs Hrd Herr Hsz Hpos remain c Hrem0 Hcount
         Htmp Halloc Havail Hbuf.
  destruct (wav_read_spec alloc_ok self buffers count f m ss cs Hfp Hmode Hrm Htag Hnch
              Hss Hssr Hcs Hrd Herr Hsz Hpos remain c eq_refl Hrem0 Hcount eq_refl
              Htmp Halloc Havail Hbuf) as (self' & buffers' & E & He & _).
  exists self', buffers'. split; [exact E|]. split; [exact He|].
  subst c. split; lia.
Qed.

Lemma wav_read_clamps_witness :
  exists self' buffers',
    wav_read alloc_always pcm_reader [replicate 4 Byte.x00; replicate 4 Byte.x00] 5
      = Some (2, self', buffers') /\
    error_code self' = WAV_OK.
Proof.
  destruct (wav_read_clamps alloc_always pcm_reader
              [replicate 4 Byte.x00; replicate 4 Byte.x00] 5
              (mkFILE "x.wav" "rb" pcm_wav 44 false false) "rb" 2 2)
    as (self' & buffers' & E & He & _).
  - reflexivity.
  - reflexivity.
  - reflexivity.
  - vm_compute. discriminate.
  - vm_compute. discriminate.
  - reflexivity.
  - lia.
  - reflexivity.
  - reflexivity.
  - reflexivity.
  - vm_compute. reflexivity.
  - vm_compute. split; [discriminate|reflexivity].
  - vm_compute. discriminate.
  - lia.
  - exact I.
  - reflexivity.
  - intros _. vm_compute. discriminate.
  - intros i Hi. change (Z.to_nat (fld n_channels pcm_reader)) with 2%nat in Hi.
    destruct i as [|[|i]]; [| |lia]; eexists; (split; [reflexivity|vm_compute; lia]).
  - exists self', buffers'. split; [exact E|exact He].
Defined.

(** ** Writing *)

Section WriteLoops.
Local Open Scope nat_scope.

Lemma wav_write_frames_spec (nch ss cs N : nat) (buffers : list (list Byte.byte))
    (i : nat) (ch t0 : list Byte.byte) :
  buffers !! i = Some ch -> i < nch -> ss <= cs ->
  N * cs <= length ch -> nch * N * ss <= length t0 ->
  exists t',
    for_range 0 N (fun j t =>
      for_range 0 ss (fun k t =>
        match buf_load buffers i (j * cs + k) with
        | Some b => tmp_store t (j * nch * ss + i * ss + k) b
        | None => None
        end) t) t0 = Some t' /\
    length t' = length t0 /\
    (forall j k, j < N -> k < ss -> t' !! (j * nch * ss + i * ss + k) = ch !! (j * cs + k)) /\
    (forall off, (forall j, j < N ->
                    ~ (j * nch * ss + i * ss <= off < j * nch * ss + i * ss + ss)) ->
                 t' !! off = t0 !! off).
Proof.
  intros Hch Hi Hcs Hlen Ht.
  destruct (for_range_inv
    (fun J t' =>
       length t' = length t0 /\
       (forall j k, j < J -> k < ss ->
          t' !! (j * nch * ss + i * ss + k) = ch !! (j * cs + k)) /\
       (forall off, (forall j, j < J ->
                       ~ (j * nch * ss + i * ss <= off < j * nch * ss + i * ss + ss)) ->
                    t' !! off = t0 !! off))
    (fun j t =>
      for_range 0 ss (fun k t =>
        match buf_load buffers i (j * cs + k) with
        | Some b => tmp_store t (j * nch * ss + i * ss + k) b
        | None => None
        end) t) N 0 t0) as (t' & E & H).
  - split; [reflexivity|]. split; [intros; lia|reflexivity].
  - intros j t1 Hj (L & Hd & Hf).
    destruct (tmp_store_range (fun k => buf_load buffers i (j * cs + k))
                (j * nch * ss + i * ss) ss 0 t1) as (t2 & E2 & L2 & In2 & Out2).
    + destruct (decide (ss = 0)) as [->|Hne]; [lia|].
      pose proof (interleave_index_bound nch ss N i j (ss - 1)). lia.
    + intros k Hk. unfold buf_load. rewrite Hch. apply lookup_lt_is_Some. nia.
    + exists t2. split; [exact E2|]. split; [lia|]. split.
      * intros j' k Hj' Hk. destruct (decide (j' = j)) as [->|Hne].
        -- rewrite In2 by lia. unfold buf_load. now rewrite Hch.
        -- rewrite Out2.
           ++ apply Hd; lia.
           ++ intros Hr.
              destruct (interleave_index_inj nch ss i j' k i j
                          (j' * nch * ss + i * ss + k - (j * nch * ss + i * ss)))
                as (_ & Hjj & _); [lia|lia|lia|lia|lia|lia].
      * intros off Hoff. rewrite Out2.
        -- apply Hf. intros j' Hj'. apply Hoff. lia.
        -- intros Hr. apply (Hoff j); lia.
  - exists t'. split; [exact E|]. exact H.
Qed.

Lemma wav_write_loops_spec (nch ss cs N : nat) (buffers : list (list Byte.byte))
    (t0 : list Byte.byte) :
  ss <= cs -> nch * N * ss <= length t0 ->
  (forall i, i < nch -> exists ch, buffers !! i = Some ch /\ N * cs <= length ch) ->
  exists t',
    wav_write_loops nch ss cs N buffers t0 = Some t' /\
    length t' = length t0 /\
    (forall i j k ch, i < nch -> j < N -> k < ss -> buffers !! i = Some ch ->
       t' !! (j * nch * ss + i * ss + k) = ch !! (j * cs + k)).
Proof.
  intros Hcs Ht Hbuf. unfold wav_write_loops.
  destruct (for_range_inv
    (fun I t' =>
       length t' = length t0 /\
       (forall i j k ch, i < I -> j < N -> k < ss -> buffers !! i = Some ch ->
          t' !! (j * nch * ss + i * ss + k) = ch !! (j * cs + k)))
    (fun i t =>
       for_range 0 N (fun j t =>
         for_range 0 ss (fun k t =>
           match buf_load buffers i (j * cs + k) with
           | Some b => tmp_store t (j * nch * ss + i * ss + k) b
           | None => None
           end) t) t) nch 0 t0) as (t' & E & L & Hd).
  - split; [reflexivity|]. intros; lia.
  - intros i t1 Hi (L & Hd).
    destruct (Hbuf i) as (ch & Hch & Hlen); [lia|].
    destruct (wav_write_frames_spec nch ss cs N buffers i ch t1 Hch)
      as (t2 & E2 & L2 & In2 & Out2); [lia|lia|lia|lia|].
    exists t2. split; [exact E2|]. split; [lia|].
    intros i' j k ch' Hi' Hj Hk Hch'. destruct (decide (i' = i)) as [->|Hne].
    + rewrite Hch in Hch'. injection Hch' as <-. apply In2; assumption.
    + rewrite Out2.
      * apply Hd; [lia|assumption..].
      * intros j' Hj' Hr.
        destruct (interleave_index_inj nch ss i' j k i j'
                    (j * nch * ss + i' * ss + k - (j' * nch * ss + i * ss)))
          as (Hii & _); [lia|lia|lia|lia|lia|lia].
  - exists t'. split; [exact E|]. split; [exact L|].
    intros i j k ch Hi. apply Hd. lia.
Qed.

End WriteLoops.

Lemma lookup_write_at (p : nat) (bs d : list Byte.byte) (x : nat) :
  mem_write p bs (d ++ replicate (p - length d) Byte.x00) !! x
  = if decide (p <= x < p + length bs)%nat
    then bs !! (x - p)%nat
    else (d ++ replicate (p - length d) Byte.x00) !! x.
Proof. apply lookup_mem_write. rewrite length_app, length_replicate. lia. Qed.

Lemma length_write_at (p : nat) (bs d : list Byte.byte) :
  length (mem_write p bs (d ++ replicate (p - length d) Byte.x00))
  = Nat.max (length d) (p + length bs).
Proof.
  unfold mem_write.
  rewrite !length_app, length_take, length_drop, length_app, length_replicate. lia.
Qed.

Lemma stream_keeps_fwrite (f0 g : FILE) (H p : nat) (bs : list Byte.byte) (size nmemb : Z) :
  stream_keeps f0 g H p -> stream_writable f0 = true -> size <> 0 ->
  (p + length bs <= H)%nat ->
  fwrite bs size nmemb g = (nmemb, snd (fwrite bs size nmemb g)) /\
  stream_keeps f0 (snd (fwrite bs size nmemb g)) H (p + length bs).
Proof.
  intros (Hm & Hn & He & Hl & Hd & Hp) Hw Hs Hb.
  assert (Hwg : stream_writable g = true) by (unfold stream_writable in *; rewrite Hm; exact Hw).
  assert (Hag : stream_append g = stream_append f0) by (unfold stream_append; now rewrite Hm).
  rewrite (fwrite_writable bs size nmemb g Hwg Hs). cbn [snd].
  split; [reflexivity|].
  unfold stream_keeps. cbn [f_mode f_name f_error f_data f_pos].
  split; [exact Hm|]. split; [exact Hn|]. split; [exact He|].
  split; [rewrite length_write_at; lia|]. split.
  - intros x Hx Hc. rewrite lookup_write_at.
    assert (Hout : ~ (write_start g <= x < write_start g + length bs)%nat).
    { unfold write_start. rewrite Hag. destruct (stream_append f0) eqn:Ea.
      - lia.
      - destruct Hc as [Hc|Hc]; [discriminate|]. rewrite (Hp eq_refl). lia. }
    destruct (decide _) as [Hin|_]; [contradiction|].
    rewrite lookup_app_l by lia. apply Hd; assumption.
  - intros Ha. unfold write_start. rewrite Hag, Ha. now rewrite (Hp Ha).
Qed.

Lemma fwrite_chunk_keeps (off : nat) (size : Z) (self : WavFile) (f0 g : FILE) (H p : nat) :
  wf self -> fp self = Some g -> stream_keeps f0 g H p -> stream_writable f0 = true ->
  0 < size -> Z.of_nat off + size <= 80 -> (p + Z.to_nat size <= H)%nat ->
  exists g', fwrite_chunk off size self = Some (1, with_fp (Some g') self) /\
             stream_keeps f0 g' H (p + Z.to_nat size).
Proof.
  intros Hwf Hfp Hk Hw Hs Hfit Hb. unfold fwrite_chunk. rewrite Hfp.
  destruct (decide _) as [_|Hn]; [|exfalso; apply Hn; unfold sizeof_WavMasterChunk; lia].
  assert (Hl : length (mem_read off (Z.to_nat size) (chunk self)) = Z.to_nat size).
  { apply length_mem_read. unfold wf, sizeof_WavMasterChunk in Hwf. lia. }
  destruct (stream_keeps_fwrite f0 g H p (mem_read off (Z.to_nat size) (chunk self)) size 1
              Hk Hw) as (E & Hk'); [lia|lia|].
  rewrite E. rewrite Hl in Hk'. eauto.
Qed.

Lemma wav_get_header_size_small (self : WavFile) :
  fld format_chunk_size self <= 60 ->
  (fld fact_chunk_id self = WAV_FACT_CHUNK_ID -> fld fact_chunk_size self <= 12) ->
  wav_get_header_size self =
    28 + fld format_chunk_size self +
    (if fld fact_chunk_id self =? WAV_FACT_CHUNK_ID
     then 8 + fld fact_chunk_size self else 0).
Proof.
  intros Hf Hfact. unfold wav_get_header_size.
  pose proof (get_range format_chunk_size (chunk self)) as Rf.
  pose proof (get_range fact_chunk_size (chunk self)) as Rz.
  fold (fld format_chunk_size self) in Rf. fold (fld fact_chunk_size self) in Rz.
  unfold u32, usize, WAV_RIFF_HEADER_SIZE.
  rewrite (Z.mod_small (8 + 4 + 8 + _ + 8)) by lia.
  destruct (fld fact_chunk_id self =? WAV_FACT_CHUNK_ID) eqn:E; [|lia].
  apply Z.eqb_eq in E. specialize (Hfact E).
  rewrite (Z.mod_small (8 + _)) by lia. rewrite Z.mod_small by lia. lia.
Qed.

Lemma wav_write_header_ok (self : WavFile) (f : FILE) :
  wf self -> fp self = Some f -> stream_writable f = true ->
  fld format_chunk_size self <= 60 ->
  (fld fact_chunk_id self = WAV_FACT_CHUNK_ID -> fld fact_chunk_size self <= 12) ->
  exists f',
    wav_write_header self =
      Some (mkWavFile (Some f') (filename self) (mode self) WAV_OK
              (set chunk_size (riff_total (chunk self)) (chunk self))
              (tmp self) (tmp_size self)) /\
    stream_keeps f f' (Z.to_nat (wav_get_header_size self))
                      (Z.to_nat (wav_get_header_size self)).
Proof.
  intros Hwf Hfp Hw Hfmt Hfact.
  pose proof (wav_get_header_size_small self Hfmt Hfact) as Hhs.
  pose proof (get_range format_chunk_size (chunk self)) as Rf.
  pose proof (get_range fact_chunk_size (chunk self)) as Rz.
  fold (fld format_chunk_size self) in Rf. fold (fld fact_chunk_size self) in Rz.
  set (H := Z.to_nat (wav_get_header_size self)) in *.
  assert (HH : exists X, Z.of_nat H = 28 + fld format_chunk_size self + X /\
                         X = (if fld fact_chunk_id self =? WAV_FACT_CHUNK_ID
                              then 8 + fld fact_chunk_size self else 0) /\ 0 <= X).
  { eexists. split; [|split; [reflexivity|]].
    - subst H. rewrite Z2Nat.id; [exact Hhs|]. rewrite Hhs.
      destruct (_ =? _); lia.
    - destruct (_ =? _); lia. }
  destruct HH as (X & HH & HX & HX0).
  clearbody H. clear Hhs.
  unfold wav_write_header. rewrite Hfp.
  set (s := wav_header_sizes _).
  assert (Hs : chunk s = set chunk_size (riff_total (chunk self)) (chunk self)).
  { subst s. unfold wav_header_sizes. cbn [chunk with_chunk with_fp].
    apply header_chunk_update_eq, Hwf. }
  assert (Hwfs : wf s) by (unfold wf; rewrite Hs, length_set; [exact Hwf|field_side]).
  assert (Gf : fld format_chunk_size s = fld format_chunk_size self)
    by (unfold fld; rewrite Hs; apply get_set_other; field_side).
  assert (Gi : fld fact_chunk_id s = fld fact_chunk_id self)
    by (unfold fld; rewrite Hs; apply get_set_other; field_side).
  assert (Gz : fld fact_chunk_size s = fld fact_chunk_size self)
    by (unfold fld; rewrite Hs; apply get_set_other; field_side).
  assert (Hfps : fp s = Some (snd (fseek_set f 0))) by reflexivity.
  assert (K0 : stream_keeps f (snd (fseek_set f 0)) H 0).
  { cbn. repeat split; auto. }
  assert (Hrest : filename s = filename self /\ mode s = mode self /\
                  tmp s = tmp self /\ tmp_size s = tmp_size self) by (repeat split).
  destruct Hrest as (Hfn & Hmd & Htm & Hts).
  clearbody s.
  destruct (fwrite_chunk_keeps 0 (WAV_RIFF_HEADER_SIZE + 4) s f _ H 0 Hwfs Hfps K0 Hw)
    as (g1 & E1 & K1); [unfold WAV_RIFF_HEADER_SIZE; lia..|].
  rewrite E1. cbn [negb Z.eqb Pos.eqb]. cbv iota.
  change (fld format_chunk_size (with_fp (Some g1) s)) with (fld format_chunk_size s).
  rewrite Gf. unfold u32 at 1. unfold WAV_RIFF_HEADER_SIZE at 1.
  rewrite (Z.mod_small (8 + _)) by lia.
  destruct (fwrite_chunk_keeps OFF_format_chunk (8 + fld format_chunk_size self)
              (with_fp (Some g1) s) f g1 H _ Hwfs eq_refl K1 Hw)
    as (g2 & E2 & K2); [unfold OFF_format_chunk, WAV_RIFF_HEADER_SIZE in *; lia..|].
  rewrite E2. cbn [negb Z.eqb Pos.eqb]. cbv iota.
  change (with_fp (Some g2) (with_fp (Some g1) s)) with (with_fp (Some g2) s).
  change (fld fact_chunk_id (with_fp (Some g2) s)) with (fld fact_chunk_id s).
  change (fld fact_chunk_size (with_fp (Some g2) s)) with (fld fact_chunk_size s).
  rewrite Gi, Gz.
  set (p2 := (0 + Z.to_nat (WAV_RIFF_HEADER_SIZE + 4)
              + Z.to_nat (8 + fld format_chunk_size self))%nat) in *.
  assert (E3 : exists g3 p3,
    (if fld fact_chunk_id self =? WAV_FACT_CHUNK_ID
     then fwrite_chunk OFF_fact_chunk
            (u32 (WAV_RIFF_HEADER_SIZE + fld fact_chunk_size self)) (with_fp (Some g2) s)
     else Some (1, with_fp (Some g2) s)) = Some (1, with_fp (Some g3) s) /\
    stream_keeps f g3 H p3 /\ (p3 + 8 = H)%nat).
  { destruct (fld fact_chunk_id self =? WAV_FACT_CHUNK_ID) eqn:Ef.
    - apply Z.eqb_eq in Ef. specialize (Hfact Ef).
      unfold u32, WAV_RIFF_HEADER_SIZE. rewrite (Z.mod_small (8 + _)) by lia.
      destruct (fwrite_chunk_keeps OFF_fact_chunk (8 + fld fact_chunk_size self)
                  (with_fp (Some g2) s) f g2 H _ Hwfs eq_refl K2 Hw)
        as (g3 & E3 & K3);
        [unfold OFF_fact_chunk, WAV_RIFF_HEADER_SIZE in *; subst p2; lia..|].
      exists g3. eexists. split; [exact E3|]. split; [exact K3|].
      subst p2. unfold WAV_RIFF_HEADER_SIZE in *. lia.
    - exists g2, p2. split; [reflexivity|]. split; [exact K2|].
      subst p2. unfold WAV_RIFF_HEADER_SIZE in *. lia. }
  destruct E3 as (g3 & p3 & E3 & K3 & Hp3). rewrite E3.
  cbn [negb Z.eqb Pos.eqb]. cbv iota.
  destruct (fwrite_chunk_keeps OFF_data_chunk WAV_RIFF_HEADER_SIZE
              (with_fp (Some g3) s) f g3 H p3 Hwfs eq_refl K3 Hw)
    as (g4 & E4 & K4); [unfold OFF_data_chunk, WAV_RIFF_HEADER_SIZE in *; lia..|].
  rewrite E4. cbn [negb Z.eqb Pos.eqb]. cbv iota.
  exists g4. split.
  - unfold with_error_code, with_fp. cbn [fp filename mode error_code chunk tmp tmp_size].
    rewrite Hs, Hfn, Hmd, Htm, Hts. reflexivity.
  - replace H with (p3 + Z.to_nat WAV_RIFF_HEADER_SIZE)%nat at 2
      by (unfold WAV_RIFF_HEADER_SIZE; lia).
    exact K4.
Qed.

Lemma chunk_after_write_fields (c : list Byte.byte) (bytes frames : Z) :
  length c = 80%nat ->
  length (chunk_after_write c bytes frames) = 80%nat /\
  get format_tag (chunk_after_write c bytes frames) = get format_tag c /\
  get n_channels (chunk_after_write c bytes frames) = get n_channels c /\
  get block_align (chunk_after_write c bytes frames) = get block_align c /\
  get format_chunk_size (chunk_after_write c bytes frames) = get format_chunk_size c /\
  get fact_chunk_id (chunk_after_write c bytes frames) = get fact_chunk_id c /\
  get fact_chunk_size (chunk_after_write c bytes frames) = get fact_chunk_size c /\
  get data_chunk_size (chunk_after_write c bytes frames) = u32 (get data_chunk_size c + bytes).
Proof.
  intros H. unfold chunk_after_write. cbv zeta.
  set (c1 := set data_chunk_size _ c).
  assert (L1 : length c1 = 80%nat) by (subst c1; rewrite length_set; [exact H|field_side]).
  assert (D1 : get data_chunk_size c1 = u32 (get data_chunk_size c + bytes))
    by (subst c1; apply get_set_same; field_side).
  assert (F1 : forall g, disjoint g data_chunk_size -> get g c1 = get g c)
    by (intros g Hg; subst c1; apply get_set_other; [field_side|exact Hg]).
  clearbody c1.
  set (c2 := if _ =? _ then _ else c1).
  assert (L2 : length c2 = 80%nat)
    by (subst c2; destruct (_ =? _); [rewrite length_set; [exact L1|field_side]|exact L1]).
  assert (F2 : forall g, disjoint g fact_sample_length -> get g c2 = get g c1).
  { intros g Hg. subst c2. destruct (_ =? _); [|reflexivity].
    apply get_set_other; [field_side|exact Hg]. }
  clearbody c2.
  split; [rewrite length_set; [exact L2|field_side]|].
  repeat split; rewrite get_set_other by field_side;
    rewrite F2 by field_side; try (rewrite F1 by field_side; reflexivity).
  exact D1.
Qed.

Lemma wav_get_header_size_ext (a b : WavFile) :
  fld format_chunk_size a = fld format_chunk_size b ->
  fld fact_chunk_id a = fld fact_chunk_id b ->
  fld fact_chunk_size a = fld fact_chunk_size b ->
  wav_get_header_size a = wav_get_header_size b.
Proof. intros H1 H2 H3. unfold wav_get_header_size. now rewrite H1, H2, H3. Qed.

Lemma wav_write_spec (alloc_ok : Z -> bool) (self : WavFile)
    (buffers : list (list Byte.byte)) (count : Z) (f : FILE) (m : string) (ss cs : Z) :
  wf self -> fp self = Some f -> mode self = Some m -> write_mode m = true ->
  fld format_tag self <> WAV_FORMAT_EXTENSIBLE ->
  fld n_channels self <> 0 ->
  fld block_align self / fld n_channels self = ss -> 1 <= ss <= 4 ->
  wav_container_sizes !! Z.to_nat ss = Some cs ->
  stream_writable f = true -> f_error f = false ->
  (stream_append f = true -> f_pos f = length (f_data f)) ->
  wav_get_header_size self <= Z.of_nat (f_pos f) ->
  fld format_chunk_size self <= 60 ->
  (fld fact_chunk_id self = WAV_FACT_CHUNK_ID -> fld fact_chunk_size self <= 12) ->
  0 < count ->
  Z.of_nat (f_pos f) + fld n_channels self * count * ss < 2 ^ 63 ->
  tmp_wf self ->
  alloc_ok (fld n_channels self * count * ss) = true ->
  (forall i, (i < Z.to_nat (fld n_channels self))%nat ->
     exists ch, buffers !! i = Some ch /\ (Z.to_nat count * Z.to_nat cs <= length ch)%nat) ->
  exists self' f',
    wav_write alloc_ok self buffers count = Some (count, self') /\
    error_code self' = WAV_OK /\ mode self' = mode self /\
    chunk self' = chunk_after_write (chunk self) (fld n_channels self * count * ss) count /\
    fp self' = Some f' /\
    f_mode f' = f_mode f /\ f_error f' = false /\
    (Z.of_nat (f_pos f) + fld n_channels self * count * ss
       <= Z.of_nat (length (f_data f'))) /\
    (forall i j k ch,
       (i < Z.to_nat (fld n_channels self))%nat -> (j < Z.to_nat count)%nat ->
       (k < Z.to_nat ss)%nat -> buffers !! i = Some ch ->
       f_data f' !! (f_pos f + (j * Z.to_nat (fld n_channels self) * Z.to_nat ss
                                + i * Z.to_nat ss + k))%nat
       = ch !! (j * Z.to_nat cs + k)%nat).
Proof.
  intros Hwf Hfp Hmode Hwm Htag Hnch Hss Hssr Hcs Hw Herr Happ Hpos Hfmt Hfact Hcount Hsz
         Htmp Halloc Hbuf.
  pose proof (get_range n_channels (chunk self)) as Rn. fold (fld n_channels self) in Rn.
  pose proof (get_range block_align (chunk self)) as Rb. fold (fld block_align self) in Rb.
  change (2 ^ (8 * Z.of_nat (f_width n_channels))) with (2 ^ 16) in Rn.
  change (2 ^ (8 * Z.of_nat (f_width block_align))) with (2 ^ 16) in Rb.
  set (nch := fld n_channels self) in *.
  set (ba := fld block_align self) in *.
  assert (Hba : ba <> 0).
  { intros E. rewrite E in Hss. rewrite Z.div_0_l in Hss by lia. lia. }
  assert (Hneed : 0 < nch * count * ss < 2 ^ 63) by nia.
  assert (Hcnt : 0 < count < 2 ^ 63) by nia.
  assert (Hnc : 0 < nch * count < 2 ^ 63) by nia.
  unfold wav_write. cbv zeta.
  rewrite (usize_small count) by lia.
  unfold wav_get_sample_size, wav_get_num_channels. fold nch ba.
  destruct (nch =? 0) eqn:En; [apply Z.eqb_eq in En; contradiction|]. rewrite Hss.
  unfold wav_calc_container_size.
  destruct (ss <? 0) eqn:Es; [apply Z.ltb_lt in Es; lia|]. rewrite Hcs, Hmode.
  unfold write_mode in Hwm. apply negb_true_iff in Hwm. rewrite Hwm.
  destruct (fld format_tag self =? WAV_FORMAT_EXTENSIBLE) eqn:Et;
    [apply Z.eqb_eq in Et; contradiction|].
  destruct (count =? 0) eqn:Ec; [apply Z.eqb_eq in Ec; lia|].
  rewrite (wav_tell_ok self f Hfp Hpos Hba). cbn [snd].
  cbn [error_code with_error_code WavErr_eqb negb].
  rewrite (usize_small (nch * count)) by lia.
  rewrite (usize_small (nch * count * ss)) by lia.
  destruct (wav_tmp_reserve_ok alloc_ok (nch * count * ss)
              (mkWavFile (fp self) (filename self) (mode self) WAV_OK (chunk self)
                         (tmp self) (tmp_size self)))
    as (t0 & n0 & Eres & Ht0 & Hn0); [exact Htmp|lia|exact Halloc|].
  unfold with_error_code at 1. rewrite Eres. cbn [tmp with_tmp].
  assert (Hcsc := container_size_cases ss cs Hssr Hcs).
  destruct (wav_write_loops_spec (Z.to_nat nch) (Z.to_nat ss) (Z.to_nat cs) (Z.to_nat count)
              buffers t0) as (t' & El & Ll & Hd).
  - destruct Hcsc as [[-> ->] | [[-> ->] | [[-> ->] | [-> ->]]]]; lia.
  - rewrite <- !Z2Nat.inj_mul by lia. lia.
  - exact Hbuf.
  - rewrite El. cbn [fp with_tmp tmp_size]. rewrite Hfp.
    set (nbytes := Z.to_nat (ss * (nch * count))).
    assert (Hnb : Z.of_nat nbytes = nch * count * ss) by (subst nbytes; lia).
    destruct (decide (nbytes <= length t')%nat) as [Hfit|Hn]; [|lia].
    assert (Hlt : length (take nbytes t') = nbytes) by (rewrite length_take; lia).
    rewrite (fwrite_writable (take nbytes t') ss (nch * count) f Hw) by lia.
    assert (Hstart : write_start f = f_pos f).
    { unfold write_start. destruct (stream_append f) eqn:Ea; [|reflexivity].
      symmetry. apply Happ. reflexivity. }
    rewrite Hstart, Hlt. cbv beta iota.
    unfold ferror, ftell. cbn [f_error f_pos]. rewrite Herr.
    set (f1 := mkFILE _ _ _ _ _ _).
    replace (nch * count / nch) with count by (rewrite Z.mul_comm, Z.div_mul; lia).
    destruct ((Z.of_nat (f_pos f + nbytes)) =? -1) eqn:Em1; [apply Z.eqb_eq in Em1; lia|].
    set (self3 := if fld fact_chunk_id _ =? WAV_FACT_CHUNK_ID then _ else _).
    assert (H3 : filename self3 = filename self /\ mode self3 = mode self /\
                 fp self3 = Some f1 /\ tmp self3 = Some t' /\ tmp_size self3 = n0 /\
                 chunk self3 =
                   (let c := set data_chunk_size
                               (get data_chunk_size (chunk self) + nch * count * ss)
                               (chunk self) in
                    if get fact_chunk_id c =? WAV_FACT_CHUNK_ID
                    then set fact_sample_length (get fact_sample_length c + count) c
                    else c)).
    { subst self3. unfold set_fld, fld, with_chunk, with_fp, with_tmp.
      cbn [fp filename mode error_code chunk tmp tmp_size].
      destruct (get fact_chunk_id _ =? WAV_FACT_CHUNK_ID);
        cbn [fp filename mode error_code chunk tmp tmp_size];
        repeat split; reflexivity. }
    destruct H3 as (Hfn3 & Hmd3 & Hfp3 & Htm3 & Hts3 & Hch3).
    cbv zeta in Hch3.
    assert (Hwf3 : wf self3).
    { unfold wf. rewrite Hch3. destruct (get fact_chunk_id _ =? WAV_FACT_CHUNK_ID);
        repeat rewrite length_set; try exact Hwf; field_side. }
    assert (G3 : fld format_chunk_size self3 = fld format_chunk_size self /\
                 fld fact_chunk_id self3 = fld fact_chunk_id self /\
                 fld fact_chunk_size self3 = fld fact_chunk_size self).
    { unfold fld. rewrite Hch3.
      destruct (get fact_chunk_id _ =? WAV_FACT_CHUNK_ID); repeat split;
        repeat rewrite get_set_other by field_side; reflexivity. }
    destruct G3 as (G3f & G3i & G3z).
    clearbody self3.
    destruct (wav_write_header_ok self3 f1 Hwf3 Hfp3) as (f2 & Ehd & K2);
      [exact Hw|rewrite G3f; exact Hfmt|rewrite G3i, G3z; exact Hfact|].
    rewrite Ehd. cbn [error_code WavErr_eqb negb fp].
    unfold fseek_set.
    destruct (Z.of_nat (f_pos f + nbytes) <? 0) eqn:El0; [apply Z.ltb_lt in El0; lia|].
    cbn [negb Z.eqb]. cbv iota.
    eexists. eexists. split; [reflexivity|].
    cbn [error_code mode chunk fp with_fp with_error_code f_mode f_error f_data].
    destruct K2 as (K2m & K2n & K2e & K2l & K2d & K2p).
    assert (Hl1 : length (f_data f1) = Nat.max (length (f_data f)) (f_pos f + nbytes)).
    { subst f1. cbn [f_data]. rewrite length_write_at, Hlt. reflexivity. }
    split; [reflexivity|]. split; [rewrite Hmd3; exact Hmode|]. split.
    { rewrite Hch3. unfold chunk_after_write. reflexivity. }
    split; [reflexivity|]. split; [cbn [f_mode]; rewrite K2m; reflexivity|].
    split; [cbn [f_error]; rewrite K2e; reflexivity|]. cbn [f_data]. split; [lia|].
    intros i j k ch Hi Hj Hk Hch.
    pose proof (interleave_index_bound (Z.to_nat nch) (Z.to_nat ss) (Z.to_nat count) i j k
                  Hi Hj Hk) as Hidx.
    set (x := (j * Z.to_nat nch * Z.to_nat ss + i * Z.to_nat ss + k)%nat) in *.
    assert (Hx : (x < nbytes)%nat).
    { subst nbytes. rewrite <- !Z2Nat.inj_mul in Hidx by lia.
      replace (ss * (nch * count)) with (nch * count * ss) by lia. exact Hidx. }
    rewrite K2d.
    + subst f1. cbn [f_data]. rewrite lookup_write_at, Hlt.
      destruct (decide _) as [_|Hn]; [|lia].
      replace (f_pos f + x - f_pos f)%nat with x by lia.
      rewrite lookup_take_lt by exact Hx. apply (Hd i j k ch); assumption.
    + lia.
    + right. rewrite (wav_get_header_size_ext self3 self G3f G3i G3z). lia.
Qed.

(** ** Round trip *)

Lemma chan_done_round_trip (nch ss cs N : nat) (t : list Byte.byte) (i : nat)
    (src dst c : list Byte.byte) :
  (1 <= ss)%nat -> (ss <= cs)%nat ->
  length src = (N * cs)%nat -> length dst = (N * cs)%nat ->
  (forall j k, (j < N)%nat -> (ss <= k < cs)%nat ->
     src !! (j * cs + k)%nat = sign_fill <$> src !! (j * cs + ss - 1)%nat) ->
  (forall j k, (j < N)%nat -> (k < ss)%nat ->
     t !! (j * nch * ss + i * ss + k)%nat = src !! (j * cs + k)%nat) ->
  chan_done nch ss cs t i N dst c -> c = src.
Proof.
  intros Hss Hcs Ls Ld Hsign Ht (L & Hd & Hf).
  apply list_eq. intros off.
  destruct (decide (off < N * cs)%nat) as [Hlt|Hge].
  - assert (Hcs0 : (0 < cs)%nat) by lia.
    pose proof (Nat.div_mod off cs ltac:(lia)) as Hdm.
    pose proof (Nat.mod_upper_bound off cs ltac:(lia)) as Hm.
    set (j := (off / cs)%nat) in *. set (k := (off mod cs)%nat) in *.
    assert (Hj : (j < N)%nat).
    { subst j. apply Nat.Div0.div_lt_upper_bound. lia. }
    replace off with (j * cs + k)%nat by lia.
    rewrite (Hd j k Hj Hm). unfold deinterleaved.
    destruct (decide (k < ss)%nat) as [Hk|Hk].
    + apply Ht; assumption.
    + rewrite (Hsign j k Hj) by lia. f_equal.
      replace (j * nch * ss + i * ss + ss - 1)%nat
        with (j * nch * ss + i * ss + (ss - 1))%nat by lia.
      replace (j * cs + ss - 1)%nat with (j * cs + (ss - 1))%nat by lia.
      apply Ht; [assumption|lia].
  - rewrite (lookup_ge_None_2 c) by lia. symmetry. apply lookup_ge_None_2. lia.
Qed.

Lemma wav_write_zero (alloc_ok : Z -> bool) (self : WavFile)
    (buffers : list (list Byte.byte)) (m : string) (ss cs : Z) :
  mode self = Some m -> write_mode m = true ->
  fld format_tag self <> WAV_FORMAT_EXTENSIBLE ->
  fld n_channels self <> 0 ->
  fld block_align self / fld n_channels self = ss -> 1 <= ss <= 4 ->
  wav_container_sizes !! Z.to_nat ss = Some cs ->
  wav_write alloc_ok self buffers 0 = Some (0, with_error_code WAV_OK self).
Proof.
  intros Hmode Hwm Htag Hnch Hss Hssr Hcs. unfold wav_write. cbv zeta.
  unfold wav_get_sample_size, wav_get_num_channels.
  destruct (fld n_channels self =? 0) eqn:En; [apply Z.eqb_eq in En; contradiction|].
  rewrite Hss. unfold wav_calc_container_size.
  destruct (ss <? 0) eqn:Es; [apply Z.ltb_lt in Es; lia|]. rewrite Hcs, Hmode.
  unfold write_mode in Hwm. apply negb_true_iff in Hwm. rewrite Hwm.
  destruct (fld format_tag self =? WAV_FORMAT_EXTENSIBLE) eqn:Et;
    [apply Z.eqb_eq in Et; contradiction|].
  reflexivity.
Qed.

(** X23: what [wav_write] puts on the stream is what [wav_read] takes from
    it. For sample sizes of 1, 2, 3 and 4 bytes and any number of channels,
    [wav_write] of [N] frames followed by [wav_read] of [N] frames from the
    position the write started at, through a handle [r] in a read mode that
    has the writer's channel count, block alignment, data size and header
    size over the stream contents the write left, gives back the buffers
    that were written; a 3-byte sample comes back in its 4-byte container
    with the fourth byte set from the sign of the third. The handle [r] is
    a hypothesis here; closing and opening the file gives one when the fmt
    chunk declares 16 bytes or more. Assumed besides: the block alignment is
    channels times sample size, the stream is writable (readable for [r])
    and without error, its position lies inside the recorded data and writes
    land there, sizes fit their C types, the declared fmt and fact sizes fit
    the struct, and allocation succeeds. *)
Theorem write_read_round_trip (alloc_ok : Z -> bool) (w : WavFile)
    (src : list (list Byte.byte)) (N : Z) (f : FILE) (m : string) (ss cs : Z) :
  wf w -> fp w = Some f -> mode w = Some m -> write_mode m = true ->
  fld format_tag w <> WAV_FORMAT_EXTENSIBLE ->
  1 <= fld n_channels w ->
  1 <= ss <= 4 -> fld block_align w = fld n_channels w * ss ->
  wav_container_sizes !! Z.to_nat ss = Some cs ->
  stream_writable f = true -> f_error f = false ->
  (stream_append f = true -> f_pos f = length (f_data f)) ->
  wav_get_header_size w <= Z.of_nat (f_pos f) ->
  Z.of_nat (f_pos f) - wav_get_header_size w <= fld data_chunk_size w ->
  fld format_chunk_size w <= 60 ->
  (fld fact_chunk_id w = WAV_FACT_CHUNK_ID -> fld fact_chunk_size w <= 12) ->
  0 <= N ->
  fld data_chunk_size w + fld n_channels w * N * ss < 2 ^ 32 ->
  tmp_wf w ->
  (0 < N -> alloc_ok (fld n_channels w * N * ss) = true) ->
  sample_buffers (Z.to_nat (fld n_channels w)) (Z.to_nat N) (Z.to_nat ss) (Z.to_nat cs) src ->
  exists w' f',
    wav_write alloc_ok w src N = Some (N, w') /\
    error_code w' = WAV_OK /\ fp w' = Some f' /\
    forall (r : WavFile) (g : FILE) (mr : string) (dst : list (list Byte.byte)),
      fp r = Some g -> mode r = Some mr -> read_mode mr = true ->
      fld format_tag r <> WAV_FORMAT_EXTENSIBLE ->
      fld n_channels r = fld n_channels w' ->
      fld block_align r = fld block_align w' ->
      fld data_chunk_size r = fld data_chunk_size w' ->
      wav_get_header_size r = wav_get_header_size w' ->
      f_data g = f_data f' -> f_pos g = f_pos f ->
      stream_readable g = true -> f_error g = false ->
      Z.of_nat (length (f_data g)) < 2 ^ 63 ->
      tmp_wf r ->
      room_for (Z.to_nat (fld n_channels w)) (Z.to_nat N) (Z.to_nat cs) dst ->
      exists r',
        wav_read alloc_ok r dst N = Some (N, r', src) /\ error_code r' = WAV_OK.
Proof.
  intros Hwf Hfp Hmode Hwm Htag Hnch Hssr Hba Hcs Hw Herr Happ Hpos Hin Hfmt Hfact HN Hsz
         Htmp Halloc (Lsrc & Hsrc).
  pose proof (get_range n_channels (chunk w)) as Rn. fold (fld n_channels w) in Rn.
  pose proof (get_range data_chunk_size (chunk w)) as Rd. fold (fld data_chunk_size w) in Rd.
  change (2 ^ (8 * Z.of_nat (f_width n_channels))) with (2 ^ 16) in Rn.
  change (2 ^ (8 * Z.of_nat (f_width data_chunk_size))) with (2 ^ 32) in Rd.
  pose proof (wav_get_header_size_range w) as Rh.
  set (nch := fld n_channels w) in *.
  assert (Hdiv : fld block_align w / nch = ss).
  { rewrite Hba, Z.mul_comm. apply Z.div_mul. lia. }
  assert (Hcsc := container_size_cases ss cs Hssr Hcs).
  assert (Hsrcbuf : forall i, (i < Z.to_nat nch)%nat ->
            exists ch, src !! i = Some ch /\ (Z.to_nat N * Z.to_nat cs <= length ch)%nat).
  { intros i Hi. destruct (lookup_lt_is_Some_2 src i) as [ch Hch]; [lia|].
    exists ch. split; [exact Hch|]. destruct (Hsrc i ch Hch) as [-> _]. lia. }
  (* the write *)
  assert (HW : exists w' f',
    wav_write alloc_ok w src N = Some (N, w') /\
    error_code w' = WAV_OK /\ fp w' = Some f' /\
    fld n_channels w' = nch /\ fld block_align w' = nch * ss /\
    fld data_chunk_size w' = fld data_chunk_size w + nch * N * ss /\
    wav_get_header_size w' = wav_get_header_size w /\
    (0 < N -> Z.of_nat (f_pos f) + nch * N * ss <= Z.of_nat (length (f_data f'))) /\
    (forall i j k ch,
       (i < Z.to_nat nch)%nat -> (j < Z.to_nat N)%nat -> (k < Z.to_nat ss)%nat ->
       src !! i = Some ch ->
       f_data f' !! (f_pos f + (j * Z.to_nat nch * Z.to_nat ss + i * Z.to_nat ss + k))%nat
       = ch !! (j * Z.to_nat cs + k)%nat)).
  { destruct (Z.eq_dec N 0) as [->|HN0].
    - exists (with_error_code WAV_OK w), f.
      split; [apply (wav_write_zero alloc_ok w src m ss cs); try assumption; fold nch; lia|].
      split; [reflexivity|]. split; [exact Hfp|]. split; [reflexivity|].
      split; [exact Hba|]. split; [change (fld data_chunk_size (with_error_code WAV_OK w))
                                     with (fld data_chunk_size w); lia|].
      split; [reflexivity|]. split; [lia|].
      intros i j k ch _ Hj. change (Z.to_nat 0) with 0%nat in Hj. lia.
    - destruct (wav_write_spec alloc_ok w src N f m ss cs Hwf Hfp Hmode Hwm Htag)
        as (w' & f' & Ew & Eok & _ & Hchunk & Hfp' & _ & _ & Hlen' & Hdata);
        try assumption; [fold nch; lia|lia|fold nch; nia|apply Halloc; lia|].
      fold nch in Hchunk, Hlen', Hdata.
      destruct (chunk_after_write_fields (chunk w) (nch * N * ss) N Hwf)
        as (_ & _ & Fn & Fb & Ff & Fi & Fz & Fd).
      rewrite <- Hchunk in Fn, Fb, Ff, Fi, Fz, Fd.
      exists w', f'. split; [exact Ew|]. split; [exact Eok|]. split; [exact Hfp'|].
      split; [exact Fn|]. split; [unfold fld; rewrite Fb; exact Hba|].
      split; [unfold fld at 1; rewrite Fd; unfold u32; apply Z.mod_small;
              fold (fld data_chunk_size w); nia|].
      split; [apply wav_get_header_size_ext; assumption|].
      split; [intros _; exact Hlen'|exact Hdata]. }
  destruct HW as (w' & f' & Ew & Eok & Hfp' & Fn & Fb & Fd & Fh & Hlen' & Hdata).
  exists w', f'. split; [exact Ew|]. split; [exact Eok|]. split; [exact Hfp'|].
  (* the read *)
  intros r g mr dst Hg Hmr Hrm Htagr Hnr Hbr Hdr Hhr Hgd Hgp Hgr Hge Hgl Htr (Ldst & Hdst).
  rewrite Fn in Hnr. rewrite Fb in Hbr. rewrite Fd in Hdr. rewrite Fh in Hhr.
  assert (Hbapos : 0 < nch * ss) by nia.
  assert (Hremain :
    fld data_chunk_size r / fld block_align r
    - (Z.of_nat (f_pos g) - wav_get_header_size r) / fld block_align r
    = fld data_chunk_size w / (nch * ss)
      - (Z.of_nat (f_pos f) - wav_get_header_size w) / (nch * ss) + N).
  { rewrite Hdr, Hbr, Hhr, Hgp.
    replace (fld data_chunk_size w + nch * N * ss)
      with (fld data_chunk_size w + N * (nch * ss)) by lia.
    rewrite Z.div_add by lia. lia. }
  assert (Hmono : (Z.of_nat (f_pos f) - wav_get_header_size w) / (nch * ss)
                  <= fld data_chunk_size w / (nch * ss))
    by (apply Z.div_le_mono; lia).
  destruct (wav_read_spec alloc_ok r dst N g mr ss cs Hg Hmr Hrm Htagr)
    with (remain := fld data_chunk_size r / fld block_align r
                    - (Z.of_nat (f_pos g) - wav_get_header_size r) / fld block_align r)
         (c := N)
    as (r' & dst' & Er & Erok & _ & Ldst' & Hdone & Hrest);
    try assumption; try reflexivity.
  - rewrite Hnr. lia.
  - rewrite Hbr, Hnr, Z.mul_comm. apply Z.div_mul. lia.
  - rewrite Hhr, Hgp. lia.
  - rewrite Hremain. lia.
  - lia.
  - rewrite Hremain. lia.
  - rewrite Hnr. exact Halloc.
  - intros HN1. rewrite Hgp, Hgd, Hnr. specialize (Hlen' HN1). lia.
  - rewrite Hnr. intros i Hi.
    destruct (lookup_lt_is_Some_2 dst i) as [ch Hch]; [lia|].
    exists ch. split; [exact Hch|]. rewrite (Hdst i ch Hch). lia.
  - exists r'. split; [|exact Erok].
    rewrite Er. f_equal. f_equal.
    rewrite Hnr in Hdone, Hrest.
    apply list_eq. intros i.
    destruct (decide (i < Z.to_nat nch)%nat) as [Hi|Hi].
    + destruct (lookup_lt_is_Some_2 dst i) as [dch Hdch]; [lia|].
      destruct (lookup_lt_is_Some_2 src i) as [sch Hsch]; [lia|].
      destruct (Hdone i dch Hi Hdch) as (c' & Hc' & Hcd).
      rewrite Hc', Hsch. f_equal.
      destruct (Hsrc i sch Hsch) as [Lsch Hsign].
      eapply (chan_done_round_trip (Z.to_nat nch) (Z.to_nat ss) (Z.to_nat cs) (Z.to_nat N));
        [| |exact Lsch|exact (Hdst i dch Hdch)|exact Hsign| |exact Hcd].
      * lia.
      * destruct Hcsc as [[-> ->] | [[-> ->] | [[-> ->] | [-> ->]]]]; lia.
      * intros j k Hj Hk. rewrite lookup_drop, Hgp, Hgd.
        apply Hdata; assumption.
    + rewrite Hrest by lia.
      rewrite (lookup_ge_None_2 dst) by lia. symmetry. apply lookup_ge_None_2. lia.
Qed.

Lemma write_read_round_trip_witness :
  exists r',
    wav_write alloc_always pcm24_writer pcm24_frames 2 = Some (2, pcm24_written) /\
    wav_read alloc_always (reader_of pcm24_written 36)
      [replicate 8 Byte.x00; replicate 8 Byte.x00] 2
      = Some (2, r', pcm24_frames).
Proof.
  assert (E0 : wav_write alloc_always pcm24_writer pcm24_frames 2 = Some (2, pcm24_written))
    by (vm_compute; reflexivity).
  destruct (write_read_round_trip alloc_always pcm24_writer pcm24_frames 2
              (mkFILE "t.wav" "wb"
                 (match fp pcm24_writer with Some f => f_data f | None => [] end)
                 36 false false) "wb" 3 4)
    as (w' & f' & Ew & _ & Hfp' & Hread).
  - reflexivity.
  - reflexivity.
  - reflexivity.
  - reflexivity.
  - vm_compute. discriminate.
  - vm_compute. discriminate.
  - lia.
  - reflexivity.
  - reflexivity.
  - reflexivity.
  - reflexivity.
  - discriminate.
  - vm_compute. discriminate.
  - vm_compute. discriminate.
  - vm_compute. discriminate.
  - vm_compute. discriminate.
  - lia.
  - vm_compute. reflexivity.
  - exact I.
  - intros _. reflexivity.
  - split; [reflexivity|].
    intros i ch Hi. destruct i as [|[|i]]; [| |discriminate Hi];
      injection Hi as <-; (split; [reflexivity|]);
      intros j k Hj Hk; assert (k = 3%nat) by (vm_compute in Hk; lia); subst k;
      (destruct j as [|[|j]]; [reflexivity|reflexivity|vm_compute in Hj; lia]).
  - rewrite E0 in Ew. injection Ew as <-.
    assert (Ef : fp pcm24_written
                 = Some (mkFILE "t.wav" "wb"
                           (match fp pcm24_written with Some f => f_data f | None => [] end)
                           48 false false)) by reflexivity.
    rewrite Ef in Hfp'. injection Hfp' as <-.
    destruct (Hread (reader_of pcm24_written 36)
                (mkFILE "t.wav" "rb"
                   (match fp pcm24_written with Some f => f_data f | None => [] end)
                   36 false false) "rb"%string
                [replicate 8 Byte.x00; replicate 8 Byte.x00]) as (r' & Er & _).
    + reflexivity.
    + reflexivity.
    + reflexivity.
    + vm_compute. discriminate.
    + reflexivity.
    + reflexivity.
    + reflexivity.
    + reflexivity.
    + reflexivity.
    + reflexivity.
    + reflexivity.
    + reflexivity.
    + vm_compute. reflexivity.
    + vm_compute. reflexivity.
    + split; [reflexivity|].
      intros i ch Hi. destruct i as [|[|i]]; [| |discriminate Hi];
        injection Hi as <-; reflexivity.
    + exists r'. split; [reflexivity|exact Er].
Defined.

(** The same round trip run on the concrete 24-bit frames. *)
Example round_trip_pcm24 :
  (w <- wav_write alloc_always pcm24_writer pcm24_frames 2 ;;
   r <- wav_read alloc_always (reader_of (snd w) 36)
          [replicate 8 Byte.x00; replicate 8 Byte.x00] 2 ;;
   Some (fst w, fst (fst r), error_code (snd (fst r)), snd r))
  = Some (2, 2, WAV_OK, pcm24_frames).
Proof. vm_compute. reflexivity. Qed.

(** With the header [wav_init] writes (fmt size 8) the reopened handle has
    no block alignment (the parser reads 8 bytes of fmt body) and
    [wav_read] divides by zero. Once the fmt chunk has its 40 bytes (set
    the extensible tag, then PCM again) the session gives the frames
    back. *)
Example session_default_header :
  session_round_trip Some = Some (WAV_OK, 0, None).
Proof. vm_compute. reflexivity. Qed.

Example session_full_header :
  session_round_trip
    (fun s => s <- wav_set_format s WAV_FORMAT_EXTENSIBLE ;;
              wav_set_format s WAV_FORMAT_PCM)
  = Some (WAV_OK, 6, Some (2, WAV_OK, pcm24_frames)).
Proof. vm_compute. reflexivity. Qed.

(** * Further properties *)

(** ** Header layout on the stream *)

Lemma stream_written_fwrite (f0 g : FILE) (W bs : list Byte.byte) (size nmemb : Z) :
  stream_written f0 g W -> stream_writable f0 = true -> size <> 0 ->
  fwrite bs size nmemb g = (nmemb, snd (fwrite bs size nmemb g)) /\
  stream_written f0 (snd (fwrite bs size nmemb g)) (W ++ bs).
Proof.
  intros (Hm & Hn & He & Hd & Hp) Hw Hs.
  assert (Hwg : stream_writable g = true) by (unfold stream_writable in *; rewrite Hm; exact Hw).
  assert (Hag : stream_append g = stream_append f0) by (unfold stream_append; now rewrite Hm).
  rewrite (fwrite_writable bs size nmemb g Hwg Hs). cbn [snd].
  split; [reflexivity|].
  unfold stream_written. cbn [f_mode f_name f_error f_data f_pos].
  split; [exact Hm|]. split; [exact Hn|]. split; [exact He|].
  unfold write_start. rewrite Hag.
  destruct (stream_append f0) eqn:Ea.
  - split; [|discriminate].
    rewrite Nat.sub_diag. cbn [replicate]. rewrite app_nil_r.
    unfold mem_write. rewrite firstn_all.
    rewrite drop_ge by lia. rewrite app_nil_r. rewrite Hd. now rewrite app_assoc.
  - specialize (Hp eq_refl). rewrite Hp.
    assert (Hl : (length W <= length (f_data g))%nat)
      by (rewrite Hd, length_app; lia).
    replace (length W - length (f_data g))%nat with 0%nat by lia.
    cbn [replicate]. rewrite app_nil_r.
    split; [|intros _; now rewrite length_app].
    unfold mem_write. rewrite Hd.
    rewrite take_app_length. rewrite drop_app_ge by lia.
    rewrite drop_drop. rewrite length_app. rewrite <- app_assoc.
    do 3 f_equal. lia.
Qed.

Lemma fwrite_chunk_written (off : nat) (size : Z) (self : WavFile) (f0 g : FILE)
    (W : list Byte.byte) :
  fp self = Some g -> stream_written f0 g W -> stream_writable f0 = true ->
  0 < size -> Z.of_nat off + size <= 80 ->
  exists g', fwrite_chunk off size self = Some (1, with_fp (Some g') self) /\
             stream_written f0 g' (W ++ mem_read off (Z.to_nat size) (chunk self)).
Proof.
  intros Hfp Hk Hw Hs Hfit. unfold fwrite_chunk. rewrite Hfp.
  destruct (decide _) as [_|Hn]; [|exfalso; apply Hn; unfold sizeof_WavMasterChunk; lia].
  destruct (stream_written_fwrite f0 g W (mem_read off (Z.to_nat size) (chunk self)) size 1
              Hk Hw) as (E & Hk'); [lia|].
  rewrite E. eauto.
Qed.

Lemma length_header_image (c : list Byte.byte) :
  length c = 80%nat -> get format_chunk_size c <= 60 ->
  (get fact_chunk_id c = WAV_FACT_CHUNK_ID -> get fact_chunk_size c <= 12) ->
  Z.of_nat (length (header_image c)) =
    28 + get format_chunk_size c +
    (if get fact_chunk_id c =? WAV_FACT_CHUNK_ID then 8 + get fact_chunk_size c else 0).
Proof.
  intros Hl Hf Hz. unfold header_image.
  pose proof (get_range format_chunk_size c) as Rf.
  pose proof (get_range fact_chunk_size c) as Rz.
  rewrite !length_app.
  rewrite (length_mem_read 0 12) by lia.
  rewrite (length_mem_read OFF_format_chunk) by (unfold OFF_format_chunk; lia).
  rewrite (length_mem_read OFF_data_chunk) by (unfold OFF_data_chunk; lia).
  destruct (get fact_chunk_id c =? WAV_FACT_CHUNK_ID) eqn:E.
  - apply Z.eqb_eq in E. specialize (Hz E).
    rewrite (length_mem_read OFF_fact_chunk) by (unfold OFF_fact_chunk; lia). lia.
  - cbn [length]. lia.
Qed.

Lemma wav_write_header_image (self : WavFile) (f : FILE) :
  wf self -> fp self = Some f -> stream_writable f = true ->
  fld format_chunk_size self <= 60 ->
  (fld fact_chunk_id self = WAV_FACT_CHUNK_ID -> fld fact_chunk_size self <= 12) ->
  exists self' f',
    wav_write_header self = Some self' /\
    error_code self' = WAV_OK /\ fp self' = Some f' /\
    Z.of_nat (length (header_image (chunk self'))) = wav_get_header_size self' /\
    stream_written f f' (header_image (chunk self')).
Proof.
  intros Hwf Hfp Hw Hfmt Hfact.
  pose proof (get_range format_chunk_size (chunk self)) as Rf.
  pose proof (get_range fact_chunk_size (chunk self)) as Rz.
  fold (fld format_chunk_size self) in Rf. fold (fld fact_chunk_size self) in Rz.
  unfold wav_write_header. rewrite Hfp.
  set (s := wav_header_sizes _).
  assert (Hs : chunk s = set chunk_size (riff_total (chunk self)) (chunk self)).
  { subst s. unfold wav_header_sizes. cbn [chunk with_chunk with_fp].
    apply header_chunk_update_eq, Hwf. }
  assert (Hwfs : wf s) by (unfold wf; rewrite Hs, length_set; [exact Hwf|field_side]).
  assert (Gf : fld format_chunk_size s = fld format_chunk_size self)
    by (unfold fld; rewrite Hs; apply get_set_other; field_side).
  assert (Gi : fld fact_chunk_id s = fld fact_chunk_id self)
    by (unfold fld; rewrite Hs; apply get_set_other; field_side).
  assert (Gz : fld fact_chunk_size s = fld fact_chunk_size self)
    by (unfold fld; rewrite Hs; apply get_set_other; field_side).
  assert (Hfps : fp s = Some (snd (fseek_set f 0))) by reflexivity.
  assert (K0 : stream_written f (snd (fseek_set f 0)) []).
  { unfold stream_written. cbn. rewrite app_nil_r, drop_0.
    repeat split; auto. destruct (stream_append f); reflexivity. }
  clearbody s.
  destruct (fwrite_chunk_written 0 (WAV_RIFF_HEADER_SIZE + 4) s f _ [] Hfps K0 Hw)
    as (g1 & E1 & K1); [unfold WAV_RIFF_HEADER_SIZE; lia..|].
  rewrite E1. cbn [negb Z.eqb Pos.eqb]. cbv iota.
  change (fld format_chunk_size (with_fp (Some g1) s)) with (fld format_chunk_size s).
  rewrite Gf. unfold u32 at 1. unfold WAV_RIFF_HEADER_SIZE at 1.
  rewrite (Z.mod_small (8 + _)) by lia.
  destruct (fwrite_chunk_written OFF_format_chunk (8 + fld format_chunk_size self)
              (with_fp (Some g1) s) f g1 _ eq_refl K1 Hw)
    as (g2 & E2 & K2); [unfold OFF_format_chunk, WAV_RIFF_HEADER_SIZE in *; lia..|].
  rewrite E2. cbn [negb Z.eqb Pos.eqb]. cbv iota.
  change (with_fp (Some g2) (with_fp (Some g1) s)) with (with_fp (Some g2) s) in *.
  change (fld fact_chunk_id (with_fp (Some g2) s)) with (fld fact_chunk_id s).
  change (fld fact_chunk_size (with_fp (Some g2) s)) with (fld fact_chunk_size s).
  change (chunk (with_fp (Some g1) s)) with (chunk s) in K2.
  rewrite Gi, Gz.
  assert (E3 : exists g3,
    (if fld fact_chunk_id self =? WAV_FACT_CHUNK_ID
     then fwrite_chunk OFF_fact_chunk
            (u32 (WAV_RIFF_HEADER_SIZE + fld fact_chunk_size self)) (with_fp (Some g2) s)
     else Some (1, with_fp (Some g2) s)) = Some (1, with_fp (Some g3) s) /\
    stream_written f g3
      (([] ++ mem_read 0 (Z.to_nat (WAV_RIFF_HEADER_SIZE + 4)) (chunk s))
         ++ mem_read OFF_format_chunk (Z.to_nat (8 + fld format_chunk_size self)) (chunk s)
         ++ (if fld fact_chunk_id self =? WAV_FACT_CHUNK_ID
             then mem_read OFF_fact_chunk (Z.to_nat (8 + fld fact_chunk_size self)) (chunk s)
             else []))).
  { destruct (fld fact_chunk_id self =? WAV_FACT_CHUNK_ID) eqn:Ef.
    - apply Z.eqb_eq in Ef. specialize (Hfact Ef).
      unfold u32, WAV_RIFF_HEADER_SIZE. rewrite (Z.mod_small (8 + _)) by lia.
      destruct (fwrite_chunk_written OFF_fact_chunk (8 + fld fact_chunk_size self)
                  (with_fp (Some g2) s) f g2 _ eq_refl K2 Hw)
        as (g3 & E3 & K3);
        [unfold OFF_fact_chunk, WAV_RIFF_HEADER_SIZE in *; lia..|].
      exists g3. split; [exact E3|].
      change (chunk (with_fp (Some g2) s)) with (chunk s) in K3.
      rewrite <- app_assoc in K3. exact K3.
    - exists g2. split; [reflexivity|]. rewrite app_nil_r. exact K2. }
  destruct E3 as (g3 & E3 & K3). rewrite E3.
  cbn [negb Z.eqb Pos.eqb]. cbv iota.
  destruct (fwrite_chunk_written OFF_data_chunk WAV_RIFF_HEADER_SIZE
              (with_fp (Some g3) s) f g3 _ eq_refl K3 Hw)
    as (g4 & E4 & K4); [unfold OFF_data_chunk, WAV_RIFF_HEADER_SIZE in *; lia..|].
  rewrite E4. cbn [negb Z.eqb Pos.eqb]. cbv iota.
  change (chunk (with_fp (Some g3) s)) with (chunk s) in K4.
  assert (HW : (([] ++ mem_read 0 (Z.to_nat (WAV_RIFF_HEADER_SIZE + 4)) (chunk s))
         ++ mem_read OFF_format_chunk (Z.to_nat (8 + fld format_chunk_size self)) (chunk s)
         ++ (if fld fact_chunk_id self =? WAV_FACT_CHUNK_ID
             then mem_read OFF_fact_chunk (Z.to_nat (8 + fld fact_chunk_size self)) (chunk s)
             else []))
         ++ mem_read OFF_data_chunk (Z.to_nat WAV_RIFF_HEADER_SIZE) (chunk s)
         = header_image (chunk s)).
  { unfold header_image. fold (fld format_chunk_size s) (fld fact_chunk_id s)
      (fld fact_chunk_size s). rewrite Gf, Gi, Gz.
    cbn [app]. rewrite <- !app_assoc. reflexivity. }
  rewrite HW in K4. clear HW K3 K2 K1 K0.
  exists (with_error_code WAV_OK (with_fp (Some g4) s)), g4.
  split; [reflexivity|]. split; [reflexivity|]. split; [reflexivity|].
  change (chunk (with_error_code WAV_OK (with_fp (Some g4) s))) with (chunk s).
  assert (HL : Z.of_nat (length (header_image (chunk s)))
               = wav_get_header_size (with_error_code WAV_OK (with_fp (Some g4) s))).
  { rewrite length_header_image.
    - symmetry. apply (wav_get_header_size_small (with_error_code WAV_OK (with_fp (Some g4) s))).
      + change (fld format_chunk_size s <= 60). now rewrite Gf.
      + change (fld fact_chunk_id s = WAV_FACT_CHUNK_ID -> fld fact_chunk_size s <= 12).
        now rewrite Gi, Gz.
    - exact Hwfs.
    - fold (fld format_chunk_size s). now rewrite Gf.
    - fold (fld fact_chunk_id s) (fld fact_chunk_size s). now rewrite Gi, Gz. }
  split; [exact HL|]. exact K4.
Qed.
Lemma get_agree (f g : field) (a b : list Byte.byte) :
  f_width f = f_width g ->
  (forall i, (i < f_width f)%nat -> a !! (f_off f + i)%nat = b !! (f_off g + i)%nat) ->
  get f a = get g b.
Proof.
  intros Hw H. unfold get. f_equal. apply list_eq; intros i.
  rewrite !lookup_mem_read. rewrite <- Hw.
  destruct (decide _); [|reflexivity]. apply H. lia.
Qed.

Lemma lookup_set_other (f : field) (v : Z) (m : list Byte.byte) (x : nat) :
  field_in f m -> ~ (f_off f <= x < f_off f + f_width f)%nat ->
  set f v m !! x = m !! x.
Proof.
  intros Hin Hx. unfold set, field_in in *.
  rewrite lookup_mem_write by lia. rewrite length_le_encode.
  destruct (decide _); [lia|reflexivity].
Qed.

Lemma fread_chunk_image (off : nat) (size : Z) (src : nat) (self : WavFile) (g : FILE)
    (c : list Byte.byte) :
  wf self -> fp self = Some g -> stream_readable g = true ->
  0 < size -> Z.of_nat off + size <= 80 ->
  (src + Z.to_nat size <= length c)%nat ->
  (forall i, (i < Z.to_nat size)%nat -> f_data g !! (f_pos g + i)%nat = c !! (src + i)%nat) ->
  exists self',
    fread_chunk off size self = Some (1, self') /\
    fp self' = Some (stream_at g (f_pos g + Z.to_nat size)) /\ wf self' /\
    (forall x, (off <= x < off + Z.to_nat size)%nat ->
       chunk self' !! x = c !! (src + (x - off))%nat) /\
    (forall x, ~ (off <= x < off + Z.to_nat size)%nat -> chunk self' !! x = chunk self !! x).
Proof.
  intros Hwf Hfp Hr Hs Hfit Hsrc Hd.
  assert (Hlen : Z.of_nat (f_pos g) + size * 1 <= Z.of_nat (length (f_data g))).
  { assert (Hi : (Z.to_nat size - 1 < Z.to_nat size)%nat) by lia.
    specialize (Hd _ Hi).
    destruct (lookup_lt_is_Some_2 c (src + (Z.to_nat size - 1))%nat) as [b Hb]; [lia|].
    rewrite Hb in Hd. apply lookup_lt_Some in Hd. lia. }
  unfold fread_chunk. rewrite Hfp.
  rewrite (fread_enough size 1 g Hr Hs) by lia.
  rewrite Z.mul_1_r.
  assert (Hl : length (take (Z.to_nat size) (drop (f_pos g) (f_data g))) = Z.to_nat size).
  { rewrite length_take, length_drop. lia. }
  rewrite Hl.
  destruct (decide _) as [_|Hn]; [|exfalso; apply Hn; unfold sizeof_WavMasterChunk; lia].
  eexists. split; [reflexivity|].
  unfold wf, sizeof_WavMasterChunk in *.
  cbn [fp chunk with_fp with_chunk].
  split; [reflexivity|].
  split; [rewrite length_mem_write; [exact Hwf|lia]|].
  split.
  - intros x Hx. rewrite lookup_mem_write by lia. rewrite Hl.
    destruct (decide _) as [_|Hn]; [|lia].
    rewrite lookup_take_lt by lia. rewrite lookup_drop. apply Hd. lia.
  - intros x Hx. rewrite lookup_mem_write by lia. rewrite Hl.
    destruct (decide _) as [Hy|_]; [lia|reflexivity].
Qed.

Lemma lookup_header_image (c : list Byte.byte) (y : nat) :
  length c = 80%nat -> get format_chunk_size c <= 60 ->
  (get fact_chunk_id c = WAV_FACT_CHUNK_ID -> get fact_chunk_size c <= 12) ->
  let F := Z.to_nat (get format_chunk_size c) in
  let Zs := Z.to_nat (get fact_chunk_size c) in
  ((y < 20 + F)%nat -> header_image c !! y = c !! y) /\
  (get fact_chunk_id c = WAV_FACT_CHUNK_ID ->
   ((20 + F <= y < 28 + F + Zs)%nat -> header_image c !! y = c !! (60 + (y - (20 + F)))%nat) /\
   ((28 + F + Zs <= y < 36 + F + Zs)%nat ->
      header_image c !! y = c !! (72 + (y - (28 + F + Zs)))%nat)) /\
  (get fact_chunk_id c <> WAV_FACT_CHUNK_ID ->
   (20 + F <= y < 28 + F)%nat -> header_image c !! y = c !! (72 + (y - (20 + F)))%nat).
Proof.
  intros Hl Hf Hz F Zs.
  pose proof (get_range format_chunk_size c) as Rf.
  pose proof (get_range fact_chunk_size c) as Rz.
  assert (L1 : length (mem_read 0 12 c) = 12%nat) by (apply length_mem_read; lia).
  assert (L2 : length (mem_read OFF_format_chunk (Z.to_nat (8 + get format_chunk_size c)) c)
               = (8 + F)%nat).
  { rewrite length_mem_read; unfold OFF_format_chunk; subst F; lia. }
  assert (L4 : length (mem_read OFF_data_chunk 8 c) = 8%nat)
    by (apply length_mem_read; unfold OFF_data_chunk; lia).
  unfold header_image.
  split; [|split].
  - intros Hy. destruct (decide (y < 12)%nat).
    + rewrite lookup_app_l by lia. rewrite lookup_mem_read.
      destruct (decide _); [reflexivity|lia].
    + rewrite lookup_app_r by lia. rewrite L1.
      rewrite lookup_app_l by lia. rewrite lookup_mem_read.
      destruct (decide _); [|lia]. unfold OFF_format_chunk. f_equal; lia.
  - intros Hfact. specialize (Hz Hfact). rewrite Hfact, Z.eqb_refl.
    assert (L3 : length (mem_read OFF_fact_chunk (Z.to_nat (8 + get fact_chunk_size c)) c)
                 = (8 + Zs)%nat).
    { rewrite length_mem_read; unfold OFF_fact_chunk; subst Zs; lia. }
    split; intros Hy.
    + rewrite lookup_app_r by lia. rewrite L1.
      rewrite lookup_app_r by lia. rewrite L2.
      rewrite lookup_app_l by lia. rewrite lookup_mem_read.
      destruct (decide _); [|lia]. unfold OFF_fact_chunk. f_equal; lia.
    + rewrite lookup_app_r by lia. rewrite L1.
      rewrite lookup_app_r by lia. rewrite L2.
      rewrite lookup_app_r by lia. rewrite L3. rewrite lookup_mem_read.
      destruct (decide _); [|lia]. unfold OFF_data_chunk. f_equal; lia.
  - intros Hfact Hy. apply Z.eqb_neq in Hfact. rewrite Hfact.
    rewrite lookup_app_r by lia. rewrite L1.
    rewrite lookup_app_r by lia. rewrite L2. cbn [app].
    rewrite lookup_mem_read.
    destruct (decide _); [|lia]. unfold OFF_data_chunk. f_equal; lia.
Qed.

Ltac norm_stream H :=
  unfold stream_at, WAV_RIFF_HEADER_SIZE, OFF_format_chunk, OFF_fact_chunk,
    OFF_data_chunk in H;
  cbn [f_data f_pos f_name f_mode f_eof f_error] in H;
  change (Z.to_nat 8) with 8%nat in H; change (Z.to_nat 4) with 4%nat in H.

Ltac at_offset g k :=
  cbn [f_data f_pos];
  match goal with
  | |- _ !! ?p = _ => replace p with (f_pos g + k)%nat by lia
  end.

Lemma parse_header_image (r : WavFile) (g : FILE) (c : list Byte.byte) :
  wf r -> fp r = Some g -> stream_readable g = true ->
  header_image c `prefix_of` drop (f_pos g) (f_data g) ->
  length c = 80%nat ->
  get chunk_id c = WAV_RIFF_CHUNK_ID -> get chunk_wave_id c = WAV_WAVE_ID ->
  get format_chunk_id c = WAV_FORMAT_CHUNK_ID ->
  2 <= get format_chunk_size c <= 40 ->
  accepted_tag (get format_tag c) ->
  (if get fact_chunk_id c =? WAV_FACT_CHUNK_ID
   then 1 <= get fact_chunk_size c <= 12
   else get data_chunk_id c <> WAV_FACT_CHUNK_ID) ->
  exists r',
    wav_parse_header r = Some r' /\ error_code r' = WAV_OK /\ wf r' /\
    fp r' = Some (stream_at g (f_pos g + length (header_image c))) /\
    (forall x, (x < 20 + Z.to_nat (get format_chunk_size c))%nat -> chunk r' !! x = c !! x) /\
    (if get fact_chunk_id c =? WAV_FACT_CHUNK_ID
     then fld data_chunk_id r' = get data_chunk_id c /\
          fld data_chunk_size r' = get data_chunk_size c /\
          fld fact_chunk_id r' = WAV_FACT_CHUNK_ID /\
          fld fact_chunk_size r' = get fact_chunk_size c /\
          (4 <= get fact_chunk_size c ->
           fld fact_sample_length r' = get fact_sample_length c)
     else if get data_chunk_id c =? WAV_DATA_CHUNK_ID
     then fld data_chunk_id r' = WAV_DATA_CHUNK_ID /\
          fld data_chunk_size r' = get data_chunk_size c /\
          fld fact_chunk_id r' = WAV_DATA_CHUNK_ID /\ fld fact_chunk_size r' = 0
     else fld fact_chunk_id r' = get data_chunk_id c /\
          fld fact_chunk_size r' = get data_chunk_size c /\
          fld data_chunk_id r' = fld data_chunk_id r /\
          fld data_chunk_size r' = fld data_chunk_size r).
Proof.
  intros Hwf Hfp Hr [rest Hpre] Hl Hriff Hwave Hfmt Hfs Htag Hfact.
  pose proof (get_range fact_chunk_size c) as Rz.
  change (2 ^ (8 * Z.of_nat (f_width fact_chunk_size))) with (2 ^ 32) in Rz.
  assert (Hz12 : get fact_chunk_id c = WAV_FACT_CHUNK_ID -> get fact_chunk_size c <= 12).
  { intros E. rewrite E, Z.eqb_refl in Hfact. lia. }
  assert (HLZ := length_header_image c Hl ltac:(lia) Hz12).
  assert (Himg : forall y, (y < length (header_image c))%nat ->
            f_data g !! (f_pos g + y)%nat = header_image c !! y).
  { intros y Hy. rewrite <- lookup_drop, Hpre. apply lookup_app_l. exact Hy. }
  pose proof (fun y => lookup_header_image c y Hl ltac:(lia) Hz12) as Hlk.
  cbv zeta in Hlk.
  set (F := Z.to_nat (get format_chunk_size c)) in *.
  set (Zs := Z.to_nat (get fact_chunk_size c)) in *.
  assert (HF : (2 <= F <= 40)%nat) by (subst F; lia).
  assert (HL : length (header_image c) =
               (28 + F + (if (get fact_chunk_id c =? WAV_FACT_CHUNK_ID)%Z then 8 + Zs else 0))%nat).
  { apply Nat2Z.inj. rewrite HLZ. subst F Zs.
    destruct (get fact_chunk_id c =? WAV_FACT_CHUNK_ID); lia. }
  assert (D1 : forall y, (y < 20 + F)%nat -> f_data g !! (f_pos g + y)%nat = c !! y).
  { intros y Hy. rewrite Himg by (rewrite HL; lia). apply Hlk. exact Hy. }
  unfold wav_parse_header.
  (* RIFF header *)
  destruct (fread_chunk_image 0 WAV_RIFF_HEADER_SIZE 0 r g c Hwf Hfp Hr)
    as (s1 & E1 & P1 & W1 & I1 & O1);
    [unfold WAV_RIFF_HEADER_SIZE; lia..| |].
  { intros i Hi. apply D1. unfold WAV_RIFF_HEADER_SIZE in Hi. lia. }
  rewrite E1. cbv beta iota. norm_stream P1.
  assert (C1 : fld chunk_id s1 = WAV_RIFF_CHUNK_ID).
  { rewrite <- Hriff. apply get_agree; [reflexivity|]. intros i Hi.
    cbn [chunk_id f_off f_width] in *. rewrite I1 by (unfold WAV_RIFF_HEADER_SIZE; lia).
    f_equal; lia. }
  rewrite C1, Z.eqb_refl. change (1 =? 1) with true. cbn [negb orb]. cbv iota.
  (* WAVE id *)
  destruct (fread_chunk_image 8 4 8 s1 _ c W1 P1 Hr) as (s2 & E2 & P2 & W2 & I2 & O2);
    [lia..| |].
  { intros i Hi. at_offset g (8 + i)%nat. apply D1. lia. }
  rewrite E2. cbv beta iota. norm_stream P2.
  assert (A2 : forall x, (x < 12)%nat -> chunk s2 !! x = c !! x).
  { intros x Hx. destruct (decide (8 <= x)%nat).
    - rewrite I2 by lia. f_equal; lia.
    - rewrite O2 by lia. rewrite I1 by (unfold WAV_RIFF_HEADER_SIZE; lia). f_equal; lia. }
  assert (C2 : fld chunk_wave_id s2 = WAV_WAVE_ID).
  { rewrite <- Hwave. apply get_agree; [reflexivity|]. intros i Hi.
    cbn [chunk_wave_id f_off f_width] in *. apply A2. lia. }
  rewrite C2, Z.eqb_refl. change (1 =? 1) with true. cbn [negb orb]. cbv iota.
  (* fmt header *)
  destruct (fread_chunk_image OFF_format_chunk WAV_RIFF_HEADER_SIZE 12 s2 _ c W2 P2 Hr)
    as (s3 & E3 & P3 & W3 & I3 & O3);
    [unfold WAV_RIFF_HEADER_SIZE, OFF_format_chunk; lia..| |].
  { intros i Hi. unfold WAV_RIFF_HEADER_SIZE in Hi. at_offset g (12 + i)%nat.
    apply D1. lia. }
  rewrite E3. cbv beta iota. norm_stream P3.
  unfold OFF_format_chunk, WAV_RIFF_HEADER_SIZE in I3, O3.
  assert (A3 : forall x, (x < 20)%nat -> chunk s3 !! x = c !! x).
  { intros x Hx. destruct (decide (12 <= x)%nat).
    - rewrite I3 by lia. f_equal; lia.
    - rewrite O3 by lia. apply A2. lia. }
  assert (C3 : fld format_chunk_id s3 = WAV_FORMAT_CHUNK_ID).
  { rewrite <- Hfmt. apply get_agree; [reflexivity|]. intros i Hi.
    cbn [format_chunk_id f_off f_width] in *. apply A3. lia. }
  assert (S3 : fld format_chunk_size s3 = get format_chunk_size c).
  { apply get_agree; [reflexivity|]. intros i Hi.
    cbn [format_chunk_size f_off f_width] in *. apply A3. lia. }
  rewrite C3, Z.eqb_refl. change (1 =? 1) with true. cbn [negb orb]. cbv iota.
  rewrite S3.
  (* fmt body *)
  change (OFF_format_chunk + 8)%nat with 20%nat.
  destruct (fread_chunk_image 20 (get format_chunk_size c) 20 s3 _ c W3 P3 Hr)
    as (s4 & E4 & P4 & W4 & I4 & O4); [lia | lia | fold F; lia | |].
  { intros i Hi. fold F in Hi. at_offset g (20 + i)%nat. apply D1. lia. }
  rewrite E4. cbv beta iota. fold F in P4, I4, O4. norm_stream P4.
  assert (A4 : forall x, (x < 20 + F)%nat -> chunk s4 !! x = c !! x).
  { intros x Hx. destruct (decide (20 <= x)%nat).
    - rewrite I4 by lia. f_equal; lia.
    - rewrite O4 by lia. apply A3. lia. }
  assert (T4 : fld format_tag s4 = get format_tag c).
  { apply get_agree; [reflexivity|]. intros i Hi.
    cbn [format_tag f_off f_width] in *. apply A4. lia. }
  assert (Tg : negb ((get format_tag c =? WAV_FORMAT_PCM)
                     || (get format_tag c =? WAV_FORMAT_IEEE_FLOAT)
                     || ((get format_tag c =? WAV_FORMAT_ALAW)
                         || (get format_tag c =? WAV_FORMAT_MULAW))) = false).
  { destruct Htag as [H|[H|[H|H]]]; rewrite H; reflexivity. }
  rewrite T4, Tg. change (1 =? 1) with true. cbn [negb]. cbv iota.
  (* the chunk header after fmt *)
  set (src := if get fact_chunk_id c =? WAV_FACT_CHUNK_ID then 60%nat else 72%nat).
  destruct (fread_chunk_image OFF_fact_chunk WAV_RIFF_HEADER_SIZE src s4 _ c W4 P4 Hr)
    as (s5 & E5 & P5 & W5 & I5 & O5);
    [unfold WAV_RIFF_HEADER_SIZE, OFF_fact_chunk; lia..
    |subst src; unfold WAV_RIFF_HEADER_SIZE; destruct (_ =? _); lia | |].
  { intros i Hi. unfold WAV_RIFF_HEADER_SIZE in Hi. at_offset g (20 + F + i)%nat.
    rewrite Himg by (rewrite HL; destruct (_ =? _); lia).
    subst src. destruct (get fact_chunk_id c =? WAV_FACT_CHUNK_ID) eqn:Ef.
    - apply Z.eqb_eq in Ef. destruct (Hlk (20 + F + i)%nat) as (_ & Hk & _).
      destruct (Hk Ef) as (Hk1 & _). rewrite Hk1 by lia. f_equal; lia.
    - apply Z.eqb_neq in Ef. destruct (Hlk (20 + F + i)%nat) as (_ & _ & Hk).
      rewrite (Hk Ef) by lia. f_equal; lia. }
  rewrite E5. cbv beta iota. change (1 =? 1) with true. cbn [negb]. cbv iota.
  unfold OFF_fact_chunk, WAV_RIFF_HEADER_SIZE in I5, O5. norm_stream P5.
  change (Z.to_nat 8) with 8%nat in *. change (Z.to_nat 4) with 4%nat in *.
  assert (A5 : forall x, (x < 20 + F)%nat -> chunk s5 !! x = c !! x).
  { intros x Hx. rewrite O5 by lia. apply A4. exact Hx. }
  assert (B5 : forall i, (i < 8)%nat -> chunk s5 !! (60 + i)%nat = c !! (src + i)%nat).
  { intros i Hi. rewrite I5 by lia. f_equal; lia. }
  destruct (get fact_chunk_id c =? WAV_FACT_CHUNK_ID) eqn:Ef.
  - (* a fact chunk *)
    apply Z.eqb_eq in Ef. subst src.
    assert (C5 : fld fact_chunk_id s5 = WAV_FACT_CHUNK_ID).
    { rewrite <- Ef. apply get_agree; [reflexivity|]. intros i Hi.
      cbn [fact_chunk_id f_off f_width] in *. apply B5. lia. }
    assert (S5 : fld fact_chunk_size s5 = get fact_chunk_size c).
    { apply get_agree; [reflexivity|]. intros i Hi.
      cbn [fact_chunk_size f_off f_width] in *.
      replace (64 + i)%nat with (60 + (4 + i))%nat by lia. rewrite B5 by lia.
      f_equal; lia. }
    rewrite C5, Z.eqb_refl, S5. cbv iota.
    change (OFF_fact_chunk + 8)%nat with 68%nat.
    destruct (fread_chunk_image 68 (get fact_chunk_size c) 68 s5 _ c W5 P5 Hr)
      as (s6 & E6 & P6 & W6 & I6 & O6); [lia | lia | fold Zs; lia | |].
    { intros i Hi. fold Zs in Hi. at_offset g (28 + F + i)%nat.
      rewrite Himg by (rewrite HL; lia).
      destruct (Hlk (28 + F + i)%nat) as (_ & Hk & _).
      destruct (Hk Ef) as (Hk1 & _). rewrite Hk1 by lia. f_equal; lia. }
    rewrite E6. cbv beta iota. change (1 =? 1) with true. cbn [negb]. cbv iota.
    fold Zs in P6, I6, O6. norm_stream P6.
    destruct (fread_chunk_image OFF_data_chunk WAV_RIFF_HEADER_SIZE 72 s6 _ c W6 P6 Hr)
      as (s7 & E7 & P7 & W7 & I7 & O7);
      [unfold WAV_RIFF_HEADER_SIZE, OFF_data_chunk; lia..| |].
    { intros i Hi. unfold WAV_RIFF_HEADER_SIZE in Hi.
      at_offset g (28 + F + Zs + i)%nat.
      rewrite Himg by (rewrite HL; lia).
      destruct (Hlk (28 + F + Zs + i)%nat) as (_ & Hk & _).
      destruct (Hk Ef) as (_ & Hk2). rewrite Hk2 by lia. f_equal; lia. }
    rewrite E7. cbv beta iota. change (1 =? 1) with true. cbn [negb]. cbv iota.
    unfold OFF_data_chunk, WAV_RIFF_HEADER_SIZE in I7, O7. norm_stream P7.
    change (Z.to_nat 8) with 8%nat in *.
    eexists. split; [reflexivity|].
    split; [reflexivity|]. split; [exact W7|].
    split.
    { cbn [fp with_error_code]. rewrite P7. unfold stream_at. rewrite HL.
      do 2 f_equal; lia. }
    unfold fld. cbn [chunk with_error_code].
    split.
    { intros x Hx. rewrite O7 by lia. rewrite O6 by lia. apply A5. exact Hx. }
    split.
    { apply get_agree; [reflexivity|]. intros i Hi.
      cbn [data_chunk_id f_off f_width] in *. rewrite I7 by lia. f_equal; lia. }
    split.
    { apply get_agree; [reflexivity|]. intros i Hi.
      cbn [data_chunk_size f_off f_width] in *. rewrite I7 by lia. f_equal; lia. }
    split.
    { rewrite <- Ef. apply get_agree; [reflexivity|]. intros i Hi.
      cbn [fact_chunk_id f_off f_width] in *.
      rewrite O7 by lia. rewrite O6 by lia. apply B5. lia. }
    split.
    { apply get_agree; [reflexivity|]. intros i Hi.
      cbn [fact_chunk_size f_off f_width] in *.
      rewrite O7 by lia. rewrite O6 by lia.
      replace (64 + i)%nat with (60 + (4 + i))%nat by lia. rewrite B5 by lia. f_equal; lia. }
    intros H4. apply get_agree; [reflexivity|]. intros i Hi.
    cbn [fact_sample_length f_off f_width] in *.
    rewrite O7 by lia. rewrite I6 by lia. f_equal; lia.
  - (* no fact chunk: the next chunk header has been read into the fact member *)
    subst src.
    assert (C5 : fld fact_chunk_id s5 = get data_chunk_id c).
    { apply get_agree; [reflexivity|]. intros i Hi.
      cbn [fact_chunk_id data_chunk_id f_off f_width] in *. apply B5. lia. }
    assert (S5 : fld fact_chunk_size s5 = get data_chunk_size c).
    { apply get_agree; [reflexivity|]. intros i Hi.
      cbn [fact_chunk_size data_chunk_size f_off f_width] in *.
      replace (64 + i)%nat with (60 + (4 + i))%nat by lia. rewrite B5 by lia.
      f_equal; lia. }
    rewrite C5. apply Z.eqb_neq in Hfact. rewrite Hfact. cbv iota.
    destruct (get data_chunk_id c =? WAV_DATA_CHUNK_ID) eqn:Ed.
    + (* a data chunk: it is moved to the data member *)
      apply Z.eqb_eq in Ed.
      eexists. split; [reflexivity|].
      unfold wf, sizeof_WavMasterChunk in W5.
      assert (G1 : fld fact_chunk_size (set_fld data_chunk_id (get data_chunk_id c) s5)
                   = get data_chunk_size c).
      { rewrite <- S5. unfold fld, set_fld. cbn [chunk with_chunk].
        apply get_set_other; field_side. }
      rewrite G1.
      pose proof (get_range data_chunk_size c) as Rd.
      change (2 ^ (8 * Z.of_nat (f_width data_chunk_size))) with (2 ^ 32) in Rd.
      unfold fld, set_fld, wf, sizeof_WavMasterChunk.
      cbn [chunk with_chunk with_error_code error_code fp].
      set (ca := set data_chunk_id (get data_chunk_id c) (chunk s5)).
      set (cb := set data_chunk_size (get data_chunk_size c) ca).
      assert (La : length ca = 80%nat)
        by (unfold ca; rewrite length_set; [exact W5|field_side]).
      assert (Lb : length cb = 80%nat)
        by (unfold cb; rewrite length_set; [exact La|field_side]).
      split; [reflexivity|].
      split; [rewrite length_set; [exact Lb|field_side]|].
      split.
      { rewrite P5. unfold stream_at. rewrite HL. do 2 f_equal; lia. }
      split.
      { intros x Hx.
        rewrite (lookup_set_other fact_chunk_size);
          [|field_side|cbn [fact_chunk_size f_off f_width]; lia].
        unfold cb. rewrite (lookup_set_other data_chunk_size);
          [|field_side|cbn [data_chunk_size f_off f_width]; lia].
        unfold ca. rewrite (lookup_set_other data_chunk_id);
          [|field_side|cbn [data_chunk_id f_off f_width]; lia].
        apply A5. exact Hx. }
      split.
      { rewrite get_set_other by field_side.
        unfold cb. rewrite get_set_other by field_side.
        unfold ca. rewrite get_set_same by field_side.
        rewrite Ed. reflexivity. }
      split.
      { rewrite get_set_other by field_side.
        unfold cb. rewrite get_set_same by field_side.
        change (2 ^ (8 * Z.of_nat (f_width data_chunk_size))) with (2 ^ 32).
        apply Z.mod_small. lia. }
      split.
      { rewrite get_set_other by field_side.
        unfold cb. rewrite get_set_other by field_side.
        unfold ca. rewrite get_set_other by field_side.
        fold (fld fact_chunk_id s5). rewrite C5. exact Ed. }
      rewrite get_set_same by field_side. reflexivity.
    + (* any other chunk: nothing more is read *)
      eexists. split; [reflexivity|].
      split; [reflexivity|]. split; [exact W5|].
      split.
      { cbn [fp with_error_code]. rewrite P5. unfold stream_at. rewrite HL.
        do 2 f_equal; lia. }
      split; [exact A5|].
      assert (Hhigh : forall x, (72 <= x)%nat -> chunk s5 !! x = chunk r !! x).
      { intros x Hx. rewrite O5 by lia. rewrite O4 by lia. rewrite O3 by lia.
        rewrite O2 by lia. apply O1. unfold WAV_RIFF_HEADER_SIZE. lia. }
      split; [exact C5|]. split; [exact S5|].
      split.
      * apply get_agree; [reflexivity|]. intros i Hi.
        cbn [data_chunk_id f_off f_width] in *. apply Hhigh. lia.
      * apply get_agree; [reflexivity|]. intros i Hi.
        cbn [data_chunk_size f_off f_width] in *. apply Hhigh. lia.
Qed.

(** X1: on a writable stream [wav_write_header] puts exactly the header
    image of the updated chunk on the stream: RIFF header and WAVE id, the
    fmt chunk with its declared size, the fact chunk when present, the data
    chunk header. The image is [wav_get_header_size] bytes long; it replaces
    the first bytes of the contents (an append stream takes it at its end),
    and the stream is left right behind it. *)
Theorem write_header_layout (self : WavFile) (f : FILE) :
  wf self -> fp self = Some f -> stream_writable f = true ->
  fld format_chunk_size self <= 60 ->
  (fld fact_chunk_id self = WAV_FACT_CHUNK_ID -> fld fact_chunk_size self <= 12) ->
  exists self' f',
    wav_write_header self = Some self' /\
    error_code self' = WAV_OK /\ fp self' = Some f' /\
    Z.of_nat (length (header_image (chunk self'))) = wav_get_header_size self' /\
    f_data f' =
      (if stream_append f then f_data f ++ header_image (chunk self')
       else header_image (chunk self')
              ++ drop (length (header_image (chunk self'))) (f_data f)) /\
    (stream_append f = false -> ftell f' = wav_get_header_size self').
Proof.
  intros Hwf Hfp Hw Hfmt Hfact.
  destruct (wav_write_header_image self f Hwf Hfp Hw Hfmt Hfact)
    as (self' & f' & E & He & Hf' & HL & (_ & _ & _ & Kd & Kp)).
  exists self', f'. repeat (split; [assumption|]).
  intros Ha. unfold ftell. rewrite (Kp Ha). exact HL.
Qed.

Lemma write_header_layout_witness :
  exists self' f',
    wav_write_header pcm24_writer = Some self' /\ fp self' = Some f' /\
    f_data f' = header_image (chunk self')
                  ++ drop (length (header_image (chunk self'))) (f_data pcm24_stream) /\
    ftell f' = wav_get_header_size self'.
Proof.
  destruct (write_header_layout pcm24_writer pcm24_stream)
    as (self' & f' & E & _ & Hf & _ & Hd & Hp).
  - reflexivity.
  - reflexivity.
  - reflexivity.
  - vm_compute. discriminate.
  - vm_compute. discriminate.
  - exists self', f'. split; [exact E|]. split; [exact Hf|].
    split; [exact Hd|]. apply Hp. reflexivity.
Defined.

Lemma parse_header_fields (r : WavFile) (g : FILE) (c : list Byte.byte) :
  wf r -> fp r = Some g -> stream_readable g = true ->
  header_image c `prefix_of` drop (f_pos g) (f_data g) ->
  length c = 80%nat ->
  get chunk_id c = WAV_RIFF_CHUNK_ID -> get chunk_wave_id c = WAV_WAVE_ID ->
  get format_chunk_id c = WAV_FORMAT_CHUNK_ID ->
  2 <= get format_chunk_size c <= 40 ->
  accepted_tag (get format_tag c) ->
  (if get fact_chunk_id c =? WAV_FACT_CHUNK_ID
   then 1 <= get fact_chunk_size c <= 12
   else get data_chunk_id c = WAV_DATA_CHUNK_ID) ->
  exists r' g',
    wav_parse_header r = Some r' /\ error_code r' = WAV_OK /\
    fp r' = Some g' /\ f_data g' = f_data g /\
    f_mode g' = f_mode g /\ f_error g' = f_error g /\
    ftell g' = Z.of_nat (f_pos g) + wav_get_header_size r' /\
    (forall m : field,
       (f_off m + f_width m <= 20 + Z.to_nat (get format_chunk_size c))%nat ->
       fld m r' = get m c) /\
    fld data_chunk_id r' = get data_chunk_id c /\
    fld data_chunk_size r' = get data_chunk_size c /\
    (if get fact_chunk_id c =? WAV_FACT_CHUNK_ID
     then fld fact_chunk_id r' = WAV_FACT_CHUNK_ID /\
          fld fact_chunk_size r' = get fact_chunk_size c /\
          (4 <= get fact_chunk_size c ->
           fld fact_sample_length r' = get fact_sample_length c)
     else fld fact_chunk_id r' = WAV_DATA_CHUNK_ID /\ fld fact_chunk_size r' = 0).
Proof.
  intros Hwf Hfp Hr Hpre Hl Hriff Hwave Hfmt Hfs Htag Hfact.
  assert (Hfact' : if get fact_chunk_id c =? WAV_FACT_CHUNK_ID
                   then 1 <= get fact_chunk_size c <= 12
                   else get data_chunk_id c <> WAV_FACT_CHUNK_ID).
  { destruct (get fact_chunk_id c =? WAV_FACT_CHUNK_ID); [exact Hfact|].
    rewrite Hfact. discriminate. }
  destruct (parse_header_image r g c Hwf Hfp Hr Hpre Hl Hriff Hwave Hfmt Hfs Htag Hfact')
    as (r' & E & He & Hwf' & Hfp' & Hlow & Hcase).
  assert (Hfin : fld data_chunk_id r' = get data_chunk_id c /\
                 fld data_chunk_size r' = get data_chunk_size c /\
                 (if get fact_chunk_id c =? WAV_FACT_CHUNK_ID
                  then fld fact_chunk_id r' = WAV_FACT_CHUNK_ID /\
                       fld fact_chunk_size r' = get fact_chunk_size c /\
                       (4 <= get fact_chunk_size c ->
                        fld fact_sample_length r' = get fact_sample_length c)
                  else fld fact_chunk_id r' = WAV_DATA_CHUNK_ID /\
                       fld fact_chunk_size r' = 0)).
  { destruct (get fact_chunk_id c =? WAV_FACT_CHUNK_ID).
    - destruct Hcase as (H1 & H2 & H3); auto.
    - rewrite Hfact, Z.eqb_refl in Hcase. rewrite Hfact.
      destruct Hcase as (H1 & H2 & H3 & H4); auto. }
  clear Hcase. destruct Hfin as (Hdi & Hds & Hfa).
  assert (Hz12 : get fact_chunk_id c = WAV_FACT_CHUNK_ID -> get fact_chunk_size c <= 12).
  { intros Ef. rewrite Ef, Z.eqb_refl in Hfact. lia. }
  pose proof (length_header_image c Hl ltac:(lia) Hz12) as HL.
  assert (Hmem : forall m : field,
            (f_off m + f_width m <= 20 + Z.to_nat (get format_chunk_size c))%nat ->
            fld m r' = get m c).
  { intros m Hm. apply get_agree; [reflexivity|]. intros i Hi. apply Hlow. lia. }
  exists r', (stream_at g (f_pos g + length (header_image c))).
  split; [exact E|]. split; [exact He|]. split; [exact Hfp'|]. split; [reflexivity|].
  split; [reflexivity|]. split; [reflexivity|].
  split.
  { unfold ftell, stream_at. cbn [f_pos]. rewrite Nat2Z.inj_add, HL. f_equal.
    rewrite wav_get_header_size_small.
    - rewrite (Hmem format_chunk_size)
        by (cbn [format_chunk_size f_off f_width]; lia).
      destruct (get fact_chunk_id c =? WAV_FACT_CHUNK_ID) eqn:Ef.
      + destruct Hfa as (Hi & Hs & _). rewrite Hi, Hs, Z.eqb_refl. reflexivity.
      + destruct Hfa as (Hi & _). rewrite Hi. reflexivity.
    - rewrite (Hmem format_chunk_size)
        by (cbn [format_chunk_size f_off f_width]; lia). lia.
    - destruct (get fact_chunk_id c =? WAV_FACT_CHUNK_ID) eqn:Ef.
      + destruct Hfa as (_ & Hs & _). rewrite Hs. lia.
      + destruct Hfa as (Hi & _). rewrite Hi. discriminate. }
  split; [exact Hmem|]. split; [exact Hdi|]. split; [exact Hds|]. exact Hfa.
Qed.

(** X2: when the stream holds, at its position, the header image of a chunk
    with the RIFF, WAVE and fmt ids, a fmt size of 2 to 40, an accepted
    format tag and either a fact chunk of 1 to 12 bytes or the data chunk
    right after the fmt chunk, [wav_parse_header] succeeds; it loads every
    member that lies inside the declared fmt size, the data chunk header and
    the fact chunk (marking its absence with the data id and size 0), and
    leaves the stream, its contents, mode and error flag untouched,
    [wav_get_header_size] bytes further. *)
Theorem parse_header_decodes (r : WavFile) (g : FILE) (c : list Byte.byte) :
  wf r -> fp r = Some g -> stream_readable g = true ->
  header_image c `prefix_of` drop (f_pos g) (f_data g) ->
  length c = 80%nat ->
  get chunk_id c = WAV_RIFF_CHUNK_ID -> get chunk_wave_id c = WAV_WAVE_ID ->
  get format_chunk_id c = WAV_FORMAT_CHUNK_ID ->
  2 <= get format_chunk_size c <= 40 ->
  accepted_tag (get format_tag c) ->
  (if get fact_chunk_id c =? WAV_FACT_CHUNK_ID
   then 1 <= get fact_chunk_size c <= 12
   else get data_chunk_id c = WAV_DATA_CHUNK_ID) ->
  exists r' g',
    wav_parse_header r = Some r' /\ error_code r' = WAV_OK /\
    fp r' = Some g' /\ f_data g' = f_data g /\
    f_mode g' = f_mode g /\ f_error g' = f_error g /\
    ftell g' = Z.of_nat (f_pos g) + wav_get_header_size r' /\
    (forall m : field,
       (f_off m + f_width m <= 20 + Z.to_nat (get format_chunk_size c))%nat ->
       fld m r' = get m c) /\
    fld data_chunk_id r' = get data_chunk_id c /\
    fld data_chunk_size r' = get data_chunk_size c /\
    (if get fact_chunk_id c =? WAV_FACT_CHUNK_ID
     then fld fact_chunk_id r' = WAV_FACT_CHUNK_ID /\
          fld fact_chunk_size r' = get fact_chunk_size c /\
          (4 <= get fact_chunk_size c ->
           fld fact_sample_length r' = get fact_sample_length c)
     else fld fact_chunk_id r' = WAV_DATA_CHUNK_ID /\ fld fact_chunk_size r' = 0).
Proof. exact (parse_header_fields r g c). Qed.

Lemma parse_header_decodes_witness :
  exists r' g',
    wav_parse_header (reader_on pcm_wav) = Some r' /\ error_code r' = WAV_OK /\
    fp r' = Some g' /\ ftell g' = 0 + wav_get_header_size r' /\
    fld n_channels r' = 2 /\ fld block_align r' = 4 /\ fld data_chunk_size r' = 8.
Proof.
  destruct (parse_header_decodes (reader_on pcm_wav)
              (mkFILE "x.wav" "rb" pcm_wav 0 false false) (chunk pcm_reader))
    as (r' & g' & E & He & Hfp & _ & _ & _ & Hp & Hm & _ & Hd & _).
  - reflexivity.
  - reflexivity.
  - reflexivity.
  - exists (drop 44 pcm_wav). vm_compute. reflexivity.
  - reflexivity.
  - reflexivity.
  - reflexivity.
  - reflexivity.
  - vm_compute. split; discriminate.
  - left. reflexivity.
  - vm_compute. reflexivity.
  - exists r', g'. split; [exact E|]. split; [exact He|]. split; [exact Hfp|].
    split; [exact Hp|].
    split; [rewrite (Hm n_channels); [reflexivity | vm_compute; lia]|].
    split; [rewrite (Hm block_align); [reflexivity | vm_compute; lia]|].
    rewrite Hd. reflexivity.
Defined.



Lemma byte_to_Z_inj (a b : Byte.byte) : byte_to_Z a = byte_to_Z b -> a = b.
Proof. intros H. rewrite <- (Z_to_byte_to_Z a), <- (Z_to_byte_to_Z b). now rewrite H. Qed.

Lemma le_decode_inj (a b : list Byte.byte) :
  length a = length b -> le_decode a = le_decode b -> a = b.
Proof.
  revert b. induction a as [|x a IH]; intros [|y b] Hl H; try discriminate; [reflexivity|].
  cbn [le_decode] in H. cbn [length] in Hl.
  pose proof (byte_to_Z_range x). pose proof (byte_to_Z_range y).
  assert (byte_to_Z x = byte_to_Z y /\ le_decode a = le_decode b) as [Hx Hr] by lia.
  f_equal; [apply byte_to_Z_inj, Hx|apply IH; [lia|exact Hr]].
Qed.

Lemma fread_chunk_one (off : nat) (size : Z) (self : WavFile) (n : Z) (s' : WavFile)
    (g : FILE) :
  wf self -> fp self = Some g -> fread_chunk off size self = Some (n, s') ->
  (n =? 1) = true ->
  stream_readable g = true /\ 0 < size /\
  (f_pos g + Z.to_nat size <= length (f_data g))%nat /\
  (off + Z.to_nat size <= 80)%nat /\
  fp s' = Some (stream_at g (f_pos g + Z.to_nat size)) /\
  (forall m : field,
     (off <= f_off m)%nat -> (f_off m + f_width m <= off + Z.to_nat size)%nat ->
     fld m s' = le_decode (mem_read (f_pos g + (f_off m - off)) (f_width m) (f_data g))).
Proof.
  intros Hwf Hfp E Hn. unfold fread_chunk in E. rewrite Hfp in E.
  unfold fread in E.
  destruct (stream_readable g) eqn:Hr; cbn [negb] in E.
  2:{ destruct (decide _); [|discriminate]. injection E as <- <-. discriminate. }
  rewrite Z.mul_1_r in E.
  set (got := take (Z.to_nat size) (drop (f_pos g) (f_data g))) in *.
  destruct (decide (off + length got <= sizeof_WavMasterChunk)%nat) as [Hfit|]; [|discriminate].
  injection E as <- <-.
  assert (Hgl : (length got <= Z.to_nat size)%nat) by (subst got; rewrite length_take; lia).
  destruct (size =? 0) eqn:Hs0; [discriminate|]. apply Z.eqb_neq in Hs0.
  apply Z.eqb_eq in Hn.
  assert (Hsz : 0 < size /\ Z.of_nat (length got) = size).
  { destruct (Z.lt_ge_cases size 0) as [Hneg|Hpos].
    - replace (Z.to_nat size) with 0%nat in Hgl by lia.
      replace (length got) with 0%nat in Hn by lia. cbn in Hn. discriminate.
    - assert (Hlt : ~ Z.of_nat (length got) < size).
      { intros Hlt. rewrite Z.div_small in Hn by lia. discriminate. }
      lia. }
  destruct Hsz as [Hs Hgot].
  assert (Hlen : (f_pos g + Z.to_nat size <= length (f_data g))%nat).
  { subst got. rewrite length_take, length_drop in Hgot. lia. }
  unfold sizeof_WavMasterChunk in Hfit.
  split; [reflexivity|]. split; [exact Hs|]. split; [exact Hlen|]. split; [lia|].
  split.
  - cbn [fp with_fp]. unfold stream_at. do 2 f_equal.
    + lia.
    + replace (length got <? Z.to_nat size)%nat with false
        by (symmetry; apply Nat.ltb_ge; lia).
      apply orb_false_r.
  - intros m Hlo Hhi. unfold fld, get. cbn [chunk with_fp with_chunk]. f_equal.
    apply list_eq; intros i. rewrite !lookup_mem_read.
    destruct (decide (i < f_width m)%nat); [|reflexivity].
    unfold wf, sizeof_WavMasterChunk in Hwf.
    rewrite lookup_mem_write by lia.
    destruct (decide _) as [_|Hout]; [|lia].
    subst got. rewrite lookup_take_lt by lia. rewrite lookup_drop. f_equal. lia.
Qed.

(** X4: [wav_parse_header] returns OK only on a readable stream that holds
    "RIFF" at its position, "WAVE" eight bytes later and "fmt " after it, and
    that is at least [wav_get_header_size] bytes long from there; the stream
    is then left exactly that many bytes further, its contents untouched. *)
Theorem parse_header_ok_sound (r r' : WavFile) (g : FILE) :
  wf r -> fp r = Some g ->
  wav_parse_header r = Some r' -> error_code r' = WAV_OK ->
  stream_readable g = true /\
  mem_read (f_pos g) 4 (f_data g) = str_bytes "RIFF" /\
  mem_read (f_pos g + 8) 4 (f_data g) = str_bytes "WAVE" /\
  mem_read (f_pos g + 12) 4 (f_data g) = str_bytes "fmt " /\
  Z.of_nat (f_pos g) + wav_get_header_size r' <= Z.of_nat (length (f_data g)) /\
  exists g', fp r' = Some g' /\ f_data g' = f_data g /\
             ftell g' = Z.of_nat (f_pos g) + wav_get_header_size r'.
Proof.
  intros Hwf Hfp E Hok. unfold wav_parse_header in E.
  unfold WAV_RIFF_HEADER_SIZE, OFF_format_chunk, OFF_fact_chunk, OFF_data_chunk in E.
  assert (Hmagic : forall (p : nat) (s : string),
            String.length s = 4%nat ->
            (p + 4 <= length (f_data g))%nat ->
            le_decode (mem_read p 4 (f_data g)) = le_decode (str_bytes s) ->
            mem_read p 4 (f_data g) = str_bytes s).
  { intros p s Hs Hp H. apply le_decode_inj; [|exact H].
    rewrite length_mem_read by lia. unfold str_bytes.
    rewrite length_map. clear -Hs.
    destruct s as [|a [|b [|c [|d [|e s]]]]]; try discriminate. reflexivity. }
  (* RIFF header *)
  destruct (fread_chunk 0 _ r) as [[n1 s1]|] eqn:E1; [|discriminate].
  destruct (n1 =? 1) eqn:N1; cbn [negb orb] in E;
    [|injection E as <-; discriminate].
  destruct (fld chunk_id s1 =? WAV_RIFF_CHUNK_ID) eqn:C1; cbn [negb] in E;
    [|injection E as <-; discriminate].
  destruct (fread_chunk_one _ _ _ _ _ g Hwf Hfp E1 N1) as (Hr & _ & L1 & _ & P1 & F1).
  apply fread_chunk_frame in E1; [|assumption]. destruct E1 as (W1 & _ & _).
  apply Z.eqb_eq in C1.
  rewrite (F1 chunk_id) in C1 by (cbn; lia).
  cbn [chunk_id f_off f_width] in C1. rewrite Nat.add_0_r in C1.
  unfold WAV_RIFF_HEADER_SIZE in *. change (Z.to_nat 8) with 8%nat in *.
  (* WAVE *)
  destruct (fread_chunk 8 _ s1) as [[n2 s2]|] eqn:E2; [|discriminate].
  destruct (n2 =? 1) eqn:N2; cbn [negb orb] in E;
    [|injection E as <-; discriminate].
  destruct (fld chunk_wave_id s2 =? WAV_WAVE_ID) eqn:C2; cbn [negb] in E;
    [|injection E as <-; discriminate].
  destruct (fread_chunk_one _ _ _ _ _ _ W1 P1 E2 N2) as (_ & _ & L2 & _ & P2 & F2).
  apply fread_chunk_frame in E2; [|assumption]. destruct E2 as (W2 & _ & _).
  apply Z.eqb_eq in C2.
  rewrite (F2 chunk_wave_id) in C2 by (cbn; lia).
  unfold stream_at in L2, P2, C2.
  cbn [chunk_wave_id f_off f_width f_data f_pos f_name f_mode f_eof f_error] in L2, P2, C2.
  change (Z.to_nat 4) with 4%nat in *.
  replace (f_pos g + 8 + (8 - 8))%nat with (f_pos g + 8)%nat in C2 by lia.
  (* fmt header *)
  destruct (fread_chunk 12 _ s2) as [[n3 s3]|] eqn:E3; [|discriminate].
  destruct (n3 =? 1) eqn:N3; cbn [negb orb] in E;
    [|injection E as <-; discriminate].
  destruct (fld format_chunk_id s3 =? WAV_FORMAT_CHUNK_ID) eqn:C3; cbn [negb] in E;
    [|injection E as <-; discriminate].
  destruct (fread_chunk_one _ _ _ _ _ _ W2 P2 E3 N3) as (_ & _ & L3 & _ & P3 & F3).
  apply fread_chunk_frame in E3; [|assumption]. destruct E3 as (W3 & _ & _).
  apply Z.eqb_eq in C3.
  rewrite (F3 format_chunk_id) in C3 by (cbn; lia).
  unfold OFF_format_chunk in *.
  cbn [format_chunk_id f_off f_width f_data f_pos f_name f_mode f_eof f_error] in L3, P3, C3.
  change (Z.to_nat 8) with 8%nat in *.
  replace (f_pos g + 8 + 4 + (12 - 12))%nat with (f_pos g + 12)%nat in C3 by lia.
  assert (M1 : mem_read (f_pos g) 4 (f_data g) = str_bytes "RIFF")
    by (apply Hmagic; [reflexivity|lia|exact C1]).
  assert (M2 : mem_read (f_pos g + 8) 4 (f_data g) = str_bytes "WAVE")
    by (apply Hmagic; [reflexivity|lia|exact C2]).
  assert (M3 : mem_read (f_pos g + 12) 4 (f_data g) = str_bytes "fmt ")
    by (apply Hmagic; [reflexivity|lia|exact C3]).
  clear Hmagic C1 C2 C3 F1 F2 F3.
  (* fmt body *)
  set (fs := fld format_chunk_size s3) in *.
  destruct (fread_chunk (12 + 8) fs s3) as [[n4 s4]|] eqn:E4; [|discriminate].
  destruct (n4 =? 1) eqn:N4; cbn [negb orb] in E;
    [|injection E as <-; discriminate].
  destruct (fread_chunk_one _ _ _ _ _ _ W3 P3 E4 N4) as (_ & Hfs & L4 & B4 & P4 & _).
  apply fread_chunk_frame in E4; [|assumption]. destruct E4 as (W4 & _ & T4).
  cbn [stream_at f_data f_pos f_name f_mode f_eof f_error] in L4, P4.
  unfold stream_at in P4. cbn [f_data f_pos f_name f_mode f_eof f_error] in P4.
  destruct (negb _) eqn:Etag in E; [injection E as <-; discriminate|]. clear Etag.
  (* next chunk header *)
  unfold OFF_fact_chunk, OFF_data_chunk in *.
  destruct (fread_chunk 60 _ s4) as [[n5 s5]|] eqn:E5; [|discriminate].
  destruct (n5 =? 1) eqn:N5; cbn [negb orb] in E;
    [|injection E as <-; discriminate].
  destruct (fread_chunk_one _ _ _ _ _ _ W4 P4 E5 N5) as (_ & _ & L5 & _ & P5 & _).
  apply fread_chunk_frame in E5; [|assumption]. destruct E5 as (W5 & _ & T5).
  cbn [f_data f_pos f_name f_mode f_eof f_error] in L5, P5.
  unfold stream_at in P5. cbn [f_data f_pos f_name f_mode f_eof f_error] in P5.
  change (Z.to_nat 8) with 8%nat in *.
  assert (S5 : fld format_chunk_size s5 = fs).
  { rewrite T5 by (cbn; lia). apply T4. cbn. lia. }
  assert (Hfs60 : fs <= 60) by lia.
  split; [exact Hr|]. split; [exact M1|]. split; [exact M2|]. split; [exact M3|].
  destruct (fld fact_chunk_id s5 =? WAV_FACT_CHUNK_ID) eqn:C5.
  - set (zs := fld fact_chunk_size s5) in *.
    destruct (fread_chunk (60 + 8) zs s5) as [[n6 s6]|] eqn:E6; [|discriminate].
    destruct (n6 =? 1) eqn:N6; cbn [negb orb] in E;
      [|injection E as <-; discriminate].
    destruct (fread_chunk_one _ _ _ _ _ _ W5 P5 E6 N6) as (_ & Hzs & L6 & B6 & P6 & _).
    apply fread_chunk_frame in E6; [|assumption]. destruct E6 as (W6 & _ & T6).
    cbn [f_data f_pos f_name f_mode f_eof f_error] in L6, P6.
    unfold stream_at in P6. cbn [f_data f_pos f_name f_mode f_eof f_error] in P6.
    destruct (fread_chunk 72 _ s6) as [[n7 s7]|] eqn:E7; [|discriminate].
    destruct (n7 =? 1) eqn:N7; cbn [negb orb] in E;
      [|injection E as <-; discriminate].
    destruct (fread_chunk_one _ _ _ _ _ _ W6 P6 E7 N7) as (_ & _ & L7 & _ & P7 & _).
    apply fread_chunk_frame in E7; [|assumption]. destruct E7 as (W7 & _ & T7).
    cbn [f_data f_pos f_name f_mode f_eof f_error] in L7, P7.
    unfold stream_at in P7. cbn [f_data f_pos f_name f_mode f_eof f_error] in P7.
    change (Z.to_nat 8) with 8%nat in *.
    injection E as <-.
    assert (Hhs : wav_get_header_size (with_error_code WAV_OK s7) = 28 + fs + (8 + zs)).
    { rewrite wav_get_header_size_small.
      - change (fld ?m (with_error_code WAV_OK s7)) with (fld m s7).
        rewrite !T7, !T6 by (cbn; lia). rewrite C5, S5. reflexivity.
      - change (fld ?m (with_error_code WAV_OK s7)) with (fld m s7).
        rewrite !T7, !T6 by (cbn; lia). rewrite S5. exact Hfs60.
      - change (fld ?m (with_error_code WAV_OK s7)) with (fld m s7).
        rewrite !T7, !T6 by (cbn; lia). intros _. fold zs. lia. }
    rewrite Hhs. split; [lia|].
    eexists. split; [exact P7|]. split; [reflexivity|].
    unfold ftell. cbn [f_pos]. lia.
  - assert (Hhs : forall s, fld format_chunk_size s = fs ->
                    (fld fact_chunk_id s =? WAV_FACT_CHUNK_ID) = false ->
                    wav_get_header_size s = 28 + fs).
    { intros s H1 H2. rewrite wav_get_header_size_small.
      - rewrite H1, H2. lia.
      - rewrite H1. exact Hfs60.
      - intros H. rewrite H, Z.eqb_refl in H2. discriminate. }
    destruct (fld fact_chunk_id s5 =? WAV_DATA_CHUNK_ID) eqn:D5; injection E as <-.
    + apply Z.eqb_eq in D5.
      destruct (set_fld_frame data_chunk_id (fld fact_chunk_id s5) s5 W5) as (Wa & _ & Ta);
        [field_side|].
      set (sa := set_fld data_chunk_id _ s5) in *.
      destruct (set_fld_frame data_chunk_size (fld fact_chunk_size sa) sa Wa) as (Wb & _ & Tb);
        [field_side|].
      set (sb := set_fld data_chunk_size _ sa) in *.
      destruct (set_fld_frame fact_chunk_size 0 sb Wb) as (Wc & _ & Tc); [field_side|].
      rewrite (Hhs (with_error_code WAV_OK (set_fld fact_chunk_size 0 sb))).
      * split; [lia|]. eexists. split; [exact P5|]. split; [reflexivity|].
        unfold ftell. cbn [f_pos]. lia.
      * change (fld ?m (with_error_code WAV_OK ?s)) with (fld m s).
        rewrite Tc, Tb, Ta by field_side. exact S5.
      * change (fld ?m (with_error_code WAV_OK ?s)) with (fld m s).
        rewrite Tc, Tb, Ta by field_side. exact C5.
    + rewrite (Hhs (with_error_code WAV_OK s5) S5 C5).
      split; [lia|]. eexists. split; [exact P5|]. split; [reflexivity|].
      unfold ftell. cbn [f_pos]. lia.
Qed.

Lemma parse_header_ok_sound_witness :
  mem_read 0 4 pcm_wav = str_bytes "RIFF" /\
  0 + wav_get_header_size pcm_reader <= Z.of_nat (length pcm_wav).
Proof.
  destruct (parse_header_ok_sound (reader_on pcm_wav) pcm_reader
              (mkFILE "x.wav" "rb" pcm_wav 0 false false))
    as (_ & H1 & _ & _ & H2 & _).
  - reflexivity.
  - reflexivity.
  - vm_compute. reflexivity.
  - reflexivity.
  - split; [exact H1|exact H2].
Defined.

(** X5: a chunk after the fmt chunk that is neither "fact" nor "data" (a
    LIST chunk, say) is not skipped: [wav_parse_header] reads its eight-byte
    header, reports OK and returns with the data chunk members never loaded,
    the stream standing right behind that header. *)
Theorem parse_header_unknown_chunk (r : WavFile) (g : FILE) (c : list Byte.byte) :
  wf r -> fp r = Some g -> stream_readable g = true ->
  header_image c `prefix_of` drop (f_pos g) (f_data g) ->
  length c = 80%nat ->
  get chunk_id c = WAV_RIFF_CHUNK_ID -> get chunk_wave_id c = WAV_WAVE_ID ->
  get format_chunk_id c = WAV_FORMAT_CHUNK_ID ->
  2 <= get format_chunk_size c <= 40 ->
  accepted_tag (get format_tag c) ->
  get fact_chunk_id c <> WAV_FACT_CHUNK_ID ->
  get data_chunk_id c <> WAV_FACT_CHUNK_ID ->
  get data_chunk_id c <> WAV_DATA_CHUNK_ID ->
  exists r' g',
    wav_parse_header r = Some r' /\ error_code r' = WAV_OK /\
    fld data_chunk_id r' = fld data_chunk_id r /\
    fld data_chunk_size r' = fld data_chunk_size r /\
    fp r' = Some g' /\
    ftell g' = Z.of_nat (f_pos g) + 28 + get format_chunk_size c.
Proof.
  intros Hwf Hfp Hr Hpre Hl Hriff Hwave Hfmt Hfs Htag Hnf Hn1 Hn2.
  apply Z.eqb_neq in Hnf.
  assert (Hfact : if get fact_chunk_id c =? WAV_FACT_CHUNK_ID
                  then 1 <= get fact_chunk_size c <= 12
                  else get data_chunk_id c <> WAV_FACT_CHUNK_ID)
    by (rewrite Hnf; exact Hn1).
  destruct (parse_header_image r g c Hwf Hfp Hr Hpre Hl Hriff Hwave Hfmt Hfs Htag Hfact)
    as (r' & E & He & Hwf' & Hfp' & Hlow & Hcase).
  rewrite Hnf in Hcase. apply Z.eqb_neq in Hn2. rewrite Hn2 in Hcase.
  destruct Hcase as (_ & _ & Hdi & Hds).
  pose proof (length_header_image c Hl ltac:(lia)) as HL.
  rewrite Hnf in HL.
  exists r', (stream_at g (f_pos g + length (header_image c))).
  split; [exact E|]. split; [exact He|]. split; [exact Hdi|]. split; [exact Hds|].
  split; [exact Hfp'|].
  unfold ftell, stream_at. cbn [f_pos]. rewrite Nat2Z.inj_add, HL; [lia|].
  intros H. rewrite H, Z.eqb_refl in Hnf. discriminate.
Qed.

Lemma parse_header_unknown_chunk_witness :
  exists r' g',
    wav_parse_header (reader_on (header_image list_chunk_image ++ [Byte.x00; Byte.x01]))
      = Some r' /\
    error_code r' = WAV_OK /\ fld data_chunk_size r' = 0 /\
    fp r' = Some g' /\ ftell g' = 44.
Proof.
  destruct (parse_header_unknown_chunk
              (reader_on (header_image list_chunk_image ++ [Byte.x00; Byte.x01]))
              (mkFILE "x.wav" "rb" (header_image list_chunk_image ++ [Byte.x00; Byte.x01])
                      0 false false)
              list_chunk_image)
    as (r' & g' & E & He & _ & Hd & Hfp & Hp).
  - reflexivity.
  - reflexivity.
  - reflexivity.
  - exists [Byte.x00; Byte.x01]. reflexivity.
  - reflexivity.
  - reflexivity.
  - reflexivity.
  - reflexivity.
  - vm_compute. split; discriminate.
  - left. reflexivity.
  - vm_compute. discriminate.
  - vm_compute. discriminate.
  - vm_compute. discriminate.
  - exists r', g'. split; [exact E|]. split; [exact He|].
    split; [rewrite Hd; reflexivity|]. split; [exact Hfp|].
    rewrite Hp. reflexivity.
Defined.

(** X6: on a stream that cannot be read, or that has fewer than eight bytes
    left, [wav_parse_header] stops with a format error at the first read and
    changes no member beyond the RIFF header. *)
Theorem parse_header_truncated (r : WavFile) (g : FILE) :
  wf r -> fp r = Some g ->
  stream_readable g = false \/ (length (f_data g) < f_pos g + 8)%nat ->
  exists r',
    wav_parse_header r = Some r' /\ error_code r' = WAV_ERR_FORMAT /\
    forall m : field, (8 <= f_off m)%nat -> fld m r' = fld m r.
Proof.
  intros Hwf Hfp Hshort. unfold wav_parse_header, fread_chunk. rewrite Hfp.
  unfold fread, WAV_RIFF_HEADER_SIZE. unfold wf, sizeof_WavMasterChunk in *.
  destruct (stream_readable g) eqn:Hr; cbn [negb].
  - destruct Hshort as [|Hshort]; [discriminate|].
    set (got := take (Z.to_nat (8 * 1)) (drop (f_pos g) (f_data g))).
    assert (Hgl : (length got <= 7)%nat /\ (length got <= length (f_data g) - f_pos g)%nat).
    { subst got. rewrite length_take, length_drop. lia. }
    destruct (decide _) as [_|Hn]; [|lia].
    change (8 =? 0) with false. cbv iota.
    rewrite Z.div_small by lia. cbn [Z.eqb negb orb].
    eexists. split; [reflexivity|]. split; [reflexivity|].
    intros m Hm. unfold fld, get. cbn [chunk with_chunk with_fp with_error_code].
    f_equal. apply mem_read_write_other; lia.
  - cbn [length]. destruct (decide _) as [_|Hn]; [|lia].
    cbn [Z.eqb negb orb].
    eexists. split; [reflexivity|]. split; [reflexivity|].
    intros m Hm. unfold fld, get. cbn [chunk with_chunk with_fp with_error_code].
    f_equal; apply mem_read_write_other; cbn [length]; lia.
Qed.

Lemma parse_header_truncated_witness :
  exists r', wav_parse_header (reader_on []) = Some r' /\
             error_code r' = WAV_ERR_FORMAT.
Proof.
  destruct (parse_header_truncated (reader_on []) (mkFILE "x.wav" "rb" [] 0 false false))
    as (r' & E & He & _).
  - reflexivity.
  - reflexivity.
  - right. cbn. lia.
  - exists r'. split; [exact E|exact He].
Defined.

(** ** Format mutators and getters *)

Ltac len_solver :=
  unfold field_in, wf, set_fld, sizeof_WavMasterChunk in *;
  cbn [chunk with_chunk] in *;
  repeat (rewrite length_set by len_solver);
  unfold sub_format_head; unfold_fields; cbn [f_off f_width]; lia.

Ltac fields_apart :=
  solve [ unfold disjoint, sub_format_head; unfold_fields; cbn [f_off f_width]; lia ].

Lemma wav_write_header_frame (s s' : WavFile) :
  wf s -> wav_write_header s = Some s' ->
  wf s' /\ mode s' = mode s /\
  (error_code s' = WAV_OK \/ error_code s' = WAV_ERR_OS) /\
  (forall x, ~ (4 <= x < 8)%nat -> chunk s' !! x = chunk s !! x) /\
  (forall m, disjoint m chunk_size -> fld m s' = fld m s).
Proof.
  intros Hwf E. destruct (wav_write_header_inv s s' Hwf E) as (f' & e & He & ->).
  unfold wf, fld in *. cbn [chunk mode error_code].
  split; [rewrite length_set; [exact Hwf|field_side]|].
  split; [reflexivity|]. split; [exact He|]. split.
  - intros x Hx. apply lookup_set_other; [field_side|exact Hx].
  - intros m Hm. apply get_set_other; [field_side|exact Hm].
Qed.

Ltac setter_cases E Hok :=
  cbv zeta in E;
  repeat match type of E with
  | context [match mode ?s with _ => _ end] => destruct (mode s); [|discriminate E]
  | Some (with_error_code _ _) = Some _ =>
      injection E as <-; cbn [error_code with_error_code] in Hok; discriminate Hok
  | None = Some _ => discriminate E
  | context [if ?b then _ else _] =>
      let Eb := fresh "Eb" in destruct b eqn:Eb
  end.

(* fields of a chain of stores, innermost handle [self] *)
Ltac fld_chain :=
  unfold fld, set_fld; cbn [chunk with_chunk];
  repeat first
    [ rewrite get_set_same by len_solver
    | rewrite get_set_other by (first [len_solver | fields_apart]) ].

Ltac is_tag x :=
  match x with
  | WAV_FORMAT_PCM => idtac
  | WAV_FORMAT_IEEE_FLOAT => idtac
  | WAV_FORMAT_ALAW => idtac
  | WAV_FORMAT_MULAW => idtac
  | WAV_FORMAT_EXTENSIBLE => idtac
  end.

(* comparisons between two tag constants *)
Ltac tag_bools E :=
  repeat match type of E with
  | context [?a =? ?b] =>
      is_tag a; is_tag b;
      let v := eval vm_compute in (a =? b) in change (a =? b) with v in E
  end;
  cbn [negb andb orb] in E.

Lemma wav_set_format_spec (self self' : WavFile) (format : Z) :
  wf self -> wav_set_format self format = Some self' -> error_code self' = WAV_OK ->
  let t := u16 format in
  wav_get_format self' = t /\
  (t = WAV_FORMAT_ALAW \/ t = WAV_FORMAT_MULAW -> fld bits_per_sample self' = 8) /\
  (t = WAV_FORMAT_IEEE_FLOAT ->
     (fld block_align self' = 4 \/ fld block_align self' = 8) /\
     fld bits_per_sample self' <= 8 * fld block_align self') /\
  (t = WAV_FORMAT_EXTENSIBLE ->
     fld ext_size self' = 22 /\ fld format_chunk_size self' = 40) /\
  (t <> WAV_FORMAT_PCM -> t <> WAV_FORMAT_EXTENSIBLE ->
     fld ext_size self' = 0 /\ fld format_chunk_size self' = 9) /\
  (t = WAV_FORMAT_PCM ->
     forall m, disjoint m format_tag -> disjoint m chunk_size -> fld m self' = fld m self).
Proof.
  intros Hwf E Hok t. unfold wav_set_format in E. fold t in E.
  pose proof (get_range block_align (chunk self)) as Rb.
  pose proof (get_range bits_per_sample (chunk self)) as Rp.
  change (2 ^ (8 * Z.of_nat (f_width block_align))) with 65536 in Rb.
  change (2 ^ (8 * Z.of_nat (f_width bits_per_sample))) with 65536 in Rp.
  assert (Ht : 0 <= t < 65536) by (subst t; unfold u16; apply Z.mod_pos_bound; lia).
  unfold wav_get_format.
  clearbody t.
  destruct (mode self) as [mo|]; [|discriminate E].
  destruct (Ascii.eqb (str_head mo) "r");
    [injection E as <-; discriminate Hok|].
  cbv zeta in E.
  assert (Hc : t = WAV_FORMAT_PCM \/ t = WAV_FORMAT_IEEE_FLOAT \/ t = WAV_FORMAT_ALAW \/
               t = WAV_FORMAT_MULAW \/ t = WAV_FORMAT_EXTENSIBLE \/
               (t <> WAV_FORMAT_PCM /\ t <> WAV_FORMAT_IEEE_FLOAT /\ t <> WAV_FORMAT_ALAW /\
                t <> WAV_FORMAT_MULAW /\ t <> WAV_FORMAT_EXTENSIBLE))
    by (unfold WAV_FORMAT_PCM, WAV_FORMAT_IEEE_FLOAT, WAV_FORMAT_ALAW, WAV_FORMAT_MULAW,
          WAV_FORMAT_EXTENSIBLE; lia).
  destruct Hc as [-> | [-> | [-> | [-> | [-> | (N1 & N2 & N3 & N4 & N5)]]]]].
  1-5: tag_bools E.
  6: rewrite (proj2 (Z.eqb_neq _ _) N1), (proj2 (Z.eqb_neq _ _) N2),
         (proj2 (Z.eqb_neq _ _) N3), (proj2 (Z.eqb_neq _ _) N4),
         (proj2 (Z.eqb_neq _ _) N5) in E; cbn [negb andb orb] in E.
  all: repeat match type of E with
       | context [if ?b then _ else _] =>
           let Eb := fresh "Eb" in destruct b eqn:Eb
       end.
  all: match type of E with wav_write_header ?S = Some _ =>
         assert (HwS : wf S) by len_solver;
         destruct (wav_write_header_frame _ _ HwS E) as (_ & _ & _ & _ & Hf)
       end.
  all: repeat split; intros.
  all: try discriminate.
  all: try match goal with H : _ \/ _ |- _ => destruct H; discriminate end.
  all: try congruence.
  all: repeat match goal with
       | H : ?lhs = ?rhs |- _ =>
           match type of lhs with bool => idtac end;
           match lhs with context [fld _ (set_fld _ _ _)] => idtac end;
           unfold fld, set_fld in H; cbn [chunk with_chunk] in H;
           repeat first
             [ rewrite get_set_same in H by len_solver
             | rewrite get_set_other in H by (first [len_solver | fields_apart]) ]
       end.
  all: try (rewrite !Hf by fields_apart; fld_chain).
  all: change (2 ^ (8 * Z.of_nat (f_width block_align))) with 65536 in *.
  all: change (2 ^ (8 * Z.of_nat (f_width bits_per_sample))) with 65536 in *.
  all: change (2 ^ (8 * Z.of_nat (f_width format_tag))) with 65536 in *.
  all: try reflexivity.
  all: repeat match goal with
       | H : context [?a =? ?b] |- _ =>
           destruct (Z.eqb_spec a b); cbn [negb andb orb] in H; try discriminate H
       | H : (?a >? ?b) = _ |- _ =>
           rewrite Z.gtb_ltb in H; destruct (Z.ltb_spec b a); try discriminate H; clear H
       end.
  all: try assumption.
  all: try ((rewrite ?Z.mod_small by lia); lia).
  rewrite Hf by assumption. unfold fld, set_fld. cbn [chunk with_chunk].
  apply get_set_other; [len_solver|assumption].
Qed.

(** X7: after a successful [wav_set_format] the getter returns the tag, and
    the dependent members are adjusted: 8 bits for A-law and mu-law; a block
    alignment of 4 or 8 and no more bits than it holds for IEEE float;
    extension size 22 and fmt size 40 for the extensible tag; extension size
    0 and fmt size 9 (a difference of [uint16_t] pointers) for every tag
    other than PCM and extensible. For PCM only the tag and the RIFF size
    are stored. *)
Theorem wav_set_format_normalises (self self' : WavFile) (format : Z) :
  wf self -> wav_set_format self format = Some self' -> error_code self' = WAV_OK ->
  let t := u16 format in
  wav_get_format self' = t /\
  (t = WAV_FORMAT_ALAW \/ t = WAV_FORMAT_MULAW -> fld bits_per_sample self' = 8) /\
  (t = WAV_FORMAT_IEEE_FLOAT ->
     (fld block_align self' = 4 \/ fld block_align self' = 8) /\
     fld bits_per_sample self' <= 8 * fld block_align self') /\
  (t = WAV_FORMAT_EXTENSIBLE ->
     fld ext_size self' = 22 /\ fld format_chunk_size self' = 40) /\
  (t <> WAV_FORMAT_PCM -> t <> WAV_FORMAT_EXTENSIBLE ->
     fld ext_size self' = 0 /\ fld format_chunk_size self' = 9) /\
  (t = WAV_FORMAT_PCM ->
     forall m, disjoint m format_tag -> disjoint m chunk_size -> fld m self' = fld m self).
Proof. exact (wav_set_format_spec self self' format). Qed.

Lemma wav_set_format_normalises_witness :
  wav_get_format pcm24_float = WAV_FORMAT_IEEE_FLOAT /\
  (fld block_align pcm24_float = 4 \/ fld block_align pcm24_float = 8) /\
  fld format_chunk_size pcm24_float = 9.
Proof.
  destruct (wav_set_format_normalises pcm24_writer pcm24_float WAV_FORMAT_IEEE_FLOAT)
    as (H1 & _ & H3 & _ & H5 & _).
  - reflexivity.
  - vm_compute. reflexivity.
  - reflexivity.
  - split; [exact H1|]. split; [apply H3; reflexivity|]. apply H5; discriminate.
Defined.

Ltac mut_cases E :=
  cbv zeta in E;
  repeat match type of E with
  | context [match mode ?s with _ => _ end] => destruct (mode s) eqn:?; [|discriminate E]
  | Some (with_error_code ?e _) = Some _ =>
      injection E as <-; left; exists e; split; [discriminate|reflexivity]
  | None = Some _ => discriminate E
  | context [if ?b then _ else _] => destruct b
  end.

Lemma mutator_cases (m : mutator) (self self' : WavFile) :
  wf self -> run_mutator m self = Some self' ->
  (exists e, e <> WAV_OK /\ self' = with_error_code e self) \/
  (exists S, wav_write_header S = Some self' /\ wf S /\ fp S = fp self /\
     mode S = mode self /\
     (forall f, outside_fmt f -> fld f S = fld f self) /\
     (fld format_chunk_size S = fld format_chunk_size self \/
      fld format_chunk_size S = 9 \/ fld format_chunk_size S = 40)).
Proof.
  intros Hwf E.
  destruct m; cbn [run_mutator] in E;
    unfold wav_set_format, wav_set_num_channels, wav_set_sample_rate,
      wav_set_valid_bits_per_sample, wav_set_sample_size, wav_set_channel_mask,
      wav_set_sub_format in E;
    try change (with_chunk (mem_write OFF_sub_format (le_encode 2 ?v) (chunk ?s)) ?s)
      with (set_fld sub_format_head v s) in E;
    mut_cases E.
  all: right; eexists; split; [exact E|].
  all: split; [len_solver|].
  all: split; [reflexivity|].
  all: split; [unfold set_fld; cbn [mode with_chunk]; congruence|].
  all: split;
    [intros f Hf; unfold outside_fmt in Hf; unfold fld, set_fld; cbn [chunk with_chunk];
     repeat (rewrite get_set_other by
               (first [len_solver | fields_apart]));
     reflexivity
    |].
  all: unfold fld, set_fld; cbn [chunk with_chunk];
       repeat first
         [ rewrite get_set_same by len_solver
         | rewrite get_set_other by (first [len_solver | fields_apart]) ];
       first [left; reflexivity | right; left; reflexivity | right; right; reflexivity].
Qed.

Ltac bool_props :=
  repeat match goal with
  | H : ?lhs = ?rhs |- _ =>
      match type of lhs with bool => idtac end;
      match lhs with context [fld _ (set_fld _ _ _)] => idtac end;
      unfold fld, set_fld in H; cbn [chunk with_chunk] in H;
      repeat first
        [ rewrite get_set_same in H by len_solver
        | rewrite get_set_other in H by (first [len_solver | fields_apart]) ]
  end.

(** X8: after a mutator succeeds, the getter of the member it sets returns
    the value passed, truncated to the member's type; for the sample size,
    the bit depth is eight times the size and [wav_get_sample_size] returns
    the size when the block alignment fits its member. *)
Theorem mutator_reads_back (m : mutator) (self self' : WavFile) :
  wf self -> run_mutator m self = Some self' -> error_code self' = WAV_OK ->
  reads_back m self'.
Proof.
  intros Hwf E Hok.
  assert (U16 : forall v, u16 v mod 2 ^ (8 * Z.of_nat 2) = u16 v).
  { intros v. unfold u16. change (2 ^ (8 * Z.of_nat 2)) with (2 ^ 16).
    apply Z.mod_mod. lia. }
  assert (U32 : forall v, u32 v mod 2 ^ (8 * Z.of_nat 4) = u32 v).
  { intros v. unfold u32. change (2 ^ (8 * Z.of_nat 4)) with (2 ^ 32).
    apply Z.mod_mod. lia. }
  destruct m; cbn [run_mutator reads_back] in *.
  - (* format *)
    apply (wav_set_format_spec self self' format Hwf E Hok).
  - (* channels *)
    unfold wav_set_num_channels in E. setter_cases E Hok.
    assert (HwS : wf (set_fld avg_bytes_per_sec
                        (fld block_align (set_fld n_channels (u16 n) self)
                         * fld sample_rate (set_fld n_channels (u16 n) self))
                        (set_fld n_channels (u16 n) self))) by len_solver.
    destruct (wav_write_header_frame _ _ HwS E) as (_ & _ & _ & _ & Hf).
    unfold wav_get_num_channels. rewrite Hf by fields_apart. fld_chain. apply U16.
  - (* rate *)
    unfold wav_set_sample_rate in E. setter_cases E Hok.
    match type of E with wav_write_header ?S = Some _ =>
      assert (HwS : wf S) by len_solver;
      destruct (wav_write_header_frame _ _ HwS E) as (_ & _ & _ & _ & Hf)
    end.
    unfold wav_get_sample_rate. rewrite Hf by fields_apart. fld_chain. apply U32.
  - (* valid bits *)
    unfold wav_set_valid_bits_per_sample in E. setter_cases E Hok.
    all: match type of E with wav_write_header ?S = Some _ =>
      assert (HwS : wf S) by len_solver;
      destruct (wav_write_header_frame _ _ HwS E) as (_ & _ & _ & _ & Hf)
    end.
    all: unfold wav_get_valid_bits_per_sample; rewrite !Hf by fields_apart; fld_chain.
    all: match goal with
         | H : negb (fld format_tag _ =? WAV_FORMAT_EXTENSIBLE) = _ |- _ =>
             unfold fld in H; rewrite H
         end.
    all: apply U16.
  - (* sample size *)
    unfold wav_set_sample_size in E. setter_cases E Hok.
    all: match type of E with wav_write_header ?S = Some _ =>
      assert (HwS : wf S) by len_solver;
      destruct (wav_write_header_frame _ _ HwS E) as (_ & _ & _ & _ & Hf)
    end.
    all: unfold wav_get_sample_size; rewrite !Hf by fields_apart; fld_chain.
    all: change (2 ^ (8 * Z.of_nat (f_width bits_per_sample))) with (2 ^ 16).
    all: change (2 ^ (8 * Z.of_nat (f_width block_align))) with (2 ^ 16).
    all: (split; [unfold u16; f_equal; lia|]).
    all: intros Hsmall.
    all: pose proof (get_range n_channels (chunk self)) as Rn.
    all: match goal with H : (usize _ <? 1) = false |- _ =>
           apply Z.ltb_ge in H end.
    all: destruct (get n_channels (chunk self) =? 0) eqn:En; [reflexivity|].
    all: apply Z.eqb_neq in En.
    all: rewrite Z.mod_small by nia.
    all: rewrite Z.div_mul by exact En; reflexivity.
  - (* channel mask *)
    unfold wav_set_channel_mask in E. setter_cases E Hok.
    match type of E with wav_write_header ?S = Some _ =>
      assert (HwS : wf S) by len_solver;
      destruct (wav_write_header_frame _ _ HwS E) as (_ & _ & _ & _ & Hf)
    end.
    unfold wav_get_channel_mask. rewrite Hf by fields_apart. fld_chain. apply U32.
  - (* sub format *)
    unfold wav_set_sub_format in E.
    change (with_chunk (mem_write OFF_sub_format (le_encode 2 ?v) (chunk ?s)) ?s)
      with (set_fld sub_format_head v s) in E.
    setter_cases E Hok.
    match type of E with wav_write_header ?S = Some _ =>
      assert (HwS : wf S) by len_solver;
      destruct (wav_write_header_frame _ _ HwS E) as (_ & _ & _ & _ & Hf)
    end.
    change (wav_get_sub_format self') with (fld sub_format_head self').
    rewrite Hf by fields_apart. fld_chain. apply U16.
Qed.

Lemma mutator_reads_back_witness :
  fld bits_per_sample pcm24_writer = 24 /\
  wav_get_sample_size pcm24_writer = Some 3.
Proof.
  destruct (mutator_reads_back (SetSampleSize 3) fresh_writer pcm24_writer) as [H1 H2].
  - reflexivity.
  - vm_compute. reflexivity.
  - reflexivity.
  - split; [exact H1|]. apply H2. vm_compute. reflexivity.
Defined.

(** X9: the mutators of the channel count, the sample rate and the sample
    size leave [avg_bytes_per_sec] equal to the block alignment times the
    sample rate (modulo 2^32); [wav_set_num_channels] does so with the block
    alignment it found, which it does not rescale. *)
Theorem byte_rate_recomputed (m : mutator) (self self' : WavFile) :
  wf self -> run_mutator m self = Some self' -> error_code self' = WAV_OK ->
  sets_byte_rate m = true ->
  fld avg_bytes_per_sec self' = u32 (fld block_align self' * fld sample_rate self') /\
  (forall n, m = SetNumChannels n -> fld block_align self' = fld block_align self).
Proof.
  intros Hwf E Hok Hm.
  destruct m; try discriminate Hm; cbn [run_mutator] in E;
    unfold wav_set_num_channels, wav_set_sample_rate, wav_set_sample_size in E;
    setter_cases E Hok.
  all: match type of E with wav_write_header ?S = Some _ =>
      assert (HwS : wf S) by len_solver;
      destruct (wav_write_header_frame _ _ HwS E) as (_ & _ & _ & _ & Hf)
    end.
  all: split; [|intros ? [= <-] || (intros ? H; discriminate H)].
  all: rewrite !Hf by fields_apart; fld_chain.
  all: try reflexivity.
  all: change (2 ^ (8 * Z.of_nat (f_width avg_bytes_per_sec))) with (2 ^ 32).
  all: unfold u32; try reflexivity.
Qed.

Lemma byte_rate_recomputed_witness :
  fld avg_bytes_per_sec pcm24_writer = 6 * 44100.
Proof.
  destruct (byte_rate_recomputed (SetSampleSize 3) fresh_writer pcm24_writer) as [H _].
  - reflexivity.
  - vm_compute. reflexivity.
  - reflexivity.
  - reflexivity.
  - rewrite H. reflexivity.
Defined.

(** X10: no mutator, successful or not, changes the mode, the length of the
    chunk, the data size, the fact id and sample length, or any member
    outside the fmt chunk other than the RIFF size. *)
Theorem mutator_keeps_payload (m : mutator) (self self' : WavFile) :
  wf self -> run_mutator m self = Some self' ->
  wf self' /\ mode self' = mode self /\
  (forall f, outside_fmt f -> disjoint f chunk_size -> fld f self' = fld f self) /\
  fld data_chunk_size self' = fld data_chunk_size self /\
  fld fact_chunk_id self' = fld fact_chunk_id self /\
  fld fact_sample_length self' = fld fact_sample_length self.
Proof.
  intros Hwf E.
  assert (H : wf self' /\ mode self' = mode self /\
              forall f, outside_fmt f -> disjoint f chunk_size -> fld f self' = fld f self).
  { destruct (mutator_cases m self self' Hwf E)
      as [(e & _ & ->) | (S & ES & HwS & _ & Hmo & Hout & _)].
    - split; [exact Hwf|]. split; reflexivity.
    - destruct (wav_write_header_frame S self' HwS ES) as (Hwf' & Hmo' & _ & _ & Hf).
      split; [exact Hwf'|]. split; [congruence|].
      intros f Ho Hd. rewrite Hf by exact Hd. apply Hout, Ho. }
  destruct H as (H1 & H2 & H3).
  split; [exact H1|]. split; [exact H2|]. split; [exact H3|].
  split; [|split]; apply H3; try (right; cbn; lia); fields_apart.
Qed.

Lemma mutator_keeps_payload_witness :
  fld data_chunk_size pcm24_writer = fld data_chunk_size fresh_writer.
Proof.
  destruct (mutator_keeps_payload (SetSampleSize 3) fresh_writer pcm24_writer)
    as (_ & _ & _ & H & _).
  - reflexivity.
  - vm_compute. reflexivity.
  - exact H.
Defined.

(** X11: after a successful mutator on a stream that is not in append mode,
    the file starts with the header image of the new chunk, the stream
    stands right behind it, and the bytes after the header are as they
    were. *)
Theorem mutator_header_consistent (m : mutator) (self self' : WavFile) (f : FILE) :
  wf self -> fp self = Some f ->
  stream_writable f = true -> stream_append f = false ->
  fld format_chunk_size self <= 60 ->
  (fld fact_chunk_id self = WAV_FACT_CHUNK_ID -> fld fact_chunk_size self <= 12) ->
  run_mutator m self = Some self' -> error_code self' = WAV_OK ->
  exists f',
    fp self' = Some f' /\ ftell f' = wav_get_header_size self' /\
    header_image (chunk self') `prefix_of` f_data f' /\
    drop (Z.to_nat (wav_get_header_size self')) (f_data f')
      = drop (Z.to_nat (wav_get_header_size self')) (f_data f).
Proof.
  intros Hwf Hfp Hw Ha Hfmt Hfact E Hok.
  destruct (mutator_cases m self self' Hwf E)
    as [(e & He & ->) | (S & ES & HwS & HfpS & _ & Hout & Hsz)].
  { cbn [error_code with_error_code] in Hok. contradiction. }
  rewrite Hfp in HfpS.
  destruct (wav_write_header_image S f HwS HfpS Hw) as (s'' & f' & E' & _ & Hf' & HL & K).
  - destruct Hsz as [-> | [-> | ->]]; lia.
  - rewrite !Hout by (right; cbn; lia). exact Hfact.
  - rewrite ES in E'. injection E' as <-.
    destruct K as (_ & _ & _ & Kd & Kp). rewrite Ha in Kd. specialize (Kp Ha).
    exists f'. split; [exact Hf'|].
    split; [unfold ftell; rewrite Kp; exact HL|].
    split; [rewrite Kd; eexists; reflexivity|].
    rewrite <- HL, Nat2Z.id. rewrite Kd. rewrite drop_app_length. reflexivity.
Qed.

Lemma mutator_header_consistent_witness :
  exists f',
    fp pcm24_writer = Some f' /\ ftell f' = wav_get_header_size pcm24_writer /\
    header_image (chunk pcm24_writer) `prefix_of` f_data f'.
Proof.
  destruct (mutator_header_consistent (SetSampleSize 3) fresh_writer pcm24_writer
              fresh_stream) as (f' & H1 & H2 & H3 & _).
  - reflexivity.
  - reflexivity.
  - reflexivity.
  - reflexivity.
  - vm_compute. discriminate.
  - vm_compute. discriminate.
  - vm_compute. reflexivity.
  - reflexivity.
  - exists f'. split; [exact H1|]. split; [exact H2|exact H3].
Defined.

(** ** Reading frames *)

Lemma wav_read_stream (alloc_ok : Z -> bool) (self : WavFile)
    (buffers : list (list Byte.byte)) (count : Z) (f : FILE) (m : string) (ss cs : Z) :
  fp self = Some f -> mode self = Some m -> read_mode m = true ->
  fld format_tag self <> WAV_FORMAT_EXTENSIBLE ->
  fld n_channels self <> 0 ->
  fld block_align self / fld n_channels self = ss -> 1 <= ss <= 4 ->
  wav_container_sizes !! Z.to_nat ss = Some cs ->
  stream_readable f = true -> f_error f = false ->
  Z.of_nat (length (f_data f)) < 2 ^ 63 ->
  wav_get_header_size self <= Z.of_nat (f_pos f) < 2 ^ 63 ->
  forall remain c : Z,
  remain = fld data_chunk_size self / fld block_align self
           - (Z.of_nat (f_pos f) - wav_get_header_size self) / fld block_align self ->
  0 <= remain -> 0 <= count < 2 ^ 64 ->
  c = Z.min count remain ->
  tmp_wf self ->
  (0 < c -> alloc_ok (fld n_channels self * c * ss) = true) ->
  (0 < c ->
   Z.of_nat (f_pos f) + ss * (fld n_channels self * c) <= Z.of_nat (length (f_data f))) ->
  (forall i, (i < Z.to_nat (fld n_channels self))%nat ->
     exists ch, buffers !! i = Some ch /\ (Z.to_nat c * Z.to_nat cs <= length ch)%nat) ->
  exists self' buffers' g,
    wav_read alloc_ok self buffers count = Some (c, self', buffers') /\
    mode self' = mode self /\ tmp_wf self' /\
    fp self' = Some g /\
    f_data g = f_data f /\ f_mode g = f_mode f /\ f_error g = false /\
    Z.of_nat (f_pos g) = Z.of_nat (f_pos f) + fld n_channels self * c * ss.
Proof.
  intros Hfp Hmode Hrm Htag Hnch Hss Hssr Hcs Hrd Herr Hsz Hpos remain c Hrem Hrem0 Hcount Hc
         Htmp Halloc Havail Hbuf.
  pose proof (get_range n_channels (chunk self)) as Rn. fold (fld n_channels self) in Rn.
  pose proof (get_range block_align (chunk self)) as Rb. fold (fld block_align self) in Rb.
  pose proof (get_range data_chunk_size (chunk self)) as Rd.
  fold (fld data_chunk_size self) in Rd.
  change (2 ^ (8 * Z.of_nat (f_width n_channels))) with (2 ^ 16) in Rn.
  change (2 ^ (8 * Z.of_nat (f_width block_align))) with (2 ^ 16) in Rb.
  change (2 ^ (8 * Z.of_nat (f_width data_chunk_size))) with (2 ^ 32) in Rd.
  set (nch := fld n_channels self) in *.
  set (ba := fld block_align self) in *.
  assert (Hba : ba <> 0).
  { intros E. rewrite E in Hss. rewrite Z.div_0_l in Hss by lia. lia. }
  pose proof (wav_get_header_size_range self) as Rh.
  assert (Htell0 : 0 <= (Z.of_nat (f_pos f) - wav_get_header_size self) / ba)
    by (apply Z.div_pos; lia).
  assert (Htell1 : (Z.of_nat (f_pos f) - wav_get_header_size self) / ba < 2 ^ 63).
  { apply Z.div_lt_upper_bound; [lia|]. nia. }
  assert (Hlen0 : 0 <= fld data_chunk_size self / ba < 2 ^ 32).
  { split; [apply Z.div_pos; lia|]. apply Z.div_lt_upper_bound; [lia|]. nia. }
  assert (Hc0 : 0 <= c) by lia.
  unfold wav_read. cbv zeta.
  rewrite (usize_small count) by lia.
  unfold wav_get_sample_size, wav_get_num_channels. fold nch ba.
  destruct (nch =? 0) eqn:En; [apply Z.eqb_eq in En; contradiction|]. rewrite Hss.
  unfold wav_calc_container_size.
  destruct (ss <? 0) eqn:Es; [apply Z.ltb_lt in Es; lia|]. rewrite Hcs, Hmode.
  unfold read_mode in Hrm. apply negb_true_iff in Hrm. rewrite Hrm.
  destruct (fld format_tag self =? WAV_FORMAT_EXTENSIBLE) eqn:Et;
    [apply Z.eqb_eq in Et; contradiction|].
  unfold wav_get_length. fold ba.
  destruct (ba =? 0) eqn:Eb; [apply Z.eqb_eq in Eb; contradiction|].
  rewrite (wav_tell_ok self f Hfp (proj1 Hpos) Hba). fold ba.
  cbn [error_code with_error_code WavErr_eqb negb].
  rewrite (usize_small ((Z.of_nat (f_pos f) - wav_get_header_size self) / ba)) by lia.
  rewrite <- Hrem. rewrite (usize_small remain) by lia.
  assert (Hmin : (if count <=? remain then count else remain) = c).
  { subst c. destruct (count <=? remain) eqn:E.
    - apply Z.leb_le in E. lia.
    - apply Z.leb_gt in E. lia. }
  rewrite Hmin.
  destruct (c =? 0) eqn:Ec0.
  { apply Z.eqb_eq in Ec0. rewrite Ec0.
    eexists. exists buffers, f. split; [reflexivity|].
    cbn [mode fp with_error_code].
    split; [exact Hmode|]. split; [exact Htmp|]. split; [exact Hfp|].
    split; [reflexivity|]. split; [reflexivity|]. split; [exact Herr|]. lia. }
  apply Z.eqb_neq in Ec0.
  assert (Hcpos : 0 < c) by lia. specialize (Havail Hcpos).
  assert (Hneed : 0 <= nch * c * ss < 2 ^ 63) by nia.
  rewrite (usize_small (nch * c)) by nia.
  rewrite (usize_small (nch * c * ss)) by lia.
  destruct (wav_tmp_reserve_ok alloc_ok (nch * c * ss)
              (mkWavFile (fp self) (filename self) (mode self) WAV_OK (chunk self)
                         (tmp self) (tmp_size self)))
    as (t0 & n0 & Eres & Ht0 & Hn0); [exact Htmp|lia|apply Halloc; lia|].
  unfold with_error_code at 1. rewrite Eres.
  cbn [fp tmp with_tmp]. rewrite Hfp.
  rewrite fread_enough by (try assumption; nia).
  assert (Hlbs : length (take (Z.to_nat (ss * (nch * c))) (drop (f_pos f) (f_data f)))
                 = Z.to_nat (ss * (nch * c))).
  { rewrite length_take, length_drop. lia. }
  destruct (decide _) as [Hfit|Hnfit]; [|exfalso; apply Hnfit; rewrite Hlbs; lia].
  unfold ferror. cbn [f_error]. rewrite Herr.
  replace (nch * c / nch) with c by (rewrite Z.mul_comm, Z.div_mul; lia).
  set (t := mem_write 0 _ t0).
  assert (Hcsc := container_size_cases ss cs Hssr Hcs).
  assert (Hlt : length t = length t0).
  { subst t. apply length_mem_write. rewrite Hlbs. lia. }
  destruct (wav_read_loops_spec (Z.to_nat nch) (Z.to_nat ss) (Z.to_nat cs) (Z.to_nat c)
              t buffers) as (buffers' & El & _).
  - lia.
  - destruct Hcsc as [[-> ->] | [[-> ->] | [[-> ->] | [-> ->]]]]; lia.
  - rewrite Hlt. rewrite <- !Z2Nat.inj_mul by lia. lia.
  - exact Hbuf.
  - rewrite El. eexists. exists buffers'. eexists. split; [reflexivity|].
    cbn [mode fp tmp tmp_size with_error_code with_fp with_tmp f_data f_mode f_error f_pos].
    split; [exact Hmode|].
    split; [unfold tmp_wf; cbn [tmp tmp_size];
            change (Z.of_nat (length t) = n0); rewrite Hlt; exact Hn0|].
    split; [reflexivity|]. cbn [f_data f_mode f_error f_pos].
    split; [reflexivity|]. split; [reflexivity|]. split; [reflexivity|]. lia.
Qed.

(** X12: [wav_read] returns the smaller of [count] and the frames left in
    the data chunk. Byte [k] of sample [j] of channel [i] comes from the
    stream at the interleaved offset (j * channels + i) * size + k; a
    container wider than the sample is filled from the sign bit of the
    sample's last byte; the buffers keep their lengths and everything past
    the frames read, and buffers beyond the channel count are untouched. *)
Theorem wav_read_layout (alloc_ok : Z -> bool) (self : WavFile)
    (buffers : list (list Byte.byte)) (count : Z) (f : FILE) (m : string) (ss cs : Z) :
  fp self = Some f -> mode self = Some m -> read_mode m = true ->
  fld format_tag self <> WAV_FORMAT_EXTENSIBLE ->
  fld n_channels self <> 0 ->
  fld block_align self / fld n_channels self = ss -> 1 <= ss <= 4 ->
  wav_container_sizes !! Z.to_nat ss = Some cs ->
  stream_readable f = true -> f_error f = false ->
  Z.of_nat (length (f_data f)) < 2 ^ 63 ->
  wav_get_header_size self <= Z.of_nat (f_pos f) < 2 ^ 63 ->
  let remain :=
    fld data_chunk_size self / fld block_align self
    - (Z.of_nat (f_pos f) - wav_get_header_size self) / fld block_align self in
  let c := Z.min count remain in
  let nch := Z.to_nat (fld n_channels self) in
  0 <= remain -> 0 <= count < 2 ^ 64 ->
  tmp_wf self ->
  (0 < c -> alloc_ok (fld n_channels self * c * ss) = true) ->
  (0 < c ->
   Z.of_nat (f_pos f) + ss * (fld n_channels self * c) <= Z.of_nat (length (f_data f))) ->
  (forall i, (i < nch)%nat ->
     exists ch, buffers !! i = Some ch /\ (Z.to_nat c * Z.to_nat cs <= length ch)%nat) ->
  exists self' buffers',
    wav_read alloc_ok self buffers count = Some (c, self', buffers') /\
    chunk self' = chunk self /\ length buffers' = length buffers /\
    (forall i ch, (i < nch)%nat -> buffers !! i = Some ch ->
       exists ch', buffers' !! i = Some ch' /\ length ch' = length ch /\
         (forall j k, (j < Z.to_nat c)%nat -> (k < Z.to_nat ss)%nat ->
            ch' !! (j * Z.to_nat cs + k)%nat
            = f_data f !! (f_pos f + (j * nch * Z.to_nat ss + i * Z.to_nat ss + k))%nat) /\
         (forall j k, (j < Z.to_nat c)%nat -> (Z.to_nat ss <= k < Z.to_nat cs)%nat ->
            ch' !! (j * Z.to_nat cs + k)%nat
            = sign_fill <$>
                f_data f !! (f_pos f + (j * nch * Z.to_nat ss + i * Z.to_nat ss
                                        + Z.to_nat ss - 1))%nat) /\
         (forall off, (Z.to_nat c * Z.to_nat cs <= off)%nat -> ch' !! off = ch !! off)) /\
    (forall i, (nch <= i)%nat -> buffers' !! i = buffers !! i).
Proof.
  intros Hfp Hmode Hrm Htag Hnch Hss Hssr Hcs Hrd Herr Hsz Hpos remain c nch Hrem0 Hcount
         Htmp Halloc Havail Hbuf.
  destruct (wav_read_spec alloc_ok self buffers count f m ss cs Hfp Hmode Hrm Htag Hnch
              Hss Hssr Hcs Hrd Herr Hsz Hpos remain c eq_refl Hrem0 Hcount eq_refl
              Htmp Halloc Havail Hbuf) as (self' & buffers' & E & _ & Hch & Hl & Hd & Ho).
  exists self', buffers'. split; [exact E|]. split; [exact Hch|]. split; [exact Hl|].
  split; [|exact Ho].
  assert (Hsc : (Z.to_nat ss <= Z.to_nat cs)%nat).
  { destruct (container_size_cases ss cs Hssr Hcs)
      as [[-> ->] | [[-> ->] | [[-> ->] | [-> ->]]]]; lia. }
  intros i ch Hi Hb. destruct (Hd i ch Hi Hb) as (ch' & Hb' & Hlen & Hin & Hout).
  exists ch'. split; [exact Hb'|]. split; [exact Hlen|]. split; [|split; [|exact Hout]].
  - intros j k Hj Hk. rewrite Hin by lia. unfold deinterleaved.
    destruct (decide _) as [_|Hn]; [|lia]. apply lookup_drop.
  - intros j k Hj Hk.
    assert (Hkc : (k < Z.to_nat cs)%nat) by lia.
    rewrite (Hin j k Hj Hkc). unfold deinterleaved.
    destruct (decide _) as [Hn|_]; [lia|]. f_equal. apply lookup_drop.
Qed.

Lemma wav_read_layout_witness :
  exists self' buffers',
    wav_read alloc_always pcm_reader [replicate 4 Byte.x00; replicate 4 Byte.x00] 5
      = Some (2, self', buffers') /\
    chunk self' = chunk pcm_reader /\ length buffers' = 2%nat.
Proof.
  destruct (wav_read_layout alloc_always pcm_reader
              [replicate 4 Byte.x00; replicate 4 Byte.x00] 5
              (mkFILE "x.wav" "rb" pcm_wav 44 false false) "rb" 2 2)
    as (self' & buffers' & E & Hc & Hl & _).
  - reflexivity.
  - reflexivity.
  - reflexivity.
  - vm_compute. discriminate.
  - vm_compute. discriminate.
  - reflexivity.
  - lia.
  - reflexivity.
  - reflexivity.
  - reflexivity.
  - vm_compute. reflexivity.
  - vm_compute. split; [discriminate|reflexivity].
  - vm_compute. discriminate.
  - lia.
  - exact I.
  - reflexivity.
  - intros _. vm_compute. discriminate.
  - intros i Hi. change (Z.to_nat (fld n_channels pcm_reader)) with 2%nat in Hi.
    destruct i as [|[|i]]; [| |lia]; eexists; (split; [reflexivity|vm_compute; lia]).
  - exists self', buffers'. split; [exact E|]. split; [exact Hc|exact Hl].
Defined.

(** X13: a [wav_read] of [c] frames moves the stream by [c] block
    alignments without changing its contents, so [wav_tell] grows by [c];
    when the read ends where the data chunk ends, [wav_eof] holds. *)
Theorem wav_read_advances (alloc_ok : Z -> bool) (self : WavFile)
    (buffers : list (list Byte.byte)) (count : Z) (f : FILE) (m : string) (ss cs : Z) :
  fp self = Some f -> mode self = Some m -> read_mode m = true ->
  fld format_tag self <> WAV_FORMAT_EXTENSIBLE ->
  fld n_channels self <> 0 ->
  fld block_align self = fld n_channels self * ss -> 1 <= ss <= 4 ->
  wav_container_sizes !! Z.to_nat ss = Some cs ->
  stream_readable f = true -> f_error f = false ->
  Z.of_nat (length (f_data f)) < 2 ^ 63 ->
  wav_get_header_size self <= Z.of_nat (f_pos f) < 2 ^ 63 ->
  let here := (Z.of_nat (f_pos f) - wav_get_header_size self) / fld block_align self in
  let remain := fld data_chunk_size self / fld block_align self - here in
  let c := Z.min count remain in
  0 <= remain -> 0 <= count < 2 ^ 64 ->
  tmp_wf self ->
  (0 < c -> alloc_ok (fld n_channels self * c * ss) = true) ->
  (0 < c ->
   Z.of_nat (f_pos f) + ss * (fld n_channels self * c) <= Z.of_nat (length (f_data f))) ->
  (forall i, (i < Z.to_nat (fld n_channels self))%nat ->
     exists ch, buffers !! i = Some ch /\ (Z.to_nat c * Z.to_nat cs <= length ch)%nat) ->
  exists self' buffers' g,
    wav_read alloc_ok self buffers count = Some (c, self', buffers') /\
    fp self' = Some g /\ f_data g = f_data f /\
    ftell g = ftell f + c * fld block_align self /\
    wav_tell self = Some (here, with_error_code WAV_OK self) /\
    wav_tell self' = Some (here + c, with_error_code WAV_OK self') /\
    (ftell f - wav_get_header_size self + c * fld block_align self
       = fld data_chunk_size self ->
     wav_eof self' = Some true).
Proof.
  intros Hfp Hmode Hrm Htag Hnch Hba Hssr Hcs Hrd Herr Hsz Hpos here remain c Hrem0 Hcount
         Htmp Halloc Havail Hbuf.
  pose proof (get_range n_channels (chunk self)) as Rn. fold (fld n_channels self) in Rn.
  assert (Hss : fld block_align self / fld n_channels self = ss).
  { rewrite Hba, Z.mul_comm. apply Z.div_mul. exact Hnch. }
  assert (Hba0 : fld block_align self <> 0) by nia.
  destruct (wav_read_spec alloc_ok self buffers count f m ss cs Hfp Hmode Hrm Htag Hnch
              Hss Hssr Hcs Hrd Herr Hsz Hpos remain c eq_refl Hrem0 Hcount eq_refl
              Htmp Halloc Havail Hbuf) as (self' & buffers' & E & _ & Hch & _).
  destruct (wav_read_stream alloc_ok self buffers count f m ss cs Hfp Hmode Hrm Htag Hnch
              Hss Hssr Hcs Hrd Herr Hsz Hpos remain c eq_refl Hrem0 Hcount eq_refl
              Htmp Halloc Havail Hbuf)
    as (s2 & b2 & g & E2 & _ & _ & Hg & Hgd & _ & _ & Hgp).
  rewrite E in E2. injection E2 as <- <-.
  assert (Hc0 : 0 <= c) by (subst c; lia).
  assert (Hhs : wav_get_header_size self' = wav_get_header_size self)
    by (unfold wav_get_header_size, fld; rewrite Hch; reflexivity).
  assert (Hbs : fld block_align self' = fld block_align self)
    by (unfold fld; rewrite Hch; reflexivity).
  assert (Hds : fld data_chunk_size self' = fld data_chunk_size self)
    by (unfold fld; rewrite Hch; reflexivity).
  assert (Hpg : Z.of_nat (f_pos g) = Z.of_nat (f_pos f) + c * fld block_align self).
  { rewrite Hgp, Hba. lia. }
  exists self', buffers', g. split; [exact E|]. split; [exact Hg|]. split; [exact Hgd|].
  split; [exact Hpg|].
  split; [apply (wav_tell_ok self f Hfp (proj1 Hpos) Hba0)|].
  split.
  - rewrite (wav_tell_ok self' g Hg); [|rewrite Hhs; nia|rewrite Hbs; exact Hba0].
    rewrite Hhs, Hbs, Hpg. do 2 f_equal. subst here.
    replace (Z.of_nat (f_pos f) + c * fld block_align self - wav_get_header_size self)
      with (Z.of_nat (f_pos f) - wav_get_header_size self + c * fld block_align self) by lia.
    apply Z.div_add. exact Hba0.
  - intros Hend. apply (wav_eof_at_boundary self' g Hg).
    rewrite Hhs, Hds. unfold ftell in *. lia.
Qed.

Lemma wav_read_advances_witness :
  exists self' buffers' g,
    wav_read alloc_always pcm_reader [replicate 4 Byte.x00; replicate 4 Byte.x00] 5
      = Some (2, self', buffers') /\
    fp self' = Some g /\ ftell g = 52 /\
    wav_tell self' = Some (2, with_error_code WAV_OK self') /\
    wav_eof self' = Some true.
Proof.
  destruct (wav_read_advances alloc_always pcm_reader
              [replicate 4 Byte.x00; replicate 4 Byte.x00] 5
              (mkFILE "x.wav" "rb" pcm_wav 44 false false) "rb" 2 2)
    as (self' & buffers' & g & E & Hg & _ & Hp & _ & Ht & He).
  - reflexivity.
  - reflexivity.
  - reflexivity.
  - vm_compute. discriminate.
  - vm_compute. discriminate.
  - reflexivity.
  - lia.
  - reflexivity.
  - reflexivity.
  - reflexivity.
  - vm_compute. reflexivity.
  - vm_compute. split; [discriminate|reflexivity].
  - vm_compute. discriminate.
  - lia.
  - exact I.
  - reflexivity.
  - intros _. vm_compute. discriminate.
  - intros i Hi. change (Z.to_nat (fld n_channels pcm_reader)) with 2%nat in Hi.
    destruct i as [|[|i]]; [| |lia]; eexists; (split; [reflexivity|vm_compute; lia]).
  - exists self', buffers', g. split; [exact E|]. split; [exact Hg|].
    split; [exact Hp|]. split; [exact Ht|]. apply He. reflexivity.
Defined.

(** ** Writing frames *)

Lemma wav_write_stream (alloc_ok : Z -> bool) (self : WavFile)
    (buffers : list (list Byte.byte)) (count : Z) (f : FILE) (m : string) (ss cs : Z) :
  wf self -> fp self = Some f -> mode self = Some m -> write_mode m = true ->
  fld format_tag self <> WAV_FORMAT_EXTENSIBLE ->
  fld n_channels self <> 0 ->
  fld block_align self / fld n_channels self = ss -> 1 <= ss <= 4 ->
  wav_container_sizes !! Z.to_nat ss = Some cs ->
  stream_writable f = true -> f_error f = false ->
  (stream_append f = true -> f_pos f = length (f_data f)) ->
  wav_get_header_size self <= Z.of_nat (f_pos f) ->
  fld format_chunk_size self <= 60 ->
  (fld fact_chunk_id self = WAV_FACT_CHUNK_ID -> fld fact_chunk_size self <= 12) ->
  0 < count ->
  Z.of_nat (f_pos f) + fld n_channels self * count * ss < 2 ^ 63 ->
  tmp_wf self ->
  alloc_ok (fld n_channels self * count * ss) = true ->
  (forall i, (i < Z.to_nat (fld n_channels self))%nat ->
     exists ch, buffers !! i = Some ch /\ (Z.to_nat count * Z.to_nat cs <= length ch)%nat) ->
  exists self' f',
    wav_write alloc_ok self buffers count = Some (count, self') /\
    fp self' = Some f' /\ f_name f' = f_name f /\
    Z.of_nat (f_pos f') = Z.of_nat (f_pos f) + fld n_channels self * count * ss /\
    (stream_append f = false -> header_image (chunk self') `prefix_of` f_data f') /\
    (stream_append f = false ->
     length (f_data f') =
       Nat.max (length (f_data f))
               (f_pos f + Z.to_nat (fld n_channels self * count * ss))%nat).
Proof.
  intros Hwf Hfp Hmode Hwm Htag Hnch Hss Hssr Hcs Hw Herr Happ Hpos Hfmt Hfact Hcount Hsz
         Htmp Halloc Hbuf.
  pose proof (get_range n_channels (chunk self)) as Rn. fold (fld n_channels self) in Rn.
  pose proof (get_range block_align (chunk self)) as Rb. fold (fld block_align self) in Rb.
  change (2 ^ (8 * Z.of_nat (f_width n_channels))) with (2 ^ 16) in Rn.
  change (2 ^ (8 * Z.of_nat (f_width block_align))) with (2 ^ 16) in Rb.
  set (nch := fld n_channels self) in *.
  set (ba := fld block_align self) in *.
  assert (Hba : ba <> 0).
  { intros E. rewrite E in Hss. rewrite Z.div_0_l in Hss by lia. lia. }
  assert (Hneed : 0 < nch * count * ss < 2 ^ 63) by nia.
  assert (Hcnt : 0 < count < 2 ^ 63) by nia.
  assert (Hnc : 0 < nch * count < 2 ^ 63) by nia.
  unfold wav_write. cbv zeta.
  rewrite (usize_small count) by lia.
  unfold wav_get_sample_size, wav_get_num_channels. fold nch ba.
  destruct (nch =? 0) eqn:En; [apply Z.eqb_eq in En; contradiction|]. rewrite Hss.
  unfold wav_calc_container_size.
  destruct (ss <? 0) eqn:Es; [apply Z.ltb_lt in Es; lia|]. rewrite Hcs, Hmode.
  unfold write_mode in Hwm. apply negb_true_iff in Hwm. rewrite Hwm.
  destruct (fld format_tag self =? WAV_FORMAT_EXTENSIBLE) eqn:Et;
    [apply Z.eqb_eq in Et; contradiction|].
  destruct (count =? 0) eqn:Ec; [apply Z.eqb_eq in Ec; lia|].
  rewrite (wav_tell_ok self f Hfp Hpos Hba). cbn [snd].
  cbn [error_code with_error_code WavErr_eqb negb].
  rewrite (usize_small (nch * count)) by lia.
  rewrite (usize_small (nch * count * ss)) by lia.
  destruct (wav_tmp_reserve_ok alloc_ok (nch * count * ss)
              (mkWavFile (fp self) (filename self) (mode self) WAV_OK (chunk self)
                         (tmp self) (tmp_size self)))
    as (t0 & n0 & Eres & Ht0 & Hn0); [exact Htmp|lia|exact Halloc|].
  unfold with_error_code at 1. rewrite Eres. cbn [tmp with_tmp].
  assert (Hcsc := container_size_cases ss cs Hssr Hcs).
  destruct (wav_write_loops_spec (Z.to_nat nch) (Z.to_nat ss) (Z.to_nat cs) (Z.to_nat count)
              buffers t0) as (t' & El & Ll & Hd).
  - destruct Hcsc as [[-> ->] | [[-> ->] | [[-> ->] | [-> ->]]]]; lia.
  - rewrite <- !Z2Nat.inj_mul by lia. lia.
  - exact Hbuf.
  - rewrite El. cbn [fp with_tmp tmp_size]. rewrite Hfp.
    set (nbytes := Z.to_nat (ss * (nch * count))).
    assert (Hnb : Z.of_nat nbytes = nch * count * ss) by (subst nbytes; lia).
    destruct (decide (nbytes <= length t')%nat) as [Hfit|Hn]; [|lia].
    assert (Hlt : length (take nbytes t') = nbytes) by (rewrite length_take; lia).
    rewrite (fwrite_writable (take nbytes t') ss (nch * count) f Hw) by lia.
    assert (Hstart : write_start f = f_pos f).
    { unfold write_start. destruct (stream_append f) eqn:Ea; [|reflexivity].
      symmetry. apply Happ. reflexivity. }
    rewrite Hstart, Hlt. cbv beta iota.
    unfold ferror, ftell. cbn [f_error f_pos]. rewrite Herr.
    set (f1 := mkFILE _ _ _ _ _ _).
    replace (nch * count / nch) with count by (rewrite Z.mul_comm, Z.div_mul; lia).
    destruct ((Z.of_nat (f_pos f + nbytes)) =? -1) eqn:Em1; [apply Z.eqb_eq in Em1; lia|].
    set (self3 := if fld fact_chunk_id _ =? WAV_FACT_CHUNK_ID then _ else _).
    assert (H3 : fp self3 = Some f1 /\
                 chunk self3 =
                   (let c := set data_chunk_size
                               (get data_chunk_size (chunk self) + nch * count * ss)
                               (chunk self) in
                    if get fact_chunk_id c =? WAV_FACT_CHUNK_ID
                    then set fact_sample_length (get fact_sample_length c + count) c
                    else c)).
    { subst self3. unfold set_fld, fld, with_chunk, with_fp, with_tmp.
      cbn [fp filename mode error_code chunk tmp tmp_size].
      destruct (get fact_chunk_id _ =? WAV_FACT_CHUNK_ID);
        cbn [fp filename mode error_code chunk tmp tmp_size];
        repeat split; reflexivity. }
    destruct H3 as (Hfp3 & Hch3).
    cbv zeta in Hch3.
    assert (Hwf3 : wf self3).
    { unfold wf. rewrite Hch3. destruct (get fact_chunk_id _ =? WAV_FACT_CHUNK_ID);
        repeat rewrite length_set; try exact Hwf; field_side. }
    assert (G3 : fld format_chunk_size self3 = fld format_chunk_size self /\
                 fld fact_chunk_id self3 = fld fact_chunk_id self /\
                 fld fact_chunk_size self3 = fld fact_chunk_size self).
    { unfold fld. rewrite Hch3.
      destruct (get fact_chunk_id _ =? WAV_FACT_CHUNK_ID); repeat split;
        repeat rewrite get_set_other by field_side; reflexivity. }
    destruct G3 as (G3f & G3i & G3z).
    clearbody self3.
    destruct (wav_write_header_image self3 f1 Hwf3 Hfp3)
      as (s4 & f2 & Ehd & He4 & Hfp4 & HL4 & K);
      [exact Hw|rewrite G3f; exact Hfmt|rewrite G3i, G3z; exact Hfact|].
    assert (Hh4 : wav_get_header_size s4 = wav_get_header_size self).
    { destruct (wav_write_header_frame self3 s4 Hwf3 Ehd) as (_ & _ & _ & _ & Hfr).
      rewrite <- (wav_get_header_size_ext self3 self G3f G3i G3z).
      apply wav_get_header_size_ext; apply Hfr; unfold disjoint; cbn; lia. }
    assert (Hl1 : length (f_data f1) = Nat.max (length (f_data f)) (f_pos f + nbytes)).
    { subst f1. cbn [f_data]. rewrite length_write_at, Hlt. reflexivity. }
    rewrite Ehd. rewrite He4. cbn [WavErr_eqb negb]. rewrite Hfp4.
    unfold fseek_set.
    destruct (Z.of_nat (f_pos f + nbytes) <? 0) eqn:El0; [apply Z.ltb_lt in El0; lia|].
    cbn [negb Z.eqb]. cbv iota.
    eexists. eexists. split; [reflexivity|].
    cbn [chunk fp with_fp with_error_code f_pos f_data].
    split; [reflexivity|]. cbn [f_pos f_data f_name].
    split; [destruct K as (_ & Kn & _); rewrite Kn; reflexivity|].
    split; [lia|].
    destruct K as (_ & _ & _ & Kd & _).
    change (stream_append f1) with (stream_append f) in Kd.
    split; intros Ha; rewrite Ha in Kd; rewrite Kd.
    + eexists. reflexivity.
    + rewrite length_app, length_drop. fold nch. lia.
Qed.

(** X14: [wav_write] of [count] frames returns [count] and leaves on the
    stream, from the position it found, the samples interleaved: byte [k]
    of sample [j] of channel [i] is at offset (j * channels + i) * size + k,
    taken from the first [size] bytes of the sample's container. The header
    rewrite that follows does not touch them. *)
Theorem wav_write_layout (alloc_ok : Z -> bool) (self : WavFile)
    (buffers : list (list Byte.byte)) (count : Z) (f : FILE) (m : string) (ss cs : Z) :
  wf self -> fp self = Some f -> mode self = Some m -> write_mode m = true ->
  fld format_tag self <> WAV_FORMAT_EXTENSIBLE ->
  fld n_channels self <> 0 ->
  fld block_align self / fld n_channels self = ss -> 1 <= ss <= 4 ->
  wav_container_sizes !! Z.to_nat ss = Some cs ->
  stream_writable f = true -> f_error f = false ->
  (stream_append f = true -> f_pos f = length (f_data f)) ->
  wav_get_header_size self <= Z.of_nat (f_pos f) ->
  fld format_chunk_size self <= 60 ->
  (fld fact_chunk_id self = WAV_FACT_CHUNK_ID -> fld fact_chunk_size self <= 12) ->
  0 < count ->
  Z.of_nat (f_pos f) + fld n_channels self * count * ss < 2 ^ 63 ->
  tmp_wf self ->
  alloc_ok (fld n_channels self * count * ss) = true ->
  let nch := Z.to_nat (fld n_channels self) in
  (forall i, (i < nch)%nat ->
     exists ch, buffers !! i = Some ch /\ (Z.to_nat count * Z.to_nat cs <= length ch)%nat) ->
  exists self' f',
    wav_write alloc_ok self buffers count = Some (count, self') /\
    error_code self' = WAV_OK /\ fp self' = Some f' /\ f_error f' = false /\
    (Z.of_nat (f_pos f) + fld n_channels self * count * ss
       <= Z.of_nat (length (f_data f'))) /\
    (forall i j k ch,
       (i < nch)%nat -> (j < Z.to_nat count)%nat -> (k < Z.to_nat ss)%nat ->
       buffers !! i = Some ch ->
       f_data f' !! (f_pos f + (j * nch * Z.to_nat ss + i * Z.to_nat ss + k))%nat
       = ch !! (j * Z.to_nat cs + k)%nat).
Proof.
  intros Hwf Hfp Hmode Hwm Htag Hnch Hss Hssr Hcs Hw Herr Happ Hpos Hfmt Hfact Hcount Hsz
         Htmp Halloc nch Hbuf.
  destruct (wav_write_spec alloc_ok self buffers count f m ss cs Hwf Hfp Hmode Hwm Htag
              Hnch Hss Hssr Hcs Hw Herr Happ Hpos Hfmt Hfact Hcount Hsz Htmp Halloc Hbuf)
    as (self' & f' & E & He & _ & _ & Hf' & _ & Hfe & Hlen & Hd).
  exists self', f'. repeat (split; [assumption|]). exact Hd.
Qed.

Lemma wav_write_layout_witness :
  exists self' f',
    wav_write alloc_always pcm24_writer pcm24_frames 2 = Some (2, self') /\
    fp self' = Some f' /\
    f_data f' !! 36%nat = Some Byte.x01 /\ f_data f' !! 39%nat = Some Byte.x00.
Proof.
  destruct (wav_write_layout alloc_always pcm24_writer pcm24_frames 2 pcm24_stream
              "wb" 3 4)
    as (self' & f' & E & _ & Hf & _ & _ & Hd).
  - reflexivity.
  - reflexivity.
  - reflexivity.
  - reflexivity.
  - vm_compute. discriminate.
  - vm_compute. discriminate.
  - reflexivity.
  - lia.
  - reflexivity.
  - reflexivity.
  - reflexivity.
  - discriminate.
  - vm_compute. discriminate.
  - vm_compute. discriminate.
  - vm_compute. discriminate.
  - lia.
  - vm_compute. reflexivity.
  - exact I.
  - reflexivity.
  - intros i Hi. change (Z.to_nat (fld n_channels pcm24_writer)) with 2%nat in Hi.
    destruct i as [|[|i]]; [| |lia]; eexists; (split; [reflexivity|vm_compute; lia]).
  - exists self', f'. split; [exact E|]. split; [exact Hf|].
    split.
    + apply (Hd 0%nat 0%nat 0%nat
               [Byte.x01; Byte.x02; Byte.x03; Byte.x00;
                Byte.xff; Byte.xff; Byte.xff; Byte.xff]);
        [vm_compute; lia..|reflexivity].
    + apply (Hd 1%nat 0%nat 0%nat
               [Byte.x00; Byte.x00; Byte.x80; Byte.xff;
                Byte.x10; Byte.x20; Byte.x30; Byte.x00]);
        [vm_compute; lia..|reflexivity].
Defined.

(** X15: a successful [wav_write] of [count] frames adds [count] block
    alignments to the data size (modulo 2^32) and [count] to the fact sample
    length when the fact chunk is present, keeps the header size and the
    block alignment, moves the stream by the bytes written so that
    [wav_tell] grows by [count], and rewrites the header: on a stream not in
    append mode the file starts with the header image of the new chunk. *)
Theorem wav_write_accounts (alloc_ok : Z -> bool) (self : WavFile)
    (buffers : list (list Byte.byte)) (count : Z) (f : FILE) (m : string) (ss cs : Z) :
  wf self -> fp self = Some f -> mode self = Some m -> write_mode m = true ->
  fld format_tag self <> WAV_FORMAT_EXTENSIBLE ->
  fld n_channels self <> 0 ->
  fld block_align self = fld n_channels self * ss -> 1 <= ss <= 4 ->
  wav_container_sizes !! Z.to_nat ss = Some cs ->
  stream_writable f = true -> f_error f = false ->
  (stream_append f = true -> f_pos f = length (f_data f)) ->
  wav_get_header_size self <= Z.of_nat (f_pos f) ->
  fld format_chunk_size self <= 60 ->
  (fld fact_chunk_id self = WAV_FACT_CHUNK_ID -> fld fact_chunk_size self <= 12) ->
  0 < count ->
  Z.of_nat (f_pos f) + fld n_channels self * count * ss < 2 ^ 63 ->
  tmp_wf self ->
  alloc_ok (fld n_channels self * count * ss) = true ->
  (forall i, (i < Z.to_nat (fld n_channels self))%nat ->
     exists ch, buffers !! i = Some ch /\ (Z.to_nat count * Z.to_nat cs <= length ch)%nat) ->
  let ba := fld block_align self in
  let here := (Z.of_nat (f_pos f) - wav_get_header_size self) / ba in
  exists self' f',
    wav_write alloc_ok self buffers count = Some (count, self') /\
    error_code self' = WAV_OK /\ fp self' = Some f' /\
    fld data_chunk_size self' = u32 (fld data_chunk_size self + count * ba) /\
    fld fact_sample_length self' =
      (if fld fact_chunk_id self =? WAV_FACT_CHUNK_ID
       then u32 (fld fact_sample_length self + count)
       else fld fact_sample_length self) /\
    wav_get_header_size self' = wav_get_header_size self /\
    fld block_align self' = ba /\
    ftell f' = ftell f + count * ba /\
    wav_tell self' = Some (here + count, with_error_code WAV_OK self') /\
    (fld data_chunk_size self + count * ba < 2 ^ 32 ->
     wav_get_length self' = Some (fld data_chunk_size self / ba + count)) /\
    (stream_append f = false -> header_image (chunk self') `prefix_of` f_data f').
Proof.
  intros Hwf Hfp Hmode Hwm Htag Hnch Hba Hssr Hcs Hw Herr Happ Hpos Hfmt Hfact Hcount Hsz
         Htmp Halloc Hbuf ba here.
  pose proof (get_range n_channels (chunk self)) as Rn. fold (fld n_channels self) in Rn.
  pose proof (get_range data_chunk_size (chunk self)) as Rd.
  fold (fld data_chunk_size self) in Rd.
  change (2 ^ (8 * Z.of_nat (f_width data_chunk_size))) with (2 ^ 32) in Rd.
  assert (Hss : fld block_align self / fld n_channels self = ss).
  { rewrite Hba, Z.mul_comm. apply Z.div_mul. exact Hnch. }
  assert (Hba0 : ba <> 0) by (subst ba; nia).
  assert (Hbytes : fld n_channels self * count * ss = count * ba) by (subst ba; lia).
  destruct (wav_write_spec alloc_ok self buffers count f m ss cs Hwf Hfp Hmode Hwm Htag
              Hnch Hss Hssr Hcs Hw Herr Happ Hpos Hfmt Hfact Hcount Hsz Htmp Halloc Hbuf)
    as (self' & f' & E & He & _ & Hch & Hf' & _).
  destruct (wav_write_stream alloc_ok self buffers count f m ss cs Hwf Hfp Hmode Hwm Htag
              Hnch Hss Hssr Hcs Hw Herr Happ Hpos Hfmt Hfact Hcount Hsz Htmp Halloc Hbuf)
    as (s2 & f2 & E2 & Hf2 & _ & Hp2 & Hpre & _).
  rewrite E in E2. injection E2 as <-. rewrite Hf' in Hf2. injection Hf2 as <-.
  rewrite Hbytes in *.
  destruct (chunk_after_write_fields (chunk self) (count * ba) count Hwf)
    as (Hl' & _ & _ & Gb & Gf & Gi & Gz & Gd).
  rewrite <- Hch in *.
  fold (fld block_align self') (fld format_chunk_size self') (fld fact_chunk_id self')
    (fld fact_chunk_size self') (fld data_chunk_size self') in *.
  fold (fld block_align self) (fld format_chunk_size self) (fld fact_chunk_id self)
    (fld fact_chunk_size self) (fld data_chunk_size self) in *.
  assert (Hhs : wav_get_header_size self' = wav_get_header_size self)
    by (apply wav_get_header_size_ext; assumption).
  exists self', f'. split; [exact E|]. split; [exact He|]. split; [exact Hf'|].
  split; [exact Gd|].
  split.
  { unfold fld at 1. rewrite Hch. unfold chunk_after_write.
    set (c1 := set data_chunk_size _ (chunk self)).
    assert (L1 : length c1 = 80%nat)
      by (subst c1; rewrite length_set; [exact Hwf|field_side]).
    assert (I1 : get fact_chunk_id c1 = fld fact_chunk_id self)
      by (subst c1; apply get_set_other; field_side).
    assert (S1 : get fact_sample_length c1 = fld fact_sample_length self)
      by (subst c1; apply get_set_other; field_side).
    rewrite I1. destruct (fld fact_chunk_id self =? WAV_FACT_CHUNK_ID).
    - rewrite get_set_other by (first [len_solver | fields_apart]).
      rewrite get_set_same by len_solver. rewrite S1. reflexivity.
    - rewrite get_set_other by (first [len_solver | fields_apart]). exact S1. }
  split; [exact Hhs|]. split; [exact Gb|].
  split; [unfold ftell; exact Hp2|].
  split.
  { rewrite (wav_tell_ok self' f' Hf'); [|rewrite Hhs; nia|rewrite Gb; exact Hba0].
    rewrite Hhs, Gb, Hp2. do 2 f_equal. subst here. fold ba.
    replace (Z.of_nat (f_pos f) + count * ba - wav_get_header_size self)
      with (Z.of_nat (f_pos f) - wav_get_header_size self + count * ba) by lia.
    apply Z.div_add. exact Hba0. }
  split; [|exact Hpre].
  intros Hsmall. unfold wav_get_length. rewrite Gb. fold ba.
  destruct (ba =? 0) eqn:Eb; [apply Z.eqb_eq in Eb; contradiction|].
  rewrite Gd. unfold u32. rewrite Z.mod_small by nia.
  f_equal. apply Z.div_add. exact Hba0.
Qed.

Lemma wav_write_accounts_witness :
  exists self' f',
    wav_write alloc_always pcm24_writer pcm24_frames 2 = Some (2, self') /\
    fp self' = Some f' /\
    fld data_chunk_size self' = 12 /\ ftell f' = 48 /\
    wav_get_length self' = Some 2.
Proof.
  destruct (wav_write_accounts alloc_always pcm24_writer pcm24_frames 2 pcm24_stream
              "wb" 3 4)
    as (self' & f' & E & _ & Hf & Hd & _ & _ & _ & Hp & _ & Hl & _).
  - reflexivity.
  - reflexivity.
  - reflexivity.
  - reflexivity.
  - vm_compute. discriminate.
  - vm_compute. discriminate.
  - reflexivity.
  - lia.
  - reflexivity.
  - reflexivity.
  - reflexivity.
  - discriminate.
  - vm_compute. discriminate.
  - vm_compute. discriminate.
  - vm_compute. discriminate.
  - lia.
  - vm_compute. reflexivity.
  - exact I.
  - reflexivity.
  - intros i Hi. change (Z.to_nat (fld n_channels pcm24_writer)) with 2%nat in Hi.
    destruct i as [|[|i]]; [| |lia]; eexists; (split; [reflexivity|vm_compute; lia]).
  - exists self', f'. split; [exact E|]. split; [exact Hf|].
    split; [rewrite Hd; reflexivity|]. split; [rewrite Hp; reflexivity|].
    apply Hl. vm_compute. reflexivity.
Defined.

(** ** Seeking, failures and sign extension *)

Lemma wav_tell_handle (self : WavFile) (p : Z) (s : WavFile) :
  wav_tell self = Some (p, s) -> exists e, s = with_error_code e self.
Proof.
  unfold wav_tell. destruct (fp self) as [f|]; [|discriminate].
  destruct (ftell f =? -1); [intros [= <- <-]; eauto|].
  destruct (negb _); [discriminate|].
  destruct (fld block_align self =? 0); [discriminate|].
  intros [= <- <-]. eauto.
Qed.

(** X16: for every origin, [wav_seek] to a frame before the first or past
    the length returns the parameter error, sets it as the status and
    changes nothing else: the stream does not move. *)
Theorem wav_seek_out_of_range (self : WavFile) (offset origin len base : Z) :
  wav_get_length self = Some len -> seek_base self origin = Some base ->
  - 2 ^ 63 <= offset < 2 ^ 63 -> - 2 ^ 63 <= offset + base < 2 ^ 63 ->
  offset + base < 0 \/ len < offset + base ->
  wav_seek self offset origin = Some (WAV_ERR_PARAM, with_error_code WAV_ERR_PARAM self).
Proof.
  intros Hlen Hbase Hoff Htgt Hout.
  assert (Hs : forall x, - 2 ^ 63 <= x < 2 ^ 63 -> slong x = x).
  { intros x Hx. unfold slong. rewrite Z.mod_small by lia. lia. }
  assert (Hl0 : 0 <= len).
  { unfold wav_get_length in Hlen.
    destruct (fld block_align self =? 0) eqn:Eb; [discriminate|].
    apply Z.eqb_neq in Eb. injection Hlen as <-.
    pose proof (get_range data_chunk_size (chunk self)) as Rd.
    pose proof (get_range block_align (chunk self)) as Rb.
    unfold fld in *. apply Z.div_pos; lia. }
  unfold wav_seek. cbv zeta. rewrite Hlen, (Hs offset Hoff).
  unfold seek_base in Hbase.
  assert (Hcond : forall t, t = offset + base ->
            (t >=? 0) && (usize t <=? len) = false).
  { intros t ->. destruct Hout as [Hneg|Hbig].
    - replace (offset + base >=? 0) with false; [reflexivity|].
      symmetry. rewrite Z.geb_leb. apply Z.leb_gt. lia.
    - rewrite usize_small by lia.
      replace (offset + base <=? len) with false; [apply andb_false_r|].
      symmetry. apply Z.leb_gt. lia. }
  destruct (origin =? SEEK_CUR).
  - destruct (wav_tell self) as [[p s]|] eqn:Et; [|discriminate].
    cbn in Hbase. injection Hbase as ->.
    destruct (wav_tell_handle self base s Et) as [e ->].
    cbn [fst snd]. rewrite (Hs _ Htgt), (Hcond _ eq_refl). reflexivity.
  - destruct (origin =? SEEK_END).
    + rewrite Hlen in Hbase. injection Hbase as ->.
      rewrite (Hs _ Htgt), (Hcond _ eq_refl). reflexivity.
    + injection Hbase as <-. rewrite (Hcond offset) by lia. reflexivity.
Qed.

Lemma wav_seek_out_of_range_witness :
  wav_seek pcm_reader 3 SEEK_SET
    = Some (WAV_ERR_PARAM, with_error_code WAV_ERR_PARAM pcm_reader) /\
  wav_seek pcm_reader (-3) SEEK_END
    = Some (WAV_ERR_PARAM, with_error_code WAV_ERR_PARAM pcm_reader).
Proof.
  split.
  - apply (wav_seek_out_of_range pcm_reader 3 SEEK_SET 2 0);
      [reflexivity | reflexivity | lia | lia | right; lia].
  - apply (wav_seek_out_of_range pcm_reader (-3) SEEK_END 2 2);
      [reflexivity | reflexivity | lia | lia | left; lia].
Defined.

Lemma wav_tell_status (self : WavFile) (p : Z) (s : WavFile) :
  wav_tell self = Some (p, s) ->
  s = with_error_code WAV_OK self \/ s = with_error_code WAV_ERR_OS self.
Proof.
  unfold wav_tell. destruct (fp self) as [f|]; [|discriminate].
  destruct (ftell f =? -1); [intros [= <- <-]; auto|].
  destruct (negb _); [discriminate|].
  destruct (fld block_align self =? 0); [discriminate|].
  intros [= <- <-]. auto.
Qed.

Lemma wav_tmp_reserve_inl (alloc_ok : Z -> bool) (need : Z) (s s' : WavFile) :
  wav_tmp_reserve alloc_ok need s = inl s' ->
  s' = with_error_code WAV_ERR_NOMEM (with_tmp None 0 s).
Proof.
  unfold wav_tmp_reserve. destruct (_ || _); [|discriminate].
  destruct (WAV_NEW alloc_ok need); [discriminate|]. now intros [= <-].
Qed.

(** X17: whenever [wav_read] or [wav_write] ends with a status other than
    OK and the OS error (mode, parameter, format, allocation), it returns 0
    and has touched neither the buffers, nor the chunk, nor the stream; after
    an allocation failure the scratch buffer is gone and its size is 0. *)
Theorem transfer_failure_atomic (alloc_ok : Z -> bool) (self : WavFile)
    (buffers : list (list Byte.byte)) (count : Z) :
  (forall n self' buffers',
     wav_read alloc_ok self buffers count = Some (n, self', buffers') ->
     error_code self' <> WAV_OK -> error_code self' <> WAV_ERR_OS ->
     n = 0 /\ buffers' = buffers /\ chunk self' = chunk self /\ fp self' = fp self /\
     (error_code self' = WAV_ERR_NOMEM -> tmp self' = None /\ tmp_size self' = 0)) /\
  (forall n self',
     wav_write alloc_ok self buffers count = Some (n, self') ->
     error_code self' <> WAV_OK -> error_code self' <> WAV_ERR_OS ->
     n = 0 /\ chunk self' = chunk self /\ fp self' = fp self /\
     (error_code self' = WAV_ERR_NOMEM -> tmp self' = None /\ tmp_size self' = 0)).
Proof.
  split.
  - intros n self' buffers' E Hok Hos. unfold wav_read in E. cbv zeta in E.
    destruct (wav_get_sample_size self) as [ss|]; [|discriminate].
    destruct (wav_calc_container_size ss) as [cs|]; [|discriminate].
    destruct (mode self) as [m|]; [|discriminate].
    destruct (_ || _) in E.
    { injection E as <- <- <-. repeat split; try reflexivity; discriminate. }
    destruct (fld format_tag self =? WAV_FORMAT_EXTENSIBLE).
    { injection E as <- <- <-. repeat split; try reflexivity; discriminate. }
    destruct (wav_get_length self) as [len|]; [|discriminate].
    destruct (wav_tell self) as [[pos s1]|] eqn:Et; [|discriminate].
    apply wav_tell_status in Et.
    destruct (negb (WavErr_eqb (error_code s1) WAV_OK)).
    { injection E as <- <- <-. destruct Et as [-> | ->]; cbn in Hok, Hos; congruence. }
    destruct (_ =? 0) in E.
    { injection E as <- <- <-. cbn in Hok. congruence. }
    destruct (wav_tmp_reserve _ _ s1) as [s2|s2] eqn:Er.
    { apply wav_tmp_reserve_inl in Er. injection E as <- <- <-. subst s2.
      destruct Et as [-> | ->]; repeat split; reflexivity. }
    destruct (fp s2) as [f|]; [|discriminate].
    destruct (tmp s2) as [t|]; [|discriminate].
    destruct (fread _ _ f) as [[bs rc] f'].
    destruct (decide _); [|discriminate].
    destruct (ferror f').
    { injection E as <- <- <-. cbn in Hos. congruence. }
    destruct (wav_read_loops _ _ _ _ _ _); [|discriminate].
    injection E as <- <- <-. cbn in Hok. congruence.
  - intros n self' E Hok Hos. unfold wav_write in E. cbv zeta in E.
    destruct (wav_get_sample_size self) as [ss|]; [|discriminate].
    destruct (wav_calc_container_size ss) as [cs|]; [|discriminate].
    destruct (mode self) as [m|]; [|discriminate].
    destruct (strncmp m "rb" 2 =? 0).
    { injection E as <- <-. repeat split; try reflexivity; discriminate. }
    destruct (fld format_tag self =? WAV_FORMAT_EXTENSIBLE).
    { injection E as <- <-. repeat split; try reflexivity; discriminate. }
    destruct (usize count =? 0).
    { injection E as <- <-. cbn in Hok. congruence. }
    destruct (wav_tell self) as [[pos s1]|] eqn:Et; [|discriminate].
    apply wav_tell_status in Et. cbn [snd] in E.
    destruct (negb (WavErr_eqb (error_code s1) WAV_OK)).
    { injection E as <- <-. destruct Et as [-> | ->]; cbn in Hok, Hos; congruence. }
    destruct (wav_tmp_reserve _ _ s1) as [s2|s2] eqn:Er.
    { apply wav_tmp_reserve_inl in Er. injection E as <- <-. subst s2.
      destruct Et as [-> | ->]; repeat split; reflexivity. }
    destruct (tmp s2) as [t|]; [|discriminate].
    destruct (wav_write_loops _ _ _ _ _ _) as [t'|]; [|discriminate].
    cbn [fp with_tmp] in E.
    destruct (fp s2) as [f|]; [|discriminate].
    destruct (decide _); [|discriminate].
    destruct (fwrite _ _ _ f) as [wc f'].
    destruct (ferror f').
    { injection E as <- <-. cbn in Hos. congruence. }
    destruct (ftell f' =? -1).
    { injection E as <- <-. cbn in Hos. congruence. }
    destruct (wav_write_header _) as [s3|] eqn:Eh; [|discriminate].
    apply wav_write_header_error in Eh.
    destruct (negb (WavErr_eqb (error_code s3) WAV_OK)).
    { injection E as <- <-. destruct Eh; congruence. }
    destruct (fp s3) as [f3|]; [|discriminate].
    destruct (fseek_set f3 _) as [ret f4].
    destruct (negb (ret =? 0)); injection E as <- <-; cbn in Hok, Hos; congruence.
Qed.

Lemma transfer_failure_atomic_witness :
  chunk pcm24_nomem = chunk pcm24_writer /\ fp pcm24_nomem = fp pcm24_writer /\
  tmp pcm24_nomem = None.
Proof.
  destruct (proj2 (transfer_failure_atomic alloc_never pcm24_writer pcm24_frames 2)
              0 pcm24_nomem) as (_ & H1 & H2 & H3).
  - vm_compute. reflexivity.
  - discriminate.
  - discriminate.
  - split; [exact H1|]. split; [exact H2|]. apply H3. reflexivity.
Defined.

Lemma le_decode_app (a b : list Byte.byte) :
  le_decode (a ++ b) = le_decode a + 2 ^ (8 * Z.of_nat (length a)) * le_decode b.
Proof.
  induction a as [|x a IH]; [cbn; lia|].
  cbn [app le_decode length]. rewrite IH.
  replace (8 * Z.of_nat (S (length a))) with (8 + 8 * Z.of_nat (length a)) by lia.
  rewrite Z.pow_add_r by lia. change (2 ^ 8) with 256. lia.
Qed.

Lemma le_decode_replicate_ff (n : nat) :
  le_decode (replicate n Byte.xff) = 2 ^ (8 * Z.of_nat n) - 1.
Proof.
  induction n as [|n IH]; [reflexivity|].
  cbn [replicate le_decode]. rewrite IH. change (byte_to_Z Byte.xff) with 255.
  replace (8 * Z.of_nat (S n)) with (8 + 8 * Z.of_nat n) by lia.
  rewrite Z.pow_add_r by lia. change (2 ^ 8) with 256. lia.
Qed.

Lemma le_decode_replicate_00 (n : nat) : le_decode (replicate n Byte.x00) = 0.
Proof.
  induction n as [|n IH]; [reflexivity|].
  cbn [replicate le_decode]. rewrite IH. reflexivity.
Qed.

Lemma sign_bit_test (b : Byte.byte) :
  (Z.land (byte_to_Z b) 128 =? 0) = (byte_to_Z b <? 128).
Proof. destruct b; reflexivity. Qed.

Lemma sign_extend_value (bs : list Byte.byte) (top : Byte.byte) (n : nat) :
  signed (8 * Z.of_nat (length (bs ++ [top]) + n))
         (le_decode ((bs ++ [top]) ++ replicate n (sign_fill top)))
  = signed (8 * Z.of_nat (length (bs ++ [top]))) (le_decode (bs ++ [top])).
Proof.
  rewrite (le_decode_app (bs ++ [top])).
  rewrite length_app. cbn [length].
  set (L := length bs).
  assert (HD : le_decode (bs ++ [top]) = le_decode bs + 2 ^ (8 * Z.of_nat L) * byte_to_Z top).
  { rewrite le_decode_app. cbn [le_decode]. subst L. lia. }
  rewrite HD.
  pose proof (le_decode_range bs) as Rb. fold L in Rb.
  pose proof (byte_to_Z_range top) as Rt.
  assert (HP : 0 < 2 ^ (8 * Z.of_nat L)) by (apply Z.pow_pos_nonneg; lia).
  assert (E1 : 2 ^ (8 * Z.of_nat (L + 1)) = 256 * 2 ^ (8 * Z.of_nat L)).
  { replace (8 * Z.of_nat (L + 1)) with (8 + 8 * Z.of_nat L) by lia.
    rewrite Z.pow_add_r by lia. reflexivity. }
  assert (E1h : 2 ^ (8 * Z.of_nat (L + 1) - 1) = 128 * 2 ^ (8 * Z.of_nat L)).
  { replace (8 * Z.of_nat (L + 1) - 1) with (7 + 8 * Z.of_nat L) by lia.
    rewrite Z.pow_add_r by lia. reflexivity. }
  assert (HN : 0 < 2 ^ (8 * Z.of_nat n)) by (apply Z.pow_pos_nonneg; lia).
  assert (E2 : 2 ^ (8 * Z.of_nat (L + 1 + n))
               = 2 ^ (8 * Z.of_nat n) * (256 * 2 ^ (8 * Z.of_nat L))).
  { replace (8 * Z.of_nat (L + 1 + n)) with (8 * Z.of_nat n + (8 + 8 * Z.of_nat L)) by lia.
    rewrite !Z.pow_add_r by lia. reflexivity. }
  assert (E2h : 2 * 2 ^ (8 * Z.of_nat (L + 1 + n) - 1) = 2 ^ (8 * Z.of_nat (L + 1 + n))).
  { rewrite <- Z.pow_succ_r by lia. f_equal. lia. }
  unfold signed, sign_fill. rewrite sign_bit_test.
  rewrite E1, E1h. set (P := 2 ^ (8 * Z.of_nat L)) in *.
  set (Q := 2 ^ (8 * Z.of_nat n)) in *.
  set (H := 2 ^ (8 * Z.of_nat (L + 1 + n) - 1)) in *.
  rewrite E2 in *.
  destruct (byte_to_Z top <? 128) eqn:Et; cbn [negb].
  - apply Z.ltb_lt in Et. rewrite le_decode_replicate_00.
    replace (le_decode bs + P * byte_to_Z top + 256 * P * 0)
      with (le_decode bs + P * byte_to_Z top) by lia.
    assert (Hlt : le_decode bs + P * byte_to_Z top < 128 * P) by nia.
    destruct (_ <? 128 * P) eqn:E; [|apply Z.ltb_ge in E; lia].
    destruct (_ <? H) eqn:E'; [reflexivity|]. apply Z.ltb_ge in E'. nia.
  - apply Z.ltb_ge in Et. rewrite le_decode_replicate_ff. fold Q.
    assert (Hge : 128 * P <= le_decode bs + P * byte_to_Z top) by nia.
    destruct (_ <? 128 * P) eqn:E; [apply Z.ltb_lt in E; lia|].
    destruct (_ <? H) eqn:E'; [apply Z.ltb_lt in E'; nia|]. nia.
Qed.

(** X18: the copy of one sample into its container, with the fill bytes that
    [wav_read] derives from the sign bit, keeps the sample's value: read as
    two's complement little-endian numbers, the container and the sample on
    the stream are equal. *)
Theorem sign_extension_preserves_value (nch ss cs : nat) (t : list Byte.byte) (i j : nat)
    (s : list (list Byte.byte)) (ch : list Byte.byte) :
  s !! i = Some ch -> (1 <= ss)%nat -> (ss <= cs)%nat ->
  (j * cs + cs <= length ch)%nat ->
  (j * nch * ss + i * ss + ss <= length t)%nat ->
  exists c,
    wav_read_sample nch ss cs t i j s = Some (<[i := c]> s) /\
    signed (8 * Z.of_nat cs) (le_decode (mem_read (j * cs) cs c))
    = signed (8 * Z.of_nat ss) (le_decode (mem_read (j * nch * ss + i * ss) ss t)).
Proof.
  intros Hs Hss Hsc Hch Ht.
  destruct (wav_read_sample_spec nch ss cs t i j s ch Hs Hss Hsc Hch Ht)
    as (c & E & Hl & Hin & _).
  exists c. split; [exact E|].
  set (base := (j * nch * ss + i * ss)%nat) in *.
  set (sample := mem_read base ss t).
  assert (Hls : length sample = ss) by (apply length_mem_read; lia).
  destruct (decide (sample = [])) as [Hnil|Hne].
  { rewrite Hnil in Hls. cbn in Hls. lia. }
  destruct (exists_last Hne) as (bs & top & Hsnoc).
  assert (Hlb : (length bs + 1 = ss)%nat).
  { rewrite <- Hls, Hsnoc, length_app. reflexivity. }
  assert (Htop : t !! (base + ss - 1)%nat = Some top).
  { replace (base + ss - 1)%nat with (base + length bs)%nat by lia.
    assert (H : sample !! length bs = Some top).
    { rewrite Hsnoc. rewrite lookup_app_r by lia. rewrite Nat.sub_diag. reflexivity. }
    unfold sample in H. rewrite lookup_mem_read in H.
    destruct (decide _); [exact H|discriminate]. }
  assert (Hc : mem_read (j * cs) cs c
               = (bs ++ [top]) ++ replicate (cs - ss) (sign_fill top)).
  { rewrite <- Hsnoc. apply list_eq; intros k.
    rewrite lookup_mem_read.
    destruct (decide (k < cs)%nat) as [Hk|Hk].
    - rewrite (Hin k Hk). unfold deinterleaved. fold base.
      destruct (decide (k < ss)%nat) as [Hks|Hks].
      + rewrite lookup_app_l by lia. unfold sample. rewrite lookup_mem_read.
        destruct (decide _); [reflexivity|lia].
      + rewrite lookup_app_r by lia. rewrite Htop. cbn [fmap option_fmap option_map].
        symmetry. apply lookup_replicate_2. lia.
    - symmetry. apply lookup_ge_None.
      rewrite length_app, length_replicate. lia. }
  rewrite Hc. fold sample. rewrite Hsnoc.
  pose proof (sign_extend_value bs top (cs - ss)) as H.
  rewrite length_app in H. cbn [length] in H.
  replace (length bs + 1 + (cs - ss))%nat with cs in H by lia.
  replace (length bs + 1)%nat with ss in H by lia.
  exact H.
Qed.

Lemma sign_extension_preserves_value_witness :
  exists c,
    wav_read_sample 1 3 4 [Byte.x00; Byte.x00; Byte.x80] 0 0 [replicate 4 Byte.x00]
      = Some (<[0%nat := c]> [replicate 4 Byte.x00]) /\
    signed 32 (le_decode (mem_read 0 4 c)) = - 2 ^ 23.
Proof.
  destruct (sign_extension_preserves_value 1 3 4 [Byte.x00; Byte.x00; Byte.x80] 0 0
              [replicate 4 Byte.x00] (replicate 4 Byte.x00))
    as (c & E & H).
  - reflexivity.
  - lia.
  - lia.
  - cbn. lia.
  - cbn. lia.
  - exists c. split; [exact E|].
    change (signed (8 * Z.of_nat 4) (le_decode (mem_read (0 * 4) 4 c)) = - 2 ^ 23).
    rewrite H. reflexivity.
Defined.

(** ** Opening, closing and reopening *)

Lemma ascii_to_Z_inj (c d : ascii) : ascii_to_Z c = ascii_to_Z d -> c = d.
Proof.
  unfold ascii_to_Z. intros H. apply N2Z.inj in H.
  rewrite <- (ascii_N_embedding c), <- (ascii_N_embedding d). now rewrite H.
Qed.

Lemma strncmp_head_differs (c d : ascii) (s t : string) (n : nat) :
  Ascii.eqb c d = false -> (strncmp (String c s) (String d t) (S n) =? 0) = false.
Proof.
  intros H. cbn [strncmp]. rewrite H. apply Z.eqb_neq. intros E.
  apply Ascii.eqb_neq in H. apply H, ascii_to_Z_inj. lia.
Qed.

Lemma wav_init_mode_none (mode : string) :
  Ascii.eqb (str_head mode) "r" = false -> Ascii.eqb (str_head mode) "w" = false ->
  Ascii.eqb (str_head mode) "a" = false ->
  wav_init_mode mode = None.
Proof.
  intros Hr Hw Ha. destruct mode as [|c s]; [reflexivity|].
  cbn [str_head] in *. unfold wav_init_mode.
  rewrite !(strncmp_head_differs c "r") by exact Hr.
  rewrite !(strncmp_head_differs c "w") by exact Hw.
  rewrite !(strncmp_head_differs c "a") by exact Ha.
  reflexivity.
Qed.

Lemma wav_init_mode_some (mode : string) :
  wav_init_mode mode =
    if Ascii.eqb (str_head mode) "r" then Some "rb"%string
    else if Ascii.eqb (str_head mode) "w" then Some "wb"%string
    else if Ascii.eqb (str_head mode) "a" then Some "ab"%string
    else None.
Proof.
  destruct (Ascii.eqb (str_head mode) "r") eqn:Hr.
  { destruct mode as [|c s]; [discriminate|]. cbn [str_head] in Hr.
    apply Ascii.eqb_eq in Hr. subst c. reflexivity. }
  destruct (Ascii.eqb (str_head mode) "w") eqn:Hw.
  { destruct mode as [|c s]; [discriminate|]. cbn [str_head] in Hw.
    apply Ascii.eqb_eq in Hw. subst c. reflexivity. }
  destruct (Ascii.eqb (str_head mode) "a") eqn:Ha.
  { destruct mode as [|c s]; [discriminate|]. cbn [str_head] in Ha.
    apply Ascii.eqb_eq in Ha. subst c. reflexivity. }
  apply wav_init_mode_none; assumption.
Qed.

Lemma fread_chunk_fp (off : nat) (size : Z) (self : WavFile) (n : Z) (s' : WavFile) :
  fread_chunk off size self = Some (n, s') -> is_Some (fp s').
Proof.
  unfold fread_chunk. destruct (fp self) as [f|]; [|discriminate].
  destruct (fread size 1 f) as [[bs k] f'].
  destruct (decide _); [|discriminate]. intros [= <- <-]. cbn. eauto.
Qed.

Lemma wav_parse_header_fp (self self' : WavFile) :
  wav_parse_header self = Some self' -> is_Some (fp self').
Proof.
  unfold wav_parse_header.
  destruct (fread_chunk 0 _ self) as [[n1 s1]|] eqn:E1; [|discriminate].
  apply fread_chunk_fp in E1.
  destruct (_ || _); [intros [= <-]; exact E1|].
  destruct (fread_chunk 8 _ s1) as [[n2 s2]|] eqn:E2; [|discriminate].
  apply fread_chunk_fp in E2.
  destruct (_ || _); [intros [= <-]; exact E2|].
  destruct (fread_chunk OFF_format_chunk _ s2) as [[n3 s3]|] eqn:E3; [|discriminate].
  apply fread_chunk_fp in E3.
  destruct (_ || _); [intros [= <-]; exact E3|].
  destruct (fread_chunk (OFF_format_chunk + 8) _ s3) as [[n4 s4]|] eqn:E4; [|discriminate].
  apply fread_chunk_fp in E4.
  destruct (negb (n4 =? 1)); [intros [= <-]; exact E4|].
  destruct (negb _); [intros [= <-]; exact E4|].
  destruct (fread_chunk OFF_fact_chunk _ s4) as [[n5 s5]|] eqn:E5; [|discriminate].
  apply fread_chunk_fp in E5.
  destruct (negb (n5 =? 1)); [intros [= <-]; exact E5|].
  destruct (fld fact_chunk_id s5 =? WAV_FACT_CHUNK_ID).
  - destruct (fread_chunk (OFF_fact_chunk + 8) _ s5) as [[n6 s6]|] eqn:E6; [|discriminate].
    apply fread_chunk_fp in E6.
    destruct (negb (n6 =? 1)); [intros [= <-]; exact E6|].
    destruct (fread_chunk OFF_data_chunk _ s6) as [[n7 s7]|] eqn:E7; [|discriminate].
    apply fread_chunk_fp in E7.
    destruct (negb (n7 =? 1)); intros [= <-]; exact E7.
  - destruct (fld fact_chunk_id s5 =? WAV_DATA_CHUNK_ID); intros [= <-]; exact E5.
Qed.

Lemma wav_write_header_fp (self self' : WavFile) :
  wav_write_header self = Some self' -> is_Some (fp self').
Proof.
  unfold wav_write_header.
  destruct (fp self) as [f|]; [|discriminate].
  repeat (match goal with
   | |- context [fwrite_chunk ?o ?z ?s] =>
       let E := fresh "E" in
       destruct (fwrite_chunk o z s) as [[? ?]|] eqn:E; [|discriminate];
       apply fwrite_chunk_inv in E; destruct E as [? ->]
   | |- context [if ?b then _ else _] => destruct b
   | |- Some _ = Some _ -> _ => intros [= <-]
   | |- None = Some _ -> _ => discriminate
   end; cbn [fst snd]);
  cbn; eauto.
Qed.

Lemma fopen_fails (fs fs' : gmap string (list Byte.byte)) (name m : string) :
  fopen fs name m = (None, fs') -> fs' = fs.
Proof.
  unfold fopen.
  destruct (Ascii.eqb (str_head m) "r").
  { destruct (fs !! name); intros [= <-]; reflexivity. }
  destruct (Ascii.eqb (str_head m) "w").
  { destruct (_ && _); [intros [= <-]; reflexivity|discriminate]. }
  destruct (Ascii.eqb (str_head m) "a"); [discriminate|].
  intros [= <-]. reflexivity.
Qed.

Lemma wav_parse_header_status (self s' : WavFile) :
  wf self -> wav_parse_header self = Some s' ->
  is_Some (fp s') /\ error_code s' <> WAV_ERR_MODE.
Proof.
  intros Hwf E. split; [exact (wav_parse_header_fp _ _ E)|].
  destruct (wav_parse_header_cases _ _ Hwf E) as [H|[H _]]; rewrite H; discriminate.
Qed.

Lemma wav_init_defaults_status (s0 s' : WavFile) :
  wav_init_defaults s0 = Some s' ->
  is_Some (fp s') /\ error_code s' <> WAV_ERR_MODE.
Proof.
  unfold wav_init_defaults. cbv zeta.
  set (S := set_fld data_chunk_size 0 _). clearbody S.
  destruct (wav_write_header S) as [s1|] eqn:Eh; [|discriminate].
  pose proof (wav_write_header_fp _ _ Eh) as Hf.
  pose proof (wav_write_header_error _ _ Eh) as He.
  destruct (negb _); intros [= <-].
  - split; [exact Hf|]. destruct He as [He|He]; rewrite He; discriminate.
  - split; [exact Hf|]. discriminate.
Qed.

Lemma wav_init_stream (alloc_ok : Z -> bool) (fs fs' : gmap string (list Byte.byte))
    (name mode : string) (self : WavFile) :
  wav_init alloc_ok fs name mode = Some (self, fs') ->
  (fp self = None /\ fs' = fs /\
   ((wav_init_mode mode = None /\ error_code self = WAV_ERR_MODE) \/
    (wav_init_mode mode <> None /\ error_code self = WAV_ERR_OS))) \/
  (is_Some (fp self) /\ error_code self <> WAV_ERR_MODE).
Proof.
  unfold wav_init. destruct (wav_init_mode mode) as [m|].
  2:{ intros [= <- <-]. left. split; [reflexivity|]. split; [reflexivity|].
      left. split; reflexivity. }
  destruct (fopen fs name m) as [[f|] fs1] eqn:Eo.
  2:{ intros [= <- <-]. left. split; [reflexivity|].
      split; [exact (fopen_fails fs fs1 name m Eo)|].
      right. split; [discriminate|reflexivity]. }
  destruct (Ascii.eqb (str_head m) "r").
  - destruct (wav_parse_header _) as [s'|] eqn:E; [|discriminate].
    intros [= <- <-]. right.
    apply (fun H => wav_parse_header_status _ _ H E). reflexivity.
  - destruct (Ascii.eqb (str_head m) "a").
    + destruct (wav_parse_header _) as [s'|] eqn:E; [|discriminate].
      destruct (WavErr_eqb (error_code s') WAV_OK).
      * intros [= <- <-]. right.
        apply (fun H => wav_parse_header_status _ _ H E). reflexivity.
      * destruct (wav_init_defaults _) as [s2|] eqn:E2; [|discriminate].
        intros [= <- <-]. right. apply (wav_init_defaults_status _ _ E2).
    + destruct (wav_init_defaults _) as [s2|] eqn:E2; [|discriminate].
      intros [= <- <-]. right. apply (wav_init_defaults_status _ _ E2).
Qed.

(** X19: [wav_init] fails with the mode error exactly when the mode string
    starts with none of r, w, a, and then opens nothing; opening a missing
    file for reading gives the OS error with no stream; and whenever
    [wav_init] leaves no stream, the file system is untouched and the status
    is not OK. *)
Theorem wav_init_open_failures (alloc_ok : Z -> bool) (fs : gmap string (list Byte.byte))
    (name mo : string) :
  (Ascii.eqb (str_head mo) "r" = false -> Ascii.eqb (str_head mo) "w" = false ->
   Ascii.eqb (str_head mo) "a" = false ->
   wav_init alloc_ok fs name mo = Some (with_error_code WAV_ERR_MODE wav_zero, fs)) /\
  (Ascii.eqb (str_head mo) "r" = true -> fs !! name = None ->
   exists self,
     wav_init alloc_ok fs name mo = Some (self, fs) /\
     error_code self = WAV_ERR_OS /\ fp self = None /\ mode self = Some "rb"%string) /\
  (forall self fs',
     wav_init alloc_ok fs name mo = Some (self, fs') ->
     (error_code self = WAV_ERR_MODE <->
      Ascii.eqb (str_head mo) "r" = false /\ Ascii.eqb (str_head mo) "w" = false /\
      Ascii.eqb (str_head mo) "a" = false) /\
     (fp self = None -> fs' = fs /\ error_code self <> WAV_OK)).
Proof.
  assert (P1 : Ascii.eqb (str_head mo) "r" = false ->
               Ascii.eqb (str_head mo) "w" = false ->
               Ascii.eqb (str_head mo) "a" = false ->
               wav_init alloc_ok fs name mo
               = Some (with_error_code WAV_ERR_MODE wav_zero, fs)).
  { intros Hr Hw Ha. unfold wav_init. rewrite (wav_init_mode_none mo Hr Hw Ha).
    reflexivity. }
  split; [exact P1|]. split.
  - intros Hr Hnone. unfold wav_init. rewrite wav_init_mode_some, Hr.
    unfold fopen. cbn [str_head Ascii.eqb Bool.eqb]. rewrite Hnone.
    eexists. split; [reflexivity|]. repeat split.
  - intros self fs' E.
    pose proof (wav_init_stream alloc_ok fs fs' name mo self E) as Hs.
    rewrite wav_init_mode_some in Hs. split; [split|].
    + intros He.
      destruct Hs as [(_ & _ & [[Hm _] | [_ Ho]]) | [_ Hn]];
        [|congruence|contradiction].
      destruct (Ascii.eqb (str_head mo) "r"); [discriminate|].
      destruct (Ascii.eqb (str_head mo) "w"); [discriminate|].
      destruct (Ascii.eqb (str_head mo) "a"); [discriminate|]. auto.
    + intros (Hr & Hw & Ha). rewrite (P1 Hr Hw Ha) in E. injection E as <- _.
      reflexivity.
    + intros Hnone.
      destruct Hs as [(_ & Hfs & [[_ He] | [_ He]]) | [[f Hf] _]];
        [split; [exact Hfs|rewrite He; discriminate]..|congruence].
Qed.

Lemma wav_init_open_failures_witness :
  wav_init alloc_always ∅ "t.wav" "x"
    = Some (with_error_code WAV_ERR_MODE wav_zero, ∅) /\
  exists self,
    wav_init alloc_always ∅ "t.wav" "r" = Some (self, ∅) /\
    error_code self = WAV_ERR_OS /\ fp self = None.
Proof.
  destruct (wav_init_open_failures alloc_always ∅ "t.wav" "x") as (H1 & _).
  destruct (wav_init_open_failures alloc_always ∅ "t.wav" "r") as (_ & H2 & _).
  split.
  - apply H1; reflexivity.
  - destruct H2 as (self & E & He & Hf & _); [reflexivity|reflexivity|].
    exists self. split; [exact E|]. split; [exact He|exact Hf].
Defined.

(** X20: closing a handle whose open left no stream is safe: [wav_finalize]
    only drops the file name, the error of the open is kept, so [wav_close]
    returns EOF without freeing the handle, and the file system is as it
    was before the open. *)
Theorem wav_close_after_failed_open (alloc_ok : Z -> bool)
    (fs fs' : gmap string (list Byte.byte)) (name mode : string) (self : WavFile) :
  wav_init alloc_ok fs name mode = Some (self, fs') -> fp self = None ->
  wav_finalize fs' self = Some (with_filename None self, fs') /\
  wav_close fs' self = Some (-1, Some (with_filename None self), fs') /\
  fs' = fs.
Proof.
  intros E Hnone.
  destruct (wav_init_stream alloc_ok fs fs' name mode self E)
    as [(_ & Hfs & He) | [[f Hf] _]]; [|congruence].
  assert (Hfin : wav_finalize fs' self = Some (with_filename None self, fs')).
  { unfold wav_finalize. cbn [fp with_filename]. rewrite Hnone. reflexivity. }
  split; [exact Hfin|]. split; [|exact Hfs].
  unfold wav_close. rewrite Hfin. cbn [error_code with_filename].
  destruct He as [[_ He] | [_ He]]; rewrite He; reflexivity.
Qed.

Lemma wav_close_after_failed_open_witness :
  wav_close ∅ (with_error_code WAV_ERR_MODE wav_zero)
    = Some (-1, Some (with_filename None (with_error_code WAV_ERR_MODE wav_zero)), ∅).
Proof.
  destruct (wav_close_after_failed_open alloc_always ∅ ∅ "t.wav" "x"
              (with_error_code WAV_ERR_MODE wav_zero)) as (_ & H & _).
  - reflexivity.
  - reflexivity.
  - exact H.
Defined.

Lemma fread_chunk_rest (off : nat) (size : Z) (self : WavFile) (n : Z) (s' : WavFile) :
  fread_chunk off size self = Some (n, s') ->
  mode s' = mode self /\ filename s' = filename self /\
  tmp s' = tmp self /\ tmp_size s' = tmp_size self.
Proof.
  unfold fread_chunk. destruct (fp self) as [f|]; [|discriminate].
  destruct (fread size 1 f) as [[bs k] f'].
  destruct (decide _); [|discriminate]. intros [= <- <-]. repeat split.
Qed.

Lemma wav_parse_header_rest (self self' : WavFile) :
  wav_parse_header self = Some self' ->
  mode self' = mode self /\ filename self' = filename self /\
  tmp self' = tmp self /\ tmp_size self' = tmp_size self.
Proof.
  unfold wav_parse_header.
  destruct (fread_chunk 0 _ self) as [[n1 s1]|] eqn:E1; [|discriminate].
  apply fread_chunk_rest in E1. destruct E1 as (A1 & B1 & C1 & D1).
  destruct (_ || _); [intros [= <-]; cbn; auto|].
  destruct (fread_chunk 8 _ s1) as [[n2 s2]|] eqn:E2; [|discriminate].
  apply fread_chunk_rest in E2. destruct E2 as (A2 & B2 & C2 & D2).
  rewrite A1 in A2; rewrite B1 in B2; rewrite C1 in C2; rewrite D1 in D2.
  destruct (_ || _); [intros [= <-]; cbn; auto|].
  destruct (fread_chunk OFF_format_chunk _ s2) as [[n3 s3]|] eqn:E3; [|discriminate].
  apply fread_chunk_rest in E3. destruct E3 as (A3 & B3 & C3 & D3).
  rewrite A2 in A3; rewrite B2 in B3; rewrite C2 in C3; rewrite D2 in D3.
  destruct (_ || _); [intros [= <-]; cbn; auto|].
  destruct (fread_chunk (OFF_format_chunk + 8) _ s3) as [[n4 s4]|] eqn:E4; [|discriminate].
  apply fread_chunk_rest in E4. destruct E4 as (A4 & B4 & C4 & D4).
  rewrite A3 in A4; rewrite B3 in B4; rewrite C3 in C4; rewrite D3 in D4.
  destruct (negb (n4 =? 1)); [intros [= <-]; cbn; auto|].
  destruct (negb _); [intros [= <-]; cbn; auto|].
  destruct (fread_chunk OFF_fact_chunk _ s4) as [[n5 s5]|] eqn:E5; [|discriminate].
  apply fread_chunk_rest in E5. destruct E5 as (A5 & B5 & C5 & D5).
  rewrite A4 in A5; rewrite B4 in B5; rewrite C4 in C5; rewrite D4 in D5.
  destruct (negb (n5 =? 1)); [intros [= <-]; cbn; auto|].
  destruct (fld fact_chunk_id s5 =? WAV_FACT_CHUNK_ID).
  - destruct (fread_chunk (OFF_fact_chunk + 8) _ s5) as [[n6 s6]|] eqn:E6; [|discriminate].
    apply fread_chunk_rest in E6. destruct E6 as (A6 & B6 & C6 & D6).
    rewrite A5 in A6; rewrite B5 in B6; rewrite C5 in C6; rewrite D5 in D6.
    destruct (negb (n6 =? 1)); [intros [= <-]; cbn; auto|].
    destruct (fread_chunk OFF_data_chunk _ s6) as [[n7 s7]|] eqn:E7; [|discriminate].
    apply fread_chunk_rest in E7. destruct E7 as (A7 & B7 & C7 & D7).
    rewrite A6 in A7; rewrite B6 in B7; rewrite C6 in C7; rewrite D6 in D7.
    destruct (negb (n7 =? 1)); intros [= <-]; cbn; auto.
  - destruct (fld fact_chunk_id s5 =? WAV_DATA_CHUNK_ID); intros [= <-]; cbn; auto.
Qed.

Lemma wav_finalize_writable (fs : gmap string (list Byte.byte)) (self : WavFile)
    (f : FILE) (m : string) :
  fp self = Some f -> mode self = Some m -> stream_writable f = true ->
  exists self' data',
    wav_finalize fs self = Some (self', <[f_name f := data']> fs) /\
    error_code self' = WAV_OK /\ chunk self' = chunk self /\
    (data' = f_data f \/
     data' = mem_write (write_start f) [Byte.x00]
               (f_data f ++ replicate (write_start f - length (f_data f)) Byte.x00)).
Proof.
  intros Hfp Hm Hw.
  unfold wav_finalize. cbn [fp with_filename mode]. rewrite Hfp, Hm.
  unfold wav_eof. cbn [fp with_filename]. rewrite Hfp.
  destruct (_ && _ && _).
  - rewrite (fwrite_writable [Byte.x00] 1 1 f Hw) by lia.
    cbn [negb Z.eqb Pos.eqb]. cbv iota. unfold fclose, fflush.
    change (stream_writable (mkFILE (f_name f) (f_mode f) ?d ?p ?e ?r))
      with (stream_writable f). rewrite Hw. cbn [f_name f_data].
    eexists. eexists. split; [reflexivity|]. split; [reflexivity|].
    split; [reflexivity|]. right. reflexivity.
  - cbn [negb Z.eqb Pos.eqb]. cbv iota. unfold fclose, fflush. rewrite Hw.
    eexists. eexists. split; [reflexivity|]. split; [reflexivity|].
    split; [reflexivity|]. left. reflexivity.
Qed.

Lemma prefix_kept_by_pad (img d : list Byte.byte) (p : nat) :
  img `prefix_of` d -> (length img <= p)%nat ->
  img `prefix_of` mem_write p [Byte.x00] (d ++ replicate (p - length d) Byte.x00).
Proof.
  intros [k Hk] Hp. subst d.
  exists (drop (length img)
            (mem_write p [Byte.x00]
               ((img ++ k) ++ replicate (p - length (img ++ k)) Byte.x00))).
  rewrite <- (take_drop (length img)
                (mem_write p [Byte.x00]
                   ((img ++ k) ++ replicate (p - length (img ++ k)) Byte.x00))) at 1.
  f_equal. apply list_eq; intros x.
  destruct (decide (x < length img)%nat) as [Hx|Hx].
  - rewrite lookup_take_lt by lia. rewrite lookup_write_at.
    destruct (decide _) as [Hin|_]; [cbn [length] in Hin; lia|].
    rewrite <- app_assoc. rewrite lookup_app_l by lia. reflexivity.
  - rewrite lookup_take_ge by lia. symmetry. apply lookup_ge_None. lia.
Qed.



(** ** Close, reopen and read *)

Lemma fread_chunk_outside (off : nat) (size : Z) (self : WavFile) (n : Z) (s' : WavFile) :
  wf self -> fread_chunk off size self = Some (n, s') ->
  wf s' /\
  forall x, (x < off \/ off + Z.to_nat size <= x)%nat -> chunk s' !! x = chunk self !! x.
Proof.
  intros Hwf. unfold fread_chunk.
  destruct (fp self) as [f|]; [|discriminate].
  unfold fread. destruct (negb (stream_readable f)).
  - destruct (decide _) as [Hfit|]; [|discriminate]. intros [= <- <-].
    unfold wf in *. cbn [chunk with_fp with_chunk length] in *.
    split; [rewrite length_mem_write; cbn [length]; lia|].
    intros x Hx. rewrite lookup_mem_write by (unfold sizeof_WavMasterChunk in *; lia).
    cbn [length]. destruct (decide _); [lia|reflexivity].
  - set (got := take _ _).
    assert (Hg : (length got <= Z.to_nat size)%nat).
    { subst got. rewrite length_take. rewrite Z.mul_1_r. lia. }
    destruct (decide _) as [Hfit|]; [|discriminate]. intros [= <- <-].
    unfold wf in *. cbn [chunk with_fp with_chunk] in *.
    split; [rewrite length_mem_write; lia|].
    intros x Hx. rewrite lookup_mem_write by (unfold sizeof_WavMasterChunk in *; lia).
    destruct (decide _); [lia|reflexivity].
Qed.

Lemma fld_agree (m : field) (a b : WavFile) :
  (forall x, (f_off m <= x < f_off m + f_width m)%nat -> chunk a !! x = chunk b !! x) ->
  fld m a = fld m b.
Proof.
  intros H. unfold fld. apply get_agree; [reflexivity|].
  intros i Hi. apply H. lia.
Qed.

Lemma set_fld_outside (f : field) (v : Z) (self : WavFile) :
  wf self -> field_in f (chunk self) ->
  wf (set_fld f v self) /\
  forall x, ~ (f_off f <= x < f_off f + f_width f)%nat ->
    chunk (set_fld f v self) !! x = chunk self !! x.
Proof.
  intros Hwf Hin. unfold wf, set_fld in *. cbn [chunk with_chunk].
  split; [rewrite length_set; assumption|].
  intros x Hx. apply lookup_set_other; assumption.
Qed.

Lemma wav_parse_header_untouched (self self' : WavFile) :
  wf self -> wav_parse_header self = Some self' -> error_code self' = WAV_OK ->
  wf self' /\
  forall x, (20 + Z.to_nat (fld format_chunk_size self') <= x < 60)%nat ->
    chunk self' !! x = chunk self !! x.
Proof.
  intros Hwf. unfold wav_parse_header.
  destruct (fread_chunk 0 _ self) as [[n1 s1]|] eqn:E1; [|discriminate].
  destruct (_ || _); [intros [= <-] He; discriminate He|].
  destruct (fread_chunk 8 _ s1) as [[n2 s2]|] eqn:E2; [|discriminate].
  destruct (_ || _); [intros [= <-] He; discriminate He|].
  destruct (fread_chunk OFF_format_chunk _ s2) as [[n3 s3]|] eqn:E3; [|discriminate].
  destruct (_ || _); [intros [= <-] He; discriminate He|].
  destruct (fread_chunk (OFF_format_chunk + 8) _ s3) as [[n4 s4]|] eqn:E4; [|discriminate].
  destruct (negb (n4 =? 1)); [intros [= <-] He; discriminate He|].
  destruct (negb _); [intros [= <-] He; discriminate He|].
  apply fread_chunk_outside in E1; [|assumption]. destruct E1 as (W1 & O1).
  apply fread_chunk_outside in E2; [|assumption]. destruct E2 as (W2 & O2).
  apply fread_chunk_outside in E3; [|assumption]. destruct E3 as (W3 & O3).
  apply fread_chunk_outside in E4; [|assumption]. destruct E4 as (W4 & O4).
  unfold OFF_format_chunk, WAV_RIFF_HEADER_SIZE in *.
  change (Z.to_nat 8) with 8%nat in *. change (Z.to_nat 4) with 4%nat in *.
  assert (F4 : fld format_chunk_size s4 = fld format_chunk_size s3).
  { apply fld_agree. cbn [format_chunk_size f_off f_width]. intros x Hx. apply O4. lia. }
  assert (K4 : forall x, (20 + Z.to_nat (fld format_chunk_size s4) <= x < 60)%nat ->
                 chunk s4 !! x = chunk self !! x).
  { intros x Hx. rewrite F4 in Hx.
    rewrite O4 by lia. rewrite O3 by lia. rewrite O2 by lia. apply O1. lia. }
  clear O1 O2 O3 O4 F4.
  destruct (fread_chunk OFF_fact_chunk _ s4) as [[n5 s5]|] eqn:E5; [|discriminate].
  apply fread_chunk_outside in E5; [|assumption]. destruct E5 as (W5 & O5).
  unfold OFF_fact_chunk, OFF_data_chunk in *. change (Z.to_nat 8) with 8%nat in *.
  assert (F5 : fld format_chunk_size s5 = fld format_chunk_size s4).
  { apply fld_agree. cbn [format_chunk_size f_off f_width]. intros x Hx. apply O5. lia. }
  destruct (negb (n5 =? 1)); [intros [= <-] He; discriminate He|].
  destruct (fld fact_chunk_id s5 =? WAV_FACT_CHUNK_ID).
  - destruct (fread_chunk (60 + 8) _ s5) as [[n6 s6]|] eqn:E6; [|discriminate].
    apply fread_chunk_outside in E6; [|assumption]. destruct E6 as (W6 & O6).
    destruct (negb (n6 =? 1)); [intros [= <-] He; discriminate He|].
    destruct (fread_chunk 72 _ s6) as [[n7 s7]|] eqn:E7; [|discriminate].
    apply fread_chunk_outside in E7; [|assumption]. destruct E7 as (W7 & O7).
    destruct (negb (n7 =? 1)); intros [= <-] He; [discriminate He|].
    split; [exact W7|].
    assert (F7 : fld format_chunk_size (with_error_code WAV_OK s7) = fld format_chunk_size s4).
    { rewrite <- F5. apply fld_agree. cbn [format_chunk_size f_off f_width].
      intros x Hx. cbn [chunk with_error_code]. rewrite O7 by lia. apply O6. lia. }
    intros x Hx. rewrite F7 in Hx. cbn [chunk with_error_code].
    rewrite O7 by lia. rewrite O6 by lia. rewrite O5 by lia. apply K4. exact Hx.
  - assert (Ht : forall v1 v2 v3,
              wf (set_fld fact_chunk_size v3
                    (set_fld data_chunk_size v2 (set_fld data_chunk_id v1 s5))) /\
              forall x, (x < 60)%nat ->
                chunk (set_fld fact_chunk_size v3
                         (set_fld data_chunk_size v2 (set_fld data_chunk_id v1 s5))) !! x
                = chunk s5 !! x).
    { intros v1 v2 v3.
      destruct (set_fld_outside data_chunk_id v1 s5 W5)
        as (Wa & Oa); [unfold field_in; rewrite W5; vm_compute; lia|].
      destruct (set_fld_outside data_chunk_size v2 _ Wa)
        as (Wb & Ob); [unfold field_in; rewrite Wa; vm_compute; lia|].
      destruct (set_fld_outside fact_chunk_size v3 _ Wb)
        as (Wc & Oc); [unfold field_in; rewrite Wb; vm_compute; lia|].
      split; [exact Wc|]. intros x Hx.
      rewrite Oc by (cbn; lia). rewrite Ob by (cbn; lia). apply Oa. cbn. lia. }
    destruct (fld fact_chunk_id s5 =? WAV_DATA_CHUNK_ID); intros [= <-] He.
    + match goal with
      | |- wf (with_error_code _ (set_fld _ ?v3 (set_fld _ ?v2 (set_fld _ ?v1 _)))) /\ _ =>
          destruct (Ht v1 v2 v3) as (Wt & Ot)
      end.
      split; [exact Wt|].
      match goal with
      | |- forall x, (20 + Z.to_nat (fld format_chunk_size (with_error_code _ ?t)) <= x < 60)%nat -> _ =>
          assert (F : fld format_chunk_size (with_error_code WAV_OK t)
                      = fld format_chunk_size s4)
      end.
      { rewrite <- F5. apply fld_agree. cbn [format_chunk_size f_off f_width].
        intros x Hx. cbn [chunk with_error_code]. apply Ot. lia. }
      intros x Hx. rewrite F in Hx. cbn [chunk with_error_code].
      rewrite Ot by lia. rewrite O5 by lia. apply K4. exact Hx.
    + split; [exact W5|].
      change (fld format_chunk_size (with_error_code WAV_OK s5))
        with (fld format_chunk_size s5). rewrite F5.
      intros x Hx. cbn [chunk with_error_code]. rewrite O5 by lia. apply K4. exact Hx.
Qed.

Lemma wav_init_reader (alloc_ok : Z -> bool) (fs : gmap string (list Byte.byte))
    (name mo : string) (data c : list Byte.byte) :
  fs !! name = Some data ->
  header_image c `prefix_of` data -> length c = 80%nat ->
  get chunk_id c = WAV_RIFF_CHUNK_ID -> get chunk_wave_id c = WAV_WAVE_ID ->
  get format_chunk_id c = WAV_FORMAT_CHUNK_ID ->
  2 <= get format_chunk_size c <= 40 ->
  accepted_tag (get format_tag c) ->
  (if get fact_chunk_id c =? WAV_FACT_CHUNK_ID
   then 1 <= get fact_chunk_size c <= 12
   else get data_chunk_id c = WAV_DATA_CHUNK_ID) ->
  Ascii.eqb (str_head mo) "r" = true ->
  exists r,
    wav_init alloc_ok fs name mo = Some (r, fs) /\
    error_code r = WAV_OK /\ wf r /\ mode r = Some "rb"%string /\
    tmp r = None /\ tmp_size r = 0 /\
    fp r = Some (mkFILE name "rb" data (length (header_image c)) false false) /\
    (forall x, (x < 20 + Z.to_nat (get format_chunk_size c))%nat -> chunk r !! x = c !! x) /\
    (forall x, (20 + Z.to_nat (get format_chunk_size c) <= x < 60)%nat ->
       chunk r !! x = Some Byte.x00) /\
    fld data_chunk_size r = get data_chunk_size c /\
    wav_get_header_size r = Z.of_nat (length (header_image c)).
Proof.
  intros Hfs Hpre Hl Hriff Hwave Hfmt Hsz Htag Hfact Hmo.
  set (g0 := mkFILE name "rb" data 0 false false).
  set (r0 := with_fp (Some g0)
               (with_filename (wav_strdup alloc_ok name)
                  (with_mode (Some "rb"%string) wav_zero))).
  assert (Hz12 : get fact_chunk_id c = WAV_FACT_CHUNK_ID -> get fact_chunk_size c <= 12).
  { intros E. rewrite E, Z.eqb_refl in Hfact. lia. }
  pose proof (length_header_image c Hl ltac:(lia) Hz12) as HL.
  destruct (parse_header_image r0 g0 c) as (r & Er & Her & Wr & Hg & Hlow & Hrest);
    try assumption; try reflexivity.
  { destruct (get fact_chunk_id c =? WAV_FACT_CHUNK_ID); [exact Hfact|].
    rewrite Hfact. discriminate. }
  destruct (wav_parse_header_rest r0 r Er) as (Hmr & _ & Htr & Hts).
  destruct (wav_parse_header_untouched r0 r ltac:(reflexivity) Er Her) as (_ & Hun).
  assert (Hfs' : fld format_chunk_size r = get format_chunk_size c).
  { unfold fld. apply get_agree; [reflexivity|].
    cbn [format_chunk_size f_off f_width]. intros i Hi. apply Hlow. lia. }
  exists r.
  split.
  { unfold wav_init. rewrite wav_init_mode_some, Hmo.
    unfold fopen. cbn [str_head Ascii.eqb Bool.eqb]. rewrite Hfs.
    fold g0. cbv iota. fold r0. rewrite Er. reflexivity. }
  split; [exact Her|]. split; [exact Wr|]. split; [rewrite Hmr; reflexivity|].
  split; [rewrite Htr; reflexivity|]. split; [rewrite Hts; reflexivity|].
  split; [rewrite Hg; reflexivity|]. split; [exact Hlow|].
  split.
  { intros x Hx. rewrite Hun by (rewrite Hfs'; exact Hx).
    apply lookup_replicate_2. unfold sizeof_WavMasterChunk. lia. }
  assert (Hd : fld data_chunk_size r = get data_chunk_size c /\
               (fld fact_chunk_id r =? WAV_FACT_CHUNK_ID)
                 = (get fact_chunk_id c =? WAV_FACT_CHUNK_ID) /\
               (get fact_chunk_id c = WAV_FACT_CHUNK_ID ->
                fld fact_chunk_size r = get fact_chunk_size c)).
  { destruct (get fact_chunk_id c =? WAV_FACT_CHUNK_ID) eqn:Ef.
    - destruct Hrest as (_ & Hds & Hfi & Hfz & _).
      split; [exact Hds|]. split; [rewrite Hfi; reflexivity|]. intros _. exact Hfz.
    - rewrite Hfact in Hrest. change (WAV_DATA_CHUNK_ID =? WAV_DATA_CHUNK_ID) with true in Hrest.
      destruct Hrest as (_ & Hds & Hfi & _).
      split; [exact Hds|]. split; [rewrite Hfi; reflexivity|].
      intros E. rewrite E, Z.eqb_refl in Ef. discriminate. }
  destruct Hd as (Hds & Hfb & Hfz).
  split; [exact Hds|].
  rewrite wav_get_header_size_small.
  - rewrite HL, Hfs', Hfb.
    destruct (get fact_chunk_id c =? WAV_FACT_CHUNK_ID) eqn:Ef; [|reflexivity].
    rewrite Hfz; [reflexivity|]. apply Z.eqb_eq. exact Ef.
  - rewrite Hfs'. lia.
  - intros E. apply Z.eqb_eq in E. rewrite Hfb in E. apply Z.eqb_eq in E.
    rewrite Hfz by exact E. apply Hz12. exact E.
Qed.

Lemma get_zero (m : field) (c : list Byte.byte) :
  (f_width m <= 8)%nat ->
  (forall x, (f_off m <= x < f_off m + f_width m)%nat -> c !! x = Some Byte.x00) ->
  get m c = 0.
Proof.
  intros Hw H.
  rewrite (get_agree m (Field 0 (f_width m)) c (replicate 8 Byte.x00)).
  - destruct (f_width m) as [|[|[|[|[|[|[|[|[|w]]]]]]]]]; reflexivity.
  - reflexivity.
  - intros i Hi. cbn [f_off]. rewrite H by lia. symmetry.
    apply lookup_replicate_2. lia.
Qed.

Lemma wav_read_no_block_align (alloc_ok : Z -> bool) (r : WavFile)
    (buffers : list (list Byte.byte)) (count : Z) :
  mode r = Some "rb"%string -> accepted_tag (fld format_tag r) ->
  fld block_align r = 0 ->
  wav_read alloc_ok r buffers count = None.
Proof.
  intros Hm Htag Hba. unfold wav_read, wav_get_sample_size, wav_get_num_channels.
  destruct (fld n_channels r =? 0); [reflexivity|].
  rewrite Hba, Zdiv_0_l. cbv beta iota.
  change (wav_calc_container_size 0) with (Some 0). cbv beta iota.
  rewrite Hm. cbv beta iota.
  change ((strncmp "rb" "wb" 2 =? 0) || (strncmp "rb" "wbx" 3 =? 0)
          || (strncmp "rb" "ab" 2 =? 0)) with false. cbv iota.
  destruct (fld format_tag r =? WAV_FORMAT_EXTENSIBLE) eqn:Et.
  { apply Z.eqb_eq in Et. unfold accepted_tag in Htag. rewrite Et in Htag.
    destruct Htag as [H|[H|[H|H]]]; discriminate H. }
  unfold wav_get_length. rewrite Hba. reflexivity.
Qed.

Lemma mode_gate (alloc_ok : Z -> bool) (mo m : string) (self : WavFile)
    (buffers : list (list Byte.byte)) (count : Z) :
  wav_init_mode mo = Some m -> mode self = Some m ->
  (forall x, wav_read alloc_ok self buffers count = Some x ->
     fst (fst x) = 0 /\ error_code (snd (fst x)) = WAV_ERR_MODE) \/
  (forall x, wav_write alloc_ok self buffers count = Some x ->
     fst x = 0 /\ error_code (snd x) = WAV_ERR_MODE).
Proof.
  rewrite wav_init_mode_some. intros Hmo Hm.
  destruct (Ascii.eqb (str_head mo) "r").
  { injection Hmo as <-. right. intros x. unfold wav_write.
    destruct (wav_get_sample_size self); [|discriminate].
    destruct (wav_calc_container_size _); [|discriminate].
    rewrite Hm. cbn. intros [= <-]. split; reflexivity. }
  assert (Hw : m = "wb"%string \/ m = "ab"%string).
  { destruct (Ascii.eqb (str_head mo) "w"); [injection Hmo as <-; left; reflexivity|].
    destruct (Ascii.eqb (str_head mo) "a"); [injection Hmo as <-; right; reflexivity|].
    discriminate. }
  left. intros x. unfold wav_read.
  destruct (wav_get_sample_size self); [|discriminate].
  destruct (wav_calc_container_size _); [|discriminate].
  rewrite Hm. destruct Hw as [-> | ->]; cbn; intros [= <-]; split; reflexivity.
Qed.

(** C1 (evaluation): the frames written cannot be read back. No mode that
    [wav_init] sets passes both the mode test of [wav_write] and that of
    [wav_read], so reading goes through closing and opening again. Whenever
    the fmt chunk of the writer declares at most 12 bytes, as the 8 that
    [wav_init] sets, the header on the file does not hold the block
    alignment: after [wav_close] and [wav_init] for reading the handle is OK
    and has the writer's data size, but its block alignment is 0 and
    [wav_read] is undefined (a division by zero) for every buffer and count.
    The plain session (open for writing, set channels and sample size,
    write, close, open for reading, read) runs into this with 1-, 2-, 3- and
    4-byte samples. *)
Theorem round_trip_reopen_undefined (alloc_ok : Z -> bool) :
  (forall mo m self buffers count,
     wav_init_mode mo = Some m -> mode self = Some m ->
     (forall x, wav_read alloc_ok self buffers count = Some x ->
        fst (fst x) = 0 /\ error_code (snd (fst x)) = WAV_ERR_MODE) \/
     (forall x, wav_write alloc_ok self buffers count = Some x ->
        fst x = 0 /\ error_code (snd x) = WAV_ERR_MODE)) /\
  (forall fs w f m mo buffers count,
     wf w -> fp w = Some f -> mode w = Some m -> stream_writable f = true ->
     wav_get_header_size w <= Z.of_nat (f_pos f) ->
     header_image (chunk w) `prefix_of` f_data f ->
     fld chunk_id w = WAV_RIFF_CHUNK_ID -> fld chunk_wave_id w = WAV_WAVE_ID ->
     fld format_chunk_id w = WAV_FORMAT_CHUNK_ID ->
     2 <= fld format_chunk_size w <= 12 ->
     accepted_tag (fld format_tag w) ->
     (if fld fact_chunk_id w =? WAV_FACT_CHUNK_ID
      then 1 <= fld fact_chunk_size w <= 12
      else fld data_chunk_id w = WAV_DATA_CHUNK_ID) ->
     Ascii.eqb (str_head mo) "r" = true ->
     exists w' fs' r,
       wav_close fs w = Some (0, None, fs') /\
       wav_finalize fs w = Some (w', fs') /\
       wav_init alloc_ok fs' (f_name f) mo = Some (r, fs') /\
       error_code r = WAV_OK /\
       fld data_chunk_size r = fld data_chunk_size w /\
       fld block_align r = 0 /\
       wav_read alloc_ok r buffers count = None) /\
  session_plain 1 1 [[Byte.x80; Byte.x7f]] 2 = Some (2, 0, WAV_OK, 8, 0, None) /\
  session_plain 2 2 [[Byte.x01; Byte.x80]; [Byte.xff; Byte.x7f]] 1
    = Some (1, 0, WAV_OK, 8, 0, None) /\
  session_plain 2 3 pcm24_frames 2 = Some (2, 0, WAV_OK, 8, 0, None) /\
  session_plain 1 4 [[Byte.x01; Byte.x02; Byte.x03; Byte.x84]] 1
    = Some (1, 0, WAV_OK, 8, 0, None).
Proof.
  split; [intros mo m self buffers count; apply mode_gate|].
  split.
  2:{ repeat split; vm_compute; reflexivity. }
  intros fs w f m mo buffers count
    Hwf Hfp Hm Hw Hpos Hpre Hriff Hwave Hfmt Hfs Htag Hfact Hmo.
  assert (Hz12 : fld fact_chunk_id w = WAV_FACT_CHUNK_ID -> fld fact_chunk_size w <= 12).
  { intros Ef. rewrite Ef, Z.eqb_refl in Hfact. lia. }
  pose proof (length_header_image (chunk w) Hwf ltac:(unfold fld in Hfs; lia) Hz12) as HL.
  pose proof (wav_get_header_size_small w ltac:(lia) Hz12) as Hhs.
  unfold fld in Hhs. rewrite <- HL in Hhs.
  destruct (wav_finalize_writable fs w f m Hfp Hm Hw)
    as (w' & data' & Efin & Hok & _ & Hdata).
  assert (Hpre' : header_image (chunk w) `prefix_of` data').
  { destruct Hdata as [-> | ->]; [exact Hpre|].
    apply prefix_kept_by_pad; [exact Hpre|].
    unfold write_start. destruct (stream_append f).
    - destruct Hpre as [k ->]. rewrite length_app. lia.
    - lia. }
  destruct (wav_init_reader alloc_ok (<[f_name f := data']> fs) (f_name f) mo
              data' (chunk w))
    as (r & Ei & Her & Wr & Hmr & _ & _ & _ & Hlow & Hzero & Hds & _);
    try assumption; [apply lookup_insert_eq|unfold fld in Hfs; lia|].
  assert (Hba : fld block_align r = 0).
  { unfold fld. apply get_zero; [cbn; lia|].
    cbn [block_align f_off f_width]. intros x Hx. apply Hzero.
    unfold fld in Hfs. lia. }
  assert (Ht : fld format_tag r = fld format_tag w).
  { unfold fld. apply get_agree; [reflexivity|].
    cbn [format_tag f_off f_width]. intros i Hi. apply Hlow.
    unfold fld in Hfs. lia. }
  exists w', (<[f_name f := data']> fs), r.
  split; [unfold wav_close; rewrite Efin; cbv beta iota; rewrite Hok; reflexivity|].
  split; [exact Efin|]. split; [exact Ei|]. split; [exact Her|].
  split; [exact Hds|]. split; [exact Hba|].
  apply wav_read_no_block_align; [exact Hmr|rewrite Ht; exact Htag|exact Hba].
Qed.

Lemma round_trip_reopen_undefined_witness :
  exists fs' r,
    wav_close ∅ pcm24_written = Some (0, None, fs') /\
    wav_init alloc_always fs' "t.wav" "r" = Some (r, fs') /\
    error_code r = WAV_OK /\ fld data_chunk_size r = 12 /\
    fld block_align r = 0 /\
    wav_read alloc_always r [replicate 8 Byte.x00; replicate 8 Byte.x00] 2 = None.
Proof.
  destruct (round_trip_reopen_undefined alloc_always) as (_ & H & _).
  destruct (H ∅ pcm24_written
              (match fp pcm24_written with
               | Some f => f
               | None => mkFILE "t.wav" "wb" [] 0 false false
               end)
              "wb"%string "r"%string [replicate 8 Byte.x00; replicate 8 Byte.x00] 2)
    as (w' & fs' & r & Ec & _ & Ei & He & Hd & Hb & Hr).
  - reflexivity.
  - reflexivity.
  - reflexivity.
  - reflexivity.
  - vm_compute. discriminate.
  - exists (concat (map (take 3) [[Byte.x01; Byte.x02; Byte.x03]; [Byte.x00; Byte.x00; Byte.x80];
                                   [Byte.xff; Byte.xff; Byte.xff]; [Byte.x10; Byte.x20; Byte.x30]])).
    vm_compute. reflexivity.
  - reflexivity.
  - reflexivity.
  - reflexivity.
  - vm_compute. split; discriminate.
  - left. reflexivity.
  - vm_compute. reflexivity.
  - reflexivity.
  - exists fs', r. split; [exact Ec|]. split; [exact Ei|]. split; [exact He|].
    split; [rewrite Hd; reflexivity|]. split; [exact Hb|exact Hr].
Defined.



Lemma chunk_after_write_other (c : list Byte.byte) (bytes frames : Z) (g : field) :
  length c = 80%nat ->
  disjoint g data_chunk_size -> disjoint g fact_sample_length -> disjoint g chunk_size ->
  get g (chunk_after_write c bytes frames) = get g c.
Proof.
  intros H D1 D2 D3. unfold chunk_after_write. cbv zeta.
  set (c1 := set data_chunk_size _ c).
  assert (L1 : length c1 = 80%nat)
    by (subst c1; rewrite length_set; [exact H|unfold field_in; rewrite H; vm_compute; lia]).
  assert (G1 : get g c1 = get g c)
    by (subst c1; apply get_set_other;
        [unfold field_in; rewrite H; vm_compute; lia|exact D1]).
  clearbody c1.
  set (c2 := if get fact_chunk_id c1 =? WAV_FACT_CHUNK_ID then _ else c1).
  assert (L2 : length c2 = 80%nat /\ get g c2 = get g c).
  { subst c2. destruct (get fact_chunk_id c1 =? WAV_FACT_CHUNK_ID).
    - split.
      + rewrite length_set; [exact L1|unfold field_in; rewrite L1; vm_compute; lia].
      + rewrite get_set_other; [exact G1|unfold field_in; rewrite L1; vm_compute; lia|exact D2].
    - split; assumption. }
  destruct L2 as (L2 & G2). clearbody c2.
  rewrite get_set_other; [exact G2|unfold field_in; rewrite L2; vm_compute; lia|exact D3].
Qed.

(** X22: when the fmt chunk of the writer declares 16 to 40 bytes, the
    frames come back through the files: [wav_write] of [N] frames at the
    first sample position, [wav_close], [wav_init] for reading and
    [wav_read] of [N] frames return the buffers that were written, for
    sample sizes of 1 to 4 bytes and any number of channels; 3-byte samples
    come back in their 4-byte containers, the fourth byte set from the
    sign. The pad byte that closing may add does not disturb the frames. *)
Theorem round_trip_through_files (alloc_ok : Z -> bool)
    (fs : gmap string (list Byte.byte)) (w : WavFile)
    (src dst : list (list Byte.byte)) (N : Z) (f : FILE) (m mo : string) (ss cs : Z) :
  wf w -> fp w = Some f -> mode w = Some m -> write_mode m = true ->
  stream_writable f = true -> stream_append f = false -> f_error f = false ->
  Z.of_nat (f_pos f) = wav_get_header_size w ->
  Z.of_nat (length (f_data f)) < 2 ^ 62 ->
  fld chunk_id w = WAV_RIFF_CHUNK_ID -> fld chunk_wave_id w = WAV_WAVE_ID ->
  fld format_chunk_id w = WAV_FORMAT_CHUNK_ID ->
  16 <= fld format_chunk_size w <= 40 ->
  accepted_tag (fld format_tag w) ->
  (if fld fact_chunk_id w =? WAV_FACT_CHUNK_ID
   then 1 <= fld fact_chunk_size w <= 12
   else fld data_chunk_id w = WAV_DATA_CHUNK_ID) ->
  1 <= fld n_channels w ->
  1 <= ss <= 4 -> fld block_align w = fld n_channels w * ss ->
  wav_container_sizes !! Z.to_nat ss = Some cs ->
  0 < N ->
  fld data_chunk_size w + fld n_channels w * N * ss < 2 ^ 32 ->
  tmp_wf w ->
  alloc_ok (fld n_channels w * N * ss) = true ->
  sample_buffers (Z.to_nat (fld n_channels w)) (Z.to_nat N) (Z.to_nat ss) (Z.to_nat cs) src ->
  room_for (Z.to_nat (fld n_channels w)) (Z.to_nat N) (Z.to_nat cs) dst ->
  Ascii.eqb (str_head mo) "r" = true ->
  exists w1 fs' r r',
    wav_write alloc_ok w src N = Some (N, w1) /\
    wav_close fs w1 = Some (0, None, fs') /\
    wav_init alloc_ok fs' (f_name f) mo = Some (r, fs') /\ error_code r = WAV_OK /\
    wav_read alloc_ok r dst N = Some (N, r', src) /\ error_code r' = WAV_OK.
Proof.
  intros Hwf Hfp Hmode Hwm Hw Happ Herr Hpos Hlen Hriff Hwave Hfmt Hfs Htag Hfact Hnch
         Hssr Hba Hcs HN Hsz Htmp Halloc (Lsrc & Hsrc) (Ldst & Hdst) Hmo.
  pose proof (get_range n_channels (chunk w)) as Rn. fold (fld n_channels w) in Rn.
  pose proof (get_range data_chunk_size (chunk w)) as Rd. fold (fld data_chunk_size w) in Rd.
  change (2 ^ (8 * Z.of_nat (f_width n_channels))) with (2 ^ 16) in Rn.
  change (2 ^ (8 * Z.of_nat (f_width data_chunk_size))) with (2 ^ 32) in Rd.
  pose proof (wav_get_header_size_range w) as Rh.
  set (nch := fld n_channels w) in *.
  assert (Hdiv : fld block_align w / nch = ss).
  { rewrite Hba, Z.mul_comm. apply Z.div_mul. lia. }
  assert (Hcsc := container_size_cases ss cs Hssr Hcs).
  assert (Hte : fld format_tag w <> WAV_FORMAT_EXTENSIBLE).
  { intros E. unfold accepted_tag in Htag. rewrite E in Htag.
    destruct Htag as [H|[H|[H|H]]]; discriminate H. }
  assert (Hz12 : fld fact_chunk_id w = WAV_FACT_CHUNK_ID -> fld fact_chunk_size w <= 12).
  { intros Ef. rewrite Ef, Z.eqb_refl in Hfact. lia. }
  assert (Hsrcbuf : forall i, (i < Z.to_nat nch)%nat ->
            exists ch, src !! i = Some ch /\ (Z.to_nat N * Z.to_nat cs <= length ch)%nat).
  { intros i Hi. destruct (lookup_lt_is_Some_2 src i) as [ch Hch]; [lia|].
    exists ch. split; [exact Hch|]. destruct (Hsrc i ch Hch) as [-> _]. lia. }
  assert (Hbytes : 0 < nch * N * ss < 2 ^ 32) by nia.
  (* the write *)
  destruct (wav_write_spec alloc_ok w src N f m ss cs Hwf Hfp Hmode Hwm Hte)
    as (w1 & f1 & Ew & Eok & Hm1 & Hch1 & Hfp1 & Hfm1 & Hfe1 & Hlen1 & Hdata);
    try assumption; [fold nch; lia|intros Ha; rewrite Happ in Ha; discriminate Ha
                     |lia|lia|fold nch; lia|].
  destruct (wav_write_stream alloc_ok w src N f m ss cs Hwf Hfp Hmode Hwm Hte)
    as (w2 & f2 & Ew2 & Hfp2 & Hn1 & Hp1 & Hpre1 & Hl1);
    try assumption; [fold nch; lia|intros Ha; rewrite Happ in Ha; discriminate Ha
                     |lia|lia|fold nch; lia|].
  rewrite Ew in Ew2. injection Ew2 as <-. rewrite Hfp1 in Hfp2. injection Hfp2 as <-.
  specialize (Hpre1 Happ). specialize (Hl1 Happ). fold nch in Hlen1, Hdata, Hp1, Hl1, Hch1.
  destruct (chunk_after_write_fields (chunk w) (nch * N * ss) N Hwf)
    as (Wl & Ft & Fn & Fb & Ff & Fi & Fz & Fd).
  pose proof (fun g => chunk_after_write_other (chunk w) (nch * N * ss) N g Hwf) as Fo.
  rewrite <- Hch1 in Wl, Ft, Fn, Fb, Ff, Fi, Fz, Fd, Fo.
  assert (Hh1 : wav_get_header_size w1 = wav_get_header_size w)
    by (apply wav_get_header_size_ext; assumption).
  assert (Hd1 : fld data_chunk_size w1 = fld data_chunk_size w + nch * N * ss).
  { unfold fld at 1. rewrite Fd. unfold u32. apply Z.mod_small.
    fold (fld data_chunk_size w). lia. }
  assert (Hw1 : stream_writable f1 = true)
    by (unfold stream_writable in *; rewrite Hfm1; exact Hw).
  assert (Ha1 : stream_append f1 = false)
    by (unfold stream_append in *; rewrite Hfm1; exact Happ).
  assert (HL1 : Z.of_nat (length (header_image (chunk w1))) = wav_get_header_size w).
  { rewrite (length_header_image (chunk w1) Wl).
    - rewrite Ff, Fi, Fz. symmetry. apply wav_get_header_size_small; [lia|exact Hz12].
    - rewrite Ff. unfold fld in Hfs. lia.
    - rewrite Fi, Fz. exact Hz12. }
  (* closing *)
  destruct (wav_finalize_writable fs w1 f1 m Hfp1 ltac:(rewrite Hm1; exact Hmode) Hw1)
    as (w' & data' & Efin & Hok & _ & Hdata').
  assert (Hpre' : header_image (chunk w1) `prefix_of` data').
  { destruct Hdata' as [-> | ->]; [exact Hpre1|].
    apply prefix_kept_by_pad; [exact Hpre1|].
    unfold write_start. rewrite Ha1. lia. }
  assert (Hagree : forall x, (x < f_pos f1)%nat -> data' !! x = f_data f1 !! x).
  { intros x Hx. destruct Hdata' as [-> | ->]; [reflexivity|].
    rewrite lookup_write_at. unfold write_start. rewrite Ha1. cbn [length].
    destruct (decide _) as [Hin|_]; [lia|]. apply lookup_app_l. lia. }
  assert (Hlen' : Z.of_nat (length data') < 2 ^ 63).
  { destruct Hdata' as [-> | ->]; [lia|].
    rewrite length_write_at. unfold write_start. rewrite Ha1. cbn [length]. lia. }
  (* opening for reading *)
  destruct (wav_init_reader alloc_ok (<[f_name f1 := data']> fs) (f_name f1) mo
              data' (chunk w1))
    as (r & Ei & Her & Wr & Hmr & Htr & _ & Hg & Hlow & _ & Hdr & Hhr);
    try assumption.
  { apply lookup_insert_eq. }
  { unfold fld in Hriff. rewrite (Fo chunk_id); [exact Hriff|unfold disjoint; cbn; lia..]. }
  { unfold fld in Hwave.
    rewrite (Fo chunk_wave_id); [exact Hwave|unfold disjoint; cbn; lia..]. }
  { unfold fld in Hfmt.
    rewrite (Fo format_chunk_id); [exact Hfmt|unfold disjoint; cbn; lia..]. }
  { rewrite Ff. unfold fld in Hfs. lia. }
  { rewrite Ft. exact Htag. }
  { rewrite Fi, Fz. unfold fld in Hfact.
    destruct (get fact_chunk_id (chunk w) =? WAV_FACT_CHUNK_ID); [exact Hfact|].
    rewrite (Fo data_chunk_id); [exact Hfact|unfold disjoint; cbn; lia..]. }
  set (g := mkFILE (f_name f1) "rb" data' (length (header_image (chunk w1))) false false)
    in *.
  assert (Hfs1 : 16 <= get format_chunk_size (chunk w1))
    by (rewrite Ff; unfold fld in Hfs; lia).
  assert (Hnr : fld n_channels r = nch).
  { transitivity (get n_channels (chunk w1)); [|exact Fn].
    apply get_agree; [reflexivity|].
    cbn [n_channels f_off f_width]. intros i Hi. apply Hlow. lia. }
  assert (Hbr : fld block_align r = nch * ss).
  { rewrite <- Hba. transitivity (get block_align (chunk w1)); [|exact Fb].
    apply get_agree; [reflexivity|].
    cbn [block_align f_off f_width]. intros i Hi. apply Hlow. lia. }
  assert (Htagr : fld format_tag r <> WAV_FORMAT_EXTENSIBLE).
  { replace (fld format_tag r) with (fld format_tag w); [exact Hte|].
    symmetry. transitivity (get format_tag (chunk w1)); [|exact Ft].
    apply get_agree; [reflexivity|].
    cbn [format_tag f_off f_width]. intros i Hi. apply Hlow. lia. }
  assert (Hdr' : fld data_chunk_size r = fld data_chunk_size w + nch * N * ss)
    by (rewrite <- Hd1; exact Hdr).
  assert (Hhr' : wav_get_header_size r = wav_get_header_size w)
    by (rewrite Hhr; exact HL1).
  assert (Hgp : f_pos g = f_pos f) by (subst g; cbn [f_pos]; lia).
  assert (Hbapos : 0 < nch * ss) by nia.
  assert (Hremain :
    fld data_chunk_size r / fld block_align r
    - (Z.of_nat (f_pos g) - wav_get_header_size r) / fld block_align r
    = fld data_chunk_size w / (nch * ss) + N).
  { rewrite Hdr', Hbr, Hhr', Hgp, Hpos, Z.sub_diag, Z.div_0_l by lia.
    replace (fld data_chunk_size w + nch * N * ss)
      with (fld data_chunk_size w + N * (nch * ss)) by lia.
    rewrite Z.div_add by lia. lia. }
  assert (Hq : 0 <= fld data_chunk_size w / (nch * ss)) by (apply Z.div_pos; lia).
  destruct (wav_read_spec alloc_ok r dst N g "rb" ss cs Hg Hmr eq_refl Htagr)
    with (remain := fld data_chunk_size r / fld block_align r
                    - (Z.of_nat (f_pos g) - wav_get_header_size r) / fld block_align r)
         (c := N)
    as (r' & dst' & Er & Erok & _ & Ldst' & Hdone & Hrest);
    try assumption; try reflexivity.
  - rewrite Hnr. lia.
  - rewrite Hbr, Hnr, Z.mul_comm. apply Z.div_mul. lia.
  - rewrite Hhr', Hgp. lia.
  - rewrite Hremain. lia.
  - lia.
  - rewrite Hremain. lia.
  - unfold tmp_wf. rewrite Htr. exact I.
  - rewrite Hnr. intros _. exact Halloc.
  - intros _. rewrite Hgp, Hnr.
    assert (Hlast : is_Some (data' !! (f_pos f1 - 1)%nat)).
    { rewrite Hagree by lia. apply lookup_lt_is_Some_2. lia. }
    apply lookup_lt_is_Some_1 in Hlast. subst g. cbn [f_data]. lia.
  - rewrite Hnr. intros i Hi.
    destruct (lookup_lt_is_Some_2 dst i) as [ch Hch]; [lia|].
    exists ch. split; [exact Hch|]. rewrite (Hdst i ch Hch). lia.
  - exists w1, (<[f_name f1 := data']> fs), r, r'.
    split; [exact Ew|].
    split; [unfold wav_close; rewrite Efin; cbv beta iota; rewrite Hok; reflexivity|].
    split; [rewrite <- Hn1; exact Ei|]. split; [exact Her|]. split; [|exact Erok].
    rewrite Er. f_equal. f_equal.
    rewrite Hnr in Hdone, Hrest.
    apply list_eq. intros i.
    destruct (decide (i < Z.to_nat nch)%nat) as [Hi|Hi].
    + destruct (lookup_lt_is_Some_2 dst i) as [dch Hdch]; [lia|].
      destruct (lookup_lt_is_Some_2 src i) as [sch Hsch]; [lia|].
      destruct (Hdone i dch Hi Hdch) as (c' & Hc' & Hcd).
      rewrite Hc', Hsch. f_equal.
      destruct (Hsrc i sch Hsch) as [Lsch Hsign].
      eapply (chan_done_round_trip (Z.to_nat nch) (Z.to_nat ss) (Z.to_nat cs) (Z.to_nat N));
        [| |exact Lsch|exact (Hdst i dch Hdch)|exact Hsign| |exact Hcd].
      * lia.
      * destruct Hcsc as [[-> ->] | [[-> ->] | [[-> ->] | [-> ->]]]]; lia.
      * intros j k Hj Hk. rewrite lookup_drop, Hgp. subst g. cbn [f_data].
        pose proof (interleave_index_bound (Z.to_nat nch) (Z.to_nat ss) (Z.to_nat N) i j k
                      Hi Hj Hk) as Hidx.
        rewrite Hagree.
        { apply Hdata; assumption. }
        rewrite <- !Z2Nat.inj_mul in Hidx by lia. lia.
    + rewrite Hrest by lia.
      rewrite (lookup_ge_None_2 dst) by lia. symmetry. apply lookup_ge_None_2. lia.
Qed.

Lemma round_trip_through_files_witness :
  exists w1 fs' r r',
    wav_write alloc_always pcm24_full_writer pcm24_frames 2 = Some (2, w1) /\
    wav_close ∅ w1 = Some (0, None, fs') /\
    wav_init alloc_always fs' "t.wav" "r" = Some (r, fs') /\
    wav_read alloc_always r [replicate 8 Byte.x00; replicate 8 Byte.x00] 2
      = Some (2, r', pcm24_frames).
Proof.
  destruct (round_trip_through_files alloc_always ∅ pcm24_full_writer pcm24_frames
              [replicate 8 Byte.x00; replicate 8 Byte.x00] 2
              (mkFILE "t.wav" "wb"
                 (match fp pcm24_full_writer with Some f => f_data f | None => [] end)
                 68 false false) "wb" "r" 3 4)
    as (w1 & fs' & r & r' & Ew & Ec & Ei & _ & Er & _).
  - reflexivity.
  - reflexivity.
  - reflexivity.
  - reflexivity.
  - reflexivity.
  - reflexivity.
  - reflexivity.
  - reflexivity.
  - vm_compute. reflexivity.
  - reflexivity.
  - reflexivity.
  - reflexivity.
  - vm_compute. split; discriminate.
  - left. reflexivity.
  - vm_compute. reflexivity.
  - vm_compute. discriminate.
  - lia.
  - reflexivity.
  - reflexivity.
  - lia.
  - vm_compute. reflexivity.
  - exact I.
  - reflexivity.
  - split; [reflexivity|].
    intros i ch Hi. destruct i as [|[|i]]; [| |discriminate Hi];
      injection Hi as <-; (split; [reflexivity|]);
      intros j k Hj Hk; assert (k = 3%nat) by (vm_compute in Hk; lia); subst k;
      (destruct j as [|[|j]]; [reflexivity|reflexivity|vm_compute in Hj; lia]).
  - split; [reflexivity|].
    intros i ch Hi. destruct i as [|[|i]]; [| |discriminate Hi];
      injection Hi as <-; reflexivity.
  - reflexivity.
  - exists w1, fs', r, r'. split; [exact Ew|]. split; [exact Ec|].
    split; [exact Ei|exact Er].
Defined.
